(** * DAPHNE factoid extractor: a shallow embedding of [daphne_lib]

    The development follows [daphne_lib/utils.py] (text cleaning, date
    extraction) and [daphne_lib/extractor.py] (the [DaphneGraphExtractor]
    class).  Python values read from the JSONL records are modelled by the
    type [json]; the extractor object is a record of finite maps threaded
    through a state monad that also carries Python exceptions.

    Text: a Python [str] is a sequence of code points.  Here a character is a
    code point below 256 (the Latin-1 block, in which the corpus and, but
    for one letter, the literals that the extractor stores live), represented
    by [ascii]; a string literal written with a three-digit character code
    such as ["233"] is that code point.  The one letter above 255, U+0152 in
    the label of the object type, is a parameter of the model. *)

From Stdlib Require Import ZArith NArith String Ascii List Bool Lia.
From Stdlib Require Import DecimalString DecimalN DecimalZ Sorted.
From stdpp Require Import base option list gmap strings.

Set Warnings "-register-all".
Local Open Scope string_scope.

(** ** Characters and strings *)

Module Str.

Definition code (c : ascii) : N := N_of_ascii c.

Definition in_range (lo hi : N) (c : ascii) : bool :=
  (lo <=? code c)%N && (code c <=? hi)%N.

(** [str.isspace] on the code points below 256. *)
Definition isspace (c : ascii) : bool :=
  in_range 9 13 c || in_range 28 32 c || (code c =? 133)%N || (code c =? 160)%N.

(** [\d] of a [str] pattern: the decimal digits below 256 are 0-9. *)
Definition isdigit (c : ascii) : bool := in_range 48 57 c.

(** One-character string of a code point. *)
Definition chr (n : N) : string := String (ascii_of_N n) EmptyString.

Definition is_empty (s : string) : bool :=
  match s with EmptyString => true | String _ _ => false end.

Fixpoint smap (f : ascii -> ascii) (s : string) : string :=
  match s with
  | EmptyString => EmptyString
  | String c r => String (f c) (smap f r)
  end.

Fixpoint sflat (f : ascii -> string) (s : string) : string :=
  match s with
  | EmptyString => EmptyString
  | String c r => f c +:+ sflat f r
  end.

Fixpoint sfilter (p : ascii -> bool) (s : string) : string :=
  match s with
  | EmptyString => EmptyString
  | String c r => if p c then String c (sfilter p r) else sfilter p r
  end.

Fixpoint sexists (p : ascii -> bool) (s : string) : bool :=
  match s with
  | EmptyString => false
  | String c r => p c || sexists p r
  end.

(** [s.replace(c, '')] and [s.replace(a, b)] for one-character arguments. *)
Definition remove_char (c : ascii) (s : string) : string :=
  sfilter (fun x => negb (Ascii.eqb x c)) s.

Definition replace_char (a b : ascii) (s : string) : string :=
  smap (fun x => if Ascii.eqb x a then b else x) s.

(** [c in s] for a one-character [c]. *)
Definition contains (c : ascii) (s : string) : bool := sexists (Ascii.eqb c) s.

Fixpoint lstrip_by (p : ascii -> bool) (s : string) : string :=
  match s with
  | EmptyString => EmptyString
  | String c r => if p c then lstrip_by p r else s
  end.

Fixpoint rstrip_by (p : ascii -> bool) (s : string) : string :=
  match s with
  | EmptyString => EmptyString
  | String c r =>
      let r' := rstrip_by p r in
      if p c && is_empty r' then EmptyString else String c r'
  end.

(** [s.strip()], [s.rstrip(c)]. *)
Definition strip (s : string) : string := rstrip_by isspace (lstrip_by isspace s).
Definition rstrip_char (c : ascii) (s : string) : string := rstrip_by (Ascii.eqb c) s.

(** [s.lower()]: A-Z and the Latin-1 capitals U+00C0-U+00DE (but the
    multiplication sign U+00D7) move up by 32. *)
Definition lower_char (c : ascii) : ascii :=
  if in_range 65 90 c || (in_range 192 222 c && negb (code c =? 215)%N)
  then ascii_of_N (code c + 32) else c.
Definition lower (s : string) : string := smap lower_char s.

(** [s.upper()]: a-z and U+00E0-U+00FE (but the division sign U+00F7) move
    down by 32, and U+00DF becomes "SS".  The capitals of U+00B5 and U+00FF
    lie above 255; both characters are left in place, which no comparison
    with an upper-case Latin-1 word can tell from their real capitals. *)
Definition upper_char (c : ascii) : string :=
  if in_range 97 122 c || (in_range 224 254 c && negb (code c =? 247)%N)
  then chr (code c - 32)
  else if (code c =? 223)%N then "SS"
  else String c EmptyString.
Definition upper (s : string) : string := sflat upper_char s.

(** [s.split(c)[0]]: the text before the first [c]. *)
Fixpoint before_first (c : ascii) (s : string) : string :=
  match s with
  | EmptyString => EmptyString
  | String x r => if Ascii.eqb x c then EmptyString else String x (before_first c r)
  end.

Fixpoint last_char (s : string) : option ascii :=
  match s with
  | EmptyString => None
  | String c EmptyString => Some c
  | String _ r => last_char r
  end.

(** [s[:-1]]. *)
Fixpoint drop_last (s : string) : string :=
  match s with
  | EmptyString => EmptyString
  | String _ EmptyString => EmptyString
  | String c r => String c (drop_last r)
  end.

(** Length of the longest prefix whose characters all satisfy [p]. *)
Fixpoint span_len (p : ascii -> bool) (s : string) : nat :=
  match s with
  | EmptyString => 0
  | String c r => if p c then S (span_len p r) else 0
  end.

(** [unicodedata.normalize("NFD", t).encode("ascii", "ignore")]
    on lower-case Latin-1 text: an accented letter decomposes into its base
    letter and a combining mark, which is dropped with every other code point
    above 127. *)
Definition nfd_ascii_char (c : ascii) : string :=
  if (code c <? 128)%N then String c EmptyString
  else if in_range 192 197 c then "A" else if (code c =? 199)%N then "C"
  else if in_range 200 203 c then "E" else if in_range 204 207 c then "I"
  else if (code c =? 209)%N then "N" else if in_range 210 214 c then "O"
  else if in_range 217 220 c then "U" else if (code c =? 221)%N then "Y"
  else if in_range 224 229 c then "a" else if (code c =? 231)%N then "c"
  else if in_range 232 235 c then "e" else if in_range 236 239 c then "i"
  else if (code c =? 241)%N then "n" else if in_range 242 246 c then "o"
  else if in_range 249 252 c then "u"
  else if (code c =? 253)%N || (code c =? 255)%N then "y"
  else EmptyString.
Definition nfd_ascii (s : string) : string := sflat nfd_ascii_char s.

(** *** [re.sub] for the patterns of the source

    The subject is scanned from left to right.  At a position outside a
    match, [m prev s] tries the pattern on the remaining text [s], [prev]
    being the character before it (for the look-behind); a match gives the
    replacement and the number of characters matched, which are then skipped.
    No pattern of the source matches the empty string. *)
Fixpoint sub_scan (m : option ascii -> string -> option (string * nat))
    (skip : nat) (prev : option ascii) (s : string) : string :=
  match s with
  | EmptyString => EmptyString
  | String c r =>
      match skip with
      | S k => sub_scan m k (Some c) r
      | O =>
          match m prev s with
          | Some (rep, n) => rep +:+ sub_scan m (Nat.pred n) (Some c) r
          | None => String c (sub_scan m 0 (Some c) r)
          end
      end
  end.

Definition re_sub (m : option ascii -> string -> option (string * nat))
    (s : string) : string := sub_scan m 0 None s.

Definition char_at (n : nat) (s : string) : option ascii := String.get n s.

Definition is_char (c : ascii) (o : option ascii) : bool :=
  match o with Some x => Ascii.eqb x c | None => false end.

(** [\(\s*\)] replaced by nothing. *)
Definition re_empty_parens (_ : option ascii) (s : string) : option (string * nat) :=
  match s with
  | String c r =>
      let k := span_len isspace r in
      if Ascii.eqb c "(" && is_char ")" (char_at k r)
      then Some (EmptyString, S (S k)) else None
  | EmptyString => None
  end.

(** [\s{2,}] and [\s+] replaced by one space. *)
Definition re_spaces (least : nat) (_ : option ascii) (s : string) : option (string * nat) :=
  let k := span_len isspace s in
  if (least <=? k)%nat then Some (" ", k) else None.

(** [%[^%]*%] replaced by nothing. *)
Definition re_percent_span (_ : option ascii) (s : string) : option (string * nat) :=
  match s with
  | String c r =>
      let k := span_len (fun x => negb (Ascii.eqb x "%")) r in
      if Ascii.eqb c "%" && is_char "%" (char_at k r)
      then Some (EmptyString, S (S k)) else None
  | EmptyString => None
  end.

(** [%[\d\-\.\s:/c]{2,}] replaced by nothing. *)
Definition code_char (x : ascii) : bool :=
  isdigit x || Ascii.eqb x "-" || Ascii.eqb x "." || isspace x
  || Ascii.eqb x ":" || Ascii.eqb x "/" || Ascii.eqb x "c".

Definition re_percent_code (_ : option ascii) (s : string) : option (string * nat) :=
  match s with
  | String c r =>
      let k := span_len code_char r in
      if Ascii.eqb c "%" && (2 <=? k)%nat then Some (EmptyString, S k) else None
  | EmptyString => None
  end.

(** [(?<=[a-zA-Z\u00c0-\u00ff])(Nation|Faculte|Universite|College|Studium)]
    (with the accents of the source) replaced by a space and the keyword. *)
Definition keywords : list string :=
  [ "Nation"; "Facult" +:+ chr 233; "Universit" +:+ chr 233;
    "Coll" +:+ chr 232 +:+ "ge"; "Studium" ].

Definition is_letter (c : ascii) : bool :=
  in_range 97 122 c || in_range 65 90 c || in_range 192 255 c.

Definition re_keyword (prev : option ascii) (s : string) : option (string * nat) :=
  match prev with
  | Some p =>
      if is_letter p then
        match List.find (fun kw => String.prefix kw s) keywords with
        | Some kw => Some (" " +:+ kw, String.length kw)
        | None => None
        end
      else None
  | None => None
  end.

End Str.

(** ** Python values and exceptions *)

(** A value produced by [json.loads]; a [dict] is the list of its items in
    insertion order (keys are distinct in Python; [dict_get] reads the first
    binding of a key).  The numbers are the integers: a [float] is not
    modelled. *)
Inductive json : Type :=
| JNull
| JBool (b : bool)
| JNum (z : Z)
| JStr (s : string)
| JArr (l : list json)
| JObj (kv : list (string * json)).

(** The nodes and edges built by the extractor are Python dicts as well. *)
Abbreviation pydict := (list (string * json)).

Inductive exn : Type := KeyError | AttributeError | TypeError | IndexError.

(** A computation that returns a value or raises. *)
Abbreviation result A := (exn + A)%type.

Definition rbind {A B} (r : result A) (f : A -> result B) : result B :=
  match r with inl e => inl e | inr a => f a end.

Notation "'let?' x ':=' r 'in' k" := (rbind r (fun x => k))
  (at level 10, x name, r at level 100, k at level 200).

Fixpoint rmap {A B} (f : A -> result B) (l : list A) : result (list B) :=
  match l with
  | [] => inr []
  | x :: l' => let? y := f x in let? ys := rmap f l' in inr (y :: ys)
  end.

Module Py.

(** [bool(v)]. *)
Definition truthy (v : json) : bool :=
  match v with
  | JNull => false
  | JBool b => b
  | JNum z => negb (z =? 0)%Z
  | JStr s => negb (Str.is_empty s)
  | JArr l => match l with [] => false | _ => true end
  | JObj kv => match kv with [] => false | _ => true end
  end.

Fixpoint dict_get (k : string) (d : pydict) : option json :=
  match d with
  | [] => None
  | (k', v) :: d' => if String.eqb k k' then Some v else dict_get k d'
  end.

(** [d[k] = v]: an existing key keeps its place, a new one goes last. *)
Fixpoint dict_set (k : string) (v : json) (d : pydict) : pydict :=
  match d with
  | [] => [(k, v)]
  | (k', v') :: d' =>
      if String.eqb k k' then (k', v) :: d' else (k', v') :: dict_set k v d'
  end.

(** [d.get(k, dflt)] on a dict built by the program itself. *)
Definition dget (d : pydict) (k : string) (dflt : json) : json :=
  default dflt (dict_get k d).

(** [v.get(k, dflt)]: only a dict has the method. *)
Definition get (v : json) (k : string) (dflt : json) : result json :=
  match v with
  | JObj kv => inr (dget kv k dflt)
  | _ => inl AttributeError
  end.

(** [v[k]] for a string key. *)
Definition getitem (v : json) (k : string) : result json :=
  match v with
  | JObj kv => match dict_get k kv with Some x => inr x | None => inl KeyError end
  | _ => inl TypeError
  end.

(** [v[0]]. *)
Definition index0 (v : json) : result json :=
  match v with
  | JArr (x :: _) => inr x
  | JArr [] => inl IndexError
  | JStr (String c _) => inr (JStr (String c EmptyString))
  | JStr EmptyString => inl IndexError
  | JObj _ => inl KeyError
  | _ => inl TypeError
  end.

Fixpoint chars (s : string) : list json :=
  match s with
  | EmptyString => []
  | String c r => JStr (String c EmptyString) :: chars r
  end.

(** The items visited by [for x in v]. *)
Definition iter (v : json) : result (list json) :=
  match v with
  | JArr l => inr l
  | JStr s => inr (chars s)
  | JObj kv => inr (map (fun p => JStr (fst p)) kv)
  | _ => inl TypeError
  end.

(** [v == s] and [v in (s1, ..., sn)] for string constants. *)
Definition eq_str (v : json) (s : string) : bool :=
  match v with JStr t => String.eqb t s | _ => false end.

Definition in_strs (v : json) (l : list string) : bool := existsb (eq_str v) l.

Definition is_none (v : json) : bool :=
  match v with JNull => true | _ => false end.

(** [str(z)] for an [int]. *)
Definition str_of_Z (z : Z) : string := NilZero.string_of_int (Z.to_int z).

(** [f"{n:0wd}"] for a natural number: decimal digits, zero-padded on the
    left up to width [w]. *)
Fixpoint pad_uint (k : nat) (d : Decimal.uint) : Decimal.uint :=
  match k with O => d | S k' => Decimal.D0 (pad_uint k' d) end.

Definition zfill (w : nat) (n : N) : string :=
  let d := N.to_uint n in
  NilEmpty.string_of_uint (pad_uint (w - Decimal.nb_digits d) d).

End Py.

(** ** [config.py] *)

Definition STOP_WORDS : list string :=
  [ "INCONNU"; "NON SP" +:+ Str.chr 201 +:+ "CIFI" +:+ Str.chr 201;
    "NON SPECIFIE"; "?"; "" ].

Definition in_stop_words (s : string) : bool := existsb (String.eqb s) STOP_WORDS.

(** ** [utils.py] *)

Module TextCleaner.

Definition strip_markers (s : string) : string :=
  Str.remove_char "*" (Str.remove_char "163" (Str.remove_char "$" s)).

(** [clean] on a [str]. *)
Definition clean_str (text : string) : option string :=
  let t := strip_markers (Str.strip text) in
  let t := Str.remove_char "?" t in
  let t := Str.re_sub Str.re_empty_parens t in
  let t := Str.re_sub (Str.re_spaces 2) t in
  let t := Str.strip (Str.rstrip_char "." (Str.rstrip_char "," (Str.rstrip_char ";" t))) in
  if in_stop_words (Str.upper t) || Str.is_empty t then None else Some t.

(** [clean(text)]: [None] stays [None]; a value that is neither [None] nor
    a [str] has no [strip]. *)
Definition clean (text : json) : result (option string) :=
  match text with
  | JNull => inr None
  | JStr s => inr (clean_str s)
  | _ => inl AttributeError
  end.

(** The loop [while n and n[-1] in ').,:;': n = n[:-1].strip()]; every turn
    shortens [n], so [length n] turns are enough. *)
Definition closing (c : ascii) : bool :=
  Ascii.eqb c ")" || Ascii.eqb c "." || Ascii.eqb c "," || Ascii.eqb c ":"
  || Ascii.eqb c ";".

Fixpoint drop_closing (fuel : nat) (n : string) : string :=
  match fuel with
  | O => n
  | S fuel' =>
      match Str.last_char n with
      | Some c => if closing c then drop_closing fuel' (Str.strip (Str.drop_last n)) else n
      | None => n
      end
  end.

Definition clean_institution (name : string) : option string :=
  if Str.is_empty name then None else
  let n := strip_markers (Str.strip name) in
  let n := Str.remove_char "?" n in
  let n := Str.re_sub Str.re_percent_span n in
  let n := Str.re_sub Str.re_percent_code n in
  let n := Str.re_sub Str.re_keyword n in
  let n := Str.remove_char "%" (strip_markers n) in
  let n := Str.re_sub Str.re_empty_parens n in
  let n := drop_closing (String.length n) n in
  let n := Str.re_sub (Str.re_spaces 1) n in
  let n := Str.strip (Str.replace_char "=" " " n) in
  if Str.is_empty n || in_stop_words (Str.upper n) then None else Some n.

Definition clean_person_name_str (raw : string) : option string :=
  let name :=
    Str.strip (Str.replace_char "=" " " (Str.remove_char "163" (Str.remove_char "$" raw))) in
  let name :=
    if Str.contains "," name then Str.strip (Str.before_first "," name) else name in
  let name := Str.strip (Str.rstrip_char ";" (Str.rstrip_char "." (Str.strip name))) in
  if Str.is_empty name || in_stop_words (Str.upper name) then None else Some name.

Definition clean_person_name (raw : json) : result (option string) :=
  match raw with
  | JStr s => inr (clean_person_name_str s)
  | _ => inl AttributeError
  end.

Definition normalize_classification (text : string) : string :=
  Str.nfd_ascii (Str.strip (Str.lower text)).

End TextCleaner.

(** [x or ""] for the result of a cleaner. *)
Definition or_empty (o : option string) : string := default "" o.

Definition QUALIFIERS : list string := [ "BEFORE"; "AFTER"; "NEAR" ].

(** The body of the loop of [extract_dates]: the entry built for one date
    sub-object [d]. *)
Definition extract_date (d : json) : result pydict :=
  let? type0 := Py.get d "type" (JStr "UNKNOWN") in
  let entry := [ ("type", type0); ("start_qualifier", JStr "SIMPLE");
                 ("end_qualifier", JStr "SIMPLE") ] in
  let? sd := Py.get d "startDate" (JObj []) in
  let? ed := Py.get d "endDate" (JObj []) in
  let? top_type := Py.get d "type" (JStr "SIMPLE") in
  let? date := Py.get d "date" JNull in
  let? entry :=
    if Py.truthy sd then
      let? sdate := Py.get sd "date" JNull in
      let? stype := Py.get sd "type" (JStr "SIMPLE") in
      inr (Py.dict_set "start_qualifier" stype (Py.dict_set "start_date" sdate entry))
    else if negb (Py.is_none date) then
      let entry := Py.dict_set "start_date" date entry in
      inr (if Py.in_strs top_type QUALIFIERS
           then Py.dict_set "start_qualifier" top_type entry else entry)
    else inr entry in
  let? entry :=
    if Py.truthy ed then
      let? edate := Py.get ed "date" JNull in
      let? etype := Py.get ed "type" (JStr "SIMPLE") in
      inr (Py.dict_set "end_qualifier" etype (Py.dict_set "end_date" edate entry))
    else inr entry in
  match Py.dict_get "start_date" entry, Py.dict_get "end_date" entry with
  | None, None =>
      if negb (Py.is_none date) then
        let entry := Py.dict_set "start_date" date entry in
        inr (if Py.in_strs top_type QUALIFIERS
             then Py.dict_set "start_qualifier" top_type entry else entry)
      else inr entry
  | _, _ => inr entry
  end.

Definition extract_dates (meta : json) : result (list pydict) :=
  let? ds := Py.get meta "dates" (JArr []) in
  let? l := Py.iter ds in
  rmap extract_date l.

Definition safe_list (meta : json) (key : string) : result (list string) :=
  let? vals := Py.get meta key (JArr []) in
  match vals with
  | JArr l =>
      inr (omap (fun v => match v with
                          | JStr s => TextCleaner.clean_str s
                          | _ => None
                          end) l)
  | _ => inr []
  end.

(** One flag of [detect_uncertainty]: [any(isinstance(v, str) and "?" in v
    for v in meta.get(key, []))]. *)
Definition uncertain (meta : json) (key : string) : result bool :=
  let? vals := Py.get meta key (JArr []) in
  let? l := Py.iter vals in
  inr (existsb (fun v => match v with
                         | JStr s => Str.contains "?" s
                         | _ => false
                         end) l).

(** [detect_uncertainty(meta)]: the flags of ["places"] and
    ["institutions"], in this order. *)
Definition detect_uncertainty (meta : json) : result (bool * bool) :=
  let? p := uncertain meta "places" in
  let? i := uncertain meta "institutions" in
  inr (p, i).

(** [load_classification_list]: [None] is a missing file, otherwise the
    lines of the file. *)
Definition load_classification_list (file : option (list string)) : gset string :=
  match file with
  | None => ∅
  | Some lines =>
      foldl (fun entries line =>
               let line := Str.strip line in
               if Str.is_empty line || String.prefix "#" line then entries
               else {[ TextCleaner.normalize_classification line ]} ∪ entries)
            ∅ lines
  end.

Definition FACTOID_TYPES : list (string * string) :=
  [ ("BIRTH", "Naissance / lieu d'origine");
    ("DIOCESE_ORIGIN", "Origine dioc" +:+ Str.chr 233 +:+ "saine");
    ("UNIVERSITY_STUDY", Str.chr 201 +:+ "tudes universitaires");
    ("ACADEMIC_GRADE", "Grade acad" +:+ Str.chr 233 +:+ "mique");
    ("COLLEGE_MEMBERSHIP", "Appartenance " +:+ Str.chr 224 +:+ " un coll" +:+ Str.chr 232 +:+ "ge");
    ("SECULAR_POSITION", "Position eccl" +:+ Str.chr 233 +:+ "siastique s"
       +:+ Str.chr 233 +:+ "culi" +:+ Str.chr 232 +:+ "re");
    ("REGULAR_ORDER", "Appartenance " +:+ Str.chr 224 +:+ " un ordre r" +:+ Str.chr 233 +:+ "gulier");
    ("UNIVERSITY_TEACHING", "Enseignement universitaire");
    ("FAMILY_RELATION", "Relation familiale");
    ("STUDENT_TEACHER", "Relation ma" +:+ Str.chr 238 +:+ "tre-" +:+ Str.chr 233 +:+ "l"
       +:+ Str.chr 232 +:+ "ve");
    ("AUTHORSHIP", "Production textuelle");
    ("ACTIVITY_PERIOD", "P" +:+ Str.chr 233 +:+ "riode d'activit" +:+ Str.chr 233);
    ("LIFE_PERIOD", "P" +:+ Str.chr 233 +:+ "riode de vie") ].

Definition ROLES : list (string * string) :=
  [ ("SUBJECT", "Sujet principal du facto" +:+ Str.chr 239 +:+ "de");
    ("STUDENT", Str.chr 201 +:+ "tudiant");
    ("TEACHER", "Enseignant / Ma" +:+ Str.chr 238 +:+ "tre");
    ("MEMBER", "Membre");
    ("AUTHOR", "Auteur");
    ("FAMILY_MEMBER", "Membre de la famille");
    ("RELATED_PERSON", "Personne li" +:+ Str.chr 233 +:+ "e");
    ("HOLDER", "Titulaire d'une position") ].

(** ** [extractor.py]: the state of a [DaphneGraphExtractor] *)

Record extractor : Type := Extractor {
  persons : gmap string pydict;
  names : gmap string pydict;
  groups : gmap string pydict;
  places : gmap string pydict;
  zones : gmap string pydict;
  sources : gmap string pydict;
  factoids : gmap string pydict;
  factoid_types : gmap string pydict;
  roles : gmap string pydict;
  ranks : gmap string pydict;
  times : gmap string pydict;
  objects : gmap string pydict;
  object_types : gmap string pydict;
  domains : gmap string pydict;
  _group_canon : gmap string string;
  _nations_set : gset string;
  _disciplines_set : gset string;
  _entity_class : gmap string string;
  edges : list pydict;
  _factoid_counter : N
}.

(** Assignments to one attribute of [self]. *)
Definition set_persons (f : gmap string pydict -> gmap string pydict) (x : extractor) :=
  Extractor (f (persons x)) (names x) (groups x) (places x) (zones x) (sources x)
    (factoids x) (factoid_types x) (roles x) (ranks x) (times x) (objects x)
    (object_types x) (domains x) (_group_canon x) (_nations_set x)
    (_disciplines_set x) (_entity_class x) (edges x) (_factoid_counter x).
Definition set_names (f : gmap string pydict -> gmap string pydict) (x : extractor) :=
  Extractor (persons x) (f (names x)) (groups x) (places x) (zones x) (sources x)
    (factoids x) (factoid_types x) (roles x) (ranks x) (times x) (objects x)
    (object_types x) (domains x) (_group_canon x) (_nations_set x)
    (_disciplines_set x) (_entity_class x) (edges x) (_factoid_counter x).
Definition set_groups (f : gmap string pydict -> gmap string pydict) (x : extractor) :=
  Extractor (persons x) (names x) (f (groups x)) (places x) (zones x) (sources x)
    (factoids x) (factoid_types x) (roles x) (ranks x) (times x) (objects x)
    (object_types x) (domains x) (_group_canon x) (_nations_set x)
    (_disciplines_set x) (_entity_class x) (edges x) (_factoid_counter x).
Definition set_places (f : gmap string pydict -> gmap string pydict) (x : extractor) :=
  Extractor (persons x) (names x) (groups x) (f (places x)) (zones x) (sources x)
    (factoids x) (factoid_types x) (roles x) (ranks x) (times x) (objects x)
    (object_types x) (domains x) (_group_canon x) (_nations_set x)
    (_disciplines_set x) (_entity_class x) (edges x) (_factoid_counter x).
Definition set_zones (f : gmap string pydict -> gmap string pydict) (x : extractor) :=
  Extractor (persons x) (names x) (groups x) (places x) (f (zones x)) (sources x)
    (factoids x) (factoid_types x) (roles x) (ranks x) (times x) (objects x)
    (object_types x) (domains x) (_group_canon x) (_nations_set x)
    (_disciplines_set x) (_entity_class x) (edges x) (_factoid_counter x).
Definition set_sources (f : gmap string pydict -> gmap string pydict) (x : extractor) :=
  Extractor (persons x) (names x) (groups x) (places x) (zones x) (f (sources x))
    (factoids x) (factoid_types x) (roles x) (ranks x) (times x) (objects x)
    (object_types x) (domains x) (_group_canon x) (_nations_set x)
    (_disciplines_set x) (_entity_class x) (edges x) (_factoid_counter x).
Definition set_factoids (f : gmap string pydict -> gmap string pydict) (x : extractor) :=
  Extractor (persons x) (names x) (groups x) (places x) (zones x) (sources x)
    (f (factoids x)) (factoid_types x) (roles x) (ranks x) (times x) (objects x)
    (object_types x) (domains x) (_group_canon x) (_nations_set x)
    (_disciplines_set x) (_entity_class x) (edges x) (_factoid_counter x).
Definition set_ranks (f : gmap string pydict -> gmap string pydict) (x : extractor) :=
  Extractor (persons x) (names x) (groups x) (places x) (zones x) (sources x)
    (factoids x) (factoid_types x) (roles x) (f (ranks x)) (times x) (objects x)
    (object_types x) (domains x) (_group_canon x) (_nations_set x)
    (_disciplines_set x) (_entity_class x) (edges x) (_factoid_counter x).
Definition set_times (f : gmap string pydict -> gmap string pydict) (x : extractor) :=
  Extractor (persons x) (names x) (groups x) (places x) (zones x) (sources x)
    (factoids x) (factoid_types x) (roles x) (ranks x) (f (times x)) (objects x)
    (object_types x) (domains x) (_group_canon x) (_nations_set x)
    (_disciplines_set x) (_entity_class x) (edges x) (_factoid_counter x).
Definition set_objects (f : gmap string pydict -> gmap string pydict) (x : extractor) :=
  Extractor (persons x) (names x) (groups x) (places x) (zones x) (sources x)
    (factoids x) (factoid_types x) (roles x) (ranks x) (times x) (f (objects x))
    (object_types x) (domains x) (_group_canon x) (_nations_set x)
    (_disciplines_set x) (_entity_class x) (edges x) (_factoid_counter x).
Definition set_object_types (f : gmap string pydict -> gmap string pydict) (x : extractor) :=
  Extractor (persons x) (names x) (groups x) (places x) (zones x) (sources x)
    (factoids x) (factoid_types x) (roles x) (ranks x) (times x) (objects x)
    (f (object_types x)) (domains x) (_group_canon x) (_nations_set x)
    (_disciplines_set x) (_entity_class x) (edges x) (_factoid_counter x).
Definition set_domains (f : gmap string pydict -> gmap string pydict) (x : extractor) :=
  Extractor (persons x) (names x) (groups x) (places x) (zones x) (sources x)
    (factoids x) (factoid_types x) (roles x) (ranks x) (times x) (objects x)
    (object_types x) (f (domains x)) (_group_canon x) (_nations_set x)
    (_disciplines_set x) (_entity_class x) (edges x) (_factoid_counter x).
Definition set_group_canon (f : gmap string string -> gmap string string) (x : extractor) :=
  Extractor (persons x) (names x) (groups x) (places x) (zones x) (sources x)
    (factoids x) (factoid_types x) (roles x) (ranks x) (times x) (objects x)
    (object_types x) (domains x) (f (_group_canon x)) (_nations_set x)
    (_disciplines_set x) (_entity_class x) (edges x) (_factoid_counter x).
Definition set_entity_class (f : gmap string string -> gmap string string) (x : extractor) :=
  Extractor (persons x) (names x) (groups x) (places x) (zones x) (sources x)
    (factoids x) (factoid_types x) (roles x) (ranks x) (times x) (objects x)
    (object_types x) (domains x) (_group_canon x) (_nations_set x)
    (_disciplines_set x) (f (_entity_class x)) (edges x) (_factoid_counter x).
Definition set_edges (f : list pydict -> list pydict) (x : extractor) :=
  Extractor (persons x) (names x) (groups x) (places x) (zones x) (sources x)
    (factoids x) (factoid_types x) (roles x) (ranks x) (times x) (objects x)
    (object_types x) (domains x) (_group_canon x) (_nations_set x)
    (_disciplines_set x) (_entity_class x) (f (edges x)) (_factoid_counter x).
Definition set_factoid_counter (f : N -> N) (x : extractor) :=
  Extractor (persons x) (names x) (groups x) (places x) (zones x) (sources x)
    (factoids x) (factoid_types x) (roles x) (ranks x) (times x) (objects x)
    (object_types x) (domains x) (_group_canon x) (_nations_set x)
    (_disciplines_set x) (_entity_class x) (edges x) (f (_factoid_counter x)).

(** [d.setdefault(k, v)] and [l.append(x)]. *)
Definition setdefault {V} (k : string) (v : V) (m : gmap string V) : gmap string V :=
  match m !! k with Some _ => m | None => <[k := v]> m end.

Definition append {A} (x : A) (l : list A) : list A := l ++ [x].

(** ** Methods run in a state monad that carries exceptions

    A method takes the extractor and gives back its result, or the exception
    it raised, together with the extractor as the call left it: the
    attributes of [self] are mutated in place, so what was done before a
    [raise] stays done. *)
Definition M (A : Type) : Type := extractor -> result A * extractor.

Definition ret {A} (a : A) : M A := fun st => (inr a, st).

Definition bind {A B} (m : M A) (f : A -> M B) : M B :=
  fun st => match m st with
            | (inl e, st') => (inl e, st')
            | (inr a, st') => f a st'
            end.

Definition lift {A} (r : result A) : M A := fun st => (r, st).

Definition gets {A} (f : extractor -> A) : M A := fun st => (inr (f st), st).

Definition modify (f : extractor -> extractor) : M unit := fun st => (inr tt, f st).

Notation "'let*' x ':=' m 'in' k" := (bind m (fun x => k))
  (at level 10, x name, m at level 100, k at level 200).
Notation "m ';;' k" := (bind m (fun _ => k))
  (at level 100, k at level 200, right associativity).

Fixpoint for_each {A} (l : list A) (body : A -> M unit) : M unit :=
  match l with
  | [] => ret tt
  | x :: l' => body x ;; for_each l' body
  end.

Definition when (b : bool) (m : M unit) : M unit := if b then m else ret tt.

(** [if x:] on the [str | None] result of a cleaner. *)
Definition nonempty (o : option string) : option string :=
  match o with
  | Some s => if Str.is_empty s then None else Some s
  | None => None
  end.

Definition edge (ty from_id from_label to_id to_label : string) : pydict :=
  [ ("type", JStr ty); ("from_id", JStr from_id); ("from_label", JStr from_label);
    ("to_id", JStr to_id); ("to_label", JStr to_label) ].

(** [if certainty: edge["certainty"] = certainty]. *)
Definition with_certainty (certainty : string) (e : pydict) : pydict :=
  if Str.is_empty certainty then e else Py.dict_set "certainty" (JStr certainty) e.

(** ['uncertain' if flag else '']. *)
Definition cert_of (flag : bool) : string := if flag then "uncertain" else "".

(** [for x in v.get(key, [])]: the items of the loop. *)
Definition items_of (v : json) (key : string) : result (list json) :=
  let? x := Py.get v key (JArr []) in Py.iter x.

(** [items[0].get("value", "") if items else ""]. *)
Definition first_value (items : json) : result json :=
  if Py.truthy items then let? x := Py.index0 items in Py.get x "value" (JStr "")
  else inr (JStr "").

(** ['_' + q if q else ''] inside a key. *)
Definition qualifier_tag (q : json) : result string :=
  if Py.truthy q then
    match q with JStr x => inr ("_" +:+ x) | _ => inl TypeError end
  else inr "".

Section Methods.

(** [repr] of a list or a dict, and the built-in [hash] of a [str], which
    Python salts per process. *)
Variable py_repr : json -> string.
Variable py_hash : string -> Z.

(** The text of the letter U+0152, the ligature of O and E, which lies above
    255: the strings here have no character for it.  It occurs once in the
    source, at the head of the label of the one object type; the program
    stores that label and never reads it. *)
Variable ligature_oe : string.

Definition literary_work_description : string :=
  ligature_oe +:+ "uvre litt" +:+ Str.chr 233 +:+ "raire / intellectuelle".

(** [str(v)], which is also what a replacement field of an f-string shows. *)
Definition py_str (v : json) : string :=
  match v with
  | JStr s => s
  | JNum z => Py.str_of_Z z
  | JBool true => "True"
  | JBool false => "False"
  | JNull => "None"
  | _ => py_repr v
  end.

(** [__init__]: the two arguments are the lines of [nations.txt] and
    [disciplines.txt] ([None] when the file does not exist). *)
Definition init (nations_txt disciplines_txt : option (list string)) : extractor :=
  {| persons := ∅; names := ∅; groups := ∅; places := ∅; zones := ∅;
     sources := ∅; factoids := ∅;
     factoid_types :=
       foldl (fun m p => <[fst p := [ ("factoidtype_id", JStr (fst p));
                                      ("description", JStr (snd p)) ]]> m)
             ∅ FACTOID_TYPES;
     roles :=
       foldl (fun m p => <[fst p := [ ("role_id", JStr (fst p));
                                      ("role_description", JStr (snd p)) ]]> m)
             ∅ ROLES;
     ranks := ∅; times := ∅; objects := ∅; object_types := ∅; domains := ∅;
     _group_canon := ∅;
     _nations_set := load_classification_list nations_txt;
     _disciplines_set := load_classification_list disciplines_txt;
     _entity_class := ∅;
     edges := [];
     _factoid_counter := 0 |}.

Definition _new_factoid_id : M string :=
  modify (set_factoid_counter (fun c => c + 1)%N) ;;
  let* c := gets _factoid_counter in
  ret ("F_" +:+ Py.zfill 6 c).

Definition time_node (time_key time_type begin finish : string)
    (begin_qualifier end_qualifier : json) : pydict :=
  [ ("time_id", JStr time_key); ("time_type", JStr time_type);
    ("begin", JStr begin); ("finish", JStr finish);
    ("begin_qualifier", begin_qualifier); ("end_qualifier", end_qualifier);
    ("granularity", JStr "year") ].

Definition _get_time_id (start end_ start_qualifier end_qualifier : json)
    : M (option string) :=
  let s := if Py.truthy start then Str.strip (py_str start) else "" in
  let e := if Py.truthy end_ then Str.strip (py_str end_) else "" in
  if Str.is_empty s && Str.is_empty e then ret None else
  let sq := if negb (Py.eq_str start_qualifier "SIMPLE") then start_qualifier else JStr "" in
  let eq_ := if negb (Py.eq_str end_qualifier "SIMPLE") then end_qualifier else JStr "" in
  if negb (Str.is_empty s) && negb (Str.is_empty e) && negb (String.eqb s e) then
    let* a := lift (qualifier_tag sq) in
    let* b := lift (qualifier_tag eq_) in
    let time_key := "TI" +:+ a +:+ "_" +:+ s +:+ b +:+ "_" +:+ e in
    modify (set_times (setdefault time_key
      (time_node time_key "TimeInterval" s e start_qualifier end_qualifier))) ;;
    ret (Some time_key)
  else if negb (Str.is_empty s) then
    let* a := lift (qualifier_tag sq) in
    let time_key := "I" +:+ a +:+ "_" +:+ s in
    modify (set_times (setdefault time_key
      (time_node time_key "Instant" s "" start_qualifier (JStr "")))) ;;
    ret (Some time_key)
  else
    let* b := lift (qualifier_tag eq_) in
    let time_key := "I" +:+ b +:+ "_" +:+ e in
    modify (set_times (setdefault time_key
      (time_node time_key "Instant" e "" end_qualifier (JStr "")))) ;;
    ret (Some time_key).

Definition group_node (display group_type : string) : pydict :=
  [ ("group_id", JStr display); ("group_descr", JStr ""); ("group_type", JStr group_type) ].

Definition _add_group (raw_name : string) : M (option string) :=
  match nonempty (TextCleaner.clean_institution raw_name) with
  | None => ret None
  | Some cname =>
      let low := Str.strip (Str.lower cname) in
      let* canon := gets _group_canon in
      let display := default cname (canon !! low) in
      modify (set_group_canon (setdefault low cname)) ;;
      let* classes := gets _entity_class in
      match classes !! display with
      | Some _ => ret (Some display)
      | None =>
          let norm := TextCleaner.normalize_classification cname in
          let* disciplines := gets _disciplines_set in
          let* nations := gets _nations_set in
          (if bool_decide (norm ∈ disciplines) then
             modify (set_entity_class <[display := "discipline"]>) ;;
             modify (set_domains (setdefault display
               [ ("domain_id", JStr display); ("name", JStr display) ]))
           else if bool_decide (norm ∈ nations) then
             modify (set_entity_class <[display := "nation"]>) ;;
             modify (set_groups (setdefault display (group_node display "nation")))
           else
             modify (set_entity_class <[display := "institution"]>) ;;
             modify (set_groups (setdefault display (group_node display "institution")))) ;;
          ret (Some display)
      end
  end.

Definition person_node (name : string) (shortdesc genre : json)
    (person_type : string) (status : json) : pydict :=
  [ ("person_id", JStr name); ("shortdesc", shortdesc); ("genre", genre);
    ("person_type", JStr person_type); ("status", status) ].

(** [self.persons[name][field]], and
    [if v and not self.persons[name][field]: self.persons[name][field] = v]. *)
Definition person_field (name field : string) : M json :=
  let* ps := gets persons in
  match ps !! name with
  | Some p =>
      match Py.dict_get field p with
      | Some v => ret v
      | None => lift (inl KeyError)
      end
  | None => lift (inl KeyError)
  end.

Definition fill_person_field (name field : string) (v : json) : M unit :=
  if Py.truthy v then
    let* old := person_field name field in
    when (negb (Py.truthy old))
         (modify (set_persons (alter (Py.dict_set field v) name)))
  else ret tt.

Definition _add_person (name : string) (genre shortdesc : json)
    (person_type : string) (status : json) : M string :=
  modify (set_persons (setdefault name
    (person_node name shortdesc genre person_type status))) ;;
  fill_person_field name "genre" genre ;;
  fill_person_field name "shortdesc" shortdesc ;;
  fill_person_field name "status" status ;;
  ret name.

Definition factoid_node (fid ftype certainty description original_text : string) : pydict :=
  [ ("factoid_id", JStr fid); ("factoidtype", JStr ftype);
    ("certainty", JStr certainty); ("duration", JStr ""); ("notes", JStr "");
    ("description", JStr description); ("original_text", JStr original_text);
    ("problem", JStr "") ].

Definition _make_factoid (fiche_id : json) (ftype description original_text
    certainty : string) : M string :=
  let* fid := _new_factoid_id in
  modify (set_factoids <[fid := factoid_node fid ftype certainty description original_text]>) ;;
  modify (set_edges (append (edge "HAS_TYPE" fid "Factoid" ftype "FactoidType"))) ;;
  let source_id := "SRC_" +:+ py_str fiche_id in
  modify (set_edges (append (edge "REFER_TO" source_id "Source" fid "Factoid"))) ;;
  ret fid.

Definition _link_participant (factoid_id person_name role rank : string) : M unit :=
  modify (set_edges (append
    (edge "PARTICIPATE" factoid_id "Factoid" person_name "Person"
       ++ [ ("role", JStr role); ("rank", JStr rank) ])%list)).

Definition _link_place (factoid_id place_name certainty : string) : M unit :=
  modify (set_places (setdefault place_name
    [ ("place_id", JStr place_name); ("place_description", JStr place_name) ])) ;;
  modify (set_edges (append
    (with_certainty certainty (edge "TOOK_PLACE_AT" factoid_id "Factoid" place_name "Place")))).

Definition _link_group (factoid_id group_name certainty : string) : M unit :=
  let* classes := gets _entity_class in
  let cls := default "institution" (classes !! group_name) in
  let e := if String.eqb cls "discipline"
           then edge "IN_DOMAIN" factoid_id "Factoid" group_name "Domain"
           else edge "AT_GROUP" factoid_id "Factoid" group_name "GroupP" in
  modify (set_edges (append (with_certainty certainty e))).

Definition _link_time (factoid_id : string)
    (start end_ start_qualifier end_qualifier : json) : M unit :=
  let* time_id := _get_time_id start end_ start_qualifier end_qualifier in
  match nonempty time_id with
  | Some t => modify (set_edges (append (edge "OCCURRED_AT" factoid_id "Factoid" t "Time")))
  | None => ret tt
  end.

Definition _link_time_from_dates (factoid_id : string) (dates : list pydict) : M unit :=
  match dates with
  | [] => ret tt
  | d :: _ =>
      _link_time factoid_id
        (Py.dget d "start_date" JNull) (Py.dget d "end_date" JNull)
        (Py.dget d "start_qualifier" (JStr "SIMPLE"))
        (Py.dget d "end_qualifier" (JStr "SIMPLE"))
  end.

(** *** The sections of a record *)

Definition source_node (source_id : string) (name reference link : json) : pydict :=
  [ ("source_id", JStr source_id); ("name", name); ("reference", reference);
    ("link", link) ].

Definition name_node (v : string) : pydict :=
  [ ("name_id", JStr v); ("completename", JStr v) ].

(** The body of the loop over [identity.get("nameVariant", [])]. *)
Definition name_variant (person_name : string) (nv : json) : M unit :=
  let* value := lift (Py.get nv "value" (JStr "")) in
  let* v := lift (TextCleaner.clean value) in
  match nonempty v with
  | Some v =>
      when (negb (String.eqb v person_name))
        (modify (set_names (setdefault v (name_node v))) ;;
         modify (set_edges (append (edge "NAMED" person_name "Person" v "Name"))))
  | None => ret tt
  end.

Definition _process_identity (rec : json) (source_id : string) : M (option string) :=
  let* identity := lift (Py.get rec "identity" (JObj [])) in
  let* name_items := lift (Py.get identity "name" (JArr [])) in
  let* person_name :=
    lift (if Py.truthy name_items then
            let? first := Py.index0 name_items in
            let? value := Py.get first "value" (JStr "") in
            TextCleaner.clean value
          else inr None) in
  match nonempty person_name with
  | None => ret None
  | Some person_name =>
      let* title := lift (Py.get rec "title" (JStr "")) in
      let* reference := lift (Py.get rec "reference" (JStr "")) in
      let* link := lift (Py.get rec "link" (JStr "")) in
      modify (set_sources <[source_id := source_node source_id title reference link]>) ;;
      let* gender_items := lift (Py.get identity "gender" (JArr [])) in
      let* gender := lift (first_value gender_items) in
      let* short_desc_items := lift (Py.get identity "shortDescription" (JArr [])) in
      let* short_desc := lift (first_value short_desc_items) in
      let* status_items := lift (Py.get identity "status" (JArr [])) in
      let* id_status :=
        lift (match status_items with
              | JArr (_ :: _) =>
                  let? x := Py.index0 status_items in Py.get x "value" (JStr "")
              | JStr _ => inr status_items
              | _ => inr (JStr "")
              end) in
      _add_person person_name gender short_desc "PhysicalPerson" id_status ;;
      modify (set_edges (append (edge "BELONGS_TO" person_name "Person" source_id "Source"))) ;;
      let main_name_id := person_name in
      modify (set_names (setdefault main_name_id (name_node main_name_id))) ;;
      modify (set_edges (append (edge "MAIN_NAME" person_name "Person" main_name_id "Name"))) ;;
      let* variants := lift (items_of identity "nameVariant") in
      for_each variants (name_variant person_name) ;;
      ret (Some person_name)
  end.

(** The body of the loop over the entries of [extract_dates(meta)] in
    [_process_activity_dates] and [_process_life_dates]. *)
Definition date_factoid (fiche_id : json) (person_name ftype description : string)
    (dobj : pydict) : M unit :=
  let ds := Py.dget dobj "start_date" JNull in
  let de := Py.dget dobj "end_date" JNull in
  when (Py.truthy ds || Py.truthy de)
    (let* fid := _make_factoid fiche_id ftype description "" "" in
     _link_participant fid person_name "SUBJECT" "" ;;
     _link_time fid ds de
       (Py.dget dobj "start_qualifier" (JStr "SIMPLE"))
       (Py.dget dobj "end_qualifier" (JStr "SIMPLE"))).

Definition _process_activity_dates (rec fiche_id : json) (person_name : string) : M unit :=
  let* identity := lift (Py.get rec "identity" (JObj [])) in
  let* items := lift (items_of identity "datesOfActivity") in
  for_each items (fun item =>
    let* meta := lift (Py.get item "meta" (JObj [])) in
    let* dates := lift (extract_dates meta) in
    for_each dates
      (date_factoid fiche_id person_name "ACTIVITY_PERIOD"
         ("P" +:+ Str.chr 233 +:+ "riode d'activit" +:+ Str.chr 233 +:+ " de " +:+ person_name))).

Definition _process_life_dates (rec fiche_id : json) (person_name : string) : M unit :=
  let* identity := lift (Py.get rec "identity" (JObj [])) in
  let* items := lift (items_of identity "datesOfLife") in
  for_each items (fun item =>
    let* meta := lift (Py.get item "meta" (JObj [])) in
    let* dates := lift (extract_dates meta) in
    for_each dates
      (date_factoid fiche_id person_name "LIFE_PERIOD"
         ("P" +:+ Str.chr 233 +:+ "riode de vie de " +:+ person_name))).

(** [for p in places: self._link_place(fid, p, certainty=place_cert)]. *)
Definition link_places (fid : string) (places : list string) (place_cert : string) : M unit :=
  for_each places (fun p => _link_place fid p place_cert).

(** [for inst in institutions: gname = self._add_group(inst); if gname:
    self._link_group(fid, gname, certainty=inst_cert)]. *)
Definition link_groups (fid : string) (institutions : list string) (inst_cert : string)
    : M unit :=
  for_each institutions (fun inst =>
    let* gname := _add_group inst in
    match nonempty gname with
    | Some gname => _link_group fid gname inst_cert
    | None => ret tt
    end).

Definition birth_place (fiche_id : json) (person_name : string) (item : json) : M unit :=
  let* meta := lift (Py.get item "meta" (JObj [])) in
  let* places := lift (safe_list meta "places") in
  let* unc := lift (detect_uncertainty meta) in
  match places with
  | [] => ret tt
  | _ :: _ =>
      let* fid := _make_factoid fiche_id "BIRTH" ("Naissance de " +:+ person_name) "" "" in
      _link_participant fid person_name "SUBJECT" "" ;;
      let place_cert := cert_of (fst unc) in
      link_places fid places place_cert
  end.

Definition diocese (fiche_id : json) (person_name : string) (item : json) : M unit :=
  let* meta := lift (Py.get item "meta" (JObj [])) in
  let* unc := lift (detect_uncertainty meta) in
  let* institutions := lift (safe_list meta "institutions") in
  for_each institutions (fun inst =>
    let* gname := _add_group inst in
    match nonempty gname with
    | Some gname =>
        modify (set_zones (setdefault gname
          [ ("zone_id", JStr gname); ("zone_description", JStr gname) ])) ;;
        let* fid := _make_factoid fiche_id "DIOCESE_ORIGIN"
          ("Origine dioc" +:+ Str.chr 233 +:+ "saine de " +:+ person_name +:+ ": " +:+ gname)
          "" "" in
        _link_participant fid person_name "SUBJECT" "" ;;
        modify (set_edges (append (edge "TOOK_PLACE_AT_ZONE" fid "Factoid" gname "Zone")))
    | None => ret tt
    end).

Definition _process_origin (rec fiche_id : json) (person_name : string) : M unit :=
  let* origin := lift (Py.get rec "origin" (JObj [])) in
  let* items := lift (items_of origin "birthPlace") in
  for_each items (birth_place fiche_id person_name) ;;
  let* origin := lift (Py.get rec "origin" (JObj [])) in
  let* items := lift (items_of origin "diocese") in
  for_each items (diocese fiche_id person_name).

Definition university (fiche_id : json) (person_name : string) (item : json) : M unit :=
  let* meta := lift (Py.get item "meta" (JObj [])) in
  let* unc := lift (detect_uncertainty meta) in
  let* dates := lift (extract_dates meta) in
  let* places := lift (safe_list meta "places") in
  let* institutions := lift (safe_list meta "institutions") in
  match places, institutions with
  | [], [] => ret tt
  | _, _ =>
      let* fid := _make_factoid fiche_id "UNIVERSITY_STUDY"
        (Str.chr 201 +:+ "tudes de " +:+ person_name) "" "" in
      _link_participant fid person_name "STUDENT" "" ;;
      _link_time_from_dates fid dates ;;
      let place_cert := cert_of (fst unc) in
      link_places fid places place_cert ;;
      let inst_cert := cert_of (snd unc) in
      link_groups fid institutions inst_cert
  end.

(** The body of the loop over [curriculum.get("grades", [])]. *)
Definition grade (fiche_id : json) (person_name : string) (item : json) : M unit :=
  let* meta := lift (Py.get item "meta" (JObj [])) in
  let* unc := lift (detect_uncertainty meta) in
  let* value := lift (Py.get item "value" (JStr "")) in
  let* cleaned := lift (TextCleaner.clean value) in
  let grade_val := or_empty cleaned in
  let* dates := lift (extract_dates meta) in
  let* places := lift (safe_list meta "places") in
  let* fid := _make_factoid fiche_id "ACADEMIC_GRADE"
    ("Grade de " +:+ person_name +:+ ": " +:+ grade_val) "" "" in
  _link_participant fid person_name "STUDENT" grade_val ;;
  _link_time_from_dates fid dates ;;
  let place_cert := cert_of (fst unc) in
  link_places fid places place_cert ;;
  when (negb (Str.is_empty grade_val))
    (modify (set_ranks (setdefault grade_val
       [ ("rank_id", JStr grade_val); ("rankname", JStr grade_val) ]))).

Definition university_college (fiche_id : json) (person_name : string) (item : json)
    : M unit :=
  let* meta := lift (Py.get item "meta" (JObj [])) in
  let* unc := lift (detect_uncertainty meta) in
  let* institutions := lift (safe_list meta "institutions") in
  for_each institutions (fun inst =>
    let* gname := _add_group inst in
    match nonempty gname with
    | Some gname =>
        let inst_cert := cert_of (snd unc) in
        let* fid := _make_factoid fiche_id "COLLEGE_MEMBERSHIP"
          (person_name +:+ " membre de " +:+ gname) "" "" in
        _link_participant fid person_name "MEMBER" "" ;;
        _link_group fid gname inst_cert
    | None => ret tt
    end).

Definition _process_curriculum (rec fiche_id : json) (person_name : string) : M unit :=
  let* curriculum := lift (Py.get rec "curriculum" (JObj [])) in
  let* items := lift (items_of curriculum "university") in
  for_each items (university fiche_id person_name) ;;
  let* items := lift (items_of curriculum "grades") in
  for_each items (grade fiche_id person_name) ;;
  let* items := lift (items_of curriculum "universityCollege") in
  for_each items (university_college fiche_id person_name).

(** The common body of the loops over ["secularPosition"] and
    ["regularOrder"], which differ by the factoid type, the role and the
    preposition of the description. *)
Definition position (fiche_id : json) (person_name ftype role prep : string)
    (item : json) : M unit :=
  let* meta := lift (Py.get item "meta" (JObj [])) in
  let* unc := lift (detect_uncertainty meta) in
  let* value := lift (Py.get item "value" (JStr "")) in
  let* cleaned := lift (TextCleaner.clean value) in
  let role_val := or_empty cleaned in
  let* dates := lift (extract_dates meta) in
  let* institutions := lift (safe_list meta "institutions") in
  for_each institutions (fun inst =>
    let* gname := _add_group inst in
    match nonempty gname with
    | Some gname =>
        let inst_cert := cert_of (snd unc) in
        let* fid := _make_factoid fiche_id ftype
          (person_name +:+ ": " +:+ role_val +:+ prep +:+ gname) "" "" in
        _link_participant fid person_name role "" ;;
        _link_group fid gname inst_cert ;;
        _link_time_from_dates fid dates
    | None => ret tt
    end).

Definition _process_ecclesiastical_career (rec fiche_id : json) (person_name : string)
    : M unit :=
  let* career := lift (Py.get rec "ecclesiasticalCareer" (JObj [])) in
  let* items := lift (items_of career "secularPosition") in
  for_each items (position fiche_id person_name "SECULAR_POSITION" "HOLDER" " a ") ;;
  let* items := lift (items_of career "regularOrder") in
  for_each items (position fiche_id person_name "REGULAR_ORDER" "MEMBER" " dans ").

Definition university_function (fiche_id : json) (person_name : string) (item : json)
    : M unit :=
  let* meta := lift (Py.get item "meta" (JObj [])) in
  let* unc := lift (detect_uncertainty meta) in
  let* value := lift (Py.get item "value" (JStr "")) in
  let* cleaned := lift (TextCleaner.clean value) in
  let function_val := or_empty cleaned in
  let* dates := lift (extract_dates meta) in
  let* places := lift (safe_list meta "places") in
  let* institutions := lift (safe_list meta "institutions") in
  match places, institutions with
  | [], [] => ret tt
  | _, _ =>
      let* fid := _make_factoid fiche_id "UNIVERSITY_TEACHING"
        (person_name +:+ ": " +:+ function_val) "" "" in
      _link_participant fid person_name "TEACHER" "" ;;
      _link_time_from_dates fid dates ;;
      let place_cert := cert_of (fst unc) in
      link_places fid places place_cert ;;
      let inst_cert := cert_of (snd unc) in
      link_groups fid institutions inst_cert
  end.

Definition _process_professional_career (rec fiche_id : json) (person_name : string)
    : M unit :=
  let* career := lift (Py.get rec "professionalCareer" (JObj [])) in
  let* items := lift (items_of career "universityFunction") in
  for_each items (university_function fiche_id person_name).

(** The body of [for raw_name in meta.get("names", [])] in
    [_process_relationships]; the two loops differ by the factoid type, the
    description and the roles of the subject and of the related person. *)
Definition related_person (fiche_id : json) (person_name ftype subject_role other_role : string)
    (description : string -> string) (raw_name : json) : M unit :=
  let* cname := lift (TextCleaner.clean_person_name raw_name) in
  match nonempty cname with
  | Some cname =>
      _add_person cname (JStr "") (JStr "") "PhysicalPerson" (JStr "") ;;
      let* fid := _make_factoid fiche_id ftype (description cname) "" "" in
      _link_participant fid person_name subject_role "" ;;
      _link_participant fid cname other_role ""
  | None => ret tt
  end.

Definition family_network (fiche_id : json) (person_name : string) (item : json) : M unit :=
  let* meta := lift (Py.get item "meta" (JObj [])) in
  let* value := lift (Py.get item "value" (JStr "")) in
  let* cleaned := lift (TextCleaner.clean value) in
  let relation_type := or_empty cleaned in
  let* raw_names := lift (items_of meta "names") in
  for_each raw_names
    (related_person fiche_id person_name "FAMILY_RELATION" "SUBJECT" "FAMILY_MEMBER"
       (fun cname => "Relation familiale: " +:+ person_name +:+ " - " +:+ cname
                       +:+ " (" +:+ relation_type +:+ ")")).

Definition student_professor (fiche_id : json) (person_name : string) (item : json)
    : M unit :=
  let* meta := lift (Py.get item "meta" (JObj [])) in
  let* raw_names := lift (items_of meta "names") in
  for_each raw_names
    (related_person fiche_id person_name "STUDENT_TEACHER" "STUDENT" "TEACHER"
       (fun cname => "Relation ma" +:+ Str.chr 238 +:+ "tre-" +:+ Str.chr 233 +:+ "l"
                       +:+ Str.chr 232 +:+ "ve: " +:+ person_name +:+ " - " +:+ cname)).

Definition _process_relationships (rec fiche_id : json) (person_name : string) : M unit :=
  let* rel := lift (Py.get rec "relationalInsertion" (JObj [])) in
  let* items := lift (items_of rel "familyNetwork") in
  for_each items (family_network fiche_id person_name) ;;
  let* items := lift (items_of rel "studentProfessorRelationships") in
  for_each items (student_professor fiche_id person_name).

Definition opus (fiche_id : json) (person_name : string) (o : json) : M unit :=
  let* title := lift (Py.get o "mainTitle" (JStr "")) in
  let* main_title := lift (TextCleaner.clean title) in
  match nonempty main_title with
  | Some main_title =>
      modify (set_objects (setdefault main_title
        [ ("object_id", JStr main_title); ("object_description", JStr main_title);
          ("value", JStr main_title) ])) ;;
      modify (set_object_types (setdefault "literary_work"
        [ ("type_id", JStr "literary_work");
          ("type_description", JStr literary_work_description) ])) ;;
      let* fid := _make_factoid fiche_id "AUTHORSHIP"
        (person_name +:+ " auteur de '" +:+ main_title +:+ "'") "" "" in
      _link_participant fid person_name "AUTHOR" "" ;;
      modify (set_edges (append (edge "OF_TYPE" fid "Factoid" main_title "Object")))
  | None => ret tt
  end.

(** The body of [for domain_name, domain_data in tp.items()]. *)
Definition production_domain (fiche_id : json) (person_name : string)
    (entry : string * json) : M unit :=
  let '(domain_name, domain_data) := entry in
  match domain_data with
  | JObj _ =>
      when (negb (Str.is_empty domain_name))
        (modify (set_domains (setdefault domain_name
           [ ("domain_id", JStr domain_name); ("name", JStr domain_name) ]))) ;;
      let* works := lift (items_of domain_data "opus") in
      for_each works (opus fiche_id person_name)
  | _ => ret tt
  end.

Definition _process_production (rec fiche_id : json) (person_name : string) : M unit :=
  let* tp := lift (Py.get rec "textualProduction" (JObj [])) in
  match tp with
  | JObj kv => for_each kv (production_domain fiche_id person_name)
  | _ => ret tt
  end.

(** [f"BIB_{hash(citation) % 10**8:08d}"]. *)
Definition bib_src_id (citation : string) : string :=
  "BIB_" +:+ Py.zfill 8 (Z.to_N (py_hash citation mod 10 ^ 8)).

Definition bib_item (fiche_id : json) (bib_section : string) (item : json) : M unit :=
  let* value := lift (Py.get item "value" (JStr "")) in
  let* citation := lift (TextCleaner.clean value) in
  match nonempty citation with
  | Some citation =>
      let id := bib_src_id citation in
      modify (set_sources (setdefault id
        (source_node id (JStr citation) (JStr "") (JStr "")))) ;;
      modify (set_edges (append
        (edge "LINKED_TO" ("SRC_" +:+ py_str fiche_id) "Source" id "Source"
           ++ [ ("link_type", JStr bib_section) ])%list))
  | None => ret tt
  end.

Definition _process_bibliography (rec fiche_id : json) : M unit :=
  let* bib := lift (Py.get rec "bibliography" (JObj [])) in
  for_each [ "workReferences"; "bookReferences" ] (fun bib_section =>
    let* items := lift (items_of bib bib_section) in
    for_each items (bib_item fiche_id bib_section)).

Definition process_record (rec : json) : M unit :=
  let* fiche_id := lift (Py.getitem rec "_id") in
  let source_id := "SRC_" +:+ py_str fiche_id in
  let* person_name := _process_identity rec source_id in
  match nonempty person_name with
  | None => ret tt
  | Some person_name =>
      _process_activity_dates rec fiche_id person_name ;;
      _process_life_dates rec fiche_id person_name ;;
      _process_origin rec fiche_id person_name ;;
      _process_curriculum rec fiche_id person_name ;;
      _process_ecclesiastical_career rec fiche_id person_name ;;
      _process_professional_career rec fiche_id person_name ;;
      _process_relationships rec fiche_id person_name ;;
      _process_production rec fiche_id person_name ;;
      _process_bibliography rec fiche_id
  end.

(** *** Vocabulary of the statements *)

(** The text of an endpoint as [_get_time_id] reads it:
    [str(x).strip() if x else ""]. *)
Definition endpoint (v : json) : string :=
  if Py.truthy v then Str.strip (py_str v) else "".

(** What [_get_time_id] computes from its four arguments alone: the
    exception raised, no key, or the key and the node stored under it if the
    key is new. *)
Definition time_entry (start end_ start_qualifier end_qualifier : json)
    : result (option (string * pydict)) :=
  let s := endpoint start in
  let e := endpoint end_ in
  if Str.is_empty s && Str.is_empty e then inr None else
  let sq := if negb (Py.eq_str start_qualifier "SIMPLE") then start_qualifier else JStr "" in
  let eq_ := if negb (Py.eq_str end_qualifier "SIMPLE") then end_qualifier else JStr "" in
  if negb (Str.is_empty s) && negb (Str.is_empty e) && negb (String.eqb s e) then
    let? a := qualifier_tag sq in
    let? b := qualifier_tag eq_ in
    let k := "TI" +:+ a +:+ "_" +:+ s +:+ b +:+ "_" +:+ e in
    inr (Some (k, time_node k "TimeInterval" s e start_qualifier end_qualifier))
  else if negb (Str.is_empty s) then
    let? a := qualifier_tag sq in
    let k := "I" +:+ a +:+ "_" +:+ s in
    inr (Some (k, time_node k "Instant" s "" start_qualifier (JStr "")))
  else
    let? b := qualifier_tag eq_ in
    let k := "I" +:+ b +:+ "_" +:+ e in
    inr (Some (k, time_node k "Instant" e "" end_qualifier (JStr ""))).

Definition result_key_length (r : result (option string)) : nat :=
  match r with inr (Some k) => String.length k | _ => 0 end.

(** The value of a field of a Person node after a later mention that
    supplies [new]: a blank field takes it, a populated one keeps its own. *)
Definition fill (old new : json) : json :=
  if Py.truthy new && negb (Py.truthy old) then new else old.

(** The class of a normalized name. *)
Definition classify (disciplines nations : gset string) (norm : string) : string :=
  if bool_decide (norm ∈ disciplines) then "discipline"
  else if bool_decide (norm ∈ nations) then "nation"
  else "institution".

End Methods.

(** ** Vocabulary of the statements *)

(** [e["type"]] and the other fields of an edge or node. *)
Definition field (k : string) (d : pydict) : json := Py.dget d k JNull.

Definition has_type (ty : string) (e : pydict) : bool := Py.eq_str (field "type" e) ty.

Definition edges_of_type (ty : string) (es : list pydict) : list pydict :=
  List.filter (has_type ty) es.

(** The identifier of the [i]-th factoid created, and the identifiers of the
    first [c] factoids in creation order. *)
Definition factoid_id (i : N) : string := "F_" +:+ Py.zfill 6 i.

Definition factoid_ids (c : N) : list string :=
  map (fun i => factoid_id (N.of_nat i)) (seq 1 (N.to_nat c)).

(** The HAS_TYPE edges leaving a factoid and the REFER_TO edges reaching it. *)
Definition typing_edges (fid : string) (es : list pydict) : list pydict :=
  List.filter (fun e => Py.eq_str (field "from_id" e) fid) (edges_of_type "HAS_TYPE" es).

Definition provenance_edges (fid : string) (es : list pydict) : list pydict :=
  List.filter (fun e => Py.eq_str (field "to_id" e) fid) (edges_of_type "REFER_TO" es).

(** Every Person node has the three fields that later mentions read. *)
Definition persons_ok (m : gmap string pydict) : Prop :=
  forall name p, m !! name = Some p ->
    is_Some (Py.dict_get "genre" p) /\ is_Some (Py.dict_get "shortdesc" p)
    /\ is_Some (Py.dict_get "status" p).

(** A canonical form is registered under its own lower-case key. *)
Definition canon_ok (canon : gmap string string) : Prop :=
  forall low d, canon !! low = Some d -> Str.strip (Str.lower d) = low.

(** A recorded class is the class of the normalized canonical form, and a
    canonical form recorded as a discipline has its Domain node. *)
Definition class_ok (st : extractor) : Prop :=
  forall d c, _entity_class st !! d = Some c ->
    c = classify (_disciplines_set st) (_nations_set st)
          (TextCleaner.normalize_classification d).

Definition domain_ok (st : extractor) : Prop :=
  forall d, _entity_class st !! d = Some "discipline" -> is_Some (domains st !! d).

(** An edge that is neither a HAS_TYPE nor a REFER_TO edge. *)
Definition plain_edge (e : pydict) : Prop :=
  has_type "HAS_TYPE" e = false /\ has_type "REFER_TO" e = false.

(** The invariant of a run. *)
Record inv (st : extractor) : Prop := {
  inv_has_type :
    map (field "from_id") (edges_of_type "HAS_TYPE" (edges st))
    = map JStr (factoid_ids (_factoid_counter st));
  inv_refer_to :
    map (field "to_id") (edges_of_type "REFER_TO" (edges st))
    = map JStr (factoid_ids (_factoid_counter st));
  inv_factoids :
    forall k, is_Some (factoids st !! k) <-> In k (factoid_ids (_factoid_counter st));
  inv_typed :
    Forall (fun e => exists k n, field "from_id" e = JStr k /\ factoids st !! k = Some n
                       /\ field "to_id" e = field "factoidtype" n
                       /\ field "to_label" e = JStr "FactoidType")
           (edges_of_type "HAS_TYPE" (edges st));
  inv_sourced :
    Forall (fun e => field "from_label" e = JStr "Source")
           (edges_of_type "REFER_TO" (edges st));
  inv_persons : persons_ok (persons st);
  inv_canon : canon_ok (_group_canon st);
  inv_class : class_ok st;
  inv_domain : domain_ok st
}.

(** What a call can change: the invariant is kept, edges are only appended,
    the counter does not decrease, factoid nodes and the reference sets stay. *)
Record evolves (st st' : extractor) : Prop := {
  ev_inv : inv st -> inv st';
  ev_edges : exists l, edges st' = (edges st ++ l)%list;
  ev_counter : (_factoid_counter st <= _factoid_counter st')%N;
  ev_sets : _nations_set st' = _nations_set st /\ _disciplines_set st' = _disciplines_set st
}.

(** What the loops of [_process_curriculum] other than the grades loop can
    change: the ranks are left as they are, the counter does not decrease,
    the factoids issued so far stay as they are, and edges are only
    appended. *)
Definition aside (st st' : extractor) : Prop :=
  ranks st' = ranks st /\
  (_factoid_counter st <= _factoid_counter st')%N /\
  (forall j, (j <= _factoid_counter st)%N ->
     factoids st' !! factoid_id j = factoids st !! factoid_id j) /\
  exists l, edges st' = (edges st ++ l)%list.

(** A computation all of whose runs are related by [R]. *)
Definition establishes (R : extractor -> extractor -> Prop) {A} (m : M A) : Prop :=
  forall st, R st (snd (m st)).

(** A computation that, from a state satisfying [I], returns normally in a
    state satisfying [I]. *)
Definition total (I : extractor -> Prop) {A} (m : M A) : Prop :=
  forall st, I st -> exists a st', m st = (inr a, st') /\ I st'.

(** A record carries an identifier when [rec["_id"]] succeeds. *)
Definition has_identifier (rec : json) : bool :=
  match Py.getitem rec "_id" with inr _ => true | inl _ => false end.

(** The primary name of a record is unusable: the identity section, its
    name list, the first name or its value is missing, or the value is
    [None] or a text that [clean] rejects (blank or a stop word). *)
Definition unusable_primary_name (rec : json) : bool :=
  match rec with
  | JObj kv =>
      match Py.dict_get "identity" kv with
      | None => true
      | Some (JObj ikv) =>
          match Py.dict_get "name" ikv with
          | None | Some (JArr []) => true
          | Some (JArr (JObj nkv :: _)) =>
              match Py.dict_get "value" nkv with
              | None | Some JNull => true
              | Some (JStr s) =>
                  match TextCleaner.clean_str s with None => true | Some _ => false end
              | Some _ => false
              end
          | Some _ => false
          end
      | Some _ => false
      end
  | _ => false
  end.

(** A record whose only date entry is the flat date "1350" with the
    top-level qualifier BEFORE (a period of activity). *)
Definition record_before_1350 : json :=
  JObj [ ("_id", JStr "fiche-2");
         ("identity",
          JObj [ ("name", JArr [ JObj [ ("value", JStr "Johannes de Parisiis") ] ]);
                 ("datesOfActivity",
                  JArr [ JObj [ ("meta",
                    JObj [ ("dates",
                      JArr [ JObj [ ("type", JStr "BEFORE"); ("date", JStr "1350") ] ]) ]) ] ]) ]) ].

(** A record whose only date entry, the same flat date, sits under
    [origin.birthPlace], where the extractor reads the places only. *)
Definition record_born_before_1350 : json :=
  JObj [ ("_id", JStr "fiche-3");
         ("identity",
          JObj [ ("name", JArr [ JObj [ ("value", JStr "Johannes de Parisiis") ] ]) ]);
         ("origin",
          JObj [ ("birthPlace",
                  JArr [ JObj [ ("meta",
                    JObj [ ("places", JArr [ JStr "Parisius" ]);
                           ("dates",
                            JArr [ JObj [ ("type", JStr "BEFORE");
                                          ("date", JStr "1350") ] ]) ]) ] ]) ]) ].

(** *** Records of the expected shape

    A field may be missing; when present it has the type the program reads
    it at.  An empty list, dict or text is of the expected shape. *)
Definition opt_field (kv : pydict) (k : string) (p : json -> bool) : bool :=
  match Py.dict_get k kv with None => true | Some v => p v end.

Definition is_text (v : json) : bool :=
  match v with JStr _ | JNull => true | _ => false end.

Definition is_str (v : json) : bool :=
  match v with JStr _ => true | _ => false end.

Definition is_obj (v : json) : bool :=
  match v with JObj _ => true | _ => false end.

Definition list_of (p : json -> bool) (v : json) : bool :=
  match v with JArr l => forallb p l | _ => false end.

Definition iterable (v : json) : bool :=
  match v with JArr _ | JStr _ | JObj _ => true | _ => false end.

(** A qualifier is a text (or blank). *)
Definition qualifier_ok (v : json) : bool :=
  match v with JStr _ => true | _ => negb (Py.truthy v) end.

Definition wf_endpoint (v : json) : bool :=
  match v with JObj kv => opt_field kv "type" qualifier_ok | _ => false end.

Definition wf_date (d : json) : bool :=
  match d with
  | JObj kv => opt_field kv "startDate" wf_endpoint && opt_field kv "endDate" wf_endpoint
  | _ => false
  end.

Definition wf_meta (m : json) : bool :=
  match m with
  | JObj kv =>
      opt_field kv "dates" (list_of wf_date) && opt_field kv "places" iterable
      && opt_field kv "institutions" iterable && opt_field kv "names" (list_of is_str)
  | _ => false
  end.

(** An entry [{value, meta}] of a section, and an entry read for one text
    field [k] only. *)
Definition wf_item (item : json) : bool :=
  match item with
  | JObj kv => opt_field kv "meta" wf_meta && opt_field kv "value" is_text
  | _ => false
  end.

Definition wf_valued (k : string) (item : json) : bool :=
  match item with JObj kv => opt_field kv k is_text | _ => false end.

(** A section: a dict whose listed keys, when present, hold lists of
    entries satisfying [p]. *)
Definition wf_section (p : json -> bool) (keys : list string) (v : json) : bool :=
  match v with
  | JObj kv => forallb (fun k => opt_field kv k (list_of p)) keys
  | _ => false
  end.

Definition wf_status (v : json) : bool :=
  match v with JArr l => forallb is_obj l | _ => true end.

Definition wf_identity (v : json) : bool :=
  match v with
  | JObj kv =>
      opt_field kv "name" (list_of (wf_valued "value"))
      && opt_field kv "gender" (list_of is_obj)
      && opt_field kv "shortDescription" (list_of is_obj)
      && opt_field kv "status" wf_status
      && opt_field kv "nameVariant" (list_of (wf_valued "value"))
      && opt_field kv "datesOfActivity" (list_of wf_item)
      && opt_field kv "datesOfLife" (list_of wf_item)
  | _ => false
  end.

(** The textual production: anything that is not a dict is skipped, and so
    is a subject area that is not a dict. *)
Definition wf_domain (v : json) : bool :=
  match v with
  | JObj kv => opt_field kv "opus" (list_of (wf_valued "mainTitle"))
  | _ => true
  end.

Definition wf_production (v : json) : bool :=
  match v with JObj kv => forallb (fun p => wf_domain (snd p)) kv | _ => true end.

Definition wf_record (rec : json) : bool :=
  match rec with
  | JObj kv =>
      has_identifier rec
      && opt_field kv "identity" wf_identity
      && opt_field kv "origin" (wf_section wf_item [ "birthPlace"; "diocese" ])
      && opt_field kv "curriculum"
           (wf_section wf_item [ "university"; "grades"; "universityCollege" ])
      && opt_field kv "ecclesiasticalCareer"
           (wf_section wf_item [ "secularPosition"; "regularOrder" ])
      && opt_field kv "professionalCareer" (wf_section wf_item [ "universityFunction" ])
      && opt_field kv "relationalInsertion"
           (wf_section wf_item [ "familyNetwork"; "studentProfessorRelationships" ])
      && opt_field kv "textualProduction" wf_production
      && opt_field kv "bibliography"
           (wf_section (wf_valued "value") [ "workReferences"; "bookReferences" ])
  | _ => false
  end.

(** An entry of [extract_dates] whose qualifiers are texts. *)
Definition entry_ok (e : pydict) : bool :=
  qualifier_ok (Py.dget e "start_qualifier" (JStr "SIMPLE"))
  && qualifier_ok (Py.dget e "end_qualifier" (JStr "SIMPLE")).

(** A computation that returns normally and only links: it appends plain
    edges and leaves factoids, counter, ranks and persons as they are. *)
Definition links_only (m : M unit) : Prop :=
  forall st, exists st' rest,
    m st = (inr tt, st') /\ edges st' = (edges st ++ rest)%list /\
    Forall plain_edge rest /\ factoids st' = factoids st /\
    _factoid_counter st' = _factoid_counter st /\ ranks st' = ranks st /\
    persons st' = persons st.

(** The part of the invariant that running without an exception relies on. *)
Definition persons_inv (st : extractor) : Prop := persons_ok (persons st).

(** A section that is missing or is the empty dict. *)
Definition section_blank (kv : pydict) (k : string) : bool :=
  match Py.dict_get k kv with None | Some (JObj []) => true | Some _ => false end.

(** The methods of the class, as calls on an extractor. *)
Inductive call : Type :=
| Call_get_time_id (start end_ start_qualifier end_qualifier : json)
| Call_add_group (raw_name : string)
| Call_add_person (name : string) (genre shortdesc : json) (person_type : string)
    (status : json)
| Call_make_factoid (fiche_id : json) (ftype description original_text certainty : string)
| Call_link_participant (factoid_id person_name role rank : string)
| Call_link_place (factoid_id place_name certainty : string)
| Call_link_group (factoid_id group_name certainty : string)
| Call_link_time (factoid_id : string) (start end_ start_qualifier end_qualifier : json)
| Call_link_time_from_dates (factoid_id : string) (dates : list pydict)
| Call_process_record (rec : json)
| Call_process_identity (rec : json) (source_id : string)
| Call_process_activity_dates (rec fiche_id : json) (person_name : string)
| Call_process_life_dates (rec fiche_id : json) (person_name : string)
| Call_process_origin (rec fiche_id : json) (person_name : string)
| Call_process_curriculum (rec fiche_id : json) (person_name : string)
| Call_process_ecclesiastical_career (rec fiche_id : json) (person_name : string)
| Call_process_professional_career (rec fiche_id : json) (person_name : string)
| Call_process_relationships (rec fiche_id : json) (person_name : string)
| Call_process_production (rec fiche_id : json) (person_name : string)
| Call_process_bibliography (rec fiche_id : json).

Section Run.

Variable py_repr : json -> string.
Variable py_hash : string -> Z.
Variable ligature_oe : string.

(** The extractor after a call, whether the call returned or raised. *)
Definition after_call (c : call) (st : extractor) : extractor :=
  match c with
  | Call_get_time_id a b c d => snd (_get_time_id py_repr a b c d st)
  | Call_add_group r => snd (_add_group r st)
  | Call_add_person n g s t u => snd (_add_person n g s t u st)
  | Call_make_factoid i t d o c => snd (_make_factoid py_repr i t d o c st)
  | Call_link_participant f p r k => snd (_link_participant f p r k st)
  | Call_link_place f p c => snd (_link_place f p c st)
  | Call_link_group f g c => snd (_link_group f g c st)
  | Call_link_time f a b c d => snd (_link_time py_repr f a b c d st)
  | Call_link_time_from_dates f ds => snd (_link_time_from_dates py_repr f ds st)
  | Call_process_record r => snd (process_record py_repr py_hash ligature_oe r st)
  | Call_process_identity r s => snd (_process_identity r s st)
  | Call_process_activity_dates r i p => snd (_process_activity_dates py_repr r i p st)
  | Call_process_life_dates r i p => snd (_process_life_dates py_repr r i p st)
  | Call_process_origin r i p => snd (_process_origin py_repr r i p st)
  | Call_process_curriculum r i p => snd (_process_curriculum py_repr r i p st)
  | Call_process_ecclesiastical_career r i p =>
      snd (_process_ecclesiastical_career py_repr r i p st)
  | Call_process_professional_career r i p =>
      snd (_process_professional_career py_repr r i p st)
  | Call_process_relationships r i p => snd (_process_relationships py_repr r i p st)
  | Call_process_production r i p => snd (_process_production py_repr ligature_oe r i p st)
  | Call_process_bibliography r i => snd (_process_bibliography py_repr py_hash r i st)
  end.

(** A run: the extractor that [__init__] builds, then any calls. *)
Definition after_calls (cs : list call) (st : extractor) : extractor :=
  foldl (fun st c => after_call c st) st cs.

End Run.

(** ** Sample inputs *)

(** No sample below holds a list or dict where [str] or an f-string would
    print it, so any [repr] serves; [hash] is fixed to an arbitrary function. *)
Definition sample_repr (_ : json) : string := "".

(** In the samples the ligature is written as the two letters it joins. *)
Definition sample_ligature : string := "OE".

Definition sample_hash (s : string) : Z := Z.of_nat (String.length s) * 7919.

(** A record with a birth place, a grade without value, a study at a
    discipline and at a nation, and no other section. *)
Definition sample_record : json :=
  JObj [ ("_id", JNum 17);
         ("identity",
          JObj [ ("name", JArr [ JObj [ ("value", JStr "Johannes de Parisiis") ] ]);
                 ("gender", JArr [ JObj [ ("value", JStr "male") ] ]) ]);
         ("origin",
          JObj [ ("birthPlace",
                  JArr [ JObj [ ("meta", JObj [ ("places", JArr [ JStr "Parisius" ]) ]) ] ]) ]);
         ("curriculum",
          JObj [ ("grades", JArr [ JObj [ ("value", JStr "?") ] ]);
                 ("university",
                  JArr [ JObj [ ("meta",
                    JObj [ ("institutions",
                            JArr [ JStr "Theologie"; JStr "Nation anglaise" ]) ]) ] ]) ]);
         ("bibliography", JObj []) ].

(** A record whose primary name is a stop word. *)
Definition nameless_record : json :=
  JObj [ ("_id", JStr "fiche-4");
         ("identity", JObj [ ("name", JArr [ JObj [ ("value", JStr " Inconnu. ") ] ]) ]);
         ("origin",
          JObj [ ("birthPlace",
                  JArr [ JObj [ ("meta", JObj [ ("places", JArr [ JStr "Parisius" ]) ]) ] ]) ]) ].

(** A new extractor whose discipline list names theology and whose nation
    list names the English nation. *)
Definition sample_init : extractor :=
  init (Some [ "# nations"; "Nation anglaise" ]) (Some [ "Theologie" ]).

(** A record in which a list-valued field holds [None]. *)
Definition null_places_record : json :=
  JObj [ ("_id", JNum 5);
         ("identity", JObj [ ("name", JArr [ JObj [ ("value", JStr "Petrus") ] ]) ]);
         ("origin",
          JObj [ ("birthPlace", JArr [ JObj [ ("meta", JObj [ ("places", JNull) ]) ] ]) ]) ].

(** ** [utils.py]: [TextCleaner.strip_uncertainty] *)

(** [s.replace(old, new)] for a non-empty [old]: the occurrences of [old]
    are replaced from left to right, without overlap. *)
Definition re_literal (old new : string) (_ : option ascii) (s : string)
    : option (string * nat) :=
  if String.prefix old s then Some (new, String.length old) else None.

Definition replace (old new s : string) : string := Str.re_sub (re_literal old new) s.

(** The loop [while t and t[-1] in ".,;:": t = t[:-1].strip()]; every turn
    shortens [t], so [length t] turns are enough. *)
Definition trailing (c : ascii) : bool :=
  Ascii.eqb c "." || Ascii.eqb c "," || Ascii.eqb c ";" || Ascii.eqb c ":".

Fixpoint drop_trailing (fuel : nat) (t : string) : string :=
  match fuel with
  | O => t
  | S fuel' =>
      match Str.last_char t with
      | Some c => if trailing c then drop_trailing fuel' (Str.strip (Str.drop_last t)) else t
      | None => t
      end
  end.

(** [strip_uncertainty] on a [str]: the cleaned text and the flag. *)
Definition strip_uncertainty_str (text : string) : option string * bool :=
  let t := Str.strip text in
  if Str.is_empty t then (None, false) else
  if negb (Str.contains "?" t) then (Some t, false) else
  let t := Str.remove_char "?" t in
  let t := Str.re_sub Str.re_empty_parens t in
  let t := replace "( " "(" (replace " )" ")" t) in
  let t := Str.re_sub (Str.re_spaces 2) t in
  let t := Str.strip t in
  let t := drop_trailing (String.length t) t in
  if Str.is_empty t then (None, true) else (Some t, true).

(** [strip_uncertainty(text)]: [None] gives [(None, False)]; a value that is
    neither [None] nor a [str] has no [strip]. *)
Definition strip_uncertainty (text : json) : result (option string * bool) :=
  match text with
  | JNull => inr (None, false)
  | JStr s => inr (strip_uncertainty_str s)
  | _ => inl AttributeError
  end.

(** *** Vocabulary of the statements about text *)

(** Every character of [s] satisfies [p]. *)
Fixpoint sforall (p : ascii -> bool) (s : string) : bool :=
  match s with
  | EmptyString => true
  | String c r => p c && sforall p r
  end.

(** An ASCII character that is not an upper-case letter. *)
Definition plain_char (c : ascii) : bool :=
  (Str.code c <? 128)%N && negb (Str.in_range 65 90 c).

(** No two whitespace characters follow each other in [s]. *)
Fixpoint single_spaced (s : string) : bool :=
  match s with
  | EmptyString => true
  | String c r =>
      negb (Str.isspace c && match r with String d _ => Str.isspace d | EmptyString => false end)
      && single_spaced r
  end.

(** [s] is empty or starts with a character that [p] rejects. *)
Definition head_kept (p : ascii -> bool) (s : string) : Prop :=
  match s with String c _ => p c = false | EmptyString => True end.

(** ** [writer.py] and [loader.py]: the files of the graph *)

(** The node files that [write_csvs] writes: the name of the file, its
    columns, and the registry whose values are its rows. *)
Definition node_files : list (string * list string * (extractor -> gmap string pydict)) :=
  [ ("nodes_person.csv",
     [ "person_id"; "shortdesc"; "genre"; "person_type"; "status" ], persons);
    ("nodes_name.csv", [ "name_id"; "completename" ], names);
    ("nodes_groupp.csv", [ "group_id"; "group_descr"; "group_type" ], groups);
    ("nodes_place.csv", [ "place_id"; "place_description" ], places);
    ("nodes_zone.csv", [ "zone_id"; "zone_description" ], zones);
    ("nodes_source.csv", [ "source_id"; "name"; "reference"; "link" ], sources);
    ("nodes_factoid.csv",
     [ "factoid_id"; "factoidtype"; "certainty"; "duration"; "notes"; "description";
       "original_text"; "problem" ], factoids);
    ("nodes_factoidtype.csv", [ "factoidtype_id"; "description" ], factoid_types);
    ("nodes_role.csv", [ "role_id"; "role_description" ], roles);
    ("nodes_rank.csv", [ "rank_id"; "rankname" ], ranks);
    ("nodes_time.csv",
     [ "time_id"; "time_type"; "begin"; "finish"; "begin_qualifier"; "end_qualifier";
       "granularity" ], times);
    ("nodes_object.csv", [ "object_id"; "object_description"; "value" ], objects);
    ("nodes_objecttype.csv", [ "type_id"; "type_description" ], object_types);
    ("nodes_domain.csv", [ "domain_id"; "name" ], domains) ].

(** The calls of [_load_node_csv] in [load_neo4j]: the file, the label of the
    nodes, the property that [MERGE] matches on, and the other properties. *)
Definition node_loads : list (string * string * string * list string) :=
  [ ("nodes_person.csv", "Person", "person_id",
     [ "shortdesc"; "genre"; "person_type"; "status" ]);
    ("nodes_name.csv", "Name", "name_id", [ "completename" ]);
    ("nodes_groupp.csv", "GroupP", "group_id", [ "group_descr"; "group_type" ]);
    ("nodes_place.csv", "Place", "place_id", [ "place_description" ]);
    ("nodes_zone.csv", "Zone", "zone_id", [ "zone_description" ]);
    ("nodes_source.csv", "Source", "source_id", [ "name"; "reference"; "link" ]);
    ("nodes_factoid.csv", "Factoid", "factoid_id",
     [ "factoidtype"; "certainty"; "duration"; "notes"; "description"; "original_text";
       "problem" ]);
    ("nodes_factoidtype.csv", "FactoidType", "factoidtype_id", [ "description" ]);
    ("nodes_role.csv", "Role", "role_id", [ "role_description" ]);
    ("nodes_rank.csv", "Rank", "rank_id", [ "rankname" ]);
    ("nodes_time.csv", "Time", "time_id",
     [ "time_type"; "begin"; "finish"; "begin_qualifier"; "end_qualifier"; "granularity" ]);
    ("nodes_object.csv", "Object", "object_id", [ "object_description"; "value" ]);
    ("nodes_objecttype.csv", "ObjectType", "type_id", [ "type_description" ]);
    ("nodes_domain.csv", "Domain", "domain_id", [ "name" ]) ].

(** [edge_configs] of [load_neo4j]: for a relation type, the label and key
    property of the node an edge leaves and of the node it reaches. *)
Definition edge_configs : list (string * (string * string * string * string)) :=
  [ ("MAIN_NAME", ("Person", "person_id", "Name", "name_id"));
    ("NAMED", ("Person", "person_id", "Name", "name_id"));
    ("BELONGS_TO", ("Person", "person_id", "Source", "source_id"));
    ("HAS_TYPE", ("Factoid", "factoid_id", "FactoidType", "factoidtype_id"));
    ("REFER_TO", ("Source", "source_id", "Factoid", "factoid_id"));
    ("PARTICIPATE", ("Factoid", "factoid_id", "Person", "person_id"));
    ("TOOK_PLACE_AT", ("Factoid", "factoid_id", "Place", "place_id"));
    ("TOOK_PLACE_AT_ZONE", ("Factoid", "factoid_id", "Zone", "zone_id"));
    ("AT_GROUP", ("Factoid", "factoid_id", "GroupP", "group_id"));
    ("IN_DOMAIN", ("Factoid", "factoid_id", "Domain", "domain_id"));
    ("OCCURRED_AT", ("Factoid", "factoid_id", "Time", "time_id"));
    ("OF_TYPE", ("Factoid", "factoid_id", "Object", "object_id"));
    ("LINKED_TO", ("Source", "source_id", "Source", "source_id")) ].

(** *** Vocabulary of the statements about the graph *)

(** A node stored under the key [k] that has exactly the columns [cols], the
    first of which holds [k]. *)
Definition node_ok (cols : list string) (k : string) (n : pydict) : Prop :=
  map fst n = cols /\ Py.dict_get (hd "" cols) n = Some (JStr k).

Definition registry_ok (cols : list string) (m : gmap string pydict) : Prop :=
  forall k n, m !! k = Some n -> node_ok cols k n.

Definition nodes_ok (st : extractor) : Prop :=
  Forall (fun f => registry_ok f.1.2 (f.2 st)) node_files.

(** A Time node under the key [k]: an Instant with a begin and no finish, or
    a TimeInterval with two different ends; the ends are not blank and have
    no white space around them, and the key ends with them. *)
Definition time_ok (k : string) (n : pydict) : Prop :=
  (exists tag b q, b <> "" /\ Str.strip b = b /\ k = "I" +:+ tag +:+ "_" +:+ b /\
     n = time_node k "Instant" b "" q (JStr "")) \/
  (exists a c b f q1 q2, b <> "" /\ f <> "" /\ b <> f /\ Str.strip b = b /\ Str.strip f = f /\
     k = "TI" +:+ a +:+ "_" +:+ b +:+ c +:+ "_" +:+ f /\
     n = time_node k "TimeInterval" b f q1 q2).

Definition times_ok (st : extractor) : Prop :=
  forall k n, times st !! k = Some n -> time_ok k n.

(** The GroupP nodes are the classified names that are not disciplines. *)
Definition groups_ok (st : extractor) : Prop :=
  (forall g n, groups st !! g = Some n ->
     exists c, _entity_class st !! g = Some c /\ c <> "discipline" /\ n = group_node g c) /\
  (forall g c, _entity_class st !! g = Some c -> c <> "discipline" ->
     is_Some (groups st !! g)).

(** An edge of a type that the loader loads, between nodes of the labels
    that the loader matches for that type; after its five fields come the
    attributes [extra]. *)
Definition edge_known (e : pydict) : Prop :=
  exists ty fi fl ti tl fp tp extra,
    e = (edge ty fi fl ti tl ++ extra)%list /\
    In (ty, (fl, fp, tl, tp)) edge_configs /\
    incl (map fst extra) [ "certainty"; "role"; "rank"; "link_type" ].

Record schema_ok (st : extractor) : Prop := {
  schema_nodes : nodes_ok st;
  schema_times : times_ok st;
  schema_groups : groups_ok st;
  schema_edges : Forall edge_known (edges st)
}.

(** A call keeps the schema. *)
Definition keeps (st st' : extractor) : Prop := schema_ok st -> schema_ok st'.

(** ** [daphne_direct_mapping.py]: the statistics of [export_csvs] *)

(** [Counter(extractor._entity_class.values()).get(c, 0)]. *)
Definition cls_count (st : extractor) (c : string) : nat :=
  length (List.filter (fun p => String.eqb p.2 c) (map_to_list (_entity_class st))).

(** *** Vocabulary of the statements about the ends of the edges *)

(** The registry that holds the nodes of a label: the one from which the
    writer writes the node file that the loader loads under that label. *)
Definition registry_of_label (label : string)
    : option (extractor -> gmap string pydict) :=
  match List.find (fun l => String.eqb l.1.1.2 label) node_loads with
  | Some l =>
      match List.find (fun f => String.eqb f.1.1 l.1.1.1) node_files with
      | Some f => Some f.2
      | None => None
      end
  | None => None
  end.

(** The node with the identifier [id] under the label [label] exists. *)
Definition node_exists (st : extractor) (label id : json) : Prop :=
  match label, id with
  | JStr l, JStr i =>
      match registry_of_label l with
      | Some registry => is_Some (registry st !! i)
      | None => False
      end
  | _, _ => False
  end.

(** An edge whose two ends are nodes of the graph and whose role, if it is a
    PARTICIPATE edge, is a Role node. *)
Definition edge_linked (st : extractor) (e : pydict) : Prop :=
  node_exists st (field "from_label" e) (field "from_id" e) /\
  node_exists st (field "to_label" e) (field "to_id" e) /\
  (has_type "PARTICIPATE" e = true -> node_exists st (JStr "Role") (field "role" e)).

(** What a step of a method can rely on: a node that exists, a name that is
    classified. *)
Inductive fact : Type :=
| Node (label id : string)
| Classified (g : string).

Definition holds (st : extractor) (f : fact) : Prop :=
  match f with
  | Node label id => node_exists st (JStr label) (JStr id)
  | Classified g => is_Some (_entity_class st !! g)
  end.

(** A classified name has the node that [_link_group] links it to. *)
Definition routed (st : extractor) : Prop :=
  forall g c, _entity_class st !! g = Some c ->
    holds st (Node (if String.eqb c "discipline" then "Domain" else "GroupP") g).

Record sound (st : extractor) : Prop := {
  sound_edges : Forall (edge_linked st) (edges st);
  sound_routed : routed st;
  sound_types : forall t, In t (map fst FACTOID_TYPES) -> holds st (Node "FactoidType" t);
  sound_roles : forall r, In r (map fst ROLES) -> holds st (Node "Role" r)
}.

(** Every key of [m] is a key of [m']. *)
Definition keys_kept (m m' : gmap string pydict) : Prop :=
  forall k, is_Some (m !! k) -> is_Some (m' !! k).

(** No node and no class is ever removed. *)
Definition grows (st st' : extractor) : Prop :=
  Forall (fun f => keys_kept (f.2 st) (f.2 st')) node_files /\
  (forall g, is_Some (_entity_class st !! g) -> is_Some (_entity_class st' !! g)).

(** From a sound state in which the facts [pre] hold, the computation leaves
    a sound state, whether it returns or raises, removes nothing, and when it
    returns [a] the facts [post a] hold. *)
Definition respects (pre : list fact) {A} (m : M A) (post : A -> list fact) : Prop :=
  forall st, sound st -> Forall (holds st) pre ->
    sound (m st).2 /\ grows st (m st).2 /\
    forall a, (m st).1 = inr a -> Forall (holds (m st).2) (post a).

(** The facts that the part of [process_record] after the identity relies
    on: the person and the source of the record exist. *)
Definition record_facts (person_name source_id : string) : list fact :=
  [ Node "Person" person_name; Node "Source" source_id ].

(** ** [writer.py]: the CSV files *)

(** A file that [csv.DictWriter] has written: its lines, the header first,
    each line the list of its cells.  The text that the [csv] module makes
    of a line is not modelled. *)
Abbreviation csv_file := (list (list json)).

(** The files of the output directory, by name. *)
Abbreviation directory := (gmap string csv_file).

(** What the file operations of the writer depend on and the program does
    not decide: whether [output_dir.mkdir(parents=True, exist_ok=True)]
    succeeds; whether [open(output_dir / filename, "w", ...)] succeeds for a
    file name (it does not when the name has a [/] and the directory before
    it does not exist, or when the file may not be written); and whether a
    cell can be written (its text can be encoded as UTF-8, which a lone
    surrogate cannot).  The device is taken to accept what is written to
    it, and the standard output what the writer prints. *)
Record file_system : Type := {
  can_mkdir : bool;
  can_open : string -> bool;
  can_write : json -> bool
}.

(** The exceptions of the file operations: the [OSError] of [mkdir]; the
    [OSError] (or, for a name with a null character, the [ValueError]) of
    [open]; the [UnicodeEncodeError] of a cell. *)
Inductive file_error : Type :=
| MkdirError
| OpenError
| WriteError.

(** What ends the writer early: an exception of the program that it runs,
    or one of a file operation. *)
Inductive writer_exn : Type :=
| PyExn (e : exn)
| FileExn (e : file_error).

(** Every file operation succeeds. *)
Definition obliging (fs : file_system) : Prop :=
  can_mkdir fs = true /\
  (forall filename, can_open fs filename = true) /\
  (forall cell, can_write fs cell = true).

(** [sorted(l)] for a list whose elements [le] compares: a stable sort. *)
Fixpoint insert_by {A} (le : A -> A -> bool) (x : A) (l : list A) : list A :=
  match l with
  | [] => [x]
  | y :: r => if le x y then x :: l else y :: insert_by le x r
  end.

Definition sorted_by {A} (le : A -> A -> bool) (l : list A) : list A :=
  foldr (insert_by le) [] l.

(** [writer.writerow(row)] of a [DictWriter] with [extrasaction="ignore"]
    and the default [restval]: [row.get(k, "")] for every field name. *)
Definition csv_row (fieldnames : list string) (row : pydict) : list json :=
  map (fun k => Py.dget row k (JStr "")) fieldnames.

(** The lines that reach a file: [writerow] hands a line to the file in one
    [write], which raises before it takes any of it when a cell cannot be
    written; the lines before it are in the file when it is closed.  The
    boolean tells whether every line was written. *)
Fixpoint write_lines (fs : file_system) (lines : list (list json))
    : list (list json) * bool :=
  match lines with
  | [] => ([], true)
  | line :: rest =>
      if forallb (can_write fs) line
      then let r := write_lines fs rest in (line :: r.1, r.2)
      else ([], false)
  end.

(** [_write_csv]: the file is opened for writing, so what it held is lost;
    the header is written, then one row for each element of [rows]; the
    number of rows is returned.  When the file cannot be opened nothing is
    written; when a line cannot be written the [with] statement closes the
    file on the lines before it, and the exception goes on. *)
Definition _write_csv (fs : file_system) (filename : string) (fieldnames : list string)
    (rows : list pydict) (dir : directory) : (file_error + nat) * directory :=
  if can_open fs filename then
    let r := write_lines fs (map JStr fieldnames :: map (csv_row fieldnames) rows) in
    (if r.2 then inr (length rows) else inl WriteError, <[filename := r.1]> dir)
  else (inl OpenError, dir).

(** [e["type"]] as a key of a dict: a missing key raises [KeyError], a list
    or a dict cannot be hashed. *)
Definition edge_type (e : pydict) : result json :=
  match Py.dict_get "type" e with
  | None => inl KeyError
  | Some (JArr _) => inl TypeError
  | Some (JObj _) => inl TypeError
  | Some v => inr v
  end.

(** Equality of two keys of a dict: [True == 1] and [False == 0]. *)
Definition key_number (k : json) : option Z :=
  match k with
  | JBool b => Some (if b then 1 else 0)%Z
  | JNum z => Some z
  | _ => None
  end.

Definition key_eqb (a b : json) : bool :=
  match a, b with
  | JNull, JNull => true
  | JStr s, JStr t => String.eqb s t
  | _, _ =>
      match key_number a, key_number b with
      | Some x, Some y => Z.eqb x y
      | _, _ => false
      end
  end.

(** [edges_by_type[k].append(e)] on the [defaultdict(list)]; the keys keep
    the order of their first insertion. *)
Fixpoint group_append (k : json) (e : pydict) (groups : list (json * list pydict))
    : list (json * list pydict) :=
  match groups with
  | [] => [ (k, [ e ]) ]
  | (k', l) :: r =>
      if key_eqb k' k then (k', (l ++ [ e ])%list) :: r else (k', l) :: group_append k e r
  end.

Definition edges_by_type (es : list pydict) : result (list (json * list pydict)) :=
  foldl (fun acc e =>
           let? groups := acc in
           let? k := edge_type e in
           inr (group_append k e groups))
        (inr []) es.

(** [a <= b] for two keys that Python compares: two texts, or two numbers. *)
Definition key_leb (a b : json) : bool :=
  match a, b with
  | JStr s, JStr t => String.leb s t
  | _, _ =>
      match key_number a, key_number b with
      | Some x, Some y => Z.leb x y
      | _, _ => false
      end
  end.

Definition is_number (k : json) : bool :=
  match key_number k with Some _ => true | None => false end.

(** [sorted(edges_by_type.items())].  The keys of a dict differ, so the
    pairs are ordered by their keys alone.  A single pair is compared with
    nothing; texts sort among themselves, and so do numbers; in any other
    case some comparison is between a text and a number or involves [None],
    and raises [TypeError]. *)
Definition sorted_items (groups : list (json * list pydict))
    : result (list (json * list pydict)) :=
  if (length groups <=? 1)%nat then inr groups
  else if forallb (fun g => is_str g.1) groups || forallb (fun g => is_number g.1) groups
  then inr (sorted_by (fun g h => key_leb g.1 h.1) groups)
  else inl TypeError.

(** [cols]: the keys of the edges of a group, each once, sorted. *)
Definition all_keys (rel_edges : list pydict) : list string :=
  remove_dups (concat (map (map fst) rel_edges)).

Definition edge_cols (rel_edges : list pydict) : list string :=
  sorted_by String.leb (all_keys rel_edges).

(** [f"edges_{rel_type.lower()}.csv"], in the writer and in the loader. *)
Definition edge_file_name (rel_type : string) : string :=
  "edges_" +:+ Str.lower rel_type +:+ ".csv".

(** The loop that writes the edge files: [rel_type.lower()] raises
    [AttributeError] when the key is not a text, and a file operation that
    fails ends the loop. *)
Fixpoint write_edge_files (fs : file_system) (items : list (json * list pydict))
    (dir : directory) : (writer_exn + unit) * directory :=
  match items with
  | [] => (inr tt, dir)
  | (JStr rel_type, rel_edges) :: rest =>
      match _write_csv fs (edge_file_name rel_type) (edge_cols rel_edges) rel_edges dir with
      | (inl e, dir) => (inl (FileExn e), dir)
      | (inr _, dir) => write_edge_files fs rest dir
      end
  | _ :: _ => (inl (PyExn AttributeError), dir)
  end.

Section Writer.

(** [d.values()]: the values of a dict in the order of insertion, which the
    registries of the model do not keep. *)
Variable py_values : gmap string pydict -> list pydict.

(** The calls of [_write_csv] for the node files, one after the other: the
    first that raises ends them. *)
Fixpoint write_node_files (fs : file_system) (st : extractor)
    (files : list (string * list string * (extractor -> gmap string pydict)))
    (dir : directory) : (file_error + unit) * directory :=
  match files with
  | [] => (inr tt, dir)
  | f :: rest =>
      match _write_csv fs f.1.1 f.1.2 (py_values (f.2 st)) dir with
      | (inl e, dir) => (inl e, dir)
      | (inr _, dir) => write_node_files fs st rest dir
      end
  end.

(** [write_csvs]: the output directory is made, then the fourteen node
    files are written, then one file for each type of edge; returns
    [edges_by_type].  The directory is the one that the call leaves, also
    when it raises. *)
Definition write_csvs (fs : file_system) (st : extractor) (dir : directory)
    : (writer_exn + list (json * list pydict)) * directory :=
  if can_mkdir fs then
    match write_node_files fs st node_files dir with
    | (inl e, dir) => (inl (FileExn e), dir)
    | (inr _, dir) =>
        match edges_by_type (edges st) with
        | inl err => (inl (PyExn err), dir)
        | inr groups =>
            match sorted_items groups with
            | inl err => (inl (PyExn err), dir)
            | inr items =>
                match write_edge_files fs items dir with
                | (inl e, dir) => (inl e, dir)
                | (inr _, dir) => (inr groups, dir)
                end
            end
        end
    end
  else (inl (FileExn MkdirError), dir).

End Writer.

(** ** [loader.py]: the batches *)

Definition BATCH_SIZE : nat := 1000.

(** [range(0, stop, step)] for a positive [step]. *)
Definition py_range (stop step : nat) : list nat :=
  map (fun k => k * step) (seq 0 ((stop + step - 1) / step)).

(** [rows[i:j]] for [i <= j]. *)
Definition slice {A} (i j : nat) (rows : list A) : list A := take (j - i) (drop i rows).

(** The batches of the loop
    [for i in range(0, len(rows), BATCH_SIZE): batch = rows[i:i + BATCH_SIZE]]. *)
Definition batches {A} (rows : list A) : list (list A) :=
  map (fun i => slice i (i + BATCH_SIZE) rows) (py_range (length rows) BATCH_SIZE).

(** The Cypher text of a query is determined by the names that the loader
    puts in it: the model keeps these. *)
Inductive query : Type :=
| MergeNodes (label key_prop : string) (set_props : list string)
| MergeEdges (rel_type from_label from_prop to_label to_prop : string)
    (set_props : list string).

(** [_load_node_csv]: the calls [session.run(query, rows=batch)] in order,
    and the count that is printed; [rows] is what [csv.DictReader] reads
    from the file, [None] when the file does not exist. *)
Definition _load_node_csv (file : option (list pydict)) (label key_prop : string)
    (other_props : list string) : list (query * list pydict) * option nat :=
  match file with
  | None => ([], None)
  | Some rows =>
      (map (fun batch => (MergeNodes label key_prop other_props, batch)) (batches rows),
       Some (list_sum (map (@length pydict) (batches rows))))
  end.

Definition skip_cols : list string :=
  [ "type"; "from_label"; "from_key"; "to_label"; "to_key"; "from_id"; "to_id" ].

(** [_load_edge_csv]: nothing is sent for a file without rows; the
    properties that are set are the columns of the first row that are not in
    [skip_cols]. *)
Definition _load_edge_csv (rows : list pydict)
    (rel_type from_label from_prop to_label to_prop : string)
    : list (query * list pydict) * option nat :=
  match rows with
  | [] => ([], None)
  | sample :: _ =>
      let extra_props :=
        List.filter (fun k => negb (bool_decide (k ∈ skip_cols))) (map fst sample) in
      (map (fun batch =>
              (MergeEdges rel_type from_label from_prop to_label to_prop extra_props, batch))
           (batches rows),
       Some (list_sum (map (@length pydict) (batches rows))))
  end.

(** *** Vocabulary of the statements about the files *)

(** The list under the key [k] of [edges_by_type], empty when no edge has
    had that type. *)
Fixpoint group_get (k : json) (groups : list (json * list pydict)) : list pydict :=
  match groups with
  | [] => []
  | (k', l) :: r => if key_eqb k' k then l else group_get k r
  end.

(** The edges have a text as type. *)
Definition typed (es : list pydict) : Prop :=
  Forall (fun e => exists ty, Py.dict_get "type" e = Some (JStr ty)) es.

(** The groups of the edges [es]: one for each type that some edge has,
    holding the edges of that type in their order. *)
Definition grouped (es : list pydict) (groups : list (json * list pydict)) : Prop :=
  List.NoDup (map fst groups) /\
  (forall k l, In (k, l) groups <->
     exists ty, k = JStr ty /\ l = edges_of_type ty es /\ l <> []) /\
  list_sum (map (fun g => length g.2) groups) = length es.

(** ** [daphne_direct_mapping.py]: the export *)

(** What ends [export_csvs] early: a line that [json.loads] does not parse,
    an exception of the extractor or of the writer, or a file operation of
    the writer that fails. *)
Inductive export_exn : Type :=
| JSONDecodeError
| Raised (e : exn)
| FileError (e : file_error).

(** The statistics that [export_csvs] prints. *)
Record statistics : Type := {
  record_count : nat;
  n_nations : nat;
  n_disciplines : nat;
  n_institutions : nat;
  n_persons : nat;
  n_factoids : nat;
  n_edges : nat;
  edges_detail : list (json * nat)
}.

(** [NotFound]: the dataset does not exist, and the function returns after
    the message. *)
Inductive export_result : Type :=
| NotFound
| Failed (e : export_exn)
| Exported (s : statistics).

Section ExportModel.

Variable py_repr : json -> string.
Variable py_hash : string -> Z.
Variable ligature_oe : string.
Variable py_values : gmap string pydict -> list pydict.

(** [json.loads(line)], [None] when it raises [JSONDecodeError]. *)
Variable json_loads : string -> option json.

(** The loop over the lines of the dataset: a blank line is skipped, any
    other line is parsed and processed, and counted when the extractor
    returns; an exception ends the loop. *)
Fixpoint read_lines (lines : list string) (record_count : nat) (st : extractor)
    : (export_exn + nat) * extractor :=
  match lines with
  | [] => (inr record_count, st)
  | line :: rest =>
      let line := Str.strip line in
      if Str.is_empty line then read_lines rest record_count st
      else
        match json_loads line with
        | None => (inl JSONDecodeError, st)
        | Some rec =>
            match process_record py_repr py_hash ligature_oe rec st with
            | (inl e, st) => (inl (Raised e), st)
            | (inr _, st) => read_lines rest (S record_count) st
            end
        end
  end.

(** [export_csvs]: [jsonl] holds the lines of the dataset, [None] when the
    file does not exist (a file that exists is taken to be read to its end);
    [nations_txt] and [disciplines_txt] are the lists of the configuration
    directory.  The directory is the one that the call leaves. *)
Definition export_csvs (fs : file_system)
    (jsonl nations_txt disciplines_txt : option (list string))
    (dir : directory) : export_result * directory :=
  match jsonl with
  | None => (NotFound, dir)
  | Some lines =>
      match read_lines lines 0 (init nations_txt disciplines_txt) with
      | (inl e, _) => (Failed e, dir)
      | (inr count, st) =>
          match write_csvs py_values fs st dir with
          | (inl (PyExn e), dir) => (Failed (Raised e), dir)
          | (inl (FileExn e), dir) => (Failed (FileError e), dir)
          | (inr groups, dir) =>
              match sorted_items groups with
              | inl e => (Failed (Raised e), dir)
              | inr items =>
                  (Exported {| record_count := count;
                               n_nations := cls_count st "nation";
                               n_disciplines := cls_count st "discipline";
                               n_institutions := cls_count st "institution";
                               n_persons := size (persons st);
                               n_factoids := size (factoids st);
                               n_edges := length (edges st);
                               edges_detail := map (fun g => (g.1, length g.2)) items |},
                   dir)
              end
          end
      end
  end.

End ExportModel.

(** * Properties *)

(** ** Strings *)

Lemma length_append (a b : string) :
  String.length (a +:+ b) = String.length a + String.length b.
Proof. induction a as [|c a IH]; simpl; [reflexivity | now rewrite IH]. Qed.

Lemma is_empty_true (s : string) : Str.is_empty s = true <-> s = "".
Proof. destruct s; simpl; split; congruence. Qed.

Lemma is_empty_false (s : string) : Str.is_empty s = false <-> s <> "".
Proof. destruct s; simpl; split; congruence. Qed.

Lemma nonempty_Some (o : option string) (s : string) :
  nonempty o = Some s <-> o = Some s /\ s <> "".
Proof.
  destruct o as [t|]; simpl; [|split; [discriminate | intros [? _]; discriminate]].
  destruct t; simpl; split.
  - discriminate.
  - intros [[= <-] H]. now destruct H.
  - intros [= <-]. split; [reflexivity | discriminate].
  - intros [[= <-] _]. reflexivity.
Qed.

Lemma length_lstrip_by (p : ascii -> bool) (s : string) :
  String.length (Str.lstrip_by p s) <= String.length s.
Proof. induction s as [|c s IH]; simpl; [lia|]. destruct (p c); simpl; lia. Qed.

Lemma length_rstrip_by (p : ascii -> bool) (s : string) :
  String.length (Str.rstrip_by p s) <= String.length s.
Proof.
  induction s as [|c s IH]; simpl; [lia|].
  destruct (p c && Str.is_empty (Str.rstrip_by p s)); simpl; lia.
Qed.

Lemma length_strip (s : string) : String.length (Str.strip s) <= String.length s.
Proof.
  unfold Str.strip. etransitivity; [apply length_rstrip_by | apply length_lstrip_by].
Qed.

Lemma length_drop_last (s : string) :
  s <> "" -> S (String.length (Str.drop_last s)) = String.length s.
Proof.
  induction s as [|c s IH]; [congruence|]. intros _. destruct s as [|d s]; [reflexivity|].
  simpl in *. rewrite IH; [reflexivity | discriminate].
Qed.

(** The loop of [clean_institution] that drops closing punctuation stops
    within [length n] turns: what [drop_closing] returns is empty or ends with
    a character that the loop keeps. *)
Lemma drop_closing_done (fuel : nat) (n : string) :
  String.length n <= fuel ->
  match Str.last_char (TextCleaner.drop_closing fuel n) with
  | Some c => TextCleaner.closing c = false
  | None => True
  end.
Proof.
  revert n. induction fuel as [|fuel IH]; intros n Hn.
  - destruct n; [exact I | simpl in Hn; lia].
  - simpl. destruct (Str.last_char n) as [c|] eqn:El; [|now rewrite El].
    destruct (TextCleaner.closing c) eqn:Ec; [|now rewrite El].
    apply IH. assert (Hne : n <> "") by (intros ->; discriminate).
    pose proof (length_drop_last n Hne). pose proof (length_strip (Str.drop_last n)). lia.
Qed.

(** ** The state of the extractor after an assignment *)

Lemma setdefault_idem {V} (k : string) (v : V) (m : gmap string V) :
  setdefault k v (setdefault k v m) = setdefault k v m.
Proof.
  unfold setdefault. destruct (m !! k) eqn:E; [now rewrite E|].
  now rewrite lookup_insert_eq.
Qed.

Lemma setdefault_lookup {V} (k : string) (v : V) (m : gmap string V) :
  setdefault k v m !! k = Some (default v (m !! k)).
Proof.
  unfold setdefault. destruct (m !! k) eqn:E; simpl; [exact E|].
  apply lookup_insert_eq.
Qed.

Lemma setdefault_lookup_ne {V} (k k' : string) (v : V) (m : gmap string V) :
  k <> k' -> setdefault k v m !! k' = m !! k'.
Proof.
  intros H. unfold setdefault. destruct (m !! k); [reflexivity|].
  now apply lookup_insert_ne.
Qed.

Lemma setdefault_is_Some {V} (k k' : string) (v : V) (m : gmap string V) :
  is_Some (m !! k') -> is_Some (setdefault k v m !! k').
Proof.
  intros H. destruct (decide (k = k')) as [->|Hne].
  - rewrite setdefault_lookup. eauto.
  - now rewrite setdefault_lookup_ne.
Qed.

Lemma setdefault_present {V} (k : string) (v w : V) (m : gmap string V) :
  m !! k = Some w -> setdefault k v m = m.
Proof. intros H. unfold setdefault. now rewrite H. Qed.

Section Properties.

Variable py_repr : json -> string.
Variable py_hash : string -> Z.
Variable ligature_oe : string.

Local Abbreviation endpoint := (endpoint py_repr).
Local Abbreviation time_entry := (time_entry py_repr).
Local Abbreviation _get_time_id := (_get_time_id py_repr).

Lemma _get_time_id_entry (start end_ sq eq_ : json) (st : extractor) :
  _get_time_id start end_ sq eq_ st =
  match time_entry start end_ sq eq_ with
  | inl e => (inl e, st)
  | inr None => (inr None, st)
  | inr (Some (k, node)) => (inr (Some k), set_times (setdefault k node) st)
  end.
Proof.
  unfold _get_time_id, time_entry, endpoint.
  destruct (Str.is_empty _ && Str.is_empty _); [reflexivity|].
  destruct (negb _ && negb _ && negb _).
  - unfold bind, lift, modify, ret.
    destruct (qualifier_tag (if negb (Py.eq_str sq "SIMPLE") then sq else JStr ""));
      simpl; [reflexivity|].
    destruct (qualifier_tag (if negb (Py.eq_str eq_ "SIMPLE") then eq_ else JStr ""));
      reflexivity.
  - destruct (negb _); unfold bind, lift, modify, ret.
    + destruct (qualifier_tag (if negb (Py.eq_str sq "SIMPLE") then sq else JStr ""));
        reflexivity.
    + destruct (qualifier_tag (if negb (Py.eq_str eq_ "SIMPLE") then eq_ else JStr ""));
        reflexivity.
Qed.

Lemma set_times_idem (k : string) (node : pydict) (st : extractor) :
  set_times (setdefault k node) (set_times (setdefault k node) st)
  = set_times (setdefault k node) st.
Proof. unfold set_times; simpl. now rewrite setdefault_idem. Qed.

Lemma qualifier_tag_listed (q : string) :
  In q QUALIFIERS -> qualifier_tag (JStr q) = inr ("_" +:+ q) /\ Py.eq_str (JStr q) "SIMPLE" = false.
Proof.
  simpl. intros [<-|[<-|[<-|[]]]]; split; reflexivity.
Qed.

Lemma qualifier_tag_str (q : string) :
  qualifier_tag (if negb (Py.eq_str (JStr q) "SIMPLE") then JStr q else JStr "")
  = inr (if String.eqb q "SIMPLE" || Str.is_empty q then "" else "_" +:+ q).
Proof.
  simpl. destruct (String.eqb q "SIMPLE"); simpl; [reflexivity|].
  unfold qualifier_tag; simpl. now destruct q.
Qed.

Lemma time_entry_str (start end_ : json) (sq eq_ : string) :
  Str.is_empty (endpoint start) && Str.is_empty (endpoint end_) = false ->
  exists k node, time_entry start end_ (JStr sq) (JStr eq_) = inr (Some (k, node)).
Proof.
  intros H. unfold time_entry. rewrite H, !qualifier_tag_str.
  destruct (negb _ && negb _ && negb _); [simpl; eauto|].
  destruct (negb _); simpl; eauto.
Qed.

(** C1 (amended).  With string qualifiers and at least one non-blank
    endpoint, [_get_time_id] returns a key that depends on its four arguments
    only, not on the extractor; resolving the same tuple again returns the
    same key and leaves the extractor as the first call left it, with one
    Time node under that key.  Against the key of the same endpoints with
    both qualifiers SIMPLE, the key changes when BEFORE, AFTER or NEAR
    replaces the start qualifier and the start is non-blank, and when it
    replaces the end qualifier and the end is non-blank and is the second
    endpoint of an interval or the only endpoint.  The qualifier of an
    endpoint that does not enter the key changes nothing: when the start is
    non-blank and the end is blank or equal to it, the call does the same
    whatever the end qualifier, and when the start is blank it does the same
    whatever the start qualifier. *)
Theorem time_key_deterministic (start end_ : json) (sq eq_ : string) (st : extractor) :
  Str.is_empty (endpoint start) && Str.is_empty (endpoint end_) = false ->
  let resolve := _get_time_id start end_ (JStr sq) (JStr eq_) in
  (exists k node,
      (forall st', fst (resolve st') = inr (Some k)) /\
      times (snd (resolve st)) !! k = Some (default node (times st !! k)) /\
      resolve (snd (resolve st)) = (inr (Some k), snd (resolve st))) /\
  (forall q, existsb (String.eqb q) QUALIFIERS = true ->
      let simple := JStr "SIMPLE" in
      let key a b := fst (_get_time_id start end_ a b st) in
      (Str.is_empty (endpoint start) = false ->
         key (JStr q) simple <> key simple simple) /\
      (Str.is_empty (endpoint end_) = false ->
       Str.is_empty (endpoint start) || negb (String.eqb (endpoint start) (endpoint end_)) = true ->
         key simple (JStr q) <> key simple simple)) /\
  (forall a b b' st',
      Str.is_empty (endpoint start) = false ->
      Str.is_empty (endpoint end_) || String.eqb (endpoint start) (endpoint end_) = true ->
      _get_time_id start end_ a b st' = _get_time_id start end_ a b' st') /\
  (forall a a' b st',
      Str.is_empty (endpoint start) = true ->
      _get_time_id start end_ a b st' = _get_time_id start end_ a' b st').
Proof.
  intros Hne resolve. split; [|split; [|split]].
  - destruct (time_entry_str start end_ sq eq_ Hne) as (k & node & E).
    exists k, node. subst resolve. split; [|split].
    + intros st'. now rewrite _get_time_id_entry, E.
    + rewrite _get_time_id_entry, E. simpl. apply setdefault_lookup.
    + rewrite !_get_time_id_entry, E. simpl. now rewrite set_times_idem.
  - intros q Hq simple key.
    assert (Hq' : String.eqb q "SIMPLE" || Str.is_empty q = false).
    { apply existsb_exists in Hq as (x & Hx & Hqx).
      apply String.eqb_eq in Hqx. subst x.
      simpl in Hx. destruct Hx as [<-|[<-|[<-|[]]]]; reflexivity. }
    subst key simple.
    split.
    + intros Hs. rewrite !_get_time_id_entry. unfold time_entry.
      rewrite Hne, Hs, !qualifier_tag_str, Hq'.
      change (String.eqb "SIMPLE" "SIMPLE" || Str.is_empty "SIMPLE") with true.
      cbn [negb andb rbind].
      destruct (negb (Str.is_empty (endpoint end_)) && negb (endpoint start =? endpoint end_)%string);
        cbn [rbind fst]; intros H; apply (f_equal result_key_length) in H;
        cbn [result_key_length] in H; rewrite ?length_append in H; simpl in H;
        rewrite ?length_append in H; lia.
    + intros He Hse. rewrite !_get_time_id_entry. unfold time_entry.
      rewrite Hne, He, !qualifier_tag_str, Hq'.
      change (String.eqb "SIMPLE" "SIMPLE" || Str.is_empty "SIMPLE") with true.
      destruct (Str.is_empty (endpoint start)) eqn:Es; cbn [negb andb orb rbind fst] in Hse |- *.
      * intros H; apply (f_equal result_key_length) in H;
        cbn [result_key_length] in H; rewrite ?length_append in H; simpl in H;
        rewrite ?length_append in H; lia.
      * rewrite Hse. cbn [rbind fst]. intros H; apply (f_equal result_key_length) in H;
        cbn [result_key_length] in H; rewrite ?length_append in H; simpl in H;
        rewrite ?length_append in H; lia.
  - intros a b b' st' Hs Hse. rewrite !_get_time_id_entry. unfold time_entry.
    rewrite Hs. cbn [andb negb].
    destruct (Str.is_empty (endpoint end_)); cbn [negb andb orb] in Hse |- *;
      [reflexivity|]. now rewrite Hse.
  - intros a a' b st' Hs. rewrite !_get_time_id_entry. unfold time_entry.
    rewrite Hs. cbn [andb negb]. reflexivity.
Qed.

(** ** Persons *)

Lemma set_persons_same (f : gmap string pydict -> gmap string pydict) (st : extractor) :
  f (persons st) = persons st -> set_persons f st = st.
Proof. intros H. destruct st; unfold set_persons; simpl in *. now rewrite H. Qed.

Lemma set_persons_compose (f g : gmap string pydict -> gmap string pydict) (st : extractor) :
  set_persons f (set_persons g st) = set_persons (fun m => f (g m)) st.
Proof. reflexivity. Qed.

Lemma set_persons_ext (f g : gmap string pydict -> gmap string pydict) (st : extractor) :
  f (persons st) = g (persons st) -> set_persons f st = set_persons g st.
Proof. intros H. unfold set_persons. now rewrite H. Qed.

Lemma fill_person_field_blank (name field : string) (v : json) (st : extractor) :
  Py.truthy v = false -> fill_person_field name field v st = (inr tt, st).
Proof. intros H. unfold fill_person_field. now rewrite H. Qed.

Lemma fill_person_field_node (name field : string) (v old : json) (p : pydict)
    (st : extractor) :
  persons st !! name = Some p -> Py.dict_get field p = Some old ->
  fill_person_field name field v st
  = (inr tt, set_persons <[name := Py.dict_set field (fill old v) p]> st).
Proof.
  intros Hp Hf.
  assert (Hsame : Py.dict_set field old p = p).
  { clear Hp. induction p as [|[k w] p IH]; simpl in *; [discriminate|].
    destruct (String.eqb field k); [now injection Hf as ->|].
    now rewrite IH. }
  unfold fill_person_field, fill.
  destruct (Py.truthy v) eqn:Ev; simpl.
  - cbv [bind person_field gets when modify ret lift].
    rewrite Hp, Hf. cbn [andb].
    destruct (Py.truthy old); cbn [negb]; f_equal.
    + symmetry. apply set_persons_same. rewrite Hsame. now apply insert_id.
    + apply set_persons_ext. apply map_eq. intros k.
      destruct (decide (name = k)) as [<-|Hne].
      * now rewrite lookup_alter_eq, lookup_insert_eq, Hp.
      * now rewrite lookup_alter_ne, lookup_insert_ne.
  - unfold ret. f_equal. symmetry. apply set_persons_same.
    rewrite Hsame. now apply insert_id.
Qed.

(** C3.  The first mention of a person key creates the Person node with the
    fields supplied.  A later mention of a key whose node exists replaces a
    field among genre, short description and status only if that field is
    blank and the mention supplies a value; a populated field and the person
    type are kept.  So a mention supplying only a gender followed by one
    supplying only a status leaves a node carrying both, and a mention
    supplying nothing leaves the extractor as it was. *)
Theorem add_person_first_non_empty_wins (name person_type : string)
    (genre shortdesc status : json) (st : extractor) :
  (persons st !! name = None ->
     _add_person name genre shortdesc person_type status st
     = (inr name,
        set_persons <[name := person_node name shortdesc genre person_type status]> st)) /\
  (forall sd0 g0 pt0 s0,
     persons st !! name = Some (person_node name sd0 g0 pt0 s0) ->
     _add_person name genre shortdesc person_type status st
     = (inr name,
        set_persons <[name := person_node name (fill sd0 shortdesc) (fill g0 genre)
                                 pt0 (fill s0 status)]> st)) /\
  (persons st !! name = None ->
   Py.truthy genre = true -> Py.truthy status = true ->
     let blank := JStr "" in
     let st1 := snd (_add_person name genre blank person_type blank st) in
     let st2 := snd (_add_person name blank blank person_type status st1) in
     persons st2 !! name = Some (person_node name blank genre person_type status) /\
     _add_person name blank blank person_type blank st2 = (inr name, st2)).
Proof.
  assert (Hlater : forall g sd s sd0 g0 pt0 s0 (x : extractor),
    persons x !! name = Some (person_node name sd0 g0 pt0 s0) ->
    _add_person name g sd person_type s x
    = (inr name,
       set_persons <[name := person_node name (fill sd0 sd) (fill g0 g) pt0 (fill s0 s)]> x)).
  { intros g sd s sd0 g0 pt0 s0 x Hp. unfold _add_person.
    unfold bind at 1. unfold modify at 1.
    rewrite (set_persons_same _ x) by (now apply (setdefault_present _ _ _ _ Hp)).
    unfold bind at 1.
    rewrite (fill_person_field_node name "genre" g g0 _ x Hp eq_refl).
    unfold bind at 1.
    erewrite (fill_person_field_node name "shortdesc" sd sd0);
      [|simpl; apply lookup_insert_eq|reflexivity].
    unfold bind at 1.
    erewrite (fill_person_field_node name "status" s s0);
      [|simpl; apply lookup_insert_eq|reflexivity].
    unfold ret. f_equal. rewrite !set_persons_compose.
    apply set_persons_ext. now rewrite !insert_insert_eq. }
  assert (Hfirst : forall g sd s (x : extractor),
    persons x !! name = None ->
    _add_person name g sd person_type s x
    = (inr name, set_persons <[name := person_node name sd g person_type s]> x)).
  { intros g sd s x Hp. unfold _add_person.
    unfold bind at 1. unfold modify at 1.
    assert (Hnode : persons (set_persons (setdefault name (person_node name sd g person_type s)) x)
                      !! name = Some (person_node name sd g person_type s)).
    { simpl. rewrite setdefault_lookup, Hp. reflexivity. }
    unfold bind at 1.
    rewrite (fill_person_field_node name "genre" g g _ _ Hnode eq_refl).
    unfold bind at 1.
    erewrite (fill_person_field_node name "shortdesc" sd sd);
      [|simpl; apply lookup_insert_eq|reflexivity].
    unfold bind at 1.
    erewrite (fill_person_field_node name "status" s s);
      [|simpl; apply lookup_insert_eq|reflexivity].
    unfold ret. f_equal. rewrite !set_persons_compose.
    apply set_persons_ext. rewrite !insert_insert_eq.
    unfold setdefault. rewrite Hp. rewrite insert_insert_eq.
    unfold fill. simpl. now destruct (Py.truthy g), (Py.truthy sd), (Py.truthy s). }
  split; [intros; now apply Hfirst|]. split; [intros; now apply Hlater|].
  intros Hp Hg Hs blank st1 st2. subst st1 st2 blank.
  rewrite (Hfirst _ _ _ _ Hp). simpl snd.
  erewrite Hlater by (simpl; apply lookup_insert_eq). simpl snd.
  split.
  - simpl. rewrite lookup_insert_eq. unfold fill. simpl. now rewrite Hs.
  - erewrite Hlater by (simpl; apply lookup_insert_eq).
    f_equal. apply set_persons_same. simpl. unfold fill. simpl.
    now rewrite !insert_insert_eq.
Qed.

(** ** Classification of organisations *)

Lemma clean_institution_nonempty (raw cname : string) :
  TextCleaner.clean_institution raw = Some cname ->
  nonempty (TextCleaner.clean_institution raw) = Some cname.
Proof.
  intros H. rewrite H. unfold TextCleaner.clean_institution in H.
  destruct (Str.is_empty raw); [discriminate|].
  match type of H with
  | (if Str.is_empty ?n || _ then _ else _) = _ =>
      destruct (Str.is_empty n) eqn:En; simpl in H; [discriminate|];
      destruct (in_stop_words _); [discriminate|];
      injection H as <-; simpl; now rewrite En
  end.
Qed.

Lemma set_group_canon_idem (k v : string) (st : extractor) :
  set_group_canon (setdefault k v) (set_group_canon (setdefault k v) st)
  = set_group_canon (setdefault k v) st.
Proof. unfold set_group_canon; simpl. now rewrite setdefault_idem. Qed.

Lemma set_group_canon_same (f : gmap string string -> gmap string string) (st : extractor) :
  f (_group_canon st) = _group_canon st -> set_group_canon f st = st.
Proof. intros H. destruct st; unfold set_group_canon; simpl in *. now rewrite H. Qed.

Lemma _add_group_classified (raw cname c : string) (st : extractor) :
  TextCleaner.clean_institution raw = Some cname ->
  let low := Str.strip (Str.lower cname) in
  let display := default cname (_group_canon st !! low) in
  _entity_class st !! display = Some c ->
  _add_group raw st = (inr (Some display), set_group_canon (setdefault low cname) st).
Proof.
  intros Hc low display Hcl. unfold _add_group.
  rewrite (clean_institution_nonempty _ _ Hc).
  cbv [bind gets modify ret]. cbn [_entity_class set_group_canon].
  fold low. fold display. now rewrite Hcl.
Qed.

Lemma _add_group_new (raw cname : string) (st : extractor) :
  TextCleaner.clean_institution raw = Some cname ->
  let low := Str.strip (Str.lower cname) in
  let display := default cname (_group_canon st !! low) in
  let norm := TextCleaner.normalize_classification cname in
  let st0 := set_group_canon (setdefault low cname) st in
  _entity_class st !! display = None ->
  _add_group raw st =
  (inr (Some display),
   if bool_decide (norm ∈ _disciplines_set st) then
     set_domains (setdefault display [ ("domain_id", JStr display); ("name", JStr display) ])
       (set_entity_class <[display := "discipline"]> st0)
   else if bool_decide (norm ∈ _nations_set st) then
     set_groups (setdefault display (group_node display "nation"))
       (set_entity_class <[display := "nation"]> st0)
   else
     set_groups (setdefault display (group_node display "institution"))
       (set_entity_class <[display := "institution"]> st0)).
Proof.
  intros Hc low display norm st0 Hcl. unfold _add_group.
  rewrite (clean_institution_nonempty _ _ Hc).
  cbv [bind gets modify ret].
  cbn [_entity_class set_group_canon].
  fold low. fold display. rewrite Hcl. fold norm.
  change (_disciplines_set (set_group_canon (setdefault low cname) st))
    with (_disciplines_set st).
  change (_nations_set (set_group_canon (setdefault low cname) st))
    with (_nations_set st).
  destruct (bool_decide (norm ∈ _disciplines_set st)); [reflexivity|].
  destruct (bool_decide (norm ∈ _nations_set st)); reflexivity.
Qed.

(** C2.  For a raw name whose cleaning gives [cname], [_add_group] returns
    the canonical form (the first form seen with the same lower-case key) and
    never fails.  If that form is already classified, the classes and the
    Domain and Group nodes stay as they are.  Otherwise the normalized key of
    [cname] is looked up in the discipline set, then in the nation set, and
    the class recorded is discipline, nation, or by default institution (so
    discipline when the key is in both sets), with a Domain node for a
    discipline and a Group node otherwise.  Classifying the same name again
    returns the same canonical form and changes nothing. *)
Theorem add_group_classifies (raw cname : string) (st : extractor) :
  TextCleaner.clean_institution raw = Some cname ->
  let low := Str.strip (Str.lower cname) in
  let display := default cname (_group_canon st !! low) in
  let norm := TextCleaner.normalize_classification cname in
  let st' := snd (_add_group raw st) in
  fst (_add_group raw st) = inr (Some display) /\
  (forall c, _entity_class st !! display = Some c ->
     _entity_class st' = _entity_class st /\ domains st' = domains st
     /\ groups st' = groups st) /\
  (_entity_class st !! display = None ->
     _entity_class st' !! display
     = Some (classify (_disciplines_set st) (_nations_set st) norm) /\
     (norm ∈ _disciplines_set st ->
        _entity_class st' !! display = Some "discipline"
        /\ is_Some (domains st' !! display) /\ groups st' = groups st) /\
     (norm ∉ _disciplines_set st -> norm ∈ _nations_set st ->
        _entity_class st' !! display = Some "nation"
        /\ is_Some (groups st' !! display)) /\
     (norm ∉ _disciplines_set st -> norm ∉ _nations_set st ->
        _entity_class st' !! display = Some "institution"
        /\ is_Some (groups st' !! display))) /\
  _add_group raw st' = (inr (Some display), st') /\
  _entity_class (snd (_add_group raw st')) = _entity_class st'.
Proof.
  intros Hc low display norm st'.
  assert (Hagain : forall x : extractor,
            _group_canon x !! low = Some display ->
            is_Some (_entity_class x !! display) ->
            _add_group raw x = (inr (Some display), x)).
  { intros x Hcan [c Hcl].
    pose proof (_add_group_classified raw cname c x Hc) as H. cbv zeta in H.
    fold low in H. rewrite Hcan in H. simpl in H. rewrite (H Hcl). f_equal.
    apply set_group_canon_same. now apply (setdefault_present _ _ _ _ Hcan). }
  assert (Hcan : forall x : extractor,
            _group_canon x = setdefault low cname (_group_canon st) ->
            _group_canon x !! low = Some display).
  { intros x ->. apply setdefault_lookup. }
  destruct (_entity_class st !! display) as [c|] eqn:Hcl.
  - pose proof (_add_group_classified raw cname c st Hc Hcl) as H.
    fold low display in H. subst st'. rewrite H. cbn [fst snd].
    split; [reflexivity|]. split; [intros; now repeat split|].
    split; [discriminate|].
    rewrite Hagain; [now split| now apply Hcan |]. simpl. rewrite Hcl. eauto.
  - pose proof (_add_group_new raw cname st Hc Hcl) as H.
    fold low display norm in H. subst st'. rewrite H. cbn [fst snd].
    split; [reflexivity|]. split; [discriminate|].
    unfold classify.
    destruct (bool_decide_reflect (norm ∈ _disciplines_set st)) as [Hd|Hd];
      [|destruct (bool_decide_reflect (norm ∈ _nations_set st)) as [Hn|Hn]];
      cbn [_entity_class set_domains set_groups set_entity_class set_group_canon
           domains groups _group_canon];
      rewrite ?lookup_insert_eq, ?setdefault_lookup.
    all: split; [intros _; repeat split; eauto; try contradiction|].
    all: rewrite Hagain; [now split | now apply Hcan | ].
    all: simpl; rewrite lookup_insert_eq; eauto.
Qed.

(** ** Factoid identifiers *)

Lemma of_uint_pad (k : nat) (d : Decimal.uint) : N.of_uint (Py.pad_uint k d) = N.of_uint d.
Proof. induction k as [|k IH]; simpl; [reflexivity | exact IH]. Qed.

Lemma zfill_inj (w : nat) (n m : N) : Py.zfill w n = Py.zfill w m -> n = m.
Proof.
  unfold Py.zfill. intros H.
  apply (f_equal NilEmpty.uint_of_string) in H. rewrite !NilEmpty.usu in H.
  injection H as H. apply (f_equal N.of_uint) in H.
  now rewrite !of_uint_pad, !DecimalN.Unsigned.of_to in H.
Qed.

Lemma factoid_id_inj (i j : N) : factoid_id i = factoid_id j -> i = j.
Proof. unfold factoid_id. simpl. intros [= H]. now apply zfill_inj in H. Qed.

Lemma factoid_ids_succ (c : N) :
  factoid_ids (c + 1) = (factoid_ids c ++ [factoid_id (c + 1)])%list.
Proof.
  unfold factoid_ids. replace (N.to_nat (c + 1)) with (S (N.to_nat c)) by lia.
  rewrite seq_S, map_app. simpl. do 3 f_equal. lia.
Qed.

Lemma in_factoid_ids (c : N) (k : string) :
  In k (factoid_ids c) <-> exists i, (1 <= i <= c)%N /\ k = factoid_id i.
Proof.
  unfold factoid_ids. rewrite in_map_iff. split.
  - intros (n & <- & Hn). apply in_seq in Hn. exists (N.of_nat n). split; [lia | reflexivity].
  - intros (i & Hi & ->). exists (N.to_nat i). rewrite N2Nat.id. split; [reflexivity|].
    apply in_seq. lia.
Qed.

Lemma fresh_factoid_id (c : N) : ~ In (factoid_id (c + 1)) (factoid_ids c).
Proof.
  rewrite in_factoid_ids. intros (i & Hi & H). apply factoid_id_inj in H. lia.
Qed.

Lemma NoDup_factoid_ids (c : N) : List.NoDup (factoid_ids c).
Proof.
  unfold factoid_ids. apply Finite.Injective_map_NoDup_in; [|apply seq_NoDup].
  intros x y _ _ H. apply factoid_id_inj in H. lia.
Qed.

(** ** Runs of monadic code *)

Lemma evolves_refl (st : extractor) : evolves st st.
Proof.
  constructor; [tauto | exists []; now rewrite app_nil_r | lia | tauto].
Qed.

Lemma evolves_trans (a b c : extractor) : evolves a b -> evolves b c -> evolves a c.
Proof.
  intros [I1 [l1 E1] C1 [N1 D1]] [I2 [l2 E2] C2 [N2 D2]]. constructor.
  - tauto.
  - exists (l1 ++ l2)%list. now rewrite E2, E1, app_assoc.
  - lia.
  - split; congruence.
Qed.

Section Establishes.

Context (R : extractor -> extractor -> Prop).
Hypothesis R_refl : forall st, R st st.
Hypothesis R_trans : forall a b c, R a b -> R b c -> R a c.

Lemma establishes_ret {A} (a : A) : establishes R (ret a).
Proof. intros st. apply R_refl. Qed.

Lemma establishes_lift {A} (r : result A) : establishes R (lift r).
Proof. intros st. apply R_refl. Qed.

Lemma establishes_gets {A} (f : extractor -> A) : establishes R (gets f).
Proof. intros st. apply R_refl. Qed.

Lemma establishes_modify (f : extractor -> extractor) :
  (forall st, R st (f st)) -> establishes R (modify f).
Proof. intros H st. apply H. Qed.

Lemma establishes_bind {A B} (m : M A) (f : A -> M B) :
  establishes R m -> (forall a, establishes R (f a)) -> establishes R (bind m f).
Proof.
  intros Hm Hf st. unfold bind. specialize (Hm st).
  destruct (m st) as [[e|a] st1]; simpl in *; [exact Hm|].
  eapply R_trans; [exact Hm | apply Hf].
Qed.

Lemma establishes_when (b : bool) (m : M unit) :
  establishes R m -> establishes R (when b m).
Proof. intros H. destruct b; simpl; [exact H | apply establishes_ret]. Qed.

Lemma establishes_for_each {A} (l : list A) (body : A -> M unit) :
  (forall x, establishes R (body x)) -> establishes R (for_each l body).
Proof.
  intros H. induction l as [|x l IH]; simpl.
  - apply establishes_ret.
  - apply establishes_bind; [apply H | intros _; exact IH].
Qed.

End Establishes.

(** ** Calls keep the invariant *)

Lemma edges_of_type_app (ty : string) (es l : list pydict) :
  Forall (fun e => has_type ty e = false) l ->
  edges_of_type ty (es ++ l) = edges_of_type ty es.
Proof.
  intros H. unfold edges_of_type. rewrite List.filter_app.
  replace (List.filter (has_type ty) l) with (@nil pydict); [apply app_nil_r|].
  induction H as [|e l He _ IH]; simpl; [reflexivity | now rewrite He].
Qed.

Lemma evolves_intro (st st' : extractor) (l : list pydict) :
  edges st' = (edges st ++ l)%list -> Forall plain_edge l ->
  factoids st' = factoids st -> _factoid_counter st' = _factoid_counter st ->
  _nations_set st' = _nations_set st -> _disciplines_set st' = _disciplines_set st ->
  (inv st -> persons_ok (persons st')) ->
  (inv st -> canon_ok (_group_canon st')) ->
  (inv st -> class_ok st') -> (inv st -> domain_ok st') ->
  evolves st st'.
Proof.
  intros He Hl Hf Hc Hn Hd Hp Hcan Hcl Hdom.
  assert (H1 : edges_of_type "HAS_TYPE" (edges st') = edges_of_type "HAS_TYPE" (edges st)).
  { rewrite He. apply edges_of_type_app. eapply Forall_impl; [exact Hl|]. now intros e []. }
  assert (H2 : edges_of_type "REFER_TO" (edges st') = edges_of_type "REFER_TO" (edges st)).
  { rewrite He. apply edges_of_type_app. eapply Forall_impl; [exact Hl|]. now intros e []. }
  constructor; [|eauto|lia|tauto].
  intros I. pose proof I as [I1 I2 I3 I4 I5 _ _ _ _].
  constructor; rewrite ?H1, ?H2, ?Hf, ?Hc; auto.
Qed.

Lemma evolves_frame (st st' : extractor) (l : list pydict) :
  edges st' = (edges st ++ l)%list -> Forall plain_edge l ->
  factoids st' = factoids st -> _factoid_counter st' = _factoid_counter st ->
  _nations_set st' = _nations_set st -> _disciplines_set st' = _disciplines_set st ->
  persons st' = persons st -> _group_canon st' = _group_canon st ->
  _entity_class st' = _entity_class st ->
  (forall d, is_Some (domains st !! d) -> is_Some (domains st' !! d)) ->
  evolves st st'.
Proof.
  intros He Hl Hf Hc Hn Hd Hp Hcan Hcl Hdom.
  apply (evolves_intro st st' l); auto; intros [].
  - now rewrite Hp.
  - now rewrite Hcan.
  - unfold class_ok. now rewrite Hcl, Hn, Hd.
  - unfold domain_ok. rewrite Hcl. auto.
Qed.

Lemma has_type_edge (ty t a b x y : string) (extra : pydict) :
  has_type ty (edge t a b x y ++ extra) = String.eqb t ty.
Proof. reflexivity. Qed.

Lemma has_type_with_certainty (ty c t a b x y : string) :
  has_type ty (with_certainty c (edge t a b x y)) = String.eqb t ty.
Proof. unfold with_certainty. now destruct (Str.is_empty c). Qed.

Lemma plain_edge_with_certainty (c t a b x y : string) :
  String.eqb t "HAS_TYPE" = false -> String.eqb t "REFER_TO" = false ->
  plain_edge (with_certainty c (edge t a b x y)).
Proof. intros H1 H2. split; now rewrite has_type_with_certainty. Qed.

Lemma plain_edge_edge (t a b x y : string) (extra : pydict) :
  String.eqb t "HAS_TYPE" = false -> String.eqb t "REFER_TO" = false ->
  plain_edge (edge t a b x y ++ extra).
Proof. intros H1 H2. split; now rewrite has_type_edge. Qed.

(** An assignment to an attribute that the invariant does not read, and the
    appending of a plain edge. *)
Ltac frame :=
  intros ?;
  first
    [ eapply (evolves_frame _ _ []);
      [ simpl; symmetry; apply app_nil_r | constructor | reflexivity ..
      | simpl; auto using setdefault_is_Some ]
    | eapply (evolves_frame _ _ [_]);
      [ reflexivity
      | constructor; [|constructor];
        first [ apply plain_edge_with_certainty; reflexivity
              | apply (plain_edge_edge _ _ _ _ _ []); reflexivity
              | apply plain_edge_edge; reflexivity ]
      | reflexivity .. | simpl; auto ] ].

Lemma dict_set_is_Some (k f : string) (v : json) (p : pydict) :
  is_Some (Py.dict_get k p) -> is_Some (Py.dict_get k (Py.dict_set f v p)).
Proof.
  induction p as [|[k' w] p IH]; simpl; [intros []; discriminate|].
  destruct (String.eqb f k') eqn:E; simpl.
  - destruct (String.eqb k k'); eauto.
  - destruct (String.eqb k k'); eauto.
Qed.

Lemma evolves_persons (f : gmap string pydict -> gmap string pydict) (st : extractor) :
  (persons_ok (persons st) -> persons_ok (f (persons st))) ->
  evolves st (set_persons f st).
Proof.
  intros H. apply (evolves_intro _ _ []); try reflexivity.
  - simpl. symmetry. apply app_nil_r.
  - constructor.
  - intros []. now apply H.
  - now intros [].
  - now intros [].
  - now intros [].
Qed.

Lemma evo_ret {A} (a : A) : establishes evolves (ret a).
Proof. apply establishes_ret, evolves_refl. Qed.

Lemma evo_lift {A} (r : result A) : establishes evolves (lift r).
Proof. apply establishes_lift, evolves_refl. Qed.

Lemma evo_gets {A} (f : extractor -> A) : establishes evolves (gets f).
Proof. apply establishes_gets, evolves_refl. Qed.

Lemma evo_bind {A B} (m : M A) (f : A -> M B) :
  establishes evolves m -> (forall a, establishes evolves (f a)) ->
  establishes evolves (bind m f).
Proof. apply establishes_bind, evolves_trans. Qed.

Lemma evo_when (b : bool) (m : M unit) :
  establishes evolves m -> establishes evolves (when b m).
Proof. apply establishes_when, evolves_refl. Qed.

Lemma evo_for_each {A} (l : list A) (body : A -> M unit) :
  (forall x, establishes evolves (body x)) -> establishes evolves (for_each l body).
Proof. apply establishes_for_each; [apply evolves_refl | apply evolves_trans]. Qed.

Lemma evolves_fill_person_field (name fld : string) (v : json) :
  establishes evolves (fill_person_field name fld v).
Proof.
  unfold fill_person_field. destruct (Py.truthy v); [|apply evo_ret].
  apply evo_bind.
  - unfold person_field. intros st. cbv [bind gets]. simpl.
    destruct (persons st !! name) as [p|]; [|apply evolves_refl].
    destruct (Py.dict_get fld p); apply evolves_refl.
  - intros old. apply evo_when, establishes_modify. intros st.
    apply evolves_persons. intros Hok k p Hk.
    destruct (decide (name = k)) as [<-|Hne].
    + rewrite lookup_alter_eq in Hk. destruct (persons st !! name) as [q|] eqn:Eq; [|discriminate].
      injection Hk as <-. destruct (Hok _ _ Eq) as (? & ? & ?).
      repeat split; now apply dict_set_is_Some.
    + rewrite lookup_alter_ne in Hk by assumption. eauto.
Qed.

Lemma evolves_add_person (name : string) (genre shortdesc : json) (person_type : string)
    (status : json) :
  establishes evolves (_add_person name genre shortdesc person_type status).
Proof.
  unfold _add_person.
  repeat (apply evo_bind; [|intros _]);
    try apply evolves_fill_person_field; [|apply evo_ret].
  apply establishes_modify. intros st. apply evolves_persons. intros Hok k p Hk.
  destruct (decide (name = k)) as [<-|Hne].
  - rewrite setdefault_lookup in Hk. injection Hk as <-.
    destruct (persons st !! name) as [q|] eqn:Eq; simpl; [eauto|].
    repeat split; eexists; reflexivity.
  - rewrite setdefault_lookup_ne in Hk by assumption. eauto.
Qed.

Lemma normalize_same_key (a b : string) :
  Str.strip (Str.lower a) = Str.strip (Str.lower b) ->
  TextCleaner.normalize_classification a = TextCleaner.normalize_classification b.
Proof. unfold TextCleaner.normalize_classification. now intros ->. Qed.

Lemma evolves_add_group (raw_name : string) : establishes evolves (_add_group raw_name).
Proof.
  intros st. unfold _add_group.
  destruct (nonempty (TextCleaner.clean_institution raw_name)) as [cname|];
    [|apply evolves_refl].
  cbv [bind gets modify ret]. cbn [_entity_class set_group_canon].
  set (low := Str.strip (Str.lower cname)).
  set (display := default cname (_group_canon st !! low)).
  set (norm := TextCleaner.normalize_classification cname).
  assert (Hcanon : inv st -> canon_ok (setdefault low cname (_group_canon st))).
  { intros [_ _ _ _ _ _ Hcan _ _] k d Hk.
    destruct (decide (low = k)) as [<-|Hne].
    - rewrite setdefault_lookup in Hk. injection Hk as <-.
      destruct (_group_canon st !! low) as [d|] eqn:Ed; simpl; [eauto | reflexivity].
    - rewrite setdefault_lookup_ne in Hk by assumption. eauto. }
  assert (Hnorm : inv st -> TextCleaner.normalize_classification display = norm).
  { intros [_ _ _ _ _ _ Hcan _ _]. apply normalize_same_key. subst display.
    destruct (_group_canon st !! low) as [d|] eqn:Ed; simpl; [eauto | reflexivity]. }
  destruct (_entity_class st !! display) as [c|] eqn:Hcl.
  - apply (evolves_intro _ _ []); try reflexivity.
    + simpl. symmetry. apply app_nil_r.
    + constructor.
    + now intros [].
    + exact Hcanon.
    + now intros [].
    + now intros [].
  - change (_disciplines_set (set_group_canon (setdefault low cname) st))
      with (_disciplines_set st).
    change (_nations_set (set_group_canon (setdefault low cname) st))
      with (_nations_set st).
    assert (Hclass : forall c st',
              c = classify (_disciplines_set st) (_nations_set st) norm ->
              _entity_class st' = <[display := c]> (_entity_class st) ->
              _nations_set st' = _nations_set st ->
              _disciplines_set st' = _disciplines_set st ->
              inv st -> class_ok st').
    { intros c st' -> E En Ed I d c' Hd. rewrite E in Hd. rewrite En, Ed.
      destruct (decide (display = d)) as [<-|Hne].
      - rewrite lookup_insert_eq in Hd. injection Hd as <-. now rewrite (Hnorm I).
      - rewrite lookup_insert_ne in Hd by assumption. now apply (inv_class _ I). }
    unfold classify in Hclass.
    destruct (bool_decide (norm ∈ _disciplines_set st)) eqn:Bd;
      [|destruct (bool_decide (norm ∈ _nations_set st)) eqn:Bn].
    all: apply (evolves_intro _ _ []); try reflexivity;
      [ simpl; symmetry; apply app_nil_r | constructor | now intros []
      | exact Hcanon | eapply Hclass; reflexivity | ].
    all: intros I d Hd; simpl in Hd |- *.
    all: destruct (decide (display = d)) as [<-|Hne];
      [ rewrite lookup_insert_eq in Hd; try discriminate; rewrite setdefault_lookup; eauto
      | rewrite lookup_insert_ne in Hd by assumption ].
    all: try (apply setdefault_is_Some); now apply (inv_domain _ I).
Qed.

Lemma evolves_make_factoid (fiche_id : json) (ftype description original_text
    certainty : string) :
  establishes evolves (_make_factoid py_repr fiche_id ftype description original_text certainty).
Proof.
  intros st. unfold _make_factoid, _new_factoid_id. cbv [bind gets modify ret].
  cbn [_factoid_counter set_factoid_counter snd].
  set (fid := "F_" +:+ Py.zfill 6 (_factoid_counter st + 1)).
  change fid with (factoid_id (_factoid_counter st + 1)) in *.
  set (has := edge "HAS_TYPE" _ "Factoid" ftype "FactoidType").
  set (refer := edge "REFER_TO" _ "Source" _ "Factoid").
  assert (Hh : forall es, edges_of_type "HAS_TYPE" (append refer (append has es))
                          = (edges_of_type "HAS_TYPE" es ++ [has])%list).
  { intros es. unfold append, edges_of_type. now rewrite !List.filter_app, app_nil_r. }
  assert (Hr : forall es, edges_of_type "REFER_TO" (append refer (append has es))
                          = (edges_of_type "REFER_TO" es ++ [refer])%list).
  { intros es. unfold append, edges_of_type. now rewrite !List.filter_app, app_nil_r. }
  constructor; cbn [edges _factoid_counter _nations_set _disciplines_set set_edges
                    set_factoids set_factoid_counter].
  - intros [I1 I2 I3 I4 I5 I6 I7 I8 I9].
    pose proof (fresh_factoid_id (_factoid_counter st)) as Hfresh.
    constructor;
      cbn [edges _factoid_counter factoids persons _group_canon set_edges
           set_factoids set_factoid_counter];
      rewrite ?Hh, ?Hr, ?factoid_ids_succ, ?map_app; try assumption.
    + now rewrite I1.
    + now rewrite I2.
    + intros k. rewrite in_app_iff, <- I3. simpl.
      destruct (decide (factoid_id (_factoid_counter st + 1) = k)) as [<-|Hne].
      * rewrite lookup_insert_eq. split; eauto.
      * rewrite lookup_insert_ne by assumption. split; [tauto|]. intros [H|[H|[]]]; tauto.
    + apply Forall_app. split.
      * eapply Forall_impl; [exact I4|]. intros e (k & n & E1 & E2 & E3).
        exists k, n. split; [assumption|]. split; [|assumption].
        rewrite lookup_insert_ne; [assumption|]. intros <-.
        apply Hfresh, I3. eauto.
      * constructor; [|constructor]. eexists _, _. split; [reflexivity|].
        split; [apply lookup_insert_eq|]. split; reflexivity.
    + apply Forall_app. split; [assumption|]. now repeat constructor.
  - exists [has; refer]. unfold append. now rewrite <- app_assoc.
  - lia.
  - tauto.
Qed.

Lemma evolves_link_participant (fid person_name role rank : string) :
  establishes evolves (_link_participant fid person_name role rank).
Proof. unfold _link_participant. apply establishes_modify. frame. Qed.

Lemma evolves_link_place (fid place_name certainty : string) :
  establishes evolves (_link_place fid place_name certainty).
Proof.
  unfold _link_place. apply evo_bind; [|intros _]; apply establishes_modify; frame.
Qed.

Lemma evolves_link_group (fid group_name certainty : string) :
  establishes evolves (_link_group fid group_name certainty).
Proof.
  unfold _link_group. apply evo_bind; [apply evo_gets|]. intros classes. cbv zeta.
  destruct (String.eqb _ "discipline"); apply establishes_modify; frame.
Qed.

Lemma evolves_get_time_id (start end_ sq eq_ : json) :
  establishes evolves (_get_time_id start end_ sq eq_).
Proof.
  intros st. rewrite _get_time_id_entry.
  destruct (time_entry start end_ sq eq_) as [e|[[k node]|]]; simpl;
    try apply evolves_refl.
  revert st. frame.
Qed.

Lemma evolves_link_time (fid : string) (start end_ sq eq_ : json) :
  establishes evolves (_link_time py_repr fid start end_ sq eq_).
Proof.
  unfold _link_time. apply evo_bind; [apply evolves_get_time_id|]. intros t.
  destruct (nonempty t); [apply establishes_modify; frame | apply evo_ret].
Qed.

Lemma evolves_link_time_from_dates (fid : string) (dates : list pydict) :
  establishes evolves (_link_time_from_dates py_repr fid dates).
Proof.
  unfold _link_time_from_dates. destruct dates; [apply evo_ret | apply evolves_link_time].
Qed.

(** The rules above, applied along the structure of a method. *)
Ltac evo_step :=
  lazymatch goal with
  | |- establishes _ (ret _) => apply evo_ret
  | |- establishes _ (lift _) => apply evo_lift
  | |- establishes _ (gets _) => apply evo_gets
  | |- establishes _ (when _ _) => apply evo_when
  | |- establishes _ (for_each _ _) => apply evo_for_each; intros ?
  | |- establishes _ (bind _ _) => apply evo_bind; [|intros ?]
  | |- establishes _ (modify _) => apply establishes_modify; frame
  | |- establishes _ (_make_factoid _ _ _ _ _ _) => apply evolves_make_factoid
  | |- establishes _ (_add_group _) => apply evolves_add_group
  | |- establishes _ (_add_person _ _ _ _ _) => apply evolves_add_person
  | |- establishes _ (_link_participant _ _ _ _) => apply evolves_link_participant
  | |- establishes _ (_link_place _ _ _) => apply evolves_link_place
  | |- establishes _ (_link_group _ _ _) => apply evolves_link_group
  | |- establishes _ (_link_time _ _ _ _ _ _) => apply evolves_link_time
  | |- establishes _ (_link_time_from_dates _ _ _) => apply evolves_link_time_from_dates
  | |- establishes _ (match ?x with _ => _ end) => destruct x
  | |- _ => progress cbv beta zeta
  end.

Ltac evo :=
  unfold birth_place, diocese, university, grade, university_college, position,
    university_function, family_network, student_professor, production_domain,
    bib_item;
  unfold name_variant, date_factoid, link_places, link_groups, related_person, opus;
  repeat evo_step.

Lemma evolves_process_identity (rec : json) (source_id : string) :
  establishes evolves (_process_identity rec source_id).
Proof. unfold _process_identity. evo. Qed.

Lemma evolves_process_activity_dates (rec fiche_id : json) (person_name : string) :
  establishes evolves (_process_activity_dates py_repr rec fiche_id person_name).
Proof. unfold _process_activity_dates. evo. Qed.

Lemma evolves_process_life_dates (rec fiche_id : json) (person_name : string) :
  establishes evolves (_process_life_dates py_repr rec fiche_id person_name).
Proof. unfold _process_life_dates. evo. Qed.

Lemma evolves_process_origin (rec fiche_id : json) (person_name : string) :
  establishes evolves (_process_origin py_repr rec fiche_id person_name).
Proof. unfold _process_origin. evo. Qed.

Lemma evolves_process_curriculum (rec fiche_id : json) (person_name : string) :
  establishes evolves (_process_curriculum py_repr rec fiche_id person_name).
Proof. unfold _process_curriculum. evo. Qed.

Lemma evolves_process_ecclesiastical_career (rec fiche_id : json) (person_name : string) :
  establishes evolves (_process_ecclesiastical_career py_repr rec fiche_id person_name).
Proof. unfold _process_ecclesiastical_career. evo. Qed.

Lemma evolves_process_professional_career (rec fiche_id : json) (person_name : string) :
  establishes evolves (_process_professional_career py_repr rec fiche_id person_name).
Proof. unfold _process_professional_career. evo. Qed.

Lemma evolves_process_relationships (rec fiche_id : json) (person_name : string) :
  establishes evolves (_process_relationships py_repr rec fiche_id person_name).
Proof. unfold _process_relationships. evo. Qed.

Lemma evolves_process_production (rec fiche_id : json) (person_name : string) :
  establishes evolves (_process_production py_repr ligature_oe rec fiche_id person_name).
Proof. unfold _process_production. evo. Qed.

Lemma evolves_process_bibliography (rec fiche_id : json) :
  establishes evolves (_process_bibliography py_repr py_hash rec fiche_id).
Proof. unfold _process_bibliography. evo. Qed.

Lemma evolves_process_record (rec : json) :
  establishes evolves (process_record py_repr py_hash ligature_oe rec).
Proof.
  unfold process_record. apply evo_bind; [apply evo_lift|]. intros fiche_id. cbv zeta.
  apply evo_bind; [apply evolves_process_identity|]. intros person_name.
  destruct (nonempty person_name); [|apply evo_ret].
  repeat (apply evo_bind; [|intros _]).
  - apply evolves_process_activity_dates.
  - apply evolves_process_life_dates.
  - apply evolves_process_origin.
  - apply evolves_process_curriculum.
  - apply evolves_process_ecclesiastical_career.
  - apply evolves_process_professional_career.
  - apply evolves_process_relationships.
  - apply evolves_process_production.
  - apply evolves_process_bibliography.
Qed.

Lemma evolves_after_call (c : call) (st : extractor) :
  evolves st (after_call py_repr py_hash ligature_oe c st).
Proof.
  destruct c; simpl.
  - apply evolves_get_time_id.
  - apply evolves_add_group.
  - apply evolves_add_person.
  - apply evolves_make_factoid.
  - apply evolves_link_participant.
  - apply evolves_link_place.
  - apply evolves_link_group.
  - apply evolves_link_time.
  - apply evolves_link_time_from_dates.
  - apply evolves_process_record.
  - apply evolves_process_identity.
  - apply evolves_process_activity_dates.
  - apply evolves_process_life_dates.
  - apply evolves_process_origin.
  - apply evolves_process_curriculum.
  - apply evolves_process_ecclesiastical_career.
  - apply evolves_process_professional_career.
  - apply evolves_process_relationships.
  - apply evolves_process_production.
  - apply evolves_process_bibliography.
Qed.

Lemma evolves_after_calls (cs : list call) (st : extractor) :
  evolves st (after_calls py_repr py_hash ligature_oe cs st).
Proof.
  revert st. induction cs as [|c cs IH]; intros st; simpl.
  - apply evolves_refl.
  - eapply evolves_trans; [apply evolves_after_call | apply IH].
Qed.

Lemma inv_init (nations_txt disciplines_txt : option (list string)) :
  inv (init nations_txt disciplines_txt).
Proof.
  constructor; simpl.
  - reflexivity.
  - reflexivity.
  - intros k. split; [|intros []]. intros [? H]. rewrite lookup_empty in H. discriminate.
  - constructor.
  - constructor.
  - intros ? ? H. rewrite lookup_empty in H. discriminate.
  - intros ? ? H. rewrite lookup_empty in H. discriminate.
  - intros ? ? H. simpl in H. rewrite lookup_empty in H. discriminate.
  - intros ? H. simpl in H. rewrite lookup_empty in H. discriminate.
Qed.

Lemma inv_run (cs : list call) (nations_txt disciplines_txt : option (list string)) :
  inv (after_calls py_repr py_hash ligature_oe cs (init nations_txt disciplines_txt)).
Proof. apply (ev_inv _ _ (evolves_after_calls cs _)), inv_init. Qed.

(** ** Edges of a factoid *)

Lemma filter_key_none (f : pydict -> json) (l : list pydict) (ks : list string) (k : string) :
  map f l = map JStr ks -> ~ In k ks ->
  List.filter (fun e => Py.eq_str (f e) k) l = [].
Proof.
  revert ks. induction l as [|e l IH]; intros [|k0 ks] H Hk; simpl in *;
    try discriminate; [reflexivity|].
  injection H as He Hl. rewrite He. simpl.
  destruct (String.eqb_spec k0 k) as [->|_]; [tauto|]. apply (IH ks); tauto.
Qed.

Lemma filter_key_one (f : pydict -> json) (l : list pydict) (ks : list string) (k : string) :
  map f l = map JStr ks -> List.NoDup ks -> In k ks ->
  exists e, List.filter (fun e => Py.eq_str (f e) k) l = [e] /\ In e l.
Proof.
  revert ks. induction l as [|e l IH]; intros [|k0 ks] H Hnd Hk; simpl in *;
    try discriminate; [contradiction|].
  injection H as He Hl. rewrite He. simpl. inversion Hnd as [|? ? Hk0 Hnd']; subst.
  destruct (String.eqb_spec k0 k) as [->|Hne].
  - exists e. rewrite (filter_key_none f l ks k Hl Hk0). auto.
  - destruct Hk as [Hk|Hk]; [contradiction|].
    destruct (IH ks Hl Hnd' Hk) as (e' & E & Hin). eauto.
Qed.

Lemma factoid_ids_mono (c c' : N) (k : string) :
  (c <= c')%N -> In k (factoid_ids c) -> In k (factoid_ids c').
Proof. rewrite !in_factoid_ids. intros H (i & Hi & ->). exists i. split; [lia | reflexivity]. Qed.

Lemma typing_edges_inv (st : extractor) (fid : string) (node : pydict) :
  inv st -> factoids st !! fid = Some node ->
  exists has, typing_edges fid (edges st) = [has]
    /\ field "to_id" has = field "factoidtype" node
    /\ field "to_label" has = JStr "FactoidType".
Proof.
  intros I Hf. pose proof I as [I1 _ I3 I4 _ _ _ _ _].
  assert (Hin : In fid (factoid_ids (_factoid_counter st))) by (apply I3; eauto).
  destruct (filter_key_one _ _ _ fid I1 (NoDup_factoid_ids _) Hin) as (has & E & Hhas).
  exists has. split; [exact E|].
  rewrite Forall_forall in I4. destruct (I4 has) as (k & n & E1 & E2 & E3 & E4).
  { now apply list_elem_of_In. }
  assert (Hk : Py.eq_str (field "from_id" has) fid = true).
  { assert (Hm : In has (typing_edges fid (edges st))) by (unfold typing_edges; rewrite E; now left).
    apply List.filter_In in Hm. tauto. }
  rewrite E1 in Hk. simpl in Hk. apply String.eqb_eq in Hk. subst k.
  rewrite Hf in E2. injection E2 as <-. auto.
Qed.

Lemma provenance_edges_inv (st : extractor) (fid : string) :
  inv st -> is_Some (factoids st !! fid) ->
  exists refer, provenance_edges fid (edges st) = [refer]
    /\ field "from_label" refer = JStr "Source".
Proof.
  intros I Hf. pose proof I as [_ I2 I3 _ I5 _ _ _ _].
  assert (Hin : In fid (factoid_ids (_factoid_counter st))) by (now apply I3).
  destruct (filter_key_one _ _ _ fid I2 (NoDup_factoid_ids _) Hin) as (refer & E & Hr).
  exists refer. split; [exact E|].
  rewrite Forall_forall in I5. apply I5. now apply list_elem_of_In.
Qed.

Lemma make_factoid_run (fiche_id : json) (ftype description original_text certainty : string)
    (st : extractor) :
  let fid := factoid_id (_factoid_counter st + 1) in
  _make_factoid py_repr fiche_id ftype description original_text certainty st
  = (inr fid,
     set_edges (fun es => es ++ [ edge "HAS_TYPE" fid "Factoid" ftype "FactoidType";
                                  edge "REFER_TO" ("SRC_" +:+ py_str py_repr fiche_id) "Source"
                                       fid "Factoid" ])%list
       (set_factoids <[fid := factoid_node fid ftype certainty description original_text]>
          (set_factoid_counter (fun c => c + 1)%N st))).
Proof.
  unfold _make_factoid, _new_factoid_id. cbv [bind gets modify ret].
  cbn [_factoid_counter set_factoid_counter]. unfold factoid_id, set_edges, append. simpl.
  now rewrite <- app_assoc.
Qed.

(** C5.  [_make_factoid] appends exactly the HAS_TYPE edge of the new
    factoid and the REFER_TO edge from the Source of the record, whatever its
    arguments.  In every state of a run (the extractor built by [__init__]
    followed by any calls), every Factoid node has exactly one HAS_TYPE edge,
    which goes to the FactoidType named in the node, and exactly one REFER_TO
    edge, which comes from a Source; and after any further calls these are
    still the only two, the same edges. *)
Theorem factoid_edges_exactly_once (cs more : list call)
    (nations_txt disciplines_txt : option (list string)) (fid : string) (node : pydict) :
  let st := after_calls py_repr py_hash ligature_oe cs (init nations_txt disciplines_txt) in
  let st' := after_calls py_repr py_hash ligature_oe more st in
  factoids st !! fid = Some node ->
  (forall fiche_id ftype description original_text certainty x,
     let r := _make_factoid py_repr fiche_id ftype description original_text certainty x in
     exists new, fst r = inr new /\
       edges (snd r) =
       (edges x ++ [ edge "HAS_TYPE" new "Factoid" ftype "FactoidType";
                     edge "REFER_TO" ("SRC_" +:+ py_str py_repr fiche_id) "Source"
                          new "Factoid" ])%list) /\
  exists has refer,
    typing_edges fid (edges st) = [has] /\
    field "to_id" has = field "factoidtype" node /\
    field "to_label" has = JStr "FactoidType" /\
    provenance_edges fid (edges st) = [refer] /\
    field "from_label" refer = JStr "Source" /\
    typing_edges fid (edges st') = [has] /\
    provenance_edges fid (edges st') = [refer].
Proof.
  intros st st' Hf. split.
  { intros. subst r. rewrite make_factoid_run. eexists. split; reflexivity. }
  assert (I : inv st) by apply inv_run.
  pose proof (evolves_after_calls more st) as [I' [l El] Hc _]. fold st' in I', El, Hc.
  specialize (I' I).
  destruct (typing_edges_inv st fid node I Hf) as (has & E1 & E2 & E3).
  destruct (provenance_edges_inv st fid I) as (refer & E4 & E5); [eauto|].
  assert (Hf' : is_Some (factoids st' !! fid)).
  { apply (inv_factoids _ I'). apply (factoid_ids_mono _ _ _ Hc).
    apply (inv_factoids _ I). eauto. }
  destruct Hf' as [node' Hf'].
  destruct (typing_edges_inv st' fid node' I' Hf') as (has' & E1' & _).
  destruct (provenance_edges_inv st' fid I') as (refer' & E4' & _); [eauto|].
  exists has, refer. repeat (split; [assumption|]).
  unfold typing_edges, provenance_edges, edges_of_type in *.
  rewrite El, !List.filter_app in E1', E4'. rewrite E1 in E1'. rewrite E4 in E4'.
  rewrite El, !List.filter_app, E1, E4.
  injection E1' as <- E1'. injection E4' as <- E4'. now rewrite E1', E4'.
Qed.

(** C9.  In every state of a run the factoids created so far carry, in
    creation order (the order of their HAS_TYPE edges), the identifiers of
    the numbers 1, 2, ..., [_factoid_counter] with no gap; distinct numbers
    give distinct identifiers; every creation returns the identifier of the
    counter plus one, which no factoid carries yet, and moves the counter up
    by exactly one, so two creations with the same arguments give two
    factoids; and no later call lowers the counter. *)
Theorem factoid_ids_sequential (cs more : list call)
    (nations_txt disciplines_txt : option (list string)) :
  let st := after_calls py_repr py_hash ligature_oe cs (init nations_txt disciplines_txt) in
  map (field "from_id") (edges_of_type "HAS_TYPE" (edges st))
    = map JStr (factoid_ids (_factoid_counter st)) /\
  (forall k, is_Some (factoids st !! k) <-> In k (factoid_ids (_factoid_counter st))) /\
  (forall i j : N, i <> j -> factoid_id i <> factoid_id j) /\
  (forall fiche_id ftype description original_text certainty,
     let create := _make_factoid py_repr fiche_id ftype description original_text certainty in
     fst (create st) = inr (factoid_id (_factoid_counter st + 1)) /\
     factoids st !! factoid_id (_factoid_counter st + 1) = None /\
     is_Some (factoids (snd (create st)) !! factoid_id (_factoid_counter st + 1)) /\
     _factoid_counter (snd (create st)) = (_factoid_counter st + 1)%N /\
     fst (create (snd (create st))) = inr (factoid_id (_factoid_counter st + 2)) /\
     fst (create (snd (create st))) <> fst (create st)) /\
  (_factoid_counter st <= _factoid_counter (after_calls py_repr py_hash ligature_oe more st))%N.
Proof.
  intros st. assert (I : inv st) by apply inv_run.
  split; [apply (inv_has_type _ I)|]. split; [apply (inv_factoids _ I)|].
  split; [intros i j Hij H; now apply factoid_id_inj in H|].
  split; [|apply (ev_counter _ _ (evolves_after_calls more st))].
  intros. subst create. rewrite !make_factoid_run. cbn [fst snd].
  cbn [_factoid_counter factoids set_edges set_factoids set_factoid_counter].
  split; [reflexivity|]. split.
  { apply eq_None_not_Some. intros H. apply (inv_factoids _ I) in H.
    now apply fresh_factoid_id in H. }
  split; [rewrite lookup_insert_eq; eauto|]. split; [reflexivity|].
  replace (_factoid_counter st + 1 + 1)%N with (_factoid_counter st + 2)%N by lia.
  split; [reflexivity|]. intros [= H]. simpl in H. apply zfill_inj in H. lia.
Qed.

(** ** Routing of group edges *)

Lemma link_group_run (fid gname cert : string) (st : extractor) :
  _link_group fid gname cert st
  = (inr tt,
     set_edges (append (with_certainty cert
       (if String.eqb (default "institution" (_entity_class st !! gname)) "discipline"
        then edge "IN_DOMAIN" fid "Factoid" gname "Domain"
        else edge "AT_GROUP" fid "Factoid" gname "GroupP"))) st).
Proof. reflexivity. Qed.

(** C6.  [_link_group] appends exactly one edge and changes nothing else;
    the edge is an IN_DOMAIN edge to a Domain node when the recorded class of
    the name is discipline, and an AT_GROUP edge to a GroupP node for any
    other class and for a name with no recorded class.  In every state of a
    run, a raw name whose normalized key is in the discipline set is
    registered by [_add_group] with a Domain node, and the edge that
    [_link_group] then appends for it is the IN_DOMAIN edge. *)
Theorem link_group_routes (fid cert : string) :
  (forall gname st,
     exists e, _link_group fid gname cert st = (inr tt, set_edges (fun es => es ++ [e])%list st) /\
       (_entity_class st !! gname = Some "discipline" ->
          e = with_certainty cert (edge "IN_DOMAIN" fid "Factoid" gname "Domain")) /\
       (_entity_class st !! gname <> Some "discipline" ->
          e = with_certainty cert (edge "AT_GROUP" fid "Factoid" gname "GroupP"))) /\
  (forall cs nations_txt disciplines_txt raw cname,
     let st := after_calls py_repr py_hash ligature_oe cs (init nations_txt disciplines_txt) in
     TextCleaner.clean_institution raw = Some cname ->
     TextCleaner.normalize_classification cname ∈ _disciplines_set st ->
     exists display st1,
       _add_group raw st = (inr (Some display), st1) /\
       _entity_class st1 !! display = Some "discipline" /\
       is_Some (domains st1 !! display) /\
       _link_group fid display cert st1
       = (inr tt,
          set_edges (fun es => es ++ [with_certainty cert
                                        (edge "IN_DOMAIN" fid "Factoid" display "Domain")])%list
            st1)).
Proof.
  split.
  - intros gname st. eexists. split; [apply link_group_run|]. split.
    + now intros ->.
    + intros H. destruct (_entity_class st !! gname) as [c|]; [|reflexivity]. simpl.
      destruct (String.eqb_spec c "discipline") as [->|_]; [now destruct H | reflexivity].
  - intros cs nations_txt disciplines_txt raw cname st Hc Hd.
    assert (I : inv st) by apply inv_run.
    set (low := Str.strip (Str.lower cname)).
    set (display := default cname (_group_canon st !! low)).
    assert (Hclass : forall st1, _entity_class st1 !! display = Some "discipline" ->
              _link_group fid display cert st1
              = (inr tt,
                 set_edges (fun es => es ++ [with_certainty cert
                                               (edge "IN_DOMAIN" fid "Factoid" display "Domain")])%list
                   st1)).
    { intros st1 H. now rewrite link_group_run, H. }
    destruct (_entity_class st !! display) as [c|] eqn:Hcl.
    + pose proof (_add_group_classified raw cname c st Hc Hcl) as H.
      fold low display in H.
      assert (c = "discipline") as ->.
      { rewrite (inv_class _ I _ _ Hcl).
        replace (TextCleaner.normalize_classification display)
          with (TextCleaner.normalize_classification cname).
        - unfold classify. now rewrite bool_decide_eq_true_2.
        - apply normalize_same_key. subst display.
          destruct (_group_canon st !! low) as [d|] eqn:Ed; simpl; [|reflexivity].
          symmetry. apply (inv_canon _ I _ _ Ed). }
      exists display, (set_group_canon (setdefault low cname) st).
      split; [exact H|]. split; [exact Hcl|]. split; [apply (inv_domain _ I _ Hcl)|].
      now apply Hclass.
    + pose proof (_add_group_new raw cname st Hc Hcl) as H.
      fold low display in H. rewrite bool_decide_eq_true_2 in H by exact Hd.
      eexists display, _. split; [exact H|].
      assert (Hnew : forall x, _entity_class (set_domains x
                 (set_entity_class <[display := "discipline"]>
                    (set_group_canon (setdefault low cname) st))) !! display
               = Some "discipline") by (intros; simpl; apply lookup_insert_eq).
      split; [apply Hnew|]. split; [simpl; rewrite setdefault_lookup; eauto|].
      apply Hclass, Hnew.
Qed.

(** ** Records without a usable primary name *)

Arguments TextCleaner.clean_str : simpl never.
Arguments TextCleaner.clean_institution : simpl never.
Arguments TextCleaner.clean_person_name_str : simpl never.

Lemma clean_str_blank (s : string) :
  Str.is_empty (Str.strip s) = true -> TextCleaner.clean_str s = None.
Proof.
  intros H. apply is_empty_true in H. unfold TextCleaner.clean_str. now rewrite H.
Qed.

Lemma clean_str_stop_word (w : string) : In w STOP_WORDS -> TextCleaner.clean_str w = None.
Proof. simpl. intros [<-|[<-|[<-|[<-|[<-|[]]]]]]; reflexivity. Qed.

(** C4.  [clean] rejects a blank text and every stop word.  For a record
    that carries an identifier and whose primary name is unusable (the
    identity section, the name list, its first entry's value is missing, or
    the value is [None], blank or a stop word), [process_record] returns
    normally and the extractor is exactly what it was: no node, no edge, no
    counter step. *)
Theorem unusable_name_drops_record (rec : json) (st : extractor) :
  has_identifier rec = true -> unusable_primary_name rec = true ->
  (forall s, Str.is_empty (Str.strip s) = true -> TextCleaner.clean_str s = None) /\
  (forall w, In w STOP_WORDS -> TextCleaner.clean_str w = None) /\
  process_record py_repr py_hash ligature_oe rec st = (inr tt, st).
Proof.
  intros Hid Hname. split; [exact clean_str_blank|]. split; [exact clean_str_stop_word|].
  destruct rec as [| | | |?|kv]; try discriminate.
  unfold has_identifier in Hid. unfold process_record.
  destruct (Py.getitem (JObj kv) "_id") as [|fiche_id]; [discriminate|].
  unfold _process_identity. cbv [bind lift ret]. simpl in Hname |- *. unfold Py.dget.
  destruct (Py.dict_get "identity" kv) as [[| | | |?|ikv]|]; try discriminate;
    [|reflexivity].
  simpl. unfold Py.dget.
  destruct (Py.dict_get "name" ikv) as [[| | | |[|[| | | |?|nkv] ?]|]|]; try discriminate;
    try reflexivity.
  simpl. unfold Py.dget.
  destruct (Py.dict_get "value" nkv) as [[| | |s|?|]|]; try discriminate;
    try reflexivity.
  simpl. now destruct (TextCleaner.clean_str s).
Qed.

(** ** Flat dates *)

Arguments Py.in_strs : simpl never.

Lemma bind_run {A B} (m : M A) (f : A -> M B) (st st1 : extractor) (a : A) :
  m st = (inr a, st1) -> bind m f st = f a st1.
Proof. intros H. unfold bind. now rewrite H. Qed.

Lemma bind_lift {A B} (r : result A) (f : A -> M B) (st : extractor) (a : A) :
  r = inr a -> bind (lift r) f st = f a st.
Proof. intros ->. reflexivity. Qed.

Lemma bind_modify {B} (f : extractor -> extractor) (k : unit -> M B) (st : extractor) :
  bind (modify f) k st = k tt (f st).
Proof. reflexivity. Qed.

Lemma endpoint_truthy (v : json) :
  Str.is_empty (endpoint v) = false -> Py.truthy v = true.
Proof. unfold endpoint. now destruct (Py.truthy v). Qed.

(** The entry that [extract_dates] builds from a flat date. *)
Lemma extract_dates_flat (mkv kv : pydict) (date : json) :
  Py.dict_get "dates" mkv = Some (JArr [ JObj kv ]) ->
  Py.dict_get "startDate" kv = None -> Py.dict_get "endDate" kv = None ->
  Py.dict_get "date" kv = Some date -> Py.is_none date = false ->
  let top := Py.dget kv "type" (JStr "SIMPLE") in
  extract_dates (JObj mkv)
  = inr [ [ ("type", Py.dget kv "type" (JStr "UNKNOWN"));
            ("start_qualifier", if Py.in_strs top QUALIFIERS then top else JStr "SIMPLE");
            ("end_qualifier", JStr "SIMPLE");
            ("start_date", date) ] ].
Proof.
  intros Hm Hs He Hd Hn top. unfold extract_dates. simpl. unfold Py.dget at 1.
  rewrite Hm. simpl. unfold extract_date. simpl.
  unfold Py.dget. rewrite Hs, He, Hd. simpl. rewrite Hn. simpl.
  subst top. unfold Py.dget.
  destruct (Py.in_strs (default (JStr "SIMPLE") (Py.dict_get "type" kv)) QUALIFIERS);
    reflexivity.
Qed.

(** Linking a factoid to an instant whose start carries the qualifier. *)
Lemma link_time_flat (fid q : string) (date : json) (st : extractor) :
  existsb (String.eqb q) QUALIFIERS = true ->
  Str.is_empty (endpoint date) = false ->
  let key := "I_" +:+ q +:+ "_" +:+ endpoint date in
  _link_time py_repr fid date JNull (JStr q) (JStr "SIMPLE") st
  = (inr tt,
     set_edges (fun es => es ++ [ edge "OCCURRED_AT" fid "Factoid" key "Time" ])%list
       (set_times (setdefault key
          (time_node key "Instant" (endpoint date) "" (JStr q) (JStr ""))) st)).
Proof.
  intros Hq Hdate key.
  assert (Hq' : String.eqb q "SIMPLE" || Str.is_empty q = false).
  { apply existsb_exists in Hq as (x & Hx & Hqx).
    apply String.eqb_eq in Hqx. subst x.
    simpl in Hx. destruct Hx as [<-|[<-|[<-|[]]]]; reflexivity. }
  unfold _link_time. cbv [bind]. rewrite _get_time_id_entry. unfold time_entry.
  rewrite Hdate. change (endpoint JNull) with "".
  rewrite qualifier_tag_str, Hq'. cbn [negb andb Str.is_empty rbind].
  change ("I" +:+ ("_" +:+ q) +:+ "_" +:+ endpoint date) with key.
  assert (Hk : nonempty (Some key) = Some key) by reflexivity.
  rewrite Hk. reflexivity.
Qed.

(** The factoid of a date entry with a flat date. *)
Lemma date_factoid_flat (fiche_id : json) (person_name ftype description q : string)
    (type0 date : json) (st : extractor) :
  existsb (String.eqb q) QUALIFIERS = true ->
  Str.is_empty (endpoint date) = false ->
  let fid := factoid_id (_factoid_counter st + 1) in
  let key := "I_" +:+ q +:+ "_" +:+ endpoint date in
  exists st',
    date_factoid py_repr fiche_id person_name ftype description
      [ ("type", type0); ("start_qualifier", JStr q); ("end_qualifier", JStr "SIMPLE");
        ("start_date", date) ] st
    = (inr tt, st') /\
    times st'
    = setdefault key (time_node key "Instant" (endpoint date) "" (JStr q) (JStr ""))
        (times st) /\
    edges st'
    = (edges st
       ++ [ edge "HAS_TYPE" fid "Factoid" ftype "FactoidType";
            edge "REFER_TO" ("SRC_" +:+ py_str py_repr fiche_id) "Source" fid "Factoid";
            edge "PARTICIPATE" fid "Factoid" person_name "Person"
              ++ [ ("role", JStr "SUBJECT"); ("rank", JStr "") ];
            edge "OCCURRED_AT" fid "Factoid" key "Time" ])%list.
Proof.
  intros Hq Hdate fid key. unfold date_factoid.
  cbn [Py.dget Py.dict_get String.eqb Ascii.eqb Bool.eqb default from_option id].
  rewrite (endpoint_truthy date Hdate). cbn [orb when].
  rewrite (bind_run _ _ _ _ _ (make_factoid_run _ _ _ _ _ _)). fold fid.
  rewrite (bind_run (_link_participant _ _ _ _) _ _ _ tt eq_refl).
  rewrite link_time_flat by assumption. fold key.
  eexists. split; [reflexivity|]. split; [reflexivity|].
  cbn [edges set_edges set_times snd _link_participant modify]. unfold append.
  cbn [edges set_edges set_factoids set_factoid_counter].
  rewrite <- !app_assoc. reflexivity.
Qed.

(** A section of dates ([datesOfActivity], [datesOfLife]) whose only item
    holds one flat date. *)
Lemma dated_section_flat (fiche_id : json) (person_name ftype description section : string)
    (identity item : json) (mkv kv : pydict) (date : json) (q : string) (st : extractor) :
  items_of identity section = inr [ item ] ->
  Py.get item "meta" (JObj []) = inr (JObj mkv) ->
  Py.dict_get "dates" mkv = Some (JArr [ JObj kv ]) ->
  Py.dict_get "startDate" kv = None -> Py.dict_get "endDate" kv = None ->
  Py.dict_get "date" kv = Some date -> Py.is_none date = false ->
  Py.dget kv "type" (JStr "SIMPLE") = JStr q ->
  existsb (String.eqb q) QUALIFIERS = true ->
  Str.is_empty (endpoint date) = false ->
  let fid := factoid_id (_factoid_counter st + 1) in
  let key := "I_" +:+ q +:+ "_" +:+ endpoint date in
  exists st',
    (let* items := lift (items_of identity section) in
     for_each items (fun item =>
       let* meta := lift (Py.get item "meta" (JObj [])) in
       let* dates := lift (extract_dates meta) in
       for_each dates (date_factoid py_repr fiche_id person_name ftype description))) st
    = (inr tt, st') /\
    times st'
    = setdefault key (time_node key "Instant" (endpoint date) "" (JStr q) (JStr ""))
        (times st) /\
    edges st'
    = (edges st
       ++ [ edge "HAS_TYPE" fid "Factoid" ftype "FactoidType";
            edge "REFER_TO" ("SRC_" +:+ py_str py_repr fiche_id) "Source" fid "Factoid";
            edge "PARTICIPATE" fid "Factoid" person_name "Person"
              ++ [ ("role", JStr "SUBJECT"); ("rank", JStr "") ];
            edge "OCCURRED_AT" fid "Factoid" key "Time" ])%list.
Proof.
  intros Hi Hmeta Hm Hs He Hd Hn Htop Hq Hdate fid key.
  pose proof (extract_dates_flat mkv kv date Hm Hs He Hd Hn) as Hx.
  cbv zeta in Hx. rewrite Htop in Hx.
  assert (Hin : Py.in_strs (JStr q) QUALIFIERS = true) by exact Hq.
  rewrite Hin in Hx.
  destruct (date_factoid_flat fiche_id person_name ftype description q
              (Py.dget kv "type" (JStr "UNKNOWN")) date st Hq Hdate)
    as (st' & E & Ht & Hedges).
  exists st'. split; [|split; assumption].
  rewrite (bind_lift _ _ _ _ Hi). cbn [for_each].
  erewrite bind_run; [reflexivity|].
  rewrite (bind_lift _ _ _ _ Hmeta), (bind_lift _ _ _ _ Hx). cbn [for_each].
  now rewrite (bind_run _ _ _ _ _ E).
Qed.

(** The origin section reads no dates: it leaves the Time nodes as they
    were, also when it raises. *)
Lemma origin_keeps_times (rec fiche_id : json) (person_name : string) :
  establishes (fun st st' => times st' = times st)
    (_process_origin py_repr rec fiche_id person_name).
Proof.
  set (R := fun st st' : extractor => times st' = times st).
  assert (Hrefl : forall st, R st st) by reflexivity.
  assert (Htrans : forall a b c, R a b -> R b c -> R a c) by (unfold R; congruence).
  assert (Hmk : forall i t d o c, establishes R (_make_factoid py_repr i t d o c)).
  { intros i t d o c st. now rewrite make_factoid_run. }
  unfold _process_origin, birth_place, diocese, link_places, _link_participant, _link_place,
    _add_group.
  repeat lazymatch goal with
  | |- establishes _ (ret _) => apply (establishes_ret R Hrefl)
  | |- establishes _ (lift _) => apply (establishes_lift R Hrefl)
  | |- establishes _ (gets _) => apply (establishes_gets R Hrefl)
  | |- establishes _ (when _ _) => apply (establishes_when R Hrefl)
  | |- establishes _ (for_each _ _) => apply (establishes_for_each R Hrefl Htrans); intros ?
  | |- establishes _ (bind _ _) => apply (establishes_bind R Htrans); [|intros ?]
  | |- establishes _ (modify _) => apply establishes_modify; intros ?; reflexivity
  | |- establishes _ (_make_factoid _ _ _ _ _ _) => apply Hmk
  | |- establishes _ (match ?x with _ => _ end) => destruct x
  | |- establishes _ (if ?x then _ else _) => destruct x
  | |- _ => progress cbv beta zeta
  end.
Qed.

(** A study with neither place nor institution makes no factoid and reads
    no date. *)
Lemma university_without_place (fiche_id : json) (person_name : string) (item meta : json)
    (st : extractor) :
  Py.get item "meta" (JObj []) = inr meta ->
  safe_list meta "places" = inr [] -> safe_list meta "institutions" = inr [] ->
  snd (university py_repr fiche_id person_name item st) = st.
Proof.
  intros Hm Hp Hi. unfold university, bind, lift. rewrite Hm.
  destruct (detect_uncertainty meta); [reflexivity|].
  destruct (extract_dates meta); [reflexivity|].
  now rewrite Hp, Hi.
Qed.

(** C7 (amended).  For a date sub-object with a flat date and neither a
    [startDate] nor an [endDate], [extract_dates] builds the entry whose start
    is the flat date, whose end is absent, and whose start qualifier is the
    top-level qualifier when that is BEFORE, AFTER or NEAR and SIMPLE
    otherwise.  When the top-level qualifier is one of the three and the date
    is not blank, linking a factoid to that entry resolves the Instant node
    keyed by the qualifier and the date and appends the OCCURRED_AT edge to it.
    For every record in which that sub-object is the only date of the only
    item of [identity.datesOfActivity], and in any state of the extractor, the
    pass over the activity dates returns after one ACTIVITY_PERIOD factoid
    linked to that Instant node, which is the only Time node it adds, and the
    only Time node when there was none; likewise [identity.datesOfLife] and the
    pass over the life dates.  Where the extractor reads no dates there is
    no Time node: the pass over the origin leaves the Time nodes as they
    were, whatever the record and the state, and a study with neither place
    nor institution leaves the extractor as it was.  The record whose only
    date entry is "1350" with qualifier BEFORE under [datesOfActivity],
    processed by a new extractor, leaves exactly one Time node: the Instant
    with key I_BEFORE_1350, begin "1350" and begin qualifier BEFORE. *)
Theorem flat_date_promotes_qualifier (kv : pydict) (date : json) :
  Py.dict_get "startDate" kv = None -> Py.dict_get "endDate" kv = None ->
  Py.dict_get "date" kv = Some date -> Py.is_none date = false ->
  let top := Py.dget kv "type" (JStr "SIMPLE") in
  let entry := [ ("type", Py.dget kv "type" (JStr "UNKNOWN"));
                 ("start_qualifier", if Py.in_strs top QUALIFIERS then top else JStr "SIMPLE");
                 ("end_qualifier", JStr "SIMPLE");
                 ("start_date", date) ] in
  extract_dates (JObj [ ("dates", JArr [ JObj kv ]) ]) = inr [ entry ] /\
  (forall q fid st,
     existsb (String.eqb q) QUALIFIERS = true -> top = JStr q ->
     Str.is_empty (endpoint date) = false ->
     let key := "I_" +:+ q +:+ "_" +:+ endpoint date in
     _link_time_from_dates py_repr fid [ entry ] st
     = (inr tt,
        set_edges (fun es => es ++ [ edge "OCCURRED_AT" fid "Factoid" key "Time" ])%list
          (set_times (setdefault key
             (time_node key "Instant" (endpoint date) "" (JStr q) (JStr ""))) st))) /\
  (forall q rec identity item mkv fiche_id person_name st,
     existsb (String.eqb q) QUALIFIERS = true -> top = JStr q ->
     Str.is_empty (endpoint date) = false ->
     Py.get rec "identity" (JObj []) = inr identity ->
     Py.get item "meta" (JObj []) = inr (JObj mkv) ->
     Py.dict_get "dates" mkv = Some (JArr [ JObj kv ]) ->
     let key := "I_" +:+ q +:+ "_" +:+ endpoint date in
     let node := time_node key "Instant" (endpoint date) "" (JStr q) (JStr "") in
     let fid := factoid_id (_factoid_counter st + 1) in
     let made ftype :=
       [ edge "HAS_TYPE" fid "Factoid" ftype "FactoidType";
         edge "REFER_TO" ("SRC_" +:+ py_str py_repr fiche_id) "Source" fid "Factoid";
         (edge "PARTICIPATE" fid "Factoid" person_name "Person"
            ++ [ ("role", JStr "SUBJECT"); ("rank", JStr "") ])%list;
         edge "OCCURRED_AT" fid "Factoid" key "Time" ] in
     (items_of identity "datesOfActivity" = inr [ item ] ->
      exists st',
        _process_activity_dates py_repr rec fiche_id person_name st = (inr tt, st') /\
        times st' = setdefault key node (times st) /\
        (times st = ∅ -> times st' = {[ key := node ]}) /\
        edges st' = (edges st ++ made "ACTIVITY_PERIOD")%list) /\
     (items_of identity "datesOfLife" = inr [ item ] ->
      exists st',
        _process_life_dates py_repr rec fiche_id person_name st = (inr tt, st') /\
        times st' = setdefault key node (times st) /\
        (times st = ∅ -> times st' = {[ key := node ]}) /\
        edges st' = (edges st ++ made "LIFE_PERIOD")%list)) /\
  (forall rec fiche_id person_name st,
     times (snd (_process_origin py_repr rec fiche_id person_name st)) = times st) /\
  (forall fiche_id person_name item meta st,
     Py.get item "meta" (JObj []) = inr meta ->
     safe_list meta "places" = inr [] -> safe_list meta "institutions" = inr [] ->
     snd (university py_repr fiche_id person_name item st) = st) /\
  (let st := snd (process_record py_repr py_hash ligature_oe record_before_1350 (init None None)) in
   times st = {[ "I_BEFORE_1350" :=
                   time_node "I_BEFORE_1350" "Instant" "1350" "" (JStr "BEFORE") (JStr "") ]}).
Proof.
  intros Hs He Hd Hn top entry. split; [|split; [|split; [|split; [|split]]]].
  - unfold extract_dates. simpl. unfold extract_date. simpl. unfold Py.dget.
    rewrite Hs, He, Hd. simpl. rewrite Hn. simpl.
    subst entry top. unfold Py.dget.
    destruct (Py.in_strs (default (JStr "SIMPLE") (Py.dict_get "type" kv)) QUALIFIERS);
      reflexivity.
  - intros q fid st Hq Htop Hdate key.
    assert (Hin : Py.in_strs (JStr q) QUALIFIERS = true) by exact Hq.
    subst entry. rewrite Htop, Hin. unfold _link_time_from_dates.
    cbn [Py.dget Py.dict_get String.eqb Ascii.eqb Bool.eqb default from_option id].
    now apply link_time_flat.
  - intros q rec identity item mkv fiche_id person_name st Hq Htop Hdate Hid Hmeta Hm
      key node fid made.
    assert (Hempty : forall m : gmap string pydict,
              m = ∅ -> setdefault key node m = {[ key := node ]}).
    { intros m ->. unfold setdefault. rewrite lookup_empty. apply insert_empty. }
    split; intros Hi.
    + destruct (dated_section_flat fiche_id person_name "ACTIVITY_PERIOD"
                  ("P" +:+ Str.chr 233 +:+ "riode d'activit" +:+ Str.chr 233 +:+ " de "
                   +:+ person_name)
                  "datesOfActivity" identity item mkv kv date q st
                  Hi Hmeta Hm Hs He Hd Hn Htop Hq Hdate) as (st' & E & Ht & Hedges).
      exists st'. split; [|split; [exact Ht|split; [|exact Hedges]]].
      * unfold _process_activity_dates. now rewrite (bind_lift _ _ _ _ Hid).
      * intros H0. rewrite Ht. now apply Hempty.
    + destruct (dated_section_flat fiche_id person_name "LIFE_PERIOD"
                  ("P" +:+ Str.chr 233 +:+ "riode de vie de " +:+ person_name)
                  "datesOfLife" identity item mkv kv date q st
                  Hi Hmeta Hm Hs He Hd Hn Htop Hq Hdate) as (st' & E & Ht & Hedges).
      exists st'. split; [|split; [exact Ht|split; [|exact Hedges]]].
      * unfold _process_life_dates. now rewrite (bind_lift _ _ _ _ Hid).
      * intros H0. rewrite Ht. now apply Hempty.
  - intros rec fiche_id person_name st. apply origin_keeps_times.
  - intros fiche_id person_name item meta st. apply university_without_place.
  - vm_compute. reflexivity.
Qed.

(** ** Entries of the expected shape *)

Lemma opt_field_dget (kv : pydict) (k : string) (p : json -> bool) (dflt : json) :
  opt_field kv k p = true -> p dflt = true -> p (Py.dget kv k dflt) = true.
Proof. unfold opt_field, Py.dget. now destruct (Py.dict_get k kv). Qed.

Lemma in_strs_str (v : json) (l : list string) :
  Py.in_strs v l = true -> qualifier_ok v = true.
Proof.
  unfold Py.in_strs. intros H. apply existsb_exists in H as (x & _ & H).
  now destruct v.
Qed.

Lemma qualifier_tag_ok (q : json) :
  qualifier_ok q = true ->
  exists t, qualifier_tag (if negb (Py.eq_str q "SIMPLE") then q else JStr "") = inr t.
Proof.
  intros H. destruct (negb (Py.eq_str q "SIMPLE")); [|now exists ""].
  unfold qualifier_tag. destruct q; simpl in *; eauto; try (rewrite negb_true_iff in H; rewrite H; eauto).
  destruct (negb (Str.is_empty s)); eauto.
Qed.

Lemma time_entry_ok (start end_ sq eq_ : json) :
  qualifier_ok sq = true -> qualifier_ok eq_ = true ->
  exists o, time_entry start end_ sq eq_ = inr o.
Proof.
  intros Hs He. unfold time_entry.
  destruct (qualifier_tag_ok sq Hs) as [a Ha]. destruct (qualifier_tag_ok eq_ He) as [b Hb].
  rewrite Ha, Hb.
  destruct (Str.is_empty (endpoint start)), (Str.is_empty (endpoint end_)); simpl; eauto.
  destruct (negb (endpoint start =? endpoint end_)%string); simpl; eauto.
Qed.

Lemma links_only_ret : links_only (ret tt).
Proof.
  intros st. exists st, []. rewrite app_nil_r. repeat split; auto.
Qed.

Lemma links_only_bind (m : M unit) (k : M unit) :
  links_only m -> links_only k -> links_only (m ;; k).
Proof.
  intros Hm Hk st. destruct (Hm st) as (st1 & r1 & E1 & Ee1 & Hp1 & Hf1 & Hc1 & Hr1 & Hq1).
  destruct (Hk st1) as (st2 & r2 & E2 & Ee2 & Hp2 & Hf2 & Hc2 & Hr2 & Hq2).
  exists st2, (r1 ++ r2)%list. unfold bind. rewrite E1, E2.
  repeat split; try congruence.
  - now rewrite Ee2, Ee1, app_assoc.
  - apply Forall_app. auto.
Qed.

Lemma links_only_for_each {A} (l : list A) (body : A -> M unit) :
  (forall x, links_only (body x)) -> links_only (for_each l body).
Proof.
  intros H. induction l as [|x l IH]; simpl; [apply links_only_ret|].
  now apply links_only_bind.
Qed.

Lemma links_only_link_place (fid place_name certainty : string) :
  links_only (_link_place fid place_name certainty).
Proof.
  intros st. eexists _, [_]. unfold _link_place. cbv [bind modify].
  split; [reflexivity|]. split; [reflexivity|].
  split; [|repeat split].
  constructor; [|constructor]. now apply plain_edge_with_certainty.
Qed.

Lemma links_only_link_places (fid : string) (places : list string) (cert : string) :
  links_only (link_places fid places cert).
Proof. apply links_only_for_each. intros p. apply links_only_link_place. Qed.

Lemma links_only_link_time (fid : string) (start end_ sq eq_ : json) :
  qualifier_ok sq = true -> qualifier_ok eq_ = true ->
  links_only (_link_time py_repr fid start end_ sq eq_).
Proof.
  intros Hs He st. unfold _link_time. cbv [bind]. rewrite _get_time_id_entry.
  destruct (time_entry_ok start end_ sq eq_ Hs He) as [[[k node]|] E]; rewrite E.
  - destruct (nonempty (Some k)).
    + eexists _, [_]. split; [reflexivity|]. split; [reflexivity|].
      split; [|repeat split].
      constructor; [|constructor]. now apply (plain_edge_edge _ _ _ _ _ []).
    + eexists _, []. split; [reflexivity|]. simpl. rewrite app_nil_r. repeat split. constructor.
  - simpl. exists st, []. rewrite app_nil_r. repeat split. constructor.
Qed.

Lemma links_only_link_time_from_dates (fid : string) (dates : list pydict) :
  forallb entry_ok dates = true -> links_only (_link_time_from_dates py_repr fid dates).
Proof.
  intros H. destruct dates as [|d dates]; [apply links_only_ret|].
  simpl in H. apply andb_true_iff in H as [H _]. apply andb_true_iff in H as [H1 H2].
  now apply links_only_link_time.
Qed.

Lemma wf_endpoint_obj (kv : pydict) (k : string) :
  opt_field kv k wf_endpoint = true ->
  exists ekv, Py.dget kv k (JObj []) = JObj ekv
    /\ qualifier_ok (Py.dget ekv "type" (JStr "SIMPLE")) = true.
Proof.
  intros H. apply (opt_field_dget _ _ _ (JObj [])) in H; [|reflexivity].
  destruct (Py.dget kv k (JObj [])) as [| | | | |ekv]; try discriminate.
  exists ekv. split; [reflexivity|]. now apply opt_field_dget.
Qed.

Lemma extract_date_ok (d : json) :
  wf_date d = true -> exists e, extract_date d = inr e /\ entry_ok e = true.
Proof.
  destruct d as [| | | | |kv]; try discriminate. simpl. intros H.
  apply andb_true_iff in H as [Hs He].
  destruct (wf_endpoint_obj _ _ Hs) as (skv & Es & Hsq).
  destruct (wf_endpoint_obj _ _ He) as (ekv & Ee & Heq).
  unfold extract_date. simpl. rewrite Es, Ee. simpl.
  set (top := Py.dget kv "type" (JStr "SIMPLE")).
  pose proof (in_strs_str top QUALIFIERS) as Htop.
  destruct skv as [|? ?], ekv as [|? ?]; simpl;
    destruct (Py.is_none (Py.dget kv "date" JNull)); simpl;
    try (destruct (Py.in_strs top QUALIFIERS); simpl);
    eexists; (split; [reflexivity|]); unfold entry_ok;
    cbn [Py.dget Py.dict_get Py.dict_set String.eqb Ascii.eqb Bool.eqb default
         from_option id] in *;
    rewrite ?Hsq, ?Heq, ?Htop by reflexivity; reflexivity.
Qed.

Lemma rmap_extract_date_ok (l : list json) :
  forallb wf_date l = true ->
  exists ds, rmap extract_date l = inr ds /\ forallb entry_ok ds = true.
Proof.
  induction l as [|d l IH]; simpl; [eauto|]. intros H.
  apply andb_true_iff in H as [Hd Hl].
  destruct (extract_date_ok d Hd) as (e & E & He). destruct (IH Hl) as (ds & Eds & Hds).
  rewrite E. simpl. rewrite Eds. simpl. exists (e :: ds). split; [reflexivity|].
  simpl. now rewrite He, Hds.
Qed.

Lemma extract_dates_ok (m : json) :
  wf_meta m = true -> exists ds, extract_dates m = inr ds /\ forallb entry_ok ds = true.
Proof.
  destruct m as [| | | | |kv]; try discriminate. simpl. intros H.
  repeat (apply andb_true_iff in H as [H ?]).
  apply (opt_field_dget _ _ _ (JArr [])) in H; [|reflexivity].
  unfold extract_dates. simpl.
  destruct (Py.dget kv "dates" (JArr [])) as [| | | |l|]; try discriminate. simpl.
  now apply rmap_extract_date_ok.
Qed.

Lemma iterable_iter (v : json) : iterable v = true -> exists l, Py.iter v = inr l.
Proof. destruct v; try discriminate; simpl; eauto. Qed.

Lemma detect_uncertainty_ok (m : json) :
  wf_meta m = true -> exists u, detect_uncertainty m = inr u.
Proof.
  destruct m as [| | | | |kv]; try discriminate. simpl. intros H.
  repeat (apply andb_true_iff in H as [H ?]).
  unfold detect_uncertainty, uncertain. simpl.
  destruct (iterable_iter (Py.dget kv "places" (JArr []))) as [l1 E1];
    [now apply opt_field_dget|].
  destruct (iterable_iter (Py.dget kv "institutions" (JArr []))) as [l2 E2];
    [now apply opt_field_dget|].
  rewrite E1, E2. simpl. eauto.
Qed.

Lemma safe_list_ok (m : json) (k : string) :
  wf_meta m = true -> exists l, safe_list m k = inr l.
Proof.
  destruct m as [| | | | |kv]; try discriminate. intros _. unfold safe_list. simpl.
  destruct (Py.dget kv k (JArr [])); eauto.
Qed.

Lemma wf_item_meta (item : json) :
  wf_item item = true ->
  exists kv value cleaned,
    item = JObj kv /\ wf_meta (Py.dget kv "meta" (JObj [])) = true /\
    Py.dget kv "value" (JStr "") = value /\ TextCleaner.clean value = inr cleaned.
Proof.
  destruct item as [| | | | |kv]; try discriminate. simpl. intros H.
  apply andb_true_iff in H as [Hm Hv].
  apply (opt_field_dget _ _ _ (JObj [])) in Hm; [|reflexivity].
  apply (opt_field_dget _ _ _ (JStr "")) in Hv; [|reflexivity].
  exists kv, (Py.dget kv "value" (JStr "")).
  destruct (Py.dget kv "value" (JStr "")) eqn:E; try discriminate; simpl; eauto.
Qed.

(** ** Academic grades *)

(** The body of the grades loop.  For an entry of [curriculum.grades] of the
    expected shape, whatever its grade value, dates and places, it returns after
    creating one ACADEMIC_GRADE factoid under the next identifier and
    appending its HAS_TYPE and REFER_TO edges and the PARTICIPATE edge to the
    person with role STUDENT and the cleaned grade (empty when absent) as
    rank; any further edge it appends is a plain link to a Time or a Place.  A
    Rank node is looked up or inserted under the cleaned grade exactly when
    that is not empty; otherwise the ranks are left as they were. *)
Lemma grade_run (fiche_id : json) (person_name : string) (item : json)
    (st : extractor) :
  wf_item item = true ->
  exists value cleaned,
    Py.get item "value" (JStr "") = inr value /\ TextCleaner.clean value = inr cleaned /\
    let grade_val := or_empty cleaned in
    let fid := factoid_id (_factoid_counter st + 1) in
    exists st' rest,
      grade py_repr fiche_id person_name item st = (inr tt, st') /\
      _factoid_counter st' = (_factoid_counter st + 1)%N /\
      factoids st' =
        <[fid := factoid_node fid "ACADEMIC_GRADE" ""
                   ("Grade de " +:+ person_name +:+ ": " +:+ grade_val) ""]> (factoids st) /\
      edges st' =
        (edges st
         ++ [ edge "HAS_TYPE" fid "Factoid" "ACADEMIC_GRADE" "FactoidType";
              edge "REFER_TO" ("SRC_" +:+ py_str py_repr fiche_id) "Source" fid "Factoid";
              edge "PARTICIPATE" fid "Factoid" person_name "Person"
                ++ [ ("role", JStr "STUDENT"); ("rank", JStr grade_val) ] ]
         ++ rest)%list /\
      Forall plain_edge rest /\
      ranks st' =
        (if Str.is_empty grade_val then ranks st
         else setdefault grade_val
                [ ("rank_id", JStr grade_val); ("rankname", JStr grade_val) ] (ranks st)).
Proof.
  intros Hwf. destruct (wf_item_meta item Hwf) as (kv & value & cleaned & -> & Hm & Hv & Hc).
  exists value, cleaned. split; [simpl; now rewrite Hv|]. split; [exact Hc|].
  intros grade_val fid.
  destruct (detect_uncertainty_ok _ Hm) as [unc Hunc].
  destruct (extract_dates_ok _ Hm) as (dates & Hdates & Hok).
  destruct (safe_list_ok _ "places" Hm) as [places Hplaces].
  unfold grade. cbn [Py.get].
  rewrite (bind_lift _ _ _ _ eq_refl), (bind_lift _ _ _ _ Hunc).
  rewrite (bind_lift _ _ _ _ eq_refl), Hv, (bind_lift _ _ _ _ Hc).
  rewrite (bind_lift _ _ _ _ Hdates), (bind_lift _ _ _ _ Hplaces).
  fold grade_val. rewrite (bind_run _ _ _ _ _ (make_factoid_run _ _ _ _ _ _)).
  fold fid. rewrite (bind_run (_link_participant _ _ _ _) _ _ _ tt eq_refl).
  match goal with |- context [bind _ _ ?x] => set (st1 := x) end.
  destruct (links_only_link_time_from_dates fid dates Hok st1)
    as (st2 & r2 & E2 & Ee2 & Hp2 & Hf2 & Hc2 & Hr2 & _).
  rewrite (bind_run _ _ _ _ _ E2).
  destruct (links_only_link_places fid places (cert_of unc.1) st2)
    as (st3 & r3 & E3 & Ee3 & Hp3 & Hf3 & Hc3 & Hr3 & _).
  rewrite (bind_run _ _ _ _ _ E3).
  assert (H1 : edges st1 = (edges st ++ [ edge "HAS_TYPE" fid "Factoid" "ACADEMIC_GRADE" "FactoidType";
              edge "REFER_TO" ("SRC_" +:+ py_str py_repr fiche_id) "Source" fid "Factoid";
              edge "PARTICIPATE" fid "Factoid" person_name "Person"
                ++ [ ("role", JStr "STUDENT"); ("rank", JStr grade_val) ] ])%list).
  { subst st1. unfold _link_participant, modify, append. simpl. now rewrite <- app_assoc. }
  unfold when.
  destruct (Str.is_empty grade_val); cbn [negb];
    (eexists _, (r2 ++ r3)%list; split; [reflexivity|]);
    cbn [snd _factoid_counter factoids edges ranks set_ranks].
  all: rewrite ?Hc3, ?Hc2, ?Hf3, ?Hf2, ?Hr3, ?Hr2, Ee3, Ee2, H1.
  all: repeat split; try reflexivity; try (now rewrite !app_assoc);
    try (apply Forall_app; auto).
Qed.

(** ** Records of the expected shape are processed without an exception *)

Lemma total_ret {A} (I : extractor -> Prop) (a : A) : total I (ret a).
Proof. intros st H. exists a, st. auto. Qed.

Lemma total_gets {A} (I : extractor -> Prop) (f : extractor -> A) : total I (gets f).
Proof. intros st H. exists (f st), st. auto. Qed.

Lemma total_modify (I : extractor -> Prop) (f : extractor -> extractor) :
  (forall st, I st -> I (f st)) -> total I (modify f).
Proof. intros Hf st H. exists tt, (f st). auto. Qed.

Lemma total_bind {A B} (I : extractor -> Prop) (m : M A) (f : A -> M B) :
  total I m -> (forall a, total I (f a)) -> total I (bind m f).
Proof.
  intros Hm Hf st H. destruct (Hm st H) as (a & st1 & E & H1).
  destruct (Hf a st1 H1) as (b & st2 & E2 & H2). exists b, st2.
  split; [|exact H2]. unfold bind. now rewrite E.
Qed.

Lemma total_bind_lift {A B} (I : extractor -> Prop) (r : result A) (a : A) (f : A -> M B) :
  r = inr a -> total I (f a) -> total I (bind (lift r) f).
Proof. intros -> Hf st H. exact (Hf st H). Qed.

Lemma total_when (I : extractor -> Prop) (b : bool) (m : M unit) :
  total I m -> total I (when b m).
Proof. intros H. destruct b; [exact H | apply total_ret]. Qed.

Lemma total_for_each {A} (I : extractor -> Prop) (p : A -> bool) (l : list A)
    (body : A -> M unit) :
  forallb p l = true -> (forall x, p x = true -> total I (body x)) ->
  total I (for_each l body).
Proof.
  intros Hl Hb. induction l as [|x l IH]; simpl in *; [apply total_ret|].
  apply andb_true_iff in Hl as [Hx Hl].
  apply total_bind; [now apply Hb | intros _; now apply IH].
Qed.

Lemma total_for_each_all {A} (I : extractor -> Prop) (l : list A) (body : A -> M unit) :
  (forall x, total I (body x)) -> total I (for_each l body).
Proof.
  intros Hb. apply (total_for_each I (fun _ => true)); [|auto].
  now induction l.
Qed.

Lemma total_links_only (m : M unit) : links_only m -> total persons_inv m.
Proof.
  intros Hm st H. destruct (Hm st) as (st' & rest & E & _ & _ & _ & _ & _ & Hp).
  exists tt, st'. split; [exact E|]. unfold persons_inv. now rewrite Hp.
Qed.

Lemma total_make_factoid (fiche_id : json) (ftype description original_text
    certainty : string) :
  total persons_inv (_make_factoid py_repr fiche_id ftype description original_text certainty).
Proof. intros st H. eexists _, _. split; [apply make_factoid_run | exact H]. Qed.

Lemma total_add_group (raw_name : string) : total persons_inv (_add_group raw_name).
Proof.
  intros st H. unfold _add_group.
  destruct (nonempty (TextCleaner.clean_institution raw_name)) as [cname|];
    [|eexists _, _; split; [reflexivity | exact H]].
  cbv [bind gets modify ret]. cbn [_entity_class set_group_canon].
  destruct (_ !! _); [eexists _, _; split; [reflexivity | exact H]|].
  destruct (bool_decide _); [eexists _, _; split; [reflexivity | exact H]|].
  destruct (bool_decide _); eexists _, _; (split; [reflexivity | exact H]).
Qed.

Lemma total_fill_person_field (name fld : string) (v : json) :
  In fld [ "genre"; "shortdesc"; "status" ] ->
  forall st, persons_inv st -> is_Some (persons st !! name) ->
  exists st', fill_person_field name fld v st = (inr tt, st') /\ persons_inv st'
    /\ is_Some (persons st' !! name).
Proof.
  intros Hfld st H [p Hp].
  assert (Hf : is_Some (Py.dict_get fld p)).
  { destruct (H _ _ Hp) as (? & ? & ?). simpl in Hfld.
    destruct Hfld as [<-|[<-|[<-|[]]]]; assumption. }
  destruct Hf as [old Hf]. rewrite (fill_person_field_node name fld v old p st Hp Hf).
  eexists. split; [reflexivity|]. split.
  - intros k q Hk. simpl in Hk.
    destruct (decide (name = k)) as [<-|Hne].
    + rewrite lookup_insert_eq in Hk. injection Hk as <-.
      destruct (H _ _ Hp) as (? & ? & ?). repeat split; now apply dict_set_is_Some.
    + rewrite lookup_insert_ne in Hk by assumption. eauto.
  - simpl. rewrite lookup_insert_eq. eauto.
Qed.

Lemma total_add_person (name : string) (genre shortdesc : json) (person_type : string)
    (status : json) :
  total persons_inv (_add_person name genre shortdesc person_type status).
Proof.
  intros st H. unfold _add_person.
  set (st0 := set_persons (setdefault name
                 (person_node name shortdesc genre person_type status)) st).
  assert (H0 : persons_inv st0).
  { intros k p Hk. simpl in Hk. destruct (decide (name = k)) as [<-|Hne].
    - rewrite setdefault_lookup in Hk. injection Hk as <-.
      destruct (persons st !! name) as [q|] eqn:Eq; simpl; [eauto|].
      repeat split; eexists; reflexivity.
    - rewrite setdefault_lookup_ne in Hk by assumption. eauto. }
  assert (S0 : is_Some (persons st0 !! name)) by (simpl; rewrite setdefault_lookup; eauto).
  destruct (total_fill_person_field name "genre" genre ltac:(simpl; auto) st0 H0 S0)
    as (st1 & E1 & H1 & S1).
  destruct (total_fill_person_field name "shortdesc" shortdesc ltac:(simpl; auto) st1 H1 S1)
    as (st2 & E2 & H2 & S2).
  destruct (total_fill_person_field name "status" status ltac:(simpl; auto) st2 H2 S2)
    as (st3 & E3 & H3 & S3).
  exists name, st3. split; [|exact H3].
  rewrite bind_modify. fold st0.
  rewrite (bind_run _ _ _ _ _ E1), (bind_run _ _ _ _ _ E2), (bind_run _ _ _ _ _ E3).
  reflexivity.
Qed.

Lemma links_only_link_participant (fid person_name role rank : string) :
  links_only (_link_participant fid person_name role rank).
Proof.
  intros st. eexists _, [_]. split; [reflexivity|]. split; [reflexivity|].
  split; [|repeat split]. constructor; [|constructor]. now apply plain_edge_edge.
Qed.

Lemma links_only_link_group (fid group_name certainty : string) :
  links_only (_link_group fid group_name certainty).
Proof.
  intros st. rewrite link_group_run. eexists _, [_]. split; [reflexivity|].
  split; [reflexivity|]. split; [|repeat split]. constructor; [|constructor].
  destruct (String.eqb _ "discipline"); now apply plain_edge_with_certainty.
Qed.

Lemma names_ok (m : json) :
  wf_meta m = true ->
  exists l, items_of m "names" = inr l /\ forallb is_str l = true.
Proof.
  destruct m as [| | | | |kv]; try discriminate. simpl. intros H.
  repeat (apply andb_true_iff in H as [H ?]).
  unfold items_of. simpl.
  assert (Hn : list_of is_str (Py.dget kv "names" (JArr [])) = true)
    by now apply opt_field_dget.
  destruct (Py.dget kv "names" (JArr [])) as [| | | |l|]; try discriminate. simpl. eauto.
Qed.

Lemma total_date_factoid (fiche_id : json) (person_name ftype description : string)
    (dobj : pydict) :
  entry_ok dobj = true ->
  total persons_inv (date_factoid py_repr fiche_id person_name ftype description dobj).
Proof.
  intros H. apply andb_true_iff in H as [H1 H2]. unfold date_factoid. cbv zeta.
  apply total_when, total_bind; [apply total_make_factoid|]. intros fid.
  apply total_bind; [apply total_links_only, links_only_link_participant|]. intros _.
  now apply total_links_only, links_only_link_time.
Qed.

Lemma total_related_person (fiche_id : json) (person_name ftype subject_role other_role : string)
    (description : string -> string) (raw_name : json) :
  is_str raw_name = true ->
  total persons_inv
    (related_person py_repr fiche_id person_name ftype subject_role other_role description
       raw_name).
Proof.
  destruct raw_name as [| | |s| |]; try discriminate. intros _. unfold related_person.
  eapply total_bind_lift; [reflexivity|].
  destruct (nonempty _); [|apply total_ret].
  apply total_bind; [apply total_add_person|]. intros _.
  apply total_bind; [apply total_make_factoid|]. intros fid.
  apply total_bind; [|intros _]; apply total_links_only, links_only_link_participant.
Qed.

Ltac tot_step :=
  lazymatch goal with
  | |- total _ (ret _) => apply total_ret
  | |- total _ (gets _) => apply total_gets
  | |- total _ (when _ _) => apply total_when
  | |- total _ (bind (lift _) _) =>
      eapply total_bind_lift; [first [eassumption | reflexivity]|]
  | |- total _ (bind _ _) => apply total_bind; [|intros ?]
  | |- total _ (modify _) => apply total_modify; let H := fresh in intros ? H; exact H
  | |- total _ (_make_factoid _ _ _ _ _ _) => apply total_make_factoid
  | |- total _ (_add_group _) => apply total_add_group
  | |- total _ (_add_person _ _ _ _ _) => apply total_add_person
  | |- total _ (_link_participant _ _ _ _) =>
      apply total_links_only, links_only_link_participant
  | |- total _ (_link_place _ _ _) => apply total_links_only, links_only_link_place
  | |- total _ (_link_group _ _ _) => apply total_links_only, links_only_link_group
  | |- total _ (link_places _ _ _) => apply total_links_only, links_only_link_places
  | |- total _ (_link_time_from_dates _ _ _) =>
      apply total_links_only, links_only_link_time_from_dates; assumption
  | |- total _ (for_each _ (date_factoid _ _ _ _ _)) =>
      apply (total_for_each _ entry_ok);
        [assumption | intros ? ?; apply total_date_factoid; assumption]
  | |- total _ (for_each _ (related_person _ _ _ _ _ _ _)) =>
      apply (total_for_each _ is_str);
        [assumption | intros ? ?; apply total_related_person; assumption]
  | |- total _ (for_each _ _) => apply total_for_each_all; intros ?
  | |- total _ (match ?x with _ => _ end) => destruct x
  | |- _ => progress cbv beta zeta
  end.

(** The facts about a well-shaped entry that its loop body reads. *)
Ltac item_facts H :=
  let kv := fresh "kv" in
  let value := fresh "value" in
  let Hm := fresh "Hm" in
  let Hv := fresh "Hv" in
  destruct (wf_item_meta _ H) as (kv & value & ? & -> & Hm & Hv & ?); subst value;
  destruct (detect_uncertainty_ok _ Hm) as [? ?];
  destruct (extract_dates_ok _ Hm) as (? & ? & ?);
  destruct (safe_list_ok _ "places" Hm) as [? ?];
  destruct (safe_list_ok _ "institutions" Hm) as [? ?];
  destruct (names_ok _ Hm) as (? & ? & ?);
  cbn [Py.get].

Ltac tot := unfold link_groups; repeat tot_step.

Lemma total_dates_item (fiche_id : json) (person_name ftype description : string)
    (item : json) :
  wf_item item = true ->
  total persons_inv
    (let* meta := lift (Py.get item "meta" (JObj [])) in
     let* dates := lift (extract_dates meta) in
     for_each dates (date_factoid py_repr fiche_id person_name ftype description)).
Proof. intros H. item_facts H. tot. Qed.

Lemma total_birth_place (fiche_id : json) (person_name : string) (item : json) :
  wf_item item = true -> total persons_inv (birth_place py_repr fiche_id person_name item).
Proof. intros H. unfold birth_place. item_facts H. tot. Qed.

Lemma total_diocese (fiche_id : json) (person_name : string) (item : json) :
  wf_item item = true -> total persons_inv (diocese py_repr fiche_id person_name item).
Proof. intros H. unfold diocese. item_facts H. tot. Qed.

Lemma total_university (fiche_id : json) (person_name : string) (item : json) :
  wf_item item = true -> total persons_inv (university py_repr fiche_id person_name item).
Proof. intros H. unfold university. item_facts H. tot. Qed.

Lemma total_grade (fiche_id : json) (person_name : string) (item : json) :
  wf_item item = true -> total persons_inv (grade py_repr fiche_id person_name item).
Proof. intros H. unfold grade. item_facts H. tot. Qed.

Lemma total_university_college (fiche_id : json) (person_name : string) (item : json) :
  wf_item item = true ->
  total persons_inv (university_college py_repr fiche_id person_name item).
Proof. intros H. unfold university_college. item_facts H. tot. Qed.

Lemma total_position (fiche_id : json) (person_name ftype role prep : string) (item : json) :
  wf_item item = true ->
  total persons_inv (position py_repr fiche_id person_name ftype role prep item).
Proof. intros H. unfold position. item_facts H. tot. Qed.

Lemma total_university_function (fiche_id : json) (person_name : string) (item : json) :
  wf_item item = true ->
  total persons_inv (university_function py_repr fiche_id person_name item).
Proof. intros H. unfold university_function. item_facts H. tot. Qed.

Lemma total_family_network (fiche_id : json) (person_name : string) (item : json) :
  wf_item item = true ->
  total persons_inv (family_network py_repr fiche_id person_name item).
Proof. intros H. unfold family_network. item_facts H. tot. Qed.

Lemma total_student_professor (fiche_id : json) (person_name : string) (item : json) :
  wf_item item = true ->
  total persons_inv (student_professor py_repr fiche_id person_name item).
Proof. intros H. unfold student_professor. item_facts H. tot. Qed.

Lemma wf_section_items (p : json -> bool) (keys : list string) (v : json) (k : string) :
  wf_section p keys v = true -> In k keys ->
  exists l, items_of v k = inr l /\ forallb p l = true.
Proof.
  destruct v as [| | | | |kv]; try discriminate. simpl. intros H Hk.
  rewrite forallb_forall in H. specialize (H k Hk).
  apply (opt_field_dget _ _ _ (JArr [])) in H; [|reflexivity].
  unfold items_of. simpl.
  destruct (Py.dget kv k (JArr [])) as [| | | |l|]; try discriminate. simpl. eauto.
Qed.

Lemma list_items (p : json -> bool) (kv : pydict) (k : string) :
  opt_field kv k (list_of p) = true ->
  exists l, items_of (JObj kv) k = inr l /\ forallb p l = true.
Proof.
  intros H. apply (opt_field_dget _ _ _ (JArr [])) in H; [|reflexivity].
  unfold items_of. simpl.
  destruct (Py.dget kv k (JArr [])) as [| | | |l|]; try discriminate. simpl. eauto.
Qed.

Lemma wf_valued_clean (k : string) (item : json) :
  wf_valued k item = true ->
  exists c, (let? v := Py.get item k (JStr "") in TextCleaner.clean v) = inr c.
Proof.
  destruct item as [| | | | |kv]; try discriminate. simpl. intros H.
  apply (opt_field_dget _ _ _ (JStr "")) in H; [|reflexivity].
  destruct (Py.dget kv k (JStr "")); try discriminate; simpl; eauto.
Qed.

Lemma first_value_ok (v : json) : list_of is_obj v = true -> exists x, first_value v = inr x.
Proof.
  destruct v as [| | | |[|[| | | | |kv] l]|]; try discriminate; intros _;
    unfold first_value; simpl; eauto.
Qed.

Lemma total_name_variant (person_name : string) (nv : json) :
  wf_valued "value" nv = true -> total persons_inv (name_variant person_name nv).
Proof.
  intros H. destruct (wf_valued_clean _ _ H) as [c Hc]. unfold name_variant.
  destruct (Py.get nv "value" (JStr "")) as [|v]; [discriminate|]. simpl in Hc.
  eapply total_bind_lift; [reflexivity|]. tot.
Qed.

Lemma total_process_identity (kv : pydict) (source_id : string) :
  opt_field kv "identity" wf_identity = true ->
  total persons_inv (_process_identity (JObj kv) source_id).
Proof.
  intros H. apply (opt_field_dget _ _ _ (JObj [])) in H; [|reflexivity].
  unfold _process_identity. cbn [Py.get].
  eapply total_bind_lift; [reflexivity|].
  destruct (Py.dget kv "identity" (JObj [])) as [| | | | |ikv]; try discriminate.
  simpl in H. repeat (apply andb_true_iff in H as [H ?]).
  cbn [Py.get]. eapply total_bind_lift; [reflexivity|].
  assert (Hname : exists o,
    (if Py.truthy (Py.dget ikv "name" (JArr []))
     then let? first := Py.index0 (Py.dget ikv "name" (JArr [])) in
          let? value := Py.get first "value" (JStr "") in TextCleaner.clean value
     else inr None) = inr o).
  { apply (opt_field_dget _ _ _ (JArr [])) in H; [|reflexivity].
    destruct (Py.dget ikv "name" (JArr [])) as [| | | |[|x l]|]; try discriminate;
      simpl; eauto.
    simpl in H. apply andb_true_iff in H as [Hx _]. now apply wf_valued_clean. }
  destruct Hname as [o Ho]. eapply total_bind_lift; [exact Ho|].
  destruct (nonempty o) as [person_name|]; [|apply total_ret].
  do 3 (eapply total_bind_lift; [reflexivity|]).
  apply total_bind; [tot|]. intros _.
  eapply total_bind_lift; [reflexivity|].
  destruct (first_value_ok (Py.dget ikv "gender" (JArr []))) as [g Hg];
    [now apply opt_field_dget|].
  eapply total_bind_lift; [exact Hg|]. eapply total_bind_lift; [reflexivity|].
  destruct (first_value_ok (Py.dget ikv "shortDescription" (JArr []))) as [d Hd];
    [now apply opt_field_dget|].
  eapply total_bind_lift; [exact Hd|]. eapply total_bind_lift; [reflexivity|].
  assert (Hstatus : exists x,
    match Py.dget ikv "status" (JArr []) with
    | JArr (_ :: _) =>
        let? x := Py.index0 (Py.dget ikv "status" (JArr [])) in Py.get x "value" (JStr "")
    | JStr _ => inr (Py.dget ikv "status" (JArr []))
    | _ => inr (JStr "")
    end = inr x).
  { assert (Hs : wf_status (Py.dget ikv "status" (JArr [])) = true)
      by now apply opt_field_dget.
    destruct (Py.dget ikv "status" (JArr [])) as [| | | |[|[| | | | |skv] l]|];
      try discriminate; simpl; eauto. }
  destruct Hstatus as [x Hx]. eapply total_bind_lift; [exact Hx|].
  apply total_bind; [apply total_add_person|]. intros _.
  do 3 (apply total_bind; [tot|]; intros _).
  match goal with Hv : opt_field ikv "nameVariant" _ = true |- _ =>
    destruct (list_items _ _ _ Hv) as (variants & Ev & Hvs) end.
  eapply total_bind_lift; [exact Ev|].
  apply total_bind; [|intros _; apply total_ret].
  apply (total_for_each _ (wf_valued "value")); [assumption|].
  intros nv Hnv. now apply total_name_variant.
Qed.

Lemma section_default (p : json -> bool) (keys : list string) (kv : pydict) (k : string) :
  opt_field kv k (wf_section p keys) = true ->
  wf_section p keys (Py.dget kv k (JObj [])) = true.
Proof.
  intros H. apply opt_field_dget; [exact H|]. simpl. clear H.
  induction keys as [|k0 keys IH]; simpl; [reflexivity | exact IH].
Qed.

(** [for item in section.get(k, [])] over a well-shaped section. *)
Ltac section_loop Hsec k body_total :=
  let l := fresh "items" in
  let E := fresh "E" in
  let Hl := fresh "Hl" in
  destruct (wf_section_items _ _ _ k Hsec ltac:(simpl; tauto)) as (l & E & Hl);
  eapply total_bind_lift; [exact E|];
  first [ apply total_bind; [|intros _] | idtac ];
  [ apply (total_for_each _ _ _ _ Hl); intros ? ?; now apply body_total | .. ].

Lemma total_process_dates (kv : pydict) (fiche_id : json) (person_name : string) :
  opt_field kv "identity" wf_identity = true ->
  total persons_inv (_process_activity_dates py_repr (JObj kv) fiche_id person_name) /\
  total persons_inv (_process_life_dates py_repr (JObj kv) fiche_id person_name).
Proof.
  intros H. apply (opt_field_dget _ _ _ (JObj [])) in H; [|reflexivity].
  unfold _process_activity_dates, _process_life_dates. cbn [Py.get].
  destruct (Py.dget kv "identity" (JObj [])) as [| | | | |ikv]; try discriminate.
  simpl in H. repeat (apply andb_true_iff in H as [H ?]).
  split; (eapply total_bind_lift; [reflexivity|]).
  - match goal with Hv : opt_field ikv "datesOfActivity" _ = true |- _ =>
      destruct (list_items _ _ _ Hv) as (l & E & Hl) end.
    eapply total_bind_lift; [exact E|].
    apply (total_for_each _ _ _ _ Hl). intros item Hi.
    now apply total_dates_item.
  - match goal with Hv : opt_field ikv "datesOfLife" _ = true |- _ =>
      destruct (list_items _ _ _ Hv) as (l & E & Hl) end.
    eapply total_bind_lift; [exact E|].
    apply (total_for_each _ _ _ _ Hl). intros item Hi.
    now apply total_dates_item.
Qed.

Lemma total_process_origin (kv : pydict) (fiche_id : json) (person_name : string) :
  opt_field kv "origin" (wf_section wf_item [ "birthPlace"; "diocese" ]) = true ->
  total persons_inv (_process_origin py_repr (JObj kv) fiche_id person_name).
Proof.
  intros H. apply section_default in H. unfold _process_origin. cbn [Py.get].
  eapply total_bind_lift; [reflexivity|].
  section_loop H "birthPlace" total_birth_place.
  eapply total_bind_lift; [reflexivity|].
  section_loop H "diocese" total_diocese.
Qed.

Lemma total_process_curriculum (kv : pydict) (fiche_id : json) (person_name : string) :
  opt_field kv "curriculum"
    (wf_section wf_item [ "university"; "grades"; "universityCollege" ]) = true ->
  total persons_inv (_process_curriculum py_repr (JObj kv) fiche_id person_name).
Proof.
  intros H. apply section_default in H. unfold _process_curriculum. cbn [Py.get].
  eapply total_bind_lift; [reflexivity|].
  section_loop H "university" total_university.
  section_loop H "grades" total_grade.
  section_loop H "universityCollege" total_university_college.
Qed.

Lemma total_process_ecclesiastical_career (kv : pydict) (fiche_id : json)
    (person_name : string) :
  opt_field kv "ecclesiasticalCareer"
    (wf_section wf_item [ "secularPosition"; "regularOrder" ]) = true ->
  total persons_inv (_process_ecclesiastical_career py_repr (JObj kv) fiche_id person_name).
Proof.
  intros H. apply section_default in H. unfold _process_ecclesiastical_career.
  cbn [Py.get]. eapply total_bind_lift; [reflexivity|].
  section_loop H "secularPosition" total_position.
  section_loop H "regularOrder" total_position.
Qed.

Lemma total_process_professional_career (kv : pydict) (fiche_id : json)
    (person_name : string) :
  opt_field kv "professionalCareer" (wf_section wf_item [ "universityFunction" ]) = true ->
  total persons_inv (_process_professional_career py_repr (JObj kv) fiche_id person_name).
Proof.
  intros H. apply section_default in H. unfold _process_professional_career.
  cbn [Py.get]. eapply total_bind_lift; [reflexivity|].
  section_loop H "universityFunction" total_university_function.
Qed.

Lemma total_process_relationships (kv : pydict) (fiche_id : json) (person_name : string) :
  opt_field kv "relationalInsertion"
    (wf_section wf_item [ "familyNetwork"; "studentProfessorRelationships" ]) = true ->
  total persons_inv (_process_relationships py_repr (JObj kv) fiche_id person_name).
Proof.
  intros H. apply section_default in H. unfold _process_relationships. cbn [Py.get].
  eapply total_bind_lift; [reflexivity|].
  section_loop H "familyNetwork" total_family_network.
  section_loop H "studentProfessorRelationships" total_student_professor.
Qed.

Lemma total_opus (fiche_id : json) (person_name : string) (o : json) :
  wf_valued "mainTitle" o = true -> total persons_inv
      (opus py_repr ligature_oe fiche_id person_name o).
Proof.
  intros H. destruct (wf_valued_clean _ _ H) as [c Hc]. unfold opus.
  destruct (Py.get o "mainTitle" (JStr "")) as [|v]; [discriminate|]. simpl in Hc.
  eapply total_bind_lift; [reflexivity|]. tot.
Qed.

Lemma total_process_production (kv : pydict) (fiche_id : json) (person_name : string) :
  opt_field kv "textualProduction" wf_production = true ->
  total persons_inv (_process_production py_repr ligature_oe (JObj kv) fiche_id person_name).
Proof.
  intros H. apply (opt_field_dget _ _ _ (JObj [])) in H; [|reflexivity].
  unfold _process_production. cbn [Py.get]. eapply total_bind_lift; [reflexivity|].
  destruct (Py.dget kv "textualProduction" (JObj [])) as [| | | | |pkv];
    try apply total_ret.
  simpl in H. apply (total_for_each _ _ _ _ H). intros [domain_name domain_data] Hd.
  unfold production_domain. simpl in Hd.
  destruct domain_data as [| | | | |dkv]; try apply total_ret.
  apply total_bind; [tot|]. intros _.
  destruct (list_items _ _ _ Hd) as (works & E & Hw).
  eapply total_bind_lift; [exact E|].
  apply (total_for_each _ _ _ _ Hw). intros o Ho. now apply total_opus.
Qed.

Lemma total_bib_item (fiche_id : json) (bib_section : string) (item : json) :
  wf_valued "value" item = true ->
  total persons_inv (bib_item py_repr py_hash fiche_id bib_section item).
Proof.
  intros H. destruct (wf_valued_clean _ _ H) as [c Hc]. unfold bib_item.
  destruct (Py.get item "value" (JStr "")) as [|v]; [discriminate|]. simpl in Hc.
  eapply total_bind_lift; [reflexivity|]. tot.
Qed.

Lemma total_process_bibliography (kv : pydict) (fiche_id : json) :
  opt_field kv "bibliography"
    (wf_section (wf_valued "value") [ "workReferences"; "bookReferences" ]) = true ->
  total persons_inv (_process_bibliography py_repr py_hash (JObj kv) fiche_id).
Proof.
  intros H. apply section_default in H. unfold _process_bibliography. cbn [Py.get].
  eapply total_bind_lift; [reflexivity|]. cbn [for_each].
  apply total_bind; [|intros _; apply total_bind; [|intros _; apply total_ret]].
  - section_loop H "workReferences" total_bib_item.
  - section_loop H "bookReferences" total_bib_item.
Qed.

Lemma total_process_record (rec : json) :
  wf_record rec = true -> total persons_inv (process_record py_repr py_hash ligature_oe rec).
Proof.
  destruct rec as [| | | | |kv]; try discriminate. intros H.
  unfold wf_record in H. repeat (apply andb_true_iff in H as [H ?]).
  unfold has_identifier in H. unfold process_record.
  destruct (Py.getitem (JObj kv) "_id") as [|fiche_id]; [discriminate|].
  eapply total_bind_lift; [reflexivity|]. cbv zeta.
  apply total_bind; [now apply total_process_identity|]. intros o.
  destruct (nonempty o) as [person_name|]; [|apply total_ret].
  destruct (total_process_dates kv fiche_id person_name) as [Ha Hl]; [assumption|].
  repeat (apply total_bind; [|intros _]).
  - exact Ha.
  - exact Hl.
  - now apply total_process_origin.
  - now apply total_process_curriculum.
  - now apply total_process_ecclesiastical_career.
  - now apply total_process_professional_career.
  - now apply total_process_relationships.
  - now apply total_process_production.
  - now apply total_process_bibliography.
Qed.

Lemma section_blank_dget (kv : pydict) (k : string) :
  section_blank kv k = true -> Py.dget kv k (JObj []) = JObj [].
Proof.
  unfold section_blank, Py.dget.
  destruct (Py.dict_get k kv) as [[| | | | |[|? ?]]|]; try discriminate; reflexivity.
Qed.

(** C8, on records of the expected shape.  In every state of a run, a
    record that carries an identifier and in which every section, entry and
    sub-field that is present has the expected shape (any of them may be
    missing or empty) is processed without an exception; a sub-field that is
    present and holds [None] where a list is read is not of that shape, and
    [null_places_record] is such a record, on which the call raises.  A
    section that is missing or empty is skipped and leaves the extractor as
    it was, so the other sections run as they would without it; and an entry
    with no value and no meta adds nothing in any section but the grades. *)
Theorem well_shaped_record_never_raises (rec : json) (cs : list call)
    (nations_txt disciplines_txt : option (list string)) :
  wf_record rec = true ->
  (exists st',
     process_record py_repr py_hash ligature_oe rec
       (after_calls py_repr py_hash ligature_oe cs (init nations_txt disciplines_txt))
     = (inr tt, st')) /\
  (forall kv fiche_id person_name st,
     (section_blank kv "origin" = true ->
        _process_origin py_repr (JObj kv) fiche_id person_name st = (inr tt, st)) /\
     (section_blank kv "curriculum" = true ->
        _process_curriculum py_repr (JObj kv) fiche_id person_name st = (inr tt, st)) /\
     (section_blank kv "ecclesiasticalCareer" = true ->
        _process_ecclesiastical_career py_repr (JObj kv) fiche_id person_name st
        = (inr tt, st)) /\
     (section_blank kv "professionalCareer" = true ->
        _process_professional_career py_repr (JObj kv) fiche_id person_name st
        = (inr tt, st)) /\
     (section_blank kv "relationalInsertion" = true ->
        _process_relationships py_repr (JObj kv) fiche_id person_name st = (inr tt, st)) /\
     (section_blank kv "textualProduction" = true ->
        _process_production py_repr ligature_oe (JObj kv) fiche_id person_name st = (inr tt, st)) /\
     (section_blank kv "bibliography" = true ->
        _process_bibliography py_repr py_hash (JObj kv) fiche_id st = (inr tt, st))) /\
  (forall fiche_id person_name ftype role prep st,
     let nothing := JObj [] in
     birth_place py_repr fiche_id person_name nothing st = (inr tt, st) /\
     diocese py_repr fiche_id person_name nothing st = (inr tt, st) /\
     university py_repr fiche_id person_name nothing st = (inr tt, st) /\
     university_college py_repr fiche_id person_name nothing st = (inr tt, st) /\
     position py_repr fiche_id person_name ftype role prep nothing st = (inr tt, st) /\
     university_function py_repr fiche_id person_name nothing st = (inr tt, st) /\
     family_network py_repr fiche_id person_name nothing st = (inr tt, st) /\
     student_professor py_repr fiche_id person_name nothing st = (inr tt, st)).
Proof.
  intros Hwf. split; [|split].
  - destruct (total_process_record rec Hwf
                (after_calls py_repr py_hash ligature_oe cs (init nations_txt disciplines_txt)))
      as ([] & st' & E & _).
    + apply (inv_persons _ (inv_run cs nations_txt disciplines_txt)).
    + eauto.
  - intros kv fiche_id person_name st.
    repeat split; intros H; apply section_blank_dget in H.
    + unfold _process_origin. cbn [Py.get]. now rewrite H.
    + unfold _process_curriculum. cbn [Py.get]. now rewrite H.
    + unfold _process_ecclesiastical_career. cbn [Py.get]. now rewrite H.
    + unfold _process_professional_career. cbn [Py.get]. now rewrite H.
    + unfold _process_relationships. cbn [Py.get]. now rewrite H.
    + unfold _process_production. cbn [Py.get]. now rewrite H.
    + unfold _process_bibliography. cbn [Py.get]. now rewrite H.
  - intros. repeat split; reflexivity.
Qed.

End Properties.

(** ** The grades of a curriculum *)

Section Grades.

Variable py_repr : json -> string.
Variable py_hash : string -> Z.
Variable ligature_oe : string.

Lemma aside_refl (st : extractor) : aside st st.
Proof.
  repeat split; try reflexivity. exists []. symmetry. apply app_nil_r.
Qed.

Lemma aside_trans (a b c : extractor) : aside a b -> aside b c -> aside a c.
Proof.
  intros (R1 & C1 & F1 & l1 & E1) (R2 & C2 & F2 & l2 & E2). repeat split.
  - congruence.
  - lia.
  - intros j Hj. rewrite F2 by lia. now apply F1.
  - exists (l1 ++ l2)%list. now rewrite E2, E1, app_assoc.
Qed.

(** An assignment to an attribute other than the ranks, the counter and the
    factoids. *)
Ltac aside_frame :=
  intros ?; unfold aside;
  cbn [ranks _factoid_counter factoids edges set_persons set_names set_groups set_places
       set_zones set_sources set_times set_objects set_object_types set_domains
       set_group_canon set_entity_class set_edges];
  repeat split; try reflexivity;
  first [ exists []; symmetry; apply app_nil_r | eexists; unfold append; reflexivity ].

Lemma aside_make_factoid (fiche_id : json) (ftype description original_text
    certainty : string) :
  establishes aside (_make_factoid py_repr fiche_id ftype description original_text certainty).
Proof.
  intros st. rewrite make_factoid_run. cbn [snd]. unfold aside.
  cbn [ranks _factoid_counter factoids edges set_edges set_factoids set_factoid_counter].
  repeat split; [lia| |eexists; reflexivity].
  intros j Hj. apply lookup_insert_ne. intros H. apply factoid_id_inj in H. lia.
Qed.

Ltac asd_step :=
  lazymatch goal with
  | |- establishes _ (ret _) => apply (establishes_ret aside aside_refl)
  | |- establishes _ (lift _) => apply (establishes_lift aside aside_refl)
  | |- establishes _ (gets _) => apply (establishes_gets aside aside_refl)
  | |- establishes _ (when _ _) => apply (establishes_when aside aside_refl)
  | |- establishes _ (for_each _ _) =>
      apply (establishes_for_each aside aside_refl aside_trans); intros ?
  | |- establishes _ (bind _ _) =>
      apply (establishes_bind aside aside_trans); [|intros ?]
  | |- establishes _ (modify _) => apply establishes_modify; aside_frame
  | |- establishes _ (_make_factoid _ _ _ _ _ _) => apply aside_make_factoid
  | |- establishes _ (match ?x with _ => _ end) => destruct x
  | |- establishes _ (if ?x then _ else _) => destruct x
  | |- _ => progress cbv beta zeta
  end.

Ltac asd :=
  unfold link_places, link_groups, _link_time_from_dates, _link_time, _get_time_id,
    _link_participant, _link_place, _link_group, _add_group;
  repeat asd_step.

Lemma aside_university (fiche_id : json) (person_name : string) (item : json) :
  establishes aside (university py_repr fiche_id person_name item).
Proof. unfold university. asd. Qed.

Lemma aside_university_college (fiche_id : json) (person_name : string) (item : json) :
  establishes aside (university_college py_repr fiche_id person_name item).
Proof. unfold university_college. asd. Qed.

(** The loop over the grades: one factoid for each entry, under the
    identifiers that follow the counter. *)
Lemma grades_loop (fiche_id : json) (person_name : string) (items : list json) :
  forallb wf_item items = true ->
  forall st, exists st',
    for_each items (grade py_repr fiche_id person_name) st = (inr tt, st') /\
    _factoid_counter st' = (_factoid_counter st + N.of_nat (length items))%N /\
    (forall j, (j <= _factoid_counter st)%N ->
       factoids st' !! factoid_id j = factoids st !! factoid_id j) /\
    (exists l, edges st' = (edges st ++ l)%list) /\
    (forall r, is_Some (ranks st !! r) -> is_Some (ranks st' !! r)) /\
    (forall r, is_Some (ranks st' !! r) ->
       is_Some (ranks st !! r) \/
       exists item value, In item items /\ Py.get item "value" (JStr "") = inr value /\
         TextCleaner.clean value = inr (Some r)) /\
    (forall i item, items !! i = Some item ->
       exists value cleaned,
         Py.get item "value" (JStr "") = inr value /\ TextCleaner.clean value = inr cleaned /\
         let grade_val := or_empty cleaned in
         let fid := factoid_id (_factoid_counter st + N.of_nat i + 1) in
         factoids st' !! fid
         = Some (factoid_node fid "ACADEMIC_GRADE" ""
                   ("Grade de " +:+ person_name +:+ ": " +:+ grade_val) "") /\
         In (edge "HAS_TYPE" fid "Factoid" "ACADEMIC_GRADE" "FactoidType") (edges st') /\
         In (edge "PARTICIPATE" fid "Factoid" person_name "Person"
               ++ [ ("role", JStr "STUDENT"); ("rank", JStr grade_val) ])%list (edges st') /\
         (Str.is_empty grade_val = false -> is_Some (ranks st' !! grade_val))).
Proof.
  induction items as [|item items IH]; intros Hwf st.
  - exists st. cbn [for_each length]. split; [reflexivity|]. split; [simpl; lia|].
    split; [auto|]. split; [exists []; symmetry; apply app_nil_r|].
    split; [auto|]. split; [auto|]. intros i x H. discriminate H.
  - cbn [forallb] in Hwf. apply andb_true_iff in Hwf as [Hitem Hitems].
    destruct (grade_run py_repr fiche_id person_name item st Hitem)
      as (value & cleaned & Hv & Hc & sta & rest & Ea & Ca & Fa & Ed & _ & Ra).
    cbv zeta in Fa, Ed, Ra.
    destruct (IH Hitems sta) as (st' & E' & C' & F' & (l & El) & Rup & Rdown & Hall).
    exists st'. cbn [for_each].
    split; [now rewrite (bind_run _ _ _ _ _ Ea)|].
    split; [rewrite C', Ca; cbn [length]; lia|].
    assert (Hranks : forall r, is_Some (ranks st !! r) -> is_Some (ranks sta !! r)).
    { intros r Hr. rewrite Ra. destruct (Str.is_empty (or_empty cleaned)); [exact Hr|].
      unfold setdefault. destruct (ranks st !! or_empty cleaned) eqn:Eo; [exact Hr|].
      destruct (decide (or_empty cleaned = r)) as [->|Hne].
      - rewrite lookup_insert_eq. eauto.
      - now rewrite lookup_insert_ne. }
    split; [|split; [|split; [|split]]].
    + intros j Hj. rewrite F' by lia. rewrite Fa. apply lookup_insert_ne.
      intros H. apply factoid_id_inj in H. lia.
    + eexists. rewrite El, Ed, <- !app_assoc. reflexivity.
    + intros r Hr. apply Rup, Hranks, Hr.
    + intros r Hr. destruct (Rdown r Hr) as [Hra|(x & v & Hx & Hxv & Hxc)].
      * rewrite Ra in Hra. destruct (Str.is_empty (or_empty cleaned)) eqn:Ee; [now left|].
        unfold setdefault in Hra. destruct (ranks st !! or_empty cleaned) eqn:Eo; [now left|].
        destruct (decide (or_empty cleaned = r)) as [Heq|Hne].
        -- right. exists item, value. split; [now left|]. split; [exact Hv|].
           rewrite Hc. destruct cleaned as [c|]; [simpl in Heq; now subst|discriminate Ee].
        -- left. now rewrite lookup_insert_ne in Hra.
      * right. exists x, v. split; [now right | auto].
    + intros [|i] x Hx.
      * injection Hx as <-. exists value, cleaned. split; [exact Hv|]. split; [exact Hc|].
        cbv zeta. replace (_factoid_counter st + N.of_nat 0 + 1)%N
          with (_factoid_counter st + 1)%N by lia.
        split; [|split; [|split]].
        -- rewrite F' by lia. rewrite Fa. apply lookup_insert_eq.
        -- rewrite El, Ed. apply in_or_app. left. apply in_or_app. right. now left.
        -- rewrite El, Ed. apply in_or_app. left. apply in_or_app. right.
           right. right. now left.
        -- intros Hne. apply Rup. rewrite Ra, Hne. unfold setdefault.
           destruct (ranks st !! or_empty cleaned) eqn:Eo; [eauto|].
           rewrite lookup_insert_eq. eauto.
      * destruct (Hall i x Hx) as (v & c & Hxv & Hxc & H). exists v, c.
        split; [exact Hxv|]. split; [exact Hxc|]. cbv zeta in H |- *.
        replace (_factoid_counter st + N.of_nat (S i) + 1)%N
          with (_factoid_counter sta + N.of_nat i + 1)%N by lia.
        exact H.
Qed.

(** C10.  In every state of a run and for every record whose curriculum is
    of the expected shape, [_process_curriculum] returns, and for every entry
    of [curriculum.grades], whatever its grade value, dates and places, it
    has made one ACADEMIC_GRADE factoid, under the identifier that follows
    those of the entries before it, with its HAS_TYPE edge and the PARTICIPATE
    edge to the person with role STUDENT and the cleaned grade (empty when
    absent) as rank.  The cleaned grade has a Rank node when it is not empty,
    and the pass creates no other Rank node: a rank that exists afterwards
    existed before or is the cleaned value of some grade entry. *)
Theorem grade_emits_factoid (rec fiche_id : json) (person_name : string)
    (curriculum : json) (items : list json) (cs : list call)
    (nations_txt disciplines_txt : option (list string)) :
  Py.get rec "curriculum" (JObj []) = inr curriculum ->
  wf_section wf_item [ "university"; "grades"; "universityCollege" ] curriculum = true ->
  items_of curriculum "grades" = inr items ->
  let st := after_calls py_repr py_hash ligature_oe cs (init nations_txt disciplines_txt) in
  exists st' c,
    _process_curriculum py_repr rec fiche_id person_name st = (inr tt, st') /\
    (_factoid_counter st <= c)%N /\
    (c + N.of_nat (length items) <= _factoid_counter st')%N /\
    (forall i item, items !! i = Some item ->
       exists value cleaned,
         Py.get item "value" (JStr "") = inr value /\ TextCleaner.clean value = inr cleaned /\
         let grade_val := or_empty cleaned in
         let fid := factoid_id (c + N.of_nat i + 1) in
         factoids st' !! fid
         = Some (factoid_node fid "ACADEMIC_GRADE" ""
                   ("Grade de " +:+ person_name +:+ ": " +:+ grade_val) "") /\
         In (edge "HAS_TYPE" fid "Factoid" "ACADEMIC_GRADE" "FactoidType") (edges st') /\
         In (edge "PARTICIPATE" fid "Factoid" person_name "Person"
               ++ [ ("role", JStr "STUDENT"); ("rank", JStr grade_val) ])%list (edges st') /\
         (Str.is_empty grade_val = false -> is_Some (ranks st' !! grade_val))) /\
    (forall r, is_Some (ranks st' !! r) ->
       is_Some (ranks st !! r) \/
       exists item value, In item items /\ Py.get item "value" (JStr "") = inr value /\
         TextCleaner.clean value = inr (Some r)).
Proof.
  intros Hcur Hwf Hgrades st.
  assert (Hp : persons_inv st)
    by apply (inv_persons _ (inv_run py_repr py_hash ligature_oe cs nations_txt disciplines_txt)).
  destruct (wf_section_items _ _ _ "university" Hwf ltac:(simpl; tauto))
    as (uitems & Eu & Hu).
  destruct (wf_section_items _ _ _ "grades" Hwf ltac:(simpl; tauto))
    as (gitems & Eg & Hg).
  assert (gitems = items) by congruence. subst gitems. clear Eg.
  destruct (wf_section_items _ _ _ "universityCollege" Hwf ltac:(simpl; tauto))
    as (citems & Ec & Hc).
  (* the university loop *)
  destruct (total_for_each persons_inv wf_item uitems
              (university py_repr fiche_id person_name) Hu
              (fun x Hx => total_university py_repr fiche_id person_name x Hx) st Hp)
    as ([] & st1 & E1 & Hp1).
  pose proof (establishes_for_each aside aside_refl aside_trans uitems
                (university py_repr fiche_id person_name)
                (aside_university fiche_id person_name) st) as A1.
  rewrite E1 in A1. cbn [snd] in A1. destruct A1 as (R1 & C1 & F1 & l1 & Ed1).
  (* the grades loop *)
  destruct (grades_loop fiche_id person_name items Hg st1)
    as (st2 & E2 & C2 & F2 & (l2 & Ed2) & Rup & Rdown & Hall).
  destruct (total_for_each persons_inv wf_item items
              (grade py_repr fiche_id person_name) Hg
              (fun x Hx => total_grade py_repr fiche_id person_name x Hx) st1 Hp1)
    as ([] & st2' & E2' & Hp2).
  assert (st2' = st2) by congruence. subst st2'. clear E2'.
  (* the loop over the colleges *)
  destruct (total_for_each persons_inv wf_item citems
              (university_college py_repr fiche_id person_name) Hc
              (fun x Hx => total_university_college py_repr fiche_id person_name x Hx)
              st2 Hp2)
    as ([] & st3 & E3 & _).
  pose proof (establishes_for_each aside aside_refl aside_trans citems
                (university_college py_repr fiche_id person_name)
                (aside_university_college fiche_id person_name) st2) as A3.
  rewrite E3 in A3. cbn [snd] in A3. destruct A3 as (R3 & C3 & F3 & l3 & Ed3).
  exists st3, (_factoid_counter st1).
  split; [|split; [exact C1|split; [lia|split]]].
  - unfold _process_curriculum.
    rewrite (bind_lift _ _ _ _ Hcur), (bind_lift _ _ _ _ Eu), (bind_run _ _ _ _ _ E1).
    rewrite (bind_lift _ _ _ _ Hgrades), (bind_run _ _ _ _ _ E2).
    now rewrite (bind_lift _ _ _ _ Ec).
  - intros i item Hi. destruct (Hall i item Hi) as (value & cleaned & Hv & Hcl & H).
    exists value, cleaned. split; [exact Hv|]. split; [exact Hcl|].
    cbv zeta in H |- *. destruct H as (Hf & Hh & Hpart & Hr).
    assert (Hlt : (i < length items)%nat) by (apply lookup_lt_is_Some; eauto).
    split; [|split; [|split]].
    + rewrite F3 by lia. exact Hf.
    + rewrite Ed3. apply in_or_app. now left.
    + rewrite Ed3. apply in_or_app. now left.
    + intros Hne. rewrite R3. now apply Hr.
  - intros r Hr. rewrite R3 in Hr. destruct (Rdown r Hr) as [H|H]; [|now right].
    left. now rewrite R1 in H.
Qed.

End Grades.

(** ** The properties on sample inputs *)

(** C1 at the instant "before 1350". *)
Lemma time_key_deterministic_witness :
  Str.is_empty (endpoint sample_repr (JStr "1350"))
    && Str.is_empty (endpoint sample_repr JNull) = false /\
  (exists k,
     fst (_get_time_id sample_repr (JStr "1350") JNull (JStr "BEFORE") (JStr "SIMPLE")
            sample_init) = inr (Some k)) /\
  fst (_get_time_id sample_repr (JStr "1350") JNull (JStr "BEFORE") (JStr "SIMPLE") sample_init)
  <> fst (_get_time_id sample_repr (JStr "1350") JNull (JStr "SIMPLE") (JStr "SIMPLE")
            sample_init).
Proof.
  split; [reflexivity|].
  destruct (time_key_deterministic sample_repr (JStr "1350") JNull "BEFORE" "SIMPLE"
              sample_init eq_refl) as [(k & node & H & _) [Hq _]].
  split; [exists k; apply H|].
  apply (Hq "BEFORE" eq_refl). reflexivity.
Defined.

(** C1 as first stated fails: the end qualifier of an instant keyed on its
    start does not enter the key. *)
Lemma time_key_ignores_unused_qualifier :
  Str.is_empty (endpoint sample_repr (JStr "1350"))
    && Str.is_empty (endpoint sample_repr JNull) = false /\
  existsb (String.eqb "BEFORE") QUALIFIERS = true /\
  fst (_get_time_id sample_repr (JStr "1350") JNull (JStr "SIMPLE") (JStr "BEFORE") sample_init)
  = fst (_get_time_id sample_repr (JStr "1350") JNull (JStr "SIMPLE") (JStr "SIMPLE")
           sample_init).
Proof. repeat split. Qed.

(** C7 as first stated fails: the same date entry under [origin.birthPlace]
    is not read; the record is processed, its BIRTH factoid is made and
    linked to the place, and no Time node is created. *)
Lemma flat_date_under_birth_place_is_not_read :
  let st := snd (process_record sample_repr sample_hash sample_ligature record_born_before_1350
                   (init None None)) in
  fst (process_record sample_repr sample_hash sample_ligature record_born_before_1350
      (init None None))
  = inr tt /\
  map (field "to_id") (edges_of_type "HAS_TYPE" (edges st)) = [ JStr "BIRTH" ] /\
  times st = ∅.
Proof. vm_compute. repeat split. Qed.

(** C2 on a name of the discipline list. *)
Lemma add_group_classifies_witness :
  TextCleaner.clean_institution " Theologie ;" = Some "Theologie" /\
  fst (_add_group " Theologie ;" sample_init) = inr (Some "Theologie") /\
  _entity_class (snd (_add_group " Theologie ;" sample_init)) !! "Theologie"
  = Some "discipline".
Proof.
  split; [reflexivity|].
  destruct (add_group_classifies " Theologie ;" "Theologie" sample_init eq_refl)
    as (H1 & _ & H3 & _).
  split; [exact H1|].
  destruct (H3 eq_refl) as (_ & Hd & _). apply Hd. vm_compute. reflexivity.
Defined.

(** C4 on the record whose primary name is a stop word. *)
Lemma unusable_name_drops_record_witness :
  has_identifier nameless_record = true /\
  unusable_primary_name nameless_record = true /\
  process_record sample_repr sample_hash sample_ligature nameless_record sample_init =
      (inr tt, sample_init).
Proof.
  split; [reflexivity|]. split; [reflexivity|].
  apply (unusable_name_drops_record sample_repr sample_hash sample_ligature nameless_record
      sample_init);
    reflexivity.
Defined.

(** C5 on the first factoid of the sample record, before and after a second
    record. *)
Lemma factoid_edges_exactly_once_witness :
  let st := after_calls sample_repr sample_hash sample_ligature
      [ Call_process_record sample_record ]
              (init None None) in
  let st' := after_calls sample_repr sample_hash sample_ligature
      [ Call_process_record record_before_1350 ]
               st in
  factoids st !! "F_000001"
  = Some (factoid_node "F_000001" "BIRTH" "" "Naissance de Johannes de Parisiis" "") /\
  exists has refer,
    typing_edges "F_000001" (edges st) = [ has ] /\
    field "to_id" has = JStr "BIRTH" /\
    provenance_edges "F_000001" (edges st) = [ refer ] /\
    typing_edges "F_000001" (edges st') = [ has ] /\
    provenance_edges "F_000001" (edges st') = [ refer ].
Proof.
  cbv zeta. split; [vm_compute; reflexivity|].
  destruct (factoid_edges_exactly_once sample_repr sample_hash sample_ligature
              [ Call_process_record sample_record ]
              [ Call_process_record record_before_1350 ] None None "F_000001"
              (factoid_node "F_000001" "BIRTH" "" "Naissance de Johannes de Parisiis" ""))
    as (_ & has & refer & H1 & H2 & _ & H4 & _ & H6 & H7).
  - vm_compute. reflexivity.
  - exists has, refer. repeat split; assumption.
Defined.

(** C7 on the date entry "1350" with the qualifier BEFORE. *)
Lemma flat_date_promotes_qualifier_witness :
  let kv := [ ("type", JStr "BEFORE"); ("date", JStr "1350") ] in
  Py.dict_get "startDate" kv = None /\ Py.dict_get "endDate" kv = None /\
  Py.dict_get "date" kv = Some (JStr "1350") /\ Py.is_none (JStr "1350") = false /\
  extract_dates (JObj [ ("dates", JArr [ JObj kv ]) ])
  = inr [ [ ("type", JStr "BEFORE"); ("start_qualifier", JStr "BEFORE");
            ("end_qualifier", JStr "SIMPLE"); ("start_date", JStr "1350") ] ].
Proof.
  cbv zeta. do 4 (split; [reflexivity|]).
  exact (proj1 (flat_date_promotes_qualifier sample_repr sample_hash sample_ligature
                  [ ("type", JStr "BEFORE"); ("date", JStr "1350") ] (JStr "1350")
                  eq_refl eq_refl eq_refl eq_refl)).
Defined.

(** C8 on the sample record, in the state a first record leaves. *)
Lemma well_shaped_record_never_raises_witness :
  wf_record sample_record = true /\
  exists st',
    process_record sample_repr sample_hash sample_ligature sample_record
      (after_calls sample_repr sample_hash sample_ligature
          [ Call_process_record record_before_1350 ]
         sample_init)
    = (inr tt, st').
Proof.
  split; [reflexivity|].
  exact (proj1 (well_shaped_record_never_raises sample_repr sample_hash sample_ligature
      sample_record
                  [ Call_process_record record_before_1350 ]
                  (Some [ "# nations"; "Nation anglaise" ]) (Some [ "Theologie" ])
                  eq_refl)).
Defined.

(** C10 on the sample record: its one grade entry, whose value cleans to
    nothing, comes after the factoid of the studies. *)
Lemma grade_emits_factoid_witness :
  let curriculum :=
    JObj [ ("grades", JArr [ JObj [ ("value", JStr "?") ] ]);
           ("university",
            JArr [ JObj [ ("meta",
              JObj [ ("institutions",
                      JArr [ JStr "Theologie"; JStr "Nation anglaise" ]) ]) ] ]) ] in
  Py.get sample_record "curriculum" (JObj []) = inr curriculum /\
  wf_section wf_item [ "university"; "grades"; "universityCollege" ] curriculum = true /\
  items_of curriculum "grades" = inr [ JObj [ ("value", JStr "?") ] ] /\
  exists st',
    _process_curriculum sample_repr sample_record (JNum 17) "Johannes" sample_init
    = (inr tt, st') /\
    factoids st' !! "F_000002"
    = Some (factoid_node "F_000002" "ACADEMIC_GRADE" "" "Grade de Johannes: " "") /\
    ranks st' = ∅.
Proof.
  cbv zeta. split; [reflexivity|]. split; [reflexivity|]. split; [reflexivity|].
  destruct (grade_emits_factoid sample_repr sample_hash sample_ligature sample_record (JNum 17)
      "Johannes"
              _ _ [] (Some [ "# nations"; "Nation anglaise" ]) (Some [ "Theologie" ])
              eq_refl eq_refl eq_refl) as (st' & c & E & _).
  exists st'. split; [exact E|].
  vm_compute in E. injection E as <-. split; reflexivity.
Defined.

(** C3 on two mentions of one person: a gender, then a status. *)
Lemma add_person_first_non_empty_wins_witness :
  let st1 := snd (_add_person "Johannes" (JStr "male") (JStr "") "PhysicalPerson" (JStr "")
                    sample_init) in
  let st2 := snd (_add_person "Johannes" (JStr "") (JStr "") "PhysicalPerson"
                    (JStr "magister") st1) in
  persons st2 !! "Johannes"
  = Some (person_node "Johannes" (JStr "") (JStr "male") "PhysicalPerson" (JStr "magister")) /\
  _add_person "Johannes" (JStr "") (JStr "") "PhysicalPerson" (JStr "") st2
  = (inr "Johannes", st2).
Proof.
  cbv zeta.
  exact (proj2 (proj2 (add_person_first_non_empty_wins "Johannes" "PhysicalPerson"
                         (JStr "male") (JStr "") (JStr "magister") sample_init))
           eq_refl eq_refl eq_refl).
Defined.

(** C6 on a name of the discipline list, after the sample record. *)
Lemma link_group_routes_witness :
  exists display st1,
    _add_group "Theologie." (after_calls sample_repr sample_hash sample_ligature
                               [ Call_process_record sample_record ] sample_init)
    = (inr (Some display), st1) /\
    _link_group "F_000009" display "uncertain" st1
    = (inr tt,
       set_edges (fun es => es ++ [ with_certainty "uncertain"
                                      (edge "IN_DOMAIN" "F_000009" "Factoid" display "Domain") ])%list
         st1).
Proof.
  destruct (proj2 (link_group_routes sample_repr sample_hash sample_ligature "F_000009" "uncertain")
              [ Call_process_record sample_record ]
              (Some [ "# nations"; "Nation anglaise" ]) (Some [ "Theologie" ])
              "Theologie." "Theologie" eq_refl)
    as (display & st1 & H1 & _ & _ & H4).
  - vm_compute. reflexivity.
  - exists display, st1. split; assumption.
Defined.

(** C9 after the sample record: three factoids, numbered 1 to 3. *)
Lemma factoid_ids_sequential_witness :
  let st := after_calls sample_repr sample_hash sample_ligature
      [ Call_process_record sample_record ]
              sample_init in
  _factoid_counter st = 3%N /\
  map (field "from_id") (edges_of_type "HAS_TYPE" (edges st))
  = map JStr [ "F_000001"; "F_000002"; "F_000003" ].
Proof.
  cbv zeta. split; [vm_compute; reflexivity|].
  etransitivity;
    [ exact (proj1 (factoid_ids_sequential sample_repr sample_hash sample_ligature
                      [ Call_process_record sample_record ] []
                      (Some [ "# nations"; "Nation anglaise" ]) (Some [ "Theologie" ])))
    | vm_compute; reflexivity ].
Defined.

(** ** The cleaners and the limits of the statements, on sample inputs *)

Example clean_sample :
  TextCleaner.clean_str "  Johannes de  Parisiis (?) ;,. " = Some "Johannes de Parisiis ;,".
Proof. reflexivity. Qed.

Example clean_stop_word_sample : TextCleaner.clean_str " inconnu. " = None.
Proof. reflexivity. Qed.

Example clean_institution_sample :
  TextCleaner.clean_institution
    ("ParisFacult" +:+ Str.chr 233 +:+ " de Th" +:+ Str.chr 233 +:+ "ologie %12.3% (?) ).")
  = Some ("Paris Facult" +:+ Str.chr 233 +:+ " de Th" +:+ Str.chr 233 +:+ "ologie").
Proof. reflexivity. Qed.

Example clean_person_name_sample :
  TextCleaner.clean_person_name_str "Jean $de Paris., oncle" = Some "Jean de Paris".
Proof. reflexivity. Qed.

Example normalize_classification_sample :
  TextCleaner.normalize_classification (" TH" +:+ Str.chr 201 +:+ "OLOGIE ") = "theologie".
Proof. reflexivity. Qed.

Example factoid_id_sample :
  factoid_id 42 = "F_000042" /\ factoid_id 1234567 = "F_1234567".
Proof. split; reflexivity. Qed.

(** C8, the failing input: a record with an identifier and a usable name
    whose birth place has a meta with ["places": null].  A present [None]
    where a list is expected is not a missing field: [safe_list] takes it
    for an empty list, but [detect_uncertainty] iterates it and raises
    [TypeError], so [process_record] does not complete.  The exception
    leaves what the identity section had stored. *)
Example null_places_raises :
  let meta := JObj [ ("places", JNull) ] in
  has_identifier null_places_record = true /\
  safe_list meta "places" = inr [] /\
  detect_uncertainty meta = inl TypeError /\
  wf_record null_places_record = false /\
  fst (process_record sample_repr sample_hash sample_ligature null_places_record sample_init) =
      inl TypeError /\
  is_Some (persons (snd (process_record sample_repr sample_hash sample_ligature null_places_record
                           sample_init)) !! "Petrus").
Proof. cbv zeta. do 5 (split; [reflexivity|]). vm_compute. eauto. Qed.

(** A record without identifier raises at once and stores nothing. *)
Example missing_identifier_raises :
  process_record sample_repr sample_hash sample_ligature (JObj [ ("identity", JObj []) ])
      sample_init
  = (inl KeyError, sample_init).
Proof. reflexivity. Qed.

(** The whole sample record: a discipline gets a Domain node and an
    IN_DOMAIN edge, a nation a Group node and an AT_GROUP edge. *)
Example sample_record_groups :
  let st := snd (process_record sample_repr sample_hash sample_ligature sample_record sample_init)
      in
  fst (process_record sample_repr sample_hash sample_ligature sample_record sample_init) = inr tt /\
  _entity_class st = {[ "Theologie" := "discipline"; "Nation anglaise" := "nation" ]} /\
  map (field "to_id") (edges_of_type "IN_DOMAIN" (edges st)) = [ JStr "Theologie" ] /\
  map (field "to_id") (edges_of_type "AT_GROUP" (edges st)) = [ JStr "Nation anglaise" ].
Proof. cbv zeta. repeat split; vm_compute; reflexivity. Qed.

(** * Further properties *)

(** ** Characters that a cleaner removes or keeps out *)

Lemma sexists_append (p : ascii -> bool) (a b : string) :
  Str.sexists p (a +:+ b) = Str.sexists p a || Str.sexists p b.
Proof. induction a as [|c a IH]; simpl; [reflexivity|]. now rewrite IH, orb_assoc. Qed.

Lemma absent_sfilter (p q : ascii -> bool) (s : string) :
  Str.sexists p s = false -> Str.sexists p (Str.sfilter q s) = false.
Proof.
  induction s as [|c s IH]; simpl; [reflexivity|]. intros H.
  apply orb_false_iff in H as [Hc Hs]. destruct (q c); simpl; rewrite ?Hc; auto.
Qed.

Lemma absent_remove_char (p : ascii -> bool) (c : ascii) (s : string) :
  Str.sexists p s = false -> Str.sexists p (Str.remove_char c s) = false.
Proof. apply absent_sfilter. Qed.

Lemma remove_char_gone (c : ascii) (s : string) :
  Str.contains c (Str.remove_char c s) = false.
Proof.
  unfold Str.contains, Str.remove_char. induction s as [|x s IH]; simpl; [reflexivity|].
  destruct (Ascii.eqb x c) eqn:E; simpl; [exact IH|].
  rewrite Ascii.eqb_sym, E. exact IH.
Qed.

Lemma absent_lstrip_by (p q : ascii -> bool) (s : string) :
  Str.sexists p s = false -> Str.sexists p (Str.lstrip_by q s) = false.
Proof.
  induction s as [|c s IH]; simpl; [reflexivity|]. intros H.
  destruct (q c); [|exact H]. apply orb_false_iff in H as [_ Hs]. auto.
Qed.

Lemma absent_rstrip_by (p q : ascii -> bool) (s : string) :
  Str.sexists p s = false -> Str.sexists p (Str.rstrip_by q s) = false.
Proof.
  induction s as [|c s IH]; simpl; [reflexivity|]. intros H.
  apply orb_false_iff in H as [Hc Hs].
  destruct (q c && Str.is_empty (Str.rstrip_by q s)); simpl; [reflexivity|].
  rewrite Hc. auto.
Qed.

Lemma absent_strip (p : ascii -> bool) (s : string) :
  Str.sexists p s = false -> Str.sexists p (Str.strip s) = false.
Proof. intros H. now apply absent_rstrip_by, absent_lstrip_by. Qed.

Lemma absent_sub_scan (p : ascii -> bool)
    (m : option ascii -> string -> option (string * nat)) :
  (forall prev s rep n, m prev s = Some (rep, n) -> Str.sexists p rep = false) ->
  forall s skip prev,
    Str.sexists p s = false -> Str.sexists p (Str.sub_scan m skip prev s) = false.
Proof.
  intros Hm. induction s as [|c s IH]; intros skip prev H; simpl; [reflexivity|].
  simpl in H. apply orb_false_iff in H as [Hc Hs].
  destruct skip as [|k]; [|now apply IH].
  destruct (m prev (String c s)) as [[rep n]|] eqn:E.
  - rewrite sexists_append, (Hm _ _ _ _ E). now apply IH.
  - simpl. rewrite Hc. now apply IH.
Qed.

Lemma absent_re_sub (p : ascii -> bool)
    (m : option ascii -> string -> option (string * nat)) (s : string) :
  (forall prev s rep n, m prev s = Some (rep, n) -> Str.sexists p rep = false) ->
  Str.sexists p s = false -> Str.sexists p (Str.re_sub m s) = false.
Proof. intros Hm H. now apply absent_sub_scan. Qed.

Lemma re_empty_parens_rep (prev : option ascii) (s rep : string) (n : nat) :
  Str.re_empty_parens prev s = Some (rep, n) -> rep = "".
Proof.
  unfold Str.re_empty_parens. destruct s as [|c r]; [discriminate|].
  destruct (_ && _); [|discriminate]. now intros [= <- _].
Qed.

Lemma re_spaces_rep (least : nat) (prev : option ascii) (s rep : string) (n : nat) :
  Str.re_spaces least prev s = Some (rep, n) -> rep = " ".
Proof. unfold Str.re_spaces. destruct (_ <=? _)%nat; [|discriminate]. now intros [= <- _]. Qed.

Lemma re_percent_span_rep (prev : option ascii) (s rep : string) (n : nat) :
  Str.re_percent_span prev s = Some (rep, n) -> rep = "".
Proof.
  unfold Str.re_percent_span. destruct s as [|c r]; [discriminate|].
  destruct (_ && _); [|discriminate]. now intros [= <- _].
Qed.

Lemma re_percent_code_rep (prev : option ascii) (s rep : string) (n : nat) :
  Str.re_percent_code prev s = Some (rep, n) -> rep = "".
Proof.
  unfold Str.re_percent_code. destruct s as [|c r]; [discriminate|].
  destruct (_ && _); [|discriminate]. now intros [= <- _].
Qed.

Lemma re_keyword_rep (prev : option ascii) (s rep : string) (n : nat) :
  Str.re_keyword prev s = Some (rep, n) -> exists kw, In kw Str.keywords /\ rep = " " +:+ kw.
Proof.
  unfold Str.re_keyword. destruct prev as [c|]; [|discriminate].
  destruct (Str.is_letter c); [|discriminate].
  destruct (List.find _ Str.keywords) as [kw|] eqn:E; [|discriminate].
  intros [= <- _]. exists kw. split; [|reflexivity].
  now apply List.find_some in E as [E _].
Qed.

Lemma absent_drop_last (p : ascii -> bool) (s : string) :
  Str.sexists p s = false -> Str.sexists p (Str.drop_last s) = false.
Proof.
  induction s as [|c s IH]; simpl; [reflexivity|]. intros H.
  apply orb_false_iff in H as [Hc Hs]. destruct s as [|d s]; [reflexivity|].
  change (Str.sexists p (String c (Str.drop_last (String d s))) = false).
  simpl Str.sexists at 1. rewrite Hc. now apply IH.
Qed.

Lemma absent_before_first (p : ascii -> bool) (c : ascii) (s : string) :
  Str.sexists p s = false -> Str.sexists p (Str.before_first c s) = false.
Proof.
  induction s as [|x s IH]; simpl; [reflexivity|]. intros H.
  apply orb_false_iff in H as [Hc Hs]. destruct (Ascii.eqb x c); simpl; [reflexivity|].
  rewrite Hc. auto.
Qed.

Lemma before_first_gone (c : ascii) (s : string) :
  Str.contains c (Str.before_first c s) = false.
Proof.
  unfold Str.contains. induction s as [|x s IH]; simpl; [reflexivity|].
  destruct (Ascii.eqb x c) eqn:E; simpl; [reflexivity|].
  now rewrite Ascii.eqb_sym, E.
Qed.

Lemma absent_replace_char (p : ascii -> bool) (a b : ascii) (s : string) :
  p b = false -> Str.sexists p s = false -> Str.sexists p (Str.replace_char a b s) = false.
Proof.
  intros Hb. unfold Str.replace_char. induction s as [|x s IH]; simpl; [reflexivity|].
  intros H. apply orb_false_iff in H as [Hc Hs].
  destruct (Ascii.eqb x a); rewrite ?Hb, ?Hc; auto.
Qed.

Lemma replace_char_gone (a b : ascii) (s : string) :
  Ascii.eqb a b = false -> Str.contains a (Str.replace_char a b s) = false.
Proof.
  intros Hab. unfold Str.contains, Str.replace_char.
  induction s as [|x s IH]; simpl; [reflexivity|].
  destruct (Ascii.eqb x a) eqn:E; rewrite ?Hab; [exact IH|].
  now rewrite Ascii.eqb_sym, E.
Qed.

Lemma absent_drop_closing (p : ascii -> bool) (fuel : nat) (s : string) :
  Str.sexists p s = false -> Str.sexists p (TextCleaner.drop_closing fuel s) = false.
Proof.
  revert s. induction fuel as [|fuel IH]; intros s H; simpl; [exact H|].
  destruct (Str.last_char s) as [c|]; [|exact H].
  destruct (TextCleaner.closing c); [|exact H].
  now apply IH, absent_strip, absent_drop_last.
Qed.

Lemma absent_drop_trailing (p : ascii -> bool) (fuel : nat) (s : string) :
  Str.sexists p s = false -> Str.sexists p (drop_trailing fuel s) = false.
Proof.
  revert s. induction fuel as [|fuel IH]; intros s H; simpl; [exact H|].
  destruct (Str.last_char s) as [c|]; [|exact H].
  destruct (trailing c); [|exact H].
  now apply IH, absent_strip, absent_drop_last.
Qed.

(** ** [strip] leaves a text that [strip] does not change *)

Lemma rstrip_by_idem (p : ascii -> bool) (s : string) :
  Str.rstrip_by p (Str.rstrip_by p s) = Str.rstrip_by p s.
Proof.
  induction s as [|c s IH]; simpl; [reflexivity|].
  destruct (p c && Str.is_empty (Str.rstrip_by p s)) eqn:E; [reflexivity|].
  simpl. now rewrite IH, E.
Qed.

Lemma lstrip_by_head (p : ascii -> bool) (s : string) : head_kept p (Str.lstrip_by p s).
Proof.
  induction s as [|c s IH]; simpl; [exact I|]. destruct (p c) eqn:E; [exact IH | exact E].
Qed.

Lemma lstrip_by_kept (p : ascii -> bool) (s : string) :
  head_kept p s -> Str.lstrip_by p s = s.
Proof. destruct s as [|c s]; simpl; [reflexivity|]. now intros ->. Qed.

Lemma rstrip_by_head (p : ascii -> bool) (s : string) :
  head_kept p s -> head_kept p (Str.rstrip_by p s).
Proof. destruct s as [|c s]; simpl; [exact id|]. intros H. rewrite H. exact H. Qed.

Lemma strip_idem (s : string) : Str.strip (Str.strip s) = Str.strip s.
Proof.
  unfold Str.strip.
  rewrite (lstrip_by_kept _ (Str.rstrip_by _ _)); [apply rstrip_by_idem|].
  apply rstrip_by_head, lstrip_by_head.
Qed.

(** ** Runs of whitespace *)

Lemma single_spaced_tail (c : ascii) (s : string) :
  single_spaced (String c s) = true -> single_spaced s = true.
Proof. simpl. intros H. now apply andb_true_iff in H as [_ H]. Qed.

Lemma single_spaced_cons (c : ascii) (s : string) :
  (Str.isspace c = true -> head_kept Str.isspace s) -> single_spaced s = true ->
  single_spaced (String c s) = true.
Proof.
  intros Hc Hs. simpl. rewrite Hs, andb_true_r.
  destruct (Str.isspace c); [|reflexivity]. specialize (Hc eq_refl).
  destruct s as [|d s]; [reflexivity|]. simpl in Hc. now rewrite Hc.
Qed.

Lemma single_spaced_head (c : ascii) (s : string) :
  single_spaced (String c s) = true -> Str.isspace c = true -> head_kept Str.isspace s.
Proof.
  simpl. intros H Hc. apply andb_true_iff in H as [H _]. rewrite Hc in H.
  destruct s as [|d s]; [exact I|]. simpl in *. now destruct (Str.isspace d).
Qed.

Lemma span_len_zero (p : ascii -> bool) (s : string) :
  Str.span_len p s = 0 -> head_kept p s.
Proof. destruct s as [|c s]; simpl; [auto|]. now destruct (p c). Qed.

Lemma single_spaced_sub_scan (s : string) :
  (forall prev,
     single_spaced (Str.sub_scan (Str.re_spaces 2) 0 prev s) = true /\
     (head_kept Str.isspace s ->
      head_kept Str.isspace (Str.sub_scan (Str.re_spaces 2) 0 prev s))) /\
  (forall skip prev, Str.span_len Str.isspace s = skip ->
     single_spaced (Str.sub_scan (Str.re_spaces 2) skip prev s) = true /\
     head_kept Str.isspace (Str.sub_scan (Str.re_spaces 2) skip prev s)).
Proof.
  induction s as [|c s [IH1 IH2]]; [repeat split|].
  assert (H1 : forall prev,
     single_spaced (Str.sub_scan (Str.re_spaces 2) 0 prev (String c s)) = true /\
     (head_kept Str.isspace (String c s) ->
      head_kept Str.isspace (Str.sub_scan (Str.re_spaces 2) 0 prev (String c s)))).
  { intros prev. cbn [Str.sub_scan]. unfold Str.re_spaces. cbn [Str.span_len head_kept].
    destruct (Str.isspace c) eqn:Ec.
    - destruct (Str.span_len Str.isspace s) as [|k] eqn:Ek; cbn [Nat.leb Nat.pred].
      + destruct (IH1 (Some c)) as [Ha Hb]. split; [|discriminate].
        apply single_spaced_cons; [|exact Ha]. intros _. apply Hb.
        now apply span_len_zero.
      + destruct (IH2 (S k) (Some c) eq_refl) as [Ha Hb]. split; [|discriminate].
        change (" " +:+ ?x) with (String " " x).
        apply single_spaced_cons; [|exact Ha]. now intros _.
    - cbn [Nat.leb]. destruct (IH1 (Some c)) as [Ha Hb]. split; [|now intros _].
      apply single_spaced_cons; [|exact Ha]. intros H. simpl in H. congruence. }
  split; [exact H1|].
  intros skip prev Hk. destruct skip as [|k].
  - destruct (H1 prev) as [Ha Hb]. split; [exact Ha|]. now apply Hb, span_len_zero.
  - cbn [Str.sub_scan]. apply IH2. simpl in Hk. destruct (Str.isspace c); congruence.
Qed.

Lemma single_spaced_re_spaces (s : string) :
  single_spaced (Str.re_sub (Str.re_spaces 2) s) = true.
Proof. exact (proj1 (proj1 (single_spaced_sub_scan s) None)). Qed.

Lemma single_spaced_lstrip_by (q : ascii -> bool) (s : string) :
  single_spaced s = true -> single_spaced (Str.lstrip_by q s) = true.
Proof.
  induction s as [|c s IH]; [reflexivity|]. intros H. cbn [Str.lstrip_by].
  destruct (q c); [|exact H]. now apply IH, (single_spaced_tail c).
Qed.

Lemma rstrip_by_head_of (p q : ascii -> bool) (s : string) :
  head_kept p s -> head_kept p (Str.rstrip_by q s).
Proof.
  destruct s as [|c s]; simpl; [exact id|]. intros H.
  now destruct (q c && Str.is_empty (Str.rstrip_by q s)).
Qed.

Lemma single_spaced_rstrip_by (q : ascii -> bool) (s : string) :
  single_spaced s = true -> single_spaced (Str.rstrip_by q s) = true.
Proof.
  induction s as [|c s IH]; [reflexivity|]. intros H. cbn [Str.rstrip_by].
  destruct (q c && Str.is_empty (Str.rstrip_by q s)); [reflexivity|].
  apply single_spaced_cons.
  - intros Hc. now apply rstrip_by_head_of, (single_spaced_head c).
  - now apply IH, (single_spaced_tail c).
Qed.

Lemma single_spaced_strip (s : string) :
  single_spaced s = true -> single_spaced (Str.strip s) = true.
Proof. intros H. now apply single_spaced_rstrip_by, single_spaced_lstrip_by. Qed.

Lemma drop_last_head_of (p : ascii -> bool) (s : string) :
  head_kept p s -> head_kept p (Str.drop_last s).
Proof. destruct s as [|c [|d s]]; simpl; auto. Qed.

Lemma single_spaced_drop_last (s : string) :
  single_spaced s = true -> single_spaced (Str.drop_last s) = true.
Proof.
  induction s as [|c s IH]; [reflexivity|]. intros H.
  destruct s as [|d s]; [reflexivity|].
  change (Str.drop_last (String c (String d s))) with (String c (Str.drop_last (String d s))).
  apply single_spaced_cons.
  - intros Hc. now apply drop_last_head_of, (single_spaced_head c).
  - now apply IH, (single_spaced_tail c).
Qed.

Lemma single_spaced_drop_trailing (fuel : nat) (s : string) :
  single_spaced s = true -> single_spaced (drop_trailing fuel s) = true.
Proof.
  revert s. induction fuel as [|fuel IH]; intros s H; simpl; [exact H|].
  destruct (Str.last_char s) as [c|]; [|exact H].
  destruct (trailing c); [|exact H].
  now apply IH, single_spaced_strip, single_spaced_drop_last.
Qed.

(** ** What the cleaners return *)

Section Cleaners.

#[local] Arguments TextCleaner.strip_markers : simpl never.

Lemma absent_strip_markers (p : ascii -> bool) (s : string) :
  Str.sexists p s = false -> Str.sexists p (TextCleaner.strip_markers s) = false.
Proof. intros H. unfold TextCleaner.strip_markers. now do 3 apply absent_remove_char. Qed.

Lemma strip_markers_gone (s : string) :
  Str.contains "$" (TextCleaner.strip_markers s) = false /\
  Str.contains "163" (TextCleaner.strip_markers s) = false /\
  Str.contains "*" (TextCleaner.strip_markers s) = false.
Proof.
  unfold TextCleaner.strip_markers. repeat split.
  - do 2 apply absent_remove_char. apply remove_char_gone.
  - apply absent_remove_char. apply remove_char_gone.
  - apply remove_char_gone.
Qed.

Lemma absent_re_empty_parens (p : ascii -> bool) (s : string) :
  Str.sexists p s = false -> Str.sexists p (Str.re_sub Str.re_empty_parens s) = false.
Proof.
  apply absent_re_sub. intros prev x rep n E. now rewrite (re_empty_parens_rep _ _ _ _ E).
Qed.

Lemma absent_re_spaces (p : ascii -> bool) (least : nat) (s : string) :
  p " "%char = false ->
  Str.sexists p s = false -> Str.sexists p (Str.re_sub (Str.re_spaces least) s) = false.
Proof.
  intros Hp. apply absent_re_sub. intros prev x rep n E.
  rewrite (re_spaces_rep _ _ _ _ _ E). simpl. now rewrite Hp.
Qed.

(** What [clean] does after the markers are gone keeps them out. *)
Lemma absent_clean_tail (p : ascii -> bool) (t : string) :
  p " "%char = false -> Str.sexists p t = false ->
  Str.sexists p
    (Str.strip (Str.rstrip_char "." (Str.rstrip_char "," (Str.rstrip_char ";"
       (Str.re_sub (Str.re_spaces 2) (Str.re_sub Str.re_empty_parens t)))))) = false.
Proof.
  intros Hp H. apply absent_strip. unfold Str.rstrip_char.
  do 3 apply absent_rstrip_by. now apply absent_re_spaces, absent_re_empty_parens.
Qed.

(** X1.  A text that [clean] returns is not empty and not a stop word,
    holds none of the editorial markers [$], the pound sign, [*] and [?], has
    no white space at either end, and no two white-space characters in a
    row. *)
Theorem clean_result_is_clean (text : json) (t : string) :
  TextCleaner.clean text = inr (Some t) ->
  t <> "" /\ in_stop_words (Str.upper t) = false /\
  Str.contains "$" t = false /\ Str.contains "163" t = false /\
  Str.contains "*" t = false /\ Str.contains "?" t = false /\
  Str.strip t = t /\ single_spaced t = true.
Proof.
  destruct text as [| | |s| |]; try discriminate. simpl. intros [= H]. revert H.
  unfold TextCleaner.clean_str.
  set (t0 := TextCleaner.strip_markers (Str.strip s)).
  set (t1 := Str.remove_char "?" t0).
  destruct (strip_markers_gone (Str.strip s)) as (Hd & Hp & Hs). fold t0 in Hd, Hp, Hs.
  match goal with |- (if ?b then _ else _) = _ -> _ => destruct b eqn:E end; [discriminate|].
  intros [= <-]. apply orb_false_iff in E as [Estop Eempty].
  split; [now apply is_empty_false|]. split; [exact Estop|].
  unfold Str.contains in *.
  repeat split.
  - apply absent_clean_tail; [reflexivity|]. now apply absent_remove_char.
  - apply absent_clean_tail; [reflexivity|]. now apply absent_remove_char.
  - apply absent_clean_tail; [reflexivity|]. now apply absent_remove_char.
  - apply absent_clean_tail; [reflexivity|]. apply remove_char_gone.
  - apply strip_idem.
  - apply single_spaced_strip. unfold Str.rstrip_char.
    do 3 apply single_spaced_rstrip_by. apply single_spaced_re_spaces.
Qed.

Lemma clean_result_is_clean_witness :
  TextCleaner.clean (JStr "  Johannes de  Parisiis (?) ;,. ") = inr (Some "Johannes de Parisiis ;,") /\
  Str.contains "?" "Johannes de Parisiis ;," = false /\
  single_spaced "Johannes de Parisiis ;," = true.
Proof.
  split; [reflexivity|].
  destruct (clean_result_is_clean (JStr "  Johannes de  Parisiis (?) ;,. ")
              "Johannes de Parisiis ;," eq_refl) as (_ & _ & _ & _ & _ & H & _ & H').
  split; [exact H | exact H'].
Defined.

Lemma absent_keyword (p : ascii -> bool) (s : string) :
  p " "%char = false -> Forall (fun kw => Str.sexists p kw = false) Str.keywords ->
  Str.sexists p s = false -> Str.sexists p (Str.re_sub Str.re_keyword s) = false.
Proof.
  intros Hp Hk. apply absent_re_sub. intros prev x rep n E.
  destruct (re_keyword_rep _ _ _ _ E) as (kw & Hin & ->).
  rewrite Forall_forall in Hk. simpl. rewrite Hp. simpl. apply Hk. now apply list_elem_of_In.
Qed.

(** What [clean_institution] does after its second removal of markers. *)
Lemma absent_institution_tail (p : ascii -> bool) (n : string) :
  p " "%char = false -> Str.sexists p n = false ->
  Str.sexists p
    (Str.strip (Str.replace_char "=" " "
       (Str.re_sub (Str.re_spaces 1)
          (TextCleaner.drop_closing (String.length (Str.re_sub Str.re_empty_parens n))
             (Str.re_sub Str.re_empty_parens n))))) = false.
Proof.
  intros Hp H. apply absent_strip, absent_replace_char; [exact Hp|].
  apply absent_re_spaces; [exact Hp|]. now apply absent_drop_closing, absent_re_empty_parens.
Qed.

(** X2.  A name that [clean_institution] returns is not empty and not a stop
    word, holds none of [$], the pound sign, [*], [?], [%] and [=], and has no
    white space at either end. *)
Theorem clean_institution_result_is_clean (name n : string) :
  TextCleaner.clean_institution name = Some n ->
  n <> "" /\ in_stop_words (Str.upper n) = false /\
  Str.contains "$" n = false /\ Str.contains "163" n = false /\
  Str.contains "*" n = false /\ Str.contains "?" n = false /\
  Str.contains "%" n = false /\ Str.contains "=" n = false /\
  Str.strip n = n.
Proof.
  unfold TextCleaner.clean_institution.
  destruct (Str.is_empty name); [discriminate|].
  set (n1 := Str.remove_char "?" (TextCleaner.strip_markers (Str.strip name))).
  set (n4 := Str.re_sub Str.re_keyword
               (Str.re_sub Str.re_percent_code (Str.re_sub Str.re_percent_span n1))).
  set (n5 := Str.remove_char "%" (TextCleaner.strip_markers n4)).
  match goal with |- (if ?b then _ else _) = _ -> _ => destruct b eqn:E end; [discriminate|].
  intros [= <-]. apply orb_false_iff in E as [Eempty Estop].
  split; [now apply is_empty_false|]. split; [exact Estop|].
  destruct (strip_markers_gone n4) as (Hd & Hp & Hs).
  assert (Hq : Str.contains "?" n5 = false).
  { unfold Str.contains, n5, n4.
    apply absent_remove_char, absent_strip_markers, absent_keyword;
      [reflexivity | repeat constructor |].
    apply absent_re_sub; [intros ? ? ? ? E; now rewrite (re_percent_code_rep _ _ _ _ E)|].
    apply absent_re_sub; [intros ? ? ? ? E; now rewrite (re_percent_span_rep _ _ _ _ E)|].
    apply remove_char_gone. }
  unfold Str.contains in *. repeat split.
  - apply absent_institution_tail; [reflexivity|]. now apply absent_remove_char.
  - apply absent_institution_tail; [reflexivity|]. now apply absent_remove_char.
  - apply absent_institution_tail; [reflexivity|]. now apply absent_remove_char.
  - apply absent_institution_tail; [reflexivity | exact Hq].
  - apply absent_institution_tail; [reflexivity|]. apply remove_char_gone.
  - apply absent_strip. now apply replace_char_gone.
  - apply strip_idem.
Qed.

Lemma clean_institution_result_is_clean_witness :
  TextCleaner.clean_institution "Paris=Nation ?$ %12% (%c. 12)."
  = Some "Paris Nation" /\
  Str.contains "%" "Paris Nation" = false /\ Str.contains "=" "Paris Nation" = false.
Proof.
  split; [reflexivity|].
  destruct (clean_institution_result_is_clean "Paris=Nation ?$ %12% (%c. 12)."
              "Paris Nation" eq_refl) as (_ & _ & _ & _ & _ & _ & H & H' & _).
  split; [exact H | exact H'].
Defined.

(** X3.  A name that [clean_person_name] returns is not empty and not a stop
    word, holds no comma (what follows the first comma is cut), none of [$],
    the pound sign and [=], and has no white space at either end. *)
Theorem clean_person_name_result_is_clean (raw : json) (name : string) :
  TextCleaner.clean_person_name raw = inr (Some name) ->
  name <> "" /\ in_stop_words (Str.upper name) = false /\
  Str.contains "," name = false /\ Str.contains "$" name = false /\
  Str.contains "163" name = false /\ Str.contains "=" name = false /\
  Str.strip name = name.
Proof.
  destruct raw as [| | |s| |]; try discriminate. simpl. intros [= H]. revert H.
  unfold TextCleaner.clean_person_name_str.
  set (n0 := Str.strip (Str.replace_char "=" " "
               (Str.remove_char "163" (Str.remove_char "$" s)))).
  set (n1 := if Str.contains "," n0 then Str.strip (Str.before_first "," n0) else n0).
  match goal with |- (if ?b then _ else _) = _ -> _ => destruct b eqn:E end; [discriminate|].
  intros [= <-]. apply orb_false_iff in E as [Eempty Estop].
  split; [now apply is_empty_false|]. split; [exact Estop|].
  assert (Hkeep : forall p, Str.sexists p n1 = false ->
            Str.sexists p (Str.strip (Str.rstrip_char ";" (Str.rstrip_char "." (Str.strip n1))))
            = false).
  { intros p H. apply absent_strip. unfold Str.rstrip_char.
    do 2 apply absent_rstrip_by. now apply absent_strip. }
  assert (Hcut : forall p, Str.sexists p n0 = false -> Str.sexists p n1 = false).
  { intros p H. unfold n1. destruct (Str.contains "," n0); [|exact H].
    now apply absent_strip, absent_before_first. }
  unfold Str.contains in *. repeat split.
  - apply Hkeep. unfold n1. destruct (Str.sexists (Ascii.eqb ",") n0) eqn:Ec; [|exact Ec].
    apply absent_strip, before_first_gone.
  - apply Hkeep, Hcut. unfold n0.
    apply absent_strip, absent_replace_char; [reflexivity|].
    apply absent_remove_char, remove_char_gone.
  - apply Hkeep, Hcut. unfold n0.
    apply absent_strip, absent_replace_char; [reflexivity|]. apply remove_char_gone.
  - apply Hkeep, Hcut. unfold n0. apply absent_strip. now apply replace_char_gone.
  - apply strip_idem.
Qed.

Lemma clean_person_name_result_is_clean_witness :
  TextCleaner.clean_person_name (JStr "Jean $de=Paris., oncle") = inr (Some "Jean de Paris") /\
  Str.contains "," "Jean de Paris" = false.
Proof.
  split; [reflexivity|].
  exact (proj1 (proj2 (proj2 (clean_person_name_result_is_clean
                                 (JStr "Jean $de=Paris., oncle") "Jean de Paris" eq_refl)))).
Defined.

End Cleaners.

(** ** Classification keys *)

Lemma sforall_append (p : ascii -> bool) (a b : string) :
  sforall p (a +:+ b) = sforall p a && sforall p b.
Proof. induction a as [|c a IH]; simpl; [reflexivity|]. now rewrite IH, andb_assoc. Qed.

Lemma sforall_sflat (p : ascii -> bool) (f : ascii -> string) (s : string) :
  sforall (fun c => sforall p (f c)) s = true -> sforall p (Str.sflat f s) = true.
Proof.
  induction s as [|c s IH]; simpl; [reflexivity|]. intros H.
  apply andb_true_iff in H as [Hc Hs]. rewrite sforall_append, Hc. now apply IH.
Qed.

Lemma sforall_smap (p : ascii -> bool) (f : ascii -> ascii) (s : string) :
  (forall c, p (f c) = true) -> sforall p (Str.smap f s) = true.
Proof. intros H. induction s as [|c s IH]; simpl; [reflexivity|]. now rewrite H. Qed.

Lemma sforall_lstrip_by (p q : ascii -> bool) (s : string) :
  sforall p s = true -> sforall p (Str.lstrip_by q s) = true.
Proof.
  induction s as [|c s IH]; simpl; [reflexivity|]. intros H.
  destruct (q c); [|exact H]. apply andb_true_iff in H as [_ Hs]. auto.
Qed.

Lemma sforall_rstrip_by (p q : ascii -> bool) (s : string) :
  sforall p s = true -> sforall p (Str.rstrip_by q s) = true.
Proof.
  induction s as [|c s IH]; simpl; [reflexivity|]. intros H.
  apply andb_true_iff in H as [Hc Hs].
  destruct (q c && Str.is_empty (Str.rstrip_by q s)); simpl; [reflexivity|].
  rewrite Hc. auto.
Qed.

Lemma sforall_strip (p : ascii -> bool) (s : string) :
  sforall p s = true -> sforall p (Str.strip s) = true.
Proof. intros H. now apply sforall_rstrip_by, sforall_lstrip_by. Qed.

Lemma lower_char_plain (c : ascii) :
  sforall plain_char (Str.nfd_ascii_char (Str.lower_char c)) = true.
Proof. destruct c as [[] [] [] [] [] [] [] []]; vm_compute; reflexivity. Qed.

Lemma lower_char_idem (c : ascii) : Str.lower_char (Str.lower_char c) = Str.lower_char c.
Proof. destruct c as [[] [] [] [] [] [] [] []]; vm_compute; reflexivity. Qed.

Lemma lower_idem (s : string) : Str.lower (Str.lower s) = Str.lower s.
Proof.
  unfold Str.lower. induction s as [|c s IH]; simpl; [reflexivity|].
  now rewrite lower_char_idem, IH.
Qed.

Lemma normalize_classification_is_plain (text : string) :
  sforall plain_char (TextCleaner.normalize_classification text) = true.
Proof.
  unfold TextCleaner.normalize_classification, Str.nfd_ascii.
  apply sforall_sflat, sforall_strip. unfold Str.lower.
  apply sforall_smap. exact lower_char_plain.
Qed.

(** X4.  The key that [normalize_classification] computes holds only ASCII
    characters and no upper-case letter, whatever the accents and the case of
    the text; and a text and its lower-case form have the same key. *)
Theorem normalize_classification_plain (text : string) :
  sforall plain_char (TextCleaner.normalize_classification text) = true /\
  TextCleaner.normalize_classification (Str.lower text)
  = TextCleaner.normalize_classification text.
Proof.
  split; [apply normalize_classification_is_plain|].
  unfold TextCleaner.normalize_classification. now rewrite lower_idem.
Qed.

(** ** [strip_uncertainty] *)

Lemma sexists_lstrip_by (p q : ascii -> bool) (s : string) :
  (forall c, q c = true -> p c = false) ->
  Str.sexists p (Str.lstrip_by q s) = Str.sexists p s.
Proof.
  intros H. induction s as [|c s IH]; simpl; [reflexivity|].
  destruct (q c) eqn:E; [|reflexivity]. now rewrite (H c E).
Qed.

Lemma sexists_rstrip_by (p q : ascii -> bool) (s : string) :
  (forall c, q c = true -> p c = false) ->
  Str.sexists p (Str.rstrip_by q s) = Str.sexists p s.
Proof.
  intros H. induction s as [|c s IH]; simpl; [reflexivity|].
  destruct (q c && Str.is_empty (Str.rstrip_by q s)) eqn:E; simpl; [|now rewrite IH].
  apply andb_true_iff in E as [Ec Er]. rewrite (H c Ec). simpl. rewrite <- IH.
  apply is_empty_true in Er. now rewrite Er.
Qed.

Lemma contains_strip (c : ascii) (s : string) :
  Str.isspace c = false -> Str.contains c (Str.strip s) = Str.contains c s.
Proof.
  intros Hc. unfold Str.contains, Str.strip.
  assert (H : forall x, Str.isspace x = true -> Ascii.eqb c x = false).
  { intros x Hx. destruct (Ascii.eqb_spec c x) as [->|]; [congruence | reflexivity]. }
  now rewrite sexists_rstrip_by, sexists_lstrip_by.
Qed.

Lemma drop_trailing_done (fuel : nat) (t : string) :
  String.length t <= fuel ->
  match Str.last_char (drop_trailing fuel t) with
  | Some c => trailing c = false
  | None => True
  end.
Proof.
  revert t. induction fuel as [|fuel IH]; intros t Ht.
  - destruct t; [exact I | simpl in Ht; lia].
  - simpl. destruct (Str.last_char t) as [c|] eqn:El; [|now rewrite El].
    destruct (trailing c) eqn:Ec; [|now rewrite El].
    apply IH. assert (Hne : t <> "") by (intros ->; discriminate).
    pose proof (length_drop_last t Hne). pose proof (length_strip (Str.drop_last t)). lia.
Qed.

Lemma drop_trailing_stripped (fuel : nat) (t : string) :
  Str.strip t = t -> Str.strip (drop_trailing fuel t) = drop_trailing fuel t.
Proof.
  revert t. induction fuel as [|fuel IH]; intros t H; simpl; [exact H|].
  destruct (Str.last_char t) as [c|]; [|exact H].
  destruct (trailing c); [|exact H]. apply IH, strip_idem.
Qed.

Lemma absent_replace (p : ascii -> bool) (old new s : string) :
  Str.sexists p new = false -> Str.sexists p s = false ->
  Str.sexists p (replace old new s) = false.
Proof.
  intros Hn. apply absent_re_sub. intros prev x rep n. unfold re_literal.
  destruct (String.prefix old x); [|discriminate]. now intros [= <- _].
Qed.

(** X5.  [strip_uncertainty] flags a text exactly when it holds a question
    mark.  An unflagged text comes back stripped of surrounding white space,
    or as [None] when nothing is left.  A text that comes back is never
    empty, holds no question mark and has no white space at either end; a
    flagged one also has no two white-space characters in a row and does not
    end with a full stop, comma, semicolon or colon. *)
Theorem strip_uncertainty_flags_question_mark (text : json) (o : option string) (flag : bool) :
  strip_uncertainty text = inr (o, flag) ->
  flag = match text with JStr s => Str.contains "?" s | _ => false end /\
  (flag = false ->
     o = match text with JStr s => nonempty (Some (Str.strip s)) | _ => None end) /\
  (forall t, o = Some t ->
     t <> "" /\ Str.contains "?" t = false /\ Str.strip t = t /\
     (flag = true ->
        single_spaced t = true /\
        match Str.last_char t with Some c => trailing c = false | None => True end)).
Proof.
  destruct text as [| | |s| |]; try discriminate; simpl.
  { intros [= <- <-]. repeat split; discriminate. }
  intros [= H]. revert H. unfold strip_uncertainty_str.
  rewrite <- (contains_strip "?" s eq_refl).
  destruct (Str.is_empty (Str.strip s)) eqn:Ee.
  { intros [= <- <-]. apply is_empty_true in Ee. rewrite Ee.
    repeat split; discriminate. }
  destruct (Str.contains "?" (Str.strip s)) eqn:Eq; cbn [negb].
  - set (t5 := Str.strip _).
    assert (Hq : Str.contains "?" t5 = false).
    { unfold Str.contains, t5. apply absent_strip, absent_re_spaces; [reflexivity|].
      do 2 (apply absent_replace; [reflexivity|]).
      apply absent_re_empty_parens, remove_char_gone. }
    assert (Hs : single_spaced t5 = true)
      by apply single_spaced_strip, single_spaced_re_spaces.
    assert (Hst : Str.strip t5 = t5) by apply strip_idem.
    destruct (Str.is_empty (drop_trailing (String.length t5) t5)) eqn:Ed;
      intros [= <- <-]; (split; [reflexivity|]); (split; [discriminate|]);
      intros t [= <-].
    split; [now apply is_empty_false|].
    split; [now apply absent_drop_trailing|].
    split; [now apply drop_trailing_stripped|]. intros _.
    split; [now apply single_spaced_drop_trailing|].
    now apply drop_trailing_done.
  - intros [= <- <-]. split; [reflexivity|]. split; [reflexivity|].
    intros t [= <-]. split; [now apply is_empty_false|]. split; [exact Eq|].
    split; [apply strip_idem | discriminate].
Qed.

Lemma strip_uncertainty_flags_question_mark_witness :
  strip_uncertainty (JStr " Paris ( ? ) , magister  artium ?.; ")
  = inr (Some "Paris , magister artium", true) /\
  Str.contains "?" "Paris , magister artium" = false.
Proof.
  split; [reflexivity|].
  destruct (strip_uncertainty_flags_question_mark
              (JStr " Paris ( ? ) , magister  artium ?.; ")
              (Some "Paris , magister artium") true eq_refl) as (_ & _ & H).
  exact (proj1 (proj2 (H _ eq_refl))).
Defined.

(** ** Reference lists *)

Lemma load_classification_list_fold (lines : list string) (acc : gset string) (x : string) :
  x ∈ foldl (fun entries line =>
               let line := Str.strip line in
               if Str.is_empty line || String.prefix "#" line then entries
               else {[ TextCleaner.normalize_classification line ]} ∪ entries)
            acc lines <->
  x ∈ acc \/
  exists line, In line lines /\ Str.is_empty (Str.strip line) = false /\
    String.prefix "#" (Str.strip line) = false /\
    x = TextCleaner.normalize_classification (Str.strip line).
Proof.
  revert acc. induction lines as [|l lines IH]; intros acc; simpl.
  - split; [auto | intros [H|(? & [] & _)]; exact H].
  - rewrite IH. clear IH. cbv zeta.
    destruct (Str.is_empty (Str.strip l)) eqn:Ee; simpl.
    + split.
      * intros [H|(line & Hin & H)]; [auto | right; exists line; tauto].
      * intros [H|(line & [<-|Hin] & H1 & H)]; [auto | congruence | right; exists line; tauto].
    + destruct (String.prefix "#" (Str.strip l)) eqn:Ep.
      * split.
        -- intros [H|(line & Hin & H)]; [auto | right; exists line; tauto].
        -- intros [H|(line & [<-|Hin] & H1 & H2 & H)];
             [auto | congruence | right; exists line; tauto].
      * rewrite elem_of_union, elem_of_singleton. split.
        -- intros [[->|H]|(line & Hin & H)]; [right; exists l; tauto | auto |].
           right; exists line; tauto.
        -- intros [H|(line & [<-|Hin] & H1 & H2 & H)]; [auto | auto |].
           right; exists line; tauto.
Qed.

(** X8.  [load_classification_list] gives the empty set for a missing file.
    Otherwise a key is in the set exactly when some line of the file,
    stripped, is neither blank nor a comment starting with [#] and has that
    key as its normalized form; so every key of the set is plain ASCII in
    lower case, as the keys that [_add_group] looks up are. *)
Theorem load_classification_list_members (lines : list string) (x : string) :
  load_classification_list None = ∅ /\
  (x ∈ load_classification_list (Some lines) <->
   exists line, In line lines /\ Str.is_empty (Str.strip line) = false /\
     String.prefix "#" (Str.strip line) = false /\
     x = TextCleaner.normalize_classification (Str.strip line)) /\
  (x ∈ load_classification_list (Some lines) -> sforall plain_char x = true).
Proof.
  split; [reflexivity|].
  assert (H : x ∈ load_classification_list (Some lines) <->
     exists line, In line lines /\ Str.is_empty (Str.strip line) = false /\
       String.prefix "#" (Str.strip line) = false /\
       x = TextCleaner.normalize_classification (Str.strip line)).
  { unfold load_classification_list. rewrite load_classification_list_fold.
    split; [intros [H|H]; [set_solver | exact H] | auto]. }
  split; [exact H|]. intros Hx. apply H in Hx as (line & _ & _ & _ & ->).
  apply normalize_classification_is_plain.
Qed.

(** ** Dates *)

Section Dates.

#[local] Arguments Py.in_strs : simpl never.

Lemma truthy_cases (v : json) :
  Py.truthy v = false \/
  (exists obj, v = JObj obj /\ obj <> [] /\ Py.truthy v = true) \/
  (Py.truthy v = true /\ forall k d, Py.get v k d = inl AttributeError).
Proof.
  destruct v as [|[]|z|[|? ?]|[|? ?]|[|? ?]]; simpl; auto.
  - destruct (z =? 0)%Z; auto.
  - right. left. eexists. repeat split. discriminate.
Qed.

Lemma extract_date_keys (kv : pydict) (e : pydict) :
  extract_date (JObj kv) = inr e ->
  Py.dict_get "type" e = Some (Py.dget kv "type" (JStr "UNKNOWN")) /\
  is_Some (Py.dict_get "start_qualifier" e) /\ is_Some (Py.dict_get "end_qualifier" e) /\
  (is_Some (Py.dict_get "start_date" e) <->
     Py.truthy (Py.dget kv "startDate" (JObj [])) = true
     \/ Py.is_none (Py.dget kv "date" JNull) = false) /\
  (is_Some (Py.dict_get "end_date" e) <-> Py.truthy (Py.dget kv "endDate" (JObj [])) = true) /\
  (forall skv, Py.dget kv "startDate" (JObj []) = JObj skv -> skv <> [] ->
     Py.dict_get "start_date" e = Some (Py.dget skv "date" JNull) /\
     Py.dict_get "start_qualifier" e = Some (Py.dget skv "type" (JStr "SIMPLE"))) /\
  (forall ekv, Py.dget kv "endDate" (JObj []) = JObj ekv -> ekv <> [] ->
     Py.dict_get "end_date" e = Some (Py.dget ekv "date" JNull) /\
     Py.dict_get "end_qualifier" e = Some (Py.dget ekv "type" (JStr "SIMPLE"))).
Proof.
  unfold extract_date. cbn [Py.get rbind].
  remember (Py.dget kv "startDate" (JObj [])) as sd eqn:Esd.
  remember (Py.dget kv "endDate" (JObj [])) as ed eqn:Eed.
  remember (Py.dget kv "date" JNull) as date eqn:Edate.
  remember (Py.dget kv "type" (JStr "SIMPLE")) as top eqn:Etop.
  remember (Py.dget kv "type" (JStr "UNKNOWN")) as ty eqn:Ety.
  clear Esd Eed Edate Etop Ety.
  destruct (truthy_cases sd) as [Hs|[(sobj & -> & Hsne & Hs)|[Hs Hsg]]]; rewrite ?Hs, ?Hsg.
  all: destruct (truthy_cases ed) as [He|[(eobj & -> & Hene & He)|[He Heg]]];
    rewrite ?He, ?Heg.
  all: destruct (Py.is_none date) eqn:En; cbn [negb rbind Py.get];
    try destruct (Py.in_strs top QUALIFIERS);
    cbn [Py.dict_get Py.dict_set String.eqb Ascii.eqb Bool.eqb negb rbind];
    rewrite ?En; cbn [negb];
    try (intros H0; discriminate H0).
  all: intros [= H]; subst e;
    cbn [Py.dict_get Py.dict_set String.eqb Ascii.eqb Bool.eqb default from_option id].
  all: repeat split; eauto; try discriminate; try tauto.
  all: try (intros [? ?]; discriminate).
  all: try (intros [?|?]; discriminate).
  all: try match goal with
    | H : JObj _ = JObj _ |- _ => injection H as <-; reflexivity
    | H : ?v = JObj ?l, Ht : Py.truthy ?v = false, Hn : ?l <> [] |- _ =>
        subst v; destruct l; [congruence | discriminate Ht]
    end.
Qed.

Lemma rmap_Forall2 {A B} (f : A -> result B) (l : list A) (r : list B) :
  rmap f l = inr r -> Forall2 (fun x y => f x = inr y) l r.
Proof.
  revert r. induction l as [|x l IH]; intros r; simpl.
  - intros [= <-]. constructor.
  - destruct (f x) as [|y] eqn:Ex; [discriminate|]. simpl.
    destruct (rmap f l) as [|ys]; [discriminate|]. simpl. intros [= <-].
    constructor; [exact Ex | now apply IH].
Qed.

(** X6.  When [extract_dates] returns, it has built one entry per date
    sub-object, in order.  Every entry carries the sub-object's type (UNKNOWN
    by default), a start qualifier and an end qualifier.  It has a start date
    exactly when the sub-object has a non-empty [startDate] or a flat [date]
    that is not [None], so no date given is dropped, and an end date exactly
    when it has a non-empty [endDate].  A non-empty [startDate] supplies the
    start date and its qualifier, whatever the flat date and the top-level
    type; likewise for [endDate]. *)
Theorem extract_dates_keeps_every_date (meta : json) (entries : list pydict) :
  extract_dates meta = inr entries ->
  exists ds, items_of meta "dates" = inr ds /\
    Forall2 (fun d e => exists kv, d = JObj kv /\
      Py.dict_get "type" e = Some (Py.dget kv "type" (JStr "UNKNOWN")) /\
      is_Some (Py.dict_get "start_qualifier" e) /\ is_Some (Py.dict_get "end_qualifier" e) /\
      (is_Some (Py.dict_get "start_date" e) <->
         Py.truthy (Py.dget kv "startDate" (JObj [])) = true
         \/ Py.is_none (Py.dget kv "date" JNull) = false) /\
      (is_Some (Py.dict_get "end_date" e) <->
         Py.truthy (Py.dget kv "endDate" (JObj [])) = true) /\
      (forall skv, Py.dget kv "startDate" (JObj []) = JObj skv -> skv <> [] ->
         Py.dict_get "start_date" e = Some (Py.dget skv "date" JNull) /\
         Py.dict_get "start_qualifier" e = Some (Py.dget skv "type" (JStr "SIMPLE"))) /\
      (forall ekv, Py.dget kv "endDate" (JObj []) = JObj ekv -> ekv <> [] ->
         Py.dict_get "end_date" e = Some (Py.dget ekv "date" JNull) /\
         Py.dict_get "end_qualifier" e = Some (Py.dget ekv "type" (JStr "SIMPLE"))))
      ds entries.
Proof.
  unfold extract_dates, items_of.
  destruct (Py.get meta "dates" (JArr [])) as [|v]; [discriminate|]. simpl.
  destruct (Py.iter v) as [|ds]; [discriminate|]. simpl. intros H.
  exists ds. split; [reflexivity|]. apply rmap_Forall2 in H.
  eapply Forall2_impl; [exact H|]. clear. intros d e H.
  destruct d as [| | | | |kv]; try discriminate. exists kv. split; [reflexivity|].
  now apply extract_date_keys.
Qed.

Lemma extract_dates_keeps_every_date_witness :
  let meta := JObj [ ("dates",
                JArr [ JObj [ ("type", JStr "INTERVAL"); ("date", JStr "1340");
                              ("startDate", JObj [ ("date", JStr "1350"); ("type", JStr "NEAR") ]) ];
                       JObj [ ("endDate", JObj [ ("date", JStr "1360") ]) ] ]) ] in
  extract_dates meta
  = inr [ [ ("type", JStr "INTERVAL"); ("start_qualifier", JStr "NEAR");
            ("end_qualifier", JStr "SIMPLE"); ("start_date", JStr "1350") ];
          [ ("type", JStr "UNKNOWN"); ("start_qualifier", JStr "SIMPLE");
            ("end_qualifier", JStr "SIMPLE"); ("end_date", JStr "1360") ] ] /\
  exists ds, items_of meta "dates" = inr ds /\ length ds = 2.
Proof.
  cbv zeta. split; [reflexivity|].
  destruct (extract_dates_keeps_every_date _ _
              (eq_refl : extract_dates (JObj [ ("dates",
                JArr [ JObj [ ("type", JStr "INTERVAL"); ("date", JStr "1340");
                              ("startDate", JObj [ ("date", JStr "1350"); ("type", JStr "NEAR") ]) ];
                       JObj [ ("endDate", JObj [ ("date", JStr "1360") ]) ] ]) ]) = inr _))
    as (ds & E & H).
  exists ds. split; [exact E|]. now apply Forall2_length in H.
Defined.

(** ** Lists of places and institutions *)

(** X7.  On a meta dict, [safe_list] never raises: a value that is not a
    list, [None] included, gives the empty list, and a list gives only texts
    that [clean] returned for one of its [str] items.  [detect_uncertainty]
    reads the same field by iterating it: its flag raises [TypeError] exactly
    when the field holds [None], a boolean or a number, and is computed
    otherwise. *)
Theorem safe_list_never_raises (kv : pydict) (key : string) :
  (exists l, safe_list (JObj kv) key = inr l /\
     ((forall vals, Py.dict_get key kv <> Some (JArr vals)) -> l = [])) /\
  (forall l t, safe_list (JObj kv) key = inr l -> In t l ->
     exists vals s, Py.dict_get key kv = Some (JArr vals) /\ In (JStr s) vals /\
       TextCleaner.clean (JStr s) = inr (Some t)) /\
  (uncertain (JObj kv) key = inl TypeError <->
     exists v, Py.dict_get key kv = Some v /\ iterable v = false) /\
  (forall v, Py.dict_get key kv = Some v -> iterable v = true ->
     exists flag, uncertain (JObj kv) key = inr flag) /\
  (Py.dict_get key kv = None -> uncertain (JObj kv) key = inr false).
Proof.
  unfold safe_list, uncertain. cbn [Py.get rbind]. unfold Py.dget.
  split; [|split; [|split; [|split]]].
  - destruct (Py.dict_get key kv) as [[| | | |vals|]|]; simpl; eexists;
      (split; [reflexivity|]); intros H; try reflexivity. now destruct (H vals).
  - intros l t. destruct (Py.dict_get key kv) as [[| | | |vals|]|]; simpl;
      intros [= <-]; try contradiction.
    intros Hin. apply list_elem_of_In, list_elem_of_omap in Hin as (v & Hv & Ht).
    destruct v as [| | |s| |]; try discriminate. exists vals, s.
    split; [reflexivity|]. split; [now apply list_elem_of_In | simpl; now rewrite Ht].
  - destruct (Py.dict_get key kv) as [[| | | | |]|]; simpl; split;
      try discriminate; eauto; try (intros (v & [= <-] & H); discriminate H);
      intros (v & [=] & _).
  - intros v ->. destruct v; try discriminate; simpl; eauto.
  - intros ->. reflexivity.
Qed.

End Dates.

(** ** The schema of the graph is kept *)

Lemma keeps_refl (st : extractor) : keeps st st.
Proof. exact id. Qed.

Lemma keeps_trans (a b c : extractor) : keeps a b -> keeps b c -> keeps a c.
Proof. unfold keeps. auto. Qed.

Lemma registry_ok_insert (cols : list string) (k : string) (n : pydict)
    (m : gmap string pydict) :
  registry_ok cols m -> node_ok cols k n -> registry_ok cols (<[k := n]> m).
Proof.
  intros Hm Hn k' n' H. destruct (decide (k = k')) as [<-|Hne].
  - rewrite lookup_insert_eq in H. now injection H as <-.
  - rewrite lookup_insert_ne in H by assumption. eauto.
Qed.

Lemma registry_ok_setdefault (cols : list string) (k : string) (n : pydict)
    (m : gmap string pydict) :
  registry_ok cols m -> node_ok cols k n -> registry_ok cols (setdefault k n m).
Proof.
  intros Hm Hn. unfold setdefault. destruct (m !! k); [exact Hm|].
  now apply registry_ok_insert.
Qed.

Lemma nodes_ok_iff (st : extractor) :
  nodes_ok st <->
  registry_ok [ "person_id"; "shortdesc"; "genre"; "person_type"; "status" ] (persons st) /\
  registry_ok [ "name_id"; "completename" ] (names st) /\
  registry_ok [ "group_id"; "group_descr"; "group_type" ] (groups st) /\
  registry_ok [ "place_id"; "place_description" ] (places st) /\
  registry_ok [ "zone_id"; "zone_description" ] (zones st) /\
  registry_ok [ "source_id"; "name"; "reference"; "link" ] (sources st) /\
  registry_ok [ "factoid_id"; "factoidtype"; "certainty"; "duration"; "notes"; "description";
                "original_text"; "problem" ] (factoids st) /\
  registry_ok [ "factoidtype_id"; "description" ] (factoid_types st) /\
  registry_ok [ "role_id"; "role_description" ] (roles st) /\
  registry_ok [ "rank_id"; "rankname" ] (ranks st) /\
  registry_ok [ "time_id"; "time_type"; "begin"; "finish"; "begin_qualifier"; "end_qualifier";
                "granularity" ] (times st) /\
  registry_ok [ "object_id"; "object_description"; "value" ] (objects st) /\
  registry_ok [ "type_id"; "type_description" ] (object_types st) /\
  registry_ok [ "domain_id"; "name" ] (domains st).
Proof.
  unfold nodes_ok, node_files. rewrite !Forall_cons, Forall_nil. cbn [fst snd]. tauto.
Qed.

(** The registries one by one, then the one that an assignment changed. *)
Ltac nodes_ok_tac Hn :=
  let H := fresh "Hn" in
  pose proof (proj1 (nodes_ok_iff _) Hn) as H; apply nodes_ok_iff;
  cbn [persons names groups places zones sources factoids factoid_types roles ranks times
       objects object_types domains set_persons set_names set_groups set_places set_zones
       set_sources set_factoids set_ranks set_times set_objects set_object_types set_domains
       set_group_canon set_entity_class set_edges set_factoid_counter] in H |- *;
  decompose [and] H; clear H;
  repeat match goal with |- _ /\ _ => split end; try assumption;
  first [ apply registry_ok_setdefault | apply registry_ok_insert ];
  [ assumption | split; reflexivity ].

Lemma edge_known_intro (ty fi fl ti tl fp tp : string) (extra : pydict) :
  In (ty, (fl, fp, tl, tp)) edge_configs ->
  incl (map fst extra) [ "certainty"; "role"; "rank"; "link_type" ] ->
  edge_known (edge ty fi fl ti tl ++ extra).
Proof. intros H1 H2. now exists ty, fi, fl, ti, tl, fp, tp, extra. Qed.

Lemma edge_known_plain (ty fi fl ti tl fp tp : string) :
  In (ty, (fl, fp, tl, tp)) edge_configs -> edge_known (edge ty fi fl ti tl).
Proof.
  intros H. rewrite <- (app_nil_r (edge ty fi fl ti tl)).
  apply (edge_known_intro _ _ _ _ _ fp tp); [exact H | intros ? []].
Qed.

Lemma edge_known_certainty (c ty fi fl ti tl fp tp : string) :
  In (ty, (fl, fp, tl, tp)) edge_configs -> edge_known (with_certainty c (edge ty fi fl ti tl)).
Proof.
  intros H. unfold with_certainty. destruct (Str.is_empty c).
  - now apply (edge_known_plain _ _ _ _ _ fp tp).
  - change (Py.dict_set "certainty" (JStr c) (edge ty fi fl ti tl))
      with (edge ty fi fl ti tl ++ [ ("certainty", JStr c) ])%list.
    apply (edge_known_intro _ _ _ _ _ fp tp); [exact H|].
    intros x [<-|[]]. now left.
Qed.

Ltac in_table := simpl; repeat (first [ left; reflexivity | right ]).

Ltac edge_known_tac :=
  first
    [ eapply edge_known_certainty; in_table
    | eapply edge_known_intro;
      [ in_table
      | let Hx := fresh in intros ? Hx; simpl in Hx; simpl; intuition (subst; auto 10) ]
    | eapply edge_known_plain; in_table ].

Lemma schema_edge (e : pydict) (st : extractor) :
  edge_known e -> schema_ok st -> schema_ok (set_edges (append e) st).
Proof.
  intros He [Hn Ht Hg Hes]. constructor.
  - apply nodes_ok_iff. apply nodes_ok_iff in Hn. exact Hn.
  - exact Ht.
  - exact Hg.
  - cbn [edges set_edges]. unfold append. apply Forall_app. split; [exact Hes|].
    now constructor.
Qed.

(** An assignment to a registry that holds neither Time nor GroupP nodes. *)
Lemma schema_nodes_only (st st' : extractor) :
  times st' = times st -> groups st' = groups st -> _entity_class st' = _entity_class st ->
  edges st' = edges st -> schema_ok st -> nodes_ok st' -> schema_ok st'.
Proof.
  intros Ht Hg Hc He [Hn Hti Hgr Hes] Hn'. constructor.
  - exact Hn'.
  - unfold times_ok. now rewrite Ht.
  - unfold groups_ok. now rewrite Hg, Hc.
  - now rewrite He.
Qed.

Ltac schema_modify :=
  let st := fresh "st" in
  let H := fresh "H" in
  intros st H;
  first
    [ apply schema_edge; [edge_known_tac | exact H]
    | apply (schema_nodes_only st); [reflexivity .. | exact H | ];
      let Hn := fresh in pose proof (schema_nodes _ H) as Hn; nodes_ok_tac Hn ].

Lemma sch_ret {A} (a : A) : establishes keeps (ret a).
Proof. apply establishes_ret, keeps_refl. Qed.

Lemma sch_lift {A} (r : result A) : establishes keeps (lift r).
Proof. apply establishes_lift, keeps_refl. Qed.

Lemma sch_gets {A} (f : extractor -> A) : establishes keeps (gets f).
Proof. apply establishes_gets, keeps_refl. Qed.

Lemma sch_bind {A B} (m : M A) (f : A -> M B) :
  establishes keeps m -> (forall a, establishes keeps (f a)) -> establishes keeps (bind m f).
Proof. apply establishes_bind, keeps_trans. Qed.

Lemma sch_when (b : bool) (m : M unit) :
  establishes keeps m -> establishes keeps (when b m).
Proof. apply establishes_when, keeps_refl. Qed.

Lemma sch_for_each {A} (l : list A) (body : A -> M unit) :
  (forall x, establishes keeps (body x)) -> establishes keeps (for_each l body).
Proof. apply establishes_for_each; [apply keeps_refl | apply keeps_trans]. Qed.

Lemma keeps_link_participant (fid person_name role rank : string) :
  establishes keeps (_link_participant fid person_name role rank).
Proof. unfold _link_participant. apply establishes_modify. schema_modify. Qed.

Lemma keeps_link_place (fid place_name certainty : string) :
  establishes keeps (_link_place fid place_name certainty).
Proof.
  unfold _link_place. apply sch_bind; [|intros _]; apply establishes_modify; schema_modify.
Qed.

Lemma keeps_link_group (fid group_name certainty : string) :
  establishes keeps (_link_group fid group_name certainty).
Proof.
  unfold _link_group. apply sch_bind; [apply sch_gets|]. intros classes. cbv zeta.
  destruct (String.eqb _ "discipline"); apply establishes_modify; schema_modify.
Qed.

Lemma dict_set_keys (f : string) (v : json) (n : pydict) :
  is_Some (Py.dict_get f n) -> map fst (Py.dict_set f v n) = map fst n.
Proof.
  induction n as [|[k w] n IH]; simpl; [intros [? ?]; discriminate|].
  destruct (String.eqb f k); simpl; [reflexivity|]. intros H. now rewrite IH.
Qed.

Lemma dict_get_set_ne (k f : string) (v : json) (n : pydict) :
  k <> f -> Py.dict_get k (Py.dict_set f v n) = Py.dict_get k n.
Proof.
  intros Hne. induction n as [|[k' w] n IH]; simpl.
  - destruct (String.eqb_spec k f); [contradiction | reflexivity].
  - destruct (String.eqb_spec f k') as [->|Hf]; simpl.
    + destruct (String.eqb_spec k k'); [contradiction | reflexivity].
    + now rewrite IH.
Qed.

Lemma keeps_fill_person_field (name fld : string) (v : json) :
  fld <> "person_id" -> establishes keeps (fill_person_field name fld v).
Proof.
  intros Hfld. unfold fill_person_field. destruct (Py.truthy v); [|apply sch_ret].
  intros st. cbv [bind person_field gets lift]. cbn [fst snd].
  destruct (persons st !! name) as [p|] eqn:Ep; [|apply keeps_refl].
  destruct (Py.dict_get fld p) as [old|] eqn:Ef; [|apply keeps_refl].
  cbv beta iota zeta delta [ret].
  destruct (Py.truthy old); cbv [when negb modify ret]; [apply keeps_refl|].
  cbn [snd]. intros H. apply (schema_nodes_only st); [reflexivity .. | exact H |].
  pose proof (schema_nodes _ H) as Hn.
  pose proof (proj1 (nodes_ok_iff _) Hn) as Hn'. apply nodes_ok_iff.
  cbn [persons names groups places zones sources factoids factoid_types roles ranks times
       objects object_types domains set_persons] in Hn' |- *.
  decompose [and] Hn'. clear Hn'. repeat match goal with |- _ /\ _ => split end;
    try assumption.
  intros k n Hk. destruct (decide (name = k)) as [<-|Hne].
  - rewrite lookup_alter_eq, Ep in Hk. injection Hk as <-.
    match goal with Hp : registry_ok _ (persons st) |- _ =>
      destruct (Hp _ _ Ep) as [Hkeys Hid] end.
    split.
    + rewrite dict_set_keys; [exact Hkeys | eauto].
    + cbn [hd] in Hid |- *. rewrite dict_get_set_ne; [exact Hid | congruence].
  - rewrite lookup_alter_ne in Hk by assumption. eauto.
Qed.

Lemma keeps_add_person (name : string) (genre shortdesc : json) (person_type : string)
    (status : json) :
  establishes keeps (_add_person name genre shortdesc person_type status).
Proof.
  unfold _add_person.
  repeat (apply sch_bind; [|intros _]);
    try (apply keeps_fill_person_field; discriminate); [|apply sch_ret].
  apply establishes_modify. schema_modify.
Qed.

Lemma keeps_add_group (raw_name : string) : establishes keeps (_add_group raw_name).
Proof.
  intros st. unfold _add_group.
  destruct (nonempty (TextCleaner.clean_institution raw_name)) as [cname|];
    [|apply keeps_refl].
  cbv [bind gets modify ret]. cbn [_entity_class set_group_canon].
  set (low := Str.strip (Str.lower cname)).
  set (display := default cname (_group_canon st !! low)).
  set (norm := TextCleaner.normalize_classification cname).
  destruct (_entity_class st !! display) as [c|] eqn:Hcl.
  - cbn [snd]. intros H. apply (schema_nodes_only st); [reflexivity .. | exact H |].
    apply nodes_ok_iff. exact (proj1 (nodes_ok_iff _) (schema_nodes _ H)).
  - change (_disciplines_set (set_group_canon (setdefault low cname) st))
      with (_disciplines_set st).
    change (_nations_set (set_group_canon (setdefault low cname) st))
      with (_nations_set st).
    assert (Hnew : forall c, c <> "discipline" -> schema_ok st ->
              schema_ok (set_groups (setdefault display (group_node display c))
                           (set_entity_class <[display := c]>
                              (set_group_canon (setdefault low cname) st)))).
    { intros c Hc [Hn Ht [Hg1 Hg2] He]. constructor; [|exact Ht| |exact He].
      - nodes_ok_tac Hn.
      - unfold groups_ok.
        cbn [groups _entity_class set_groups set_entity_class set_group_canon]. split.
        + intros g n Hgn. destruct (decide (display = g)) as [<-|Hne].
          * rewrite setdefault_lookup in Hgn.
            destruct (groups st !! display) as [n0|] eqn:E0.
            { destruct (Hg1 _ _ E0) as (c0 & Hc0 & _). congruence. }
            injection Hgn as <-. exists c. now rewrite lookup_insert_eq.
          * rewrite setdefault_lookup_ne in Hgn by assumption.
            rewrite lookup_insert_ne by assumption. eauto.
        + intros g c0 Hg Hc0. destruct (decide (display = g)) as [<-|Hne].
          * rewrite setdefault_lookup. eauto.
          * rewrite lookup_insert_ne in Hg by assumption.
            apply setdefault_is_Some. eauto. }
    destruct (bool_decide (norm ∈ _disciplines_set st));
      [|destruct (bool_decide (norm ∈ _nations_set st))]; cbn [snd];
      [|intros H; apply Hnew; [discriminate | exact H] ..].
    intros [Hn Ht [Hg1 Hg2] He]. constructor; [|exact Ht| |exact He].
    + nodes_ok_tac Hn.
    + unfold groups_ok.
      cbn [groups _entity_class set_domains set_entity_class set_group_canon]. split.
      * intros g n Hgn. destruct (Hg1 _ _ Hgn) as (c0 & Hc0 & H0).
        exists c0. rewrite lookup_insert_ne; [tauto | congruence].
      * intros g c0 Hg Hc0. destruct (decide (display = g)) as [<-|Hne].
        -- rewrite lookup_insert_eq in Hg. congruence.
        -- rewrite lookup_insert_ne in Hg by assumption. eauto.
Qed.

Section Schema.

Variable py_repr : json -> string.
Variable py_hash : string -> Z.
Variable ligature_oe : string.

Lemma keeps_make_factoid (fiche_id : json) (ftype description original_text
    certainty : string) :
  establishes keeps (_make_factoid py_repr fiche_id ftype description original_text certainty).
Proof.
  intros st. rewrite make_factoid_run. cbn [snd]. intros [Hn Ht Hg He]. constructor.
  - nodes_ok_tac Hn.
  - exact Ht.
  - exact Hg.
  - cbn [edges set_edges set_factoids set_factoid_counter]. apply Forall_app.
    split; [exact He|]. repeat constructor; edge_known_tac.
Qed.

Lemma endpoint_stripped (v : json) : Str.strip (endpoint py_repr v) = endpoint py_repr v.
Proof. unfold endpoint. destruct (Py.truthy v); [apply strip_idem | reflexivity]. Qed.

Lemma time_entry_node (start end_ sq eq_ : json) (k : string) (node : pydict) :
  time_entry py_repr start end_ sq eq_ = inr (Some (k, node)) ->
  time_ok k node /\
  node_ok [ "time_id"; "time_type"; "begin"; "finish"; "begin_qualifier"; "end_qualifier";
            "granularity" ] k node.
Proof.
  unfold time_entry.
  pose proof (endpoint_stripped start) as Hs. pose proof (endpoint_stripped end_) as He.
  set (s := endpoint py_repr start) in *. set (e := endpoint py_repr end_) in *.
  destruct (Str.is_empty s) eqn:Es, (Str.is_empty e) eqn:Ee; cbn [andb negb];
    try discriminate.
  - destruct (qualifier_tag _) as [|b]; [discriminate|]. cbn [rbind]. intros [= <- <-].
    split; [|split; reflexivity]. left. exists b, e, eq_.
    split; [now apply is_empty_false|]. auto.
  - destruct (qualifier_tag _) as [|a]; [discriminate|]. cbn [rbind]. intros [= <- <-].
    split; [|split; reflexivity]. left. exists a, s, sq.
    split; [now apply is_empty_false|]. auto.
  - destruct (String.eqb_spec s e) as [Heq|Hne]; cbn [negb].
    + destruct (qualifier_tag _) as [|a]; [discriminate|]. cbn [rbind]. intros [= <- <-].
      split; [|split; reflexivity]. left. exists a, s, sq.
      split; [now apply is_empty_false|]. auto.
    + destruct (qualifier_tag _) as [|a]; [discriminate|]. cbn [rbind].
      destruct (qualifier_tag _) as [|b]; [discriminate|]. cbn [rbind]. intros [= <- <-].
      split; [|split; reflexivity]. right. exists a, b, s, e, sq, eq_.
      split; [now apply is_empty_false|]. split; [now apply is_empty_false|]. auto.
Qed.

Lemma keeps_get_time_id (start end_ sq eq_ : json) :
  establishes keeps (_get_time_id py_repr start end_ sq eq_).
Proof.
  intros st. rewrite _get_time_id_entry.
  destruct (time_entry py_repr start end_ sq eq_) as [e|[[k node]|]] eqn:E; cbn [snd];
    try apply keeps_refl.
  destruct (time_entry_node _ _ _ _ _ _ E) as [Hok Hnode].
  intros [Hn Ht Hg He]. constructor; [|  |exact Hg|exact He].
  - pose proof (proj1 (nodes_ok_iff _) Hn) as Hn'. apply nodes_ok_iff.
    cbn [persons names groups places zones sources factoids factoid_types roles ranks times
         objects object_types domains set_times] in Hn' |- *.
    decompose [and] Hn'. clear Hn'. repeat match goal with |- _ /\ _ => split end;
      try assumption.
    now apply registry_ok_setdefault.
  - intros k' n' H'. cbn [times set_times] in H'.
    destruct (decide (k = k')) as [<-|Hne].
    + rewrite setdefault_lookup in H'. injection H' as <-.
      destruct (times st !! k) as [n0|] eqn:E0; simpl; [eauto | exact Hok].
    + rewrite setdefault_lookup_ne in H' by assumption. eauto.
Qed.

Lemma keeps_link_time (fid : string) (start end_ sq eq_ : json) :
  establishes keeps (_link_time py_repr fid start end_ sq eq_).
Proof.
  unfold _link_time. apply sch_bind; [apply keeps_get_time_id|]. intros t.
  destruct (nonempty t); [apply establishes_modify; schema_modify | apply sch_ret].
Qed.

Lemma keeps_link_time_from_dates (fid : string) (dates : list pydict) :
  establishes keeps (_link_time_from_dates py_repr fid dates).
Proof.
  unfold _link_time_from_dates. destruct dates; [apply sch_ret | apply keeps_link_time].
Qed.

(** The rules above, applied along the structure of a method. *)
Ltac sch_step :=
  lazymatch goal with
  | |- establishes _ (ret _) => apply sch_ret
  | |- establishes _ (lift _) => apply sch_lift
  | |- establishes _ (gets _) => apply sch_gets
  | |- establishes _ (when _ _) => apply sch_when
  | |- establishes _ (for_each _ _) => apply sch_for_each; intros ?
  | |- establishes _ (bind _ _) => apply sch_bind; [|intros ?]
  | |- establishes _ (modify _) => apply establishes_modify; schema_modify
  | |- establishes _ (_make_factoid _ _ _ _ _ _) => apply keeps_make_factoid
  | |- establishes _ (_add_group _) => apply keeps_add_group
  | |- establishes _ (_add_person _ _ _ _ _) => apply keeps_add_person
  | |- establishes _ (_link_participant _ _ _ _) => apply keeps_link_participant
  | |- establishes _ (_link_place _ _ _) => apply keeps_link_place
  | |- establishes _ (_link_group _ _ _) => apply keeps_link_group
  | |- establishes _ (_link_time _ _ _ _ _ _) => apply keeps_link_time
  | |- establishes _ (_link_time_from_dates _ _ _) => apply keeps_link_time_from_dates
  | |- establishes _ (match ?x with _ => _ end) => destruct x
  | |- _ => progress cbv beta zeta
  end.

Ltac sch :=
  unfold birth_place, diocese, university, grade, university_college, position,
    university_function, family_network, student_professor, production_domain,
    bib_item;
  unfold name_variant, date_factoid, link_places, link_groups, related_person, opus;
  repeat sch_step.

Lemma keeps_process_identity (rec : json) (source_id : string) :
  establishes keeps (_process_identity rec source_id).
Proof. unfold _process_identity. sch. Qed.

Lemma keeps_process_activity_dates (rec fiche_id : json) (person_name : string) :
  establishes keeps (_process_activity_dates py_repr rec fiche_id person_name).
Proof. unfold _process_activity_dates. sch. Qed.

Lemma keeps_process_life_dates (rec fiche_id : json) (person_name : string) :
  establishes keeps (_process_life_dates py_repr rec fiche_id person_name).
Proof. unfold _process_life_dates. sch. Qed.

Lemma keeps_process_origin (rec fiche_id : json) (person_name : string) :
  establishes keeps (_process_origin py_repr rec fiche_id person_name).
Proof. unfold _process_origin. sch. Qed.

Lemma keeps_process_curriculum (rec fiche_id : json) (person_name : string) :
  establishes keeps (_process_curriculum py_repr rec fiche_id person_name).
Proof. unfold _process_curriculum. sch. Qed.

Lemma keeps_process_ecclesiastical_career (rec fiche_id : json) (person_name : string) :
  establishes keeps (_process_ecclesiastical_career py_repr rec fiche_id person_name).
Proof. unfold _process_ecclesiastical_career. sch. Qed.

Lemma keeps_process_professional_career (rec fiche_id : json) (person_name : string) :
  establishes keeps (_process_professional_career py_repr rec fiche_id person_name).
Proof. unfold _process_professional_career. sch. Qed.

Lemma keeps_process_relationships (rec fiche_id : json) (person_name : string) :
  establishes keeps (_process_relationships py_repr rec fiche_id person_name).
Proof. unfold _process_relationships. sch. Qed.

Lemma keeps_process_production (rec fiche_id : json) (person_name : string) :
  establishes keeps (_process_production py_repr ligature_oe rec fiche_id person_name).
Proof. unfold _process_production. sch. Qed.

Lemma keeps_process_bibliography (rec fiche_id : json) :
  establishes keeps (_process_bibliography py_repr py_hash rec fiche_id).
Proof. unfold _process_bibliography. sch. Qed.

Lemma keeps_process_record (rec : json) :
  establishes keeps (process_record py_repr py_hash ligature_oe rec).
Proof.
  unfold process_record. apply sch_bind; [apply sch_lift|]. intros fiche_id. cbv zeta.
  apply sch_bind; [apply keeps_process_identity|]. intros person_name.
  destruct (nonempty person_name); [|apply sch_ret].
  repeat (apply sch_bind; [|intros _]).
  - apply keeps_process_activity_dates.
  - apply keeps_process_life_dates.
  - apply keeps_process_origin.
  - apply keeps_process_curriculum.
  - apply keeps_process_ecclesiastical_career.
  - apply keeps_process_professional_career.
  - apply keeps_process_relationships.
  - apply keeps_process_production.
  - apply keeps_process_bibliography.
Qed.

Lemma keeps_after_call (c : call) (st : extractor) :
  keeps st (after_call py_repr py_hash ligature_oe c st).
Proof.
  destruct c; simpl.
  - apply keeps_get_time_id.
  - apply keeps_add_group.
  - apply keeps_add_person.
  - apply keeps_make_factoid.
  - apply keeps_link_participant.
  - apply keeps_link_place.
  - apply keeps_link_group.
  - apply keeps_link_time.
  - apply keeps_link_time_from_dates.
  - apply keeps_process_record.
  - apply keeps_process_identity.
  - apply keeps_process_activity_dates.
  - apply keeps_process_life_dates.
  - apply keeps_process_origin.
  - apply keeps_process_curriculum.
  - apply keeps_process_ecclesiastical_career.
  - apply keeps_process_professional_career.
  - apply keeps_process_relationships.
  - apply keeps_process_production.
  - apply keeps_process_bibliography.
Qed.

Lemma keeps_after_calls (cs : list call) (st : extractor) :
  keeps st (after_calls py_repr py_hash ligature_oe cs st).
Proof.
  revert st. induction cs as [|c cs IH]; intros st; simpl.
  - apply keeps_refl.
  - eapply keeps_trans; [apply keeps_after_call | apply IH].
Qed.

End Schema.

Lemma registry_ok_empty (cols : list string) : registry_ok cols ∅.
Proof. intros k n H. rewrite lookup_empty in H. discriminate. Qed.

Lemma registry_ok_foldl (cols : list string) (f : string * string -> pydict)
    (l : list (string * string)) (m : gmap string pydict) :
  (forall p, node_ok cols p.1 (f p)) -> registry_ok cols m ->
  registry_ok cols (foldl (fun m p => <[p.1 := f p]> m) m l).
Proof.
  intros Hf. revert m. induction l as [|p l IH]; intros m Hm; simpl; [exact Hm|].
  apply IH. now apply registry_ok_insert.
Qed.

Lemma schema_init (nations_txt disciplines_txt : option (list string)) :
  schema_ok (init nations_txt disciplines_txt).
Proof.
  constructor.
  - apply nodes_ok_iff. cbn [init persons names groups places zones sources factoids
      factoid_types roles ranks times objects object_types domains].
    repeat match goal with |- _ /\ _ => split end; try apply registry_ok_empty.
    + apply (registry_ok_foldl _ (fun p => [ ("factoidtype_id", JStr p.1);
                                              ("description", JStr p.2) ]));
        [split; reflexivity | apply registry_ok_empty].
    + apply (registry_ok_foldl _ (fun p => [ ("role_id", JStr p.1);
                                              ("role_description", JStr p.2) ]));
        [split; reflexivity | apply registry_ok_empty].
  - intros k n H. simpl in H. rewrite lookup_empty in H. discriminate.
  - split.
    + intros g n H. simpl in H. rewrite lookup_empty in H. discriminate.
    + intros g c H. simpl in H. rewrite lookup_empty in H. discriminate.
  - constructor.
Qed.

Section SchemaRun.

Variable py_repr : json -> string.
Variable py_hash : string -> Z.
Variable ligature_oe : string.

Lemma schema_run (cs : list call) (nations_txt disciplines_txt : option (list string)) :
  schema_ok (after_calls py_repr py_hash ligature_oe cs (init nations_txt disciplines_txt)).
Proof. apply keeps_after_calls, schema_init. Qed.

(** X9.  For every node file that the loader loads, the writer writes that
    file from a registry with the loader's key property as first column and
    the loader's other properties as the remaining columns; and in every state
    of a run, every node of that registry has exactly these fields, in this
    order, the key property holding the key under which the registry stores
    the node.  So no column is ever filled in by default, no field of a node
    is left out of its file, and two nodes of a registry never share a key
    property. *)
Theorem nodes_have_the_columns_of_their_file (cs : list call)
    (nations_txt disciplines_txt : option (list string))
    (file label key : string) (others : list string) :
  In (file, label, key, others) node_loads ->
  exists registry,
    In (file, key :: others, registry) node_files /\
    forall k n,
      registry (after_calls py_repr py_hash ligature_oe cs (init nations_txt disciplines_txt)) !! k
      = Some n ->
      map fst n = key :: others /\ Py.dict_get key n = Some (JStr k).
Proof.
  intros Hin.
  pose proof (proj1 (nodes_ok_iff _)
                (schema_nodes _ (schema_run cs nations_txt disciplines_txt))) as H.
  decompose [and] H. clear H.
  simpl in Hin.
  repeat (destruct Hin as [Hin|Hin];
          [ injection Hin as <- <- <- <-; eexists; split; [in_table | assumption] | ]).
  destruct Hin.
Qed.

(** X10.  In every state of a run, every edge starts with the five fields
    type, from_id, from_label, to_id and to_label, all texts; its type is one
    of the relation types that the loader loads, its two labels are the
    labels that the loader matches for that type, each the label of a node
    file whose key property is the one the loader compares the identifier
    with; and its other fields are among certainty, role, rank and
    link_type. *)
Theorem edges_are_of_loaded_types (cs : list call)
    (nations_txt disciplines_txt : option (list string)) (e : pydict) :
  In e (edges (after_calls py_repr py_hash ligature_oe cs (init nations_txt disciplines_txt))) ->
  exists ty fi fl ti tl fp tp extra,
    e = (edge ty fi fl ti tl ++ extra)%list /\
    In (ty, (fl, fp, tl, tp)) edge_configs /\
    (exists file others, In (file, fl, fp, others) node_loads) /\
    (exists file others, In (file, tl, tp, others) node_loads) /\
    incl (map fst extra) [ "certainty"; "role"; "rank"; "link_type" ].
Proof.
  intros Hin.
  pose proof (schema_edges _ (schema_run cs nations_txt disciplines_txt)) as H.
  rewrite Forall_forall in H. apply list_elem_of_In, H in Hin.
  destruct Hin as (ty & fi & fl & ti & tl & fp & tp & extra & -> & Hc & Hx).
  exists ty, fi, fl, ti, tl, fp, tp, extra. split; [reflexivity|]. split; [exact Hc|].
  split; [|split; [|exact Hx]]; clear -Hc; simpl in Hc;
    repeat (destruct Hc as [Hc|Hc];
            [ injection Hc as <- <- <- <- <-; eexists _, _; in_table | ]);
    destruct Hc.
Qed.

(** X11.  In every state of a run, a Time node is an Instant with a begin
    and no finish, or a TimeInterval with a begin and a different finish;
    begin and finish are never blank and have no white space around them;
    the node carries its own key as time_id; and it is a TimeInterval exactly
    when its key starts with TI. *)
Theorem time_nodes_are_well_formed (cs : list call)
    (nations_txt disciplines_txt : option (list string)) (k : string) (n : pydict) :
  times (after_calls py_repr py_hash ligature_oe cs (init nations_txt disciplines_txt)) !! k =
      Some n ->
  time_ok k n /\ field "time_id" n = JStr k /\
  (String.prefix "TI" k = true <-> field "time_type" n = JStr "TimeInterval").
Proof.
  intros H. apply (schema_times _ (schema_run cs nations_txt disciplines_txt)) in H.
  split; [exact H|].
  destruct H as [(tag & b & q & _ & _ & -> & ->)|(a & c & b & f & q1 & q2 & _ & _ & _ & _ & _ & -> & ->)].
  - split; [reflexivity|]. split; discriminate.
  - split; [reflexivity|]. split; intros _; [reflexivity|].
    simpl. now destruct (a +:+ _).
Qed.

(** X12.  In every state of a run, a canonical name has a GroupP node exactly
    when it is classified as nation or institution; the node then carries
    the name as group_id, an empty description and the class as group_type.
    A name classified as discipline has a Domain node and no GroupP node. *)
Theorem group_nodes_follow_the_classes (cs : list call)
    (nations_txt disciplines_txt : option (list string)) (g : string) :
  let st := after_calls py_repr py_hash ligature_oe cs (init nations_txt disciplines_txt) in
  (forall n, groups st !! g = Some n ->
     exists c, _entity_class st !! g = Some c /\ (c = "nation" \/ c = "institution") /\
       n = group_node g c) /\
  (forall c, _entity_class st !! g = Some c ->
     (c = "discipline" /\ is_Some (domains st !! g) /\ groups st !! g = None) \/
     ((c = "nation" \/ c = "institution") /\ groups st !! g = Some (group_node g c))).
Proof.
  intros st.
  destruct (schema_groups _ (schema_run cs nations_txt disciplines_txt)) as [H1 H2].
  pose proof (inv_run py_repr py_hash ligature_oe cs nations_txt disciplines_txt) as I.
  fold st in H1, H2, I.
  assert (Hclass : forall c, _entity_class st !! g = Some c ->
            c = "discipline" \/ c = "nation" \/ c = "institution").
  { intros c Hc. rewrite (inv_class _ I _ _ Hc). unfold classify.
    destruct (bool_decide _); [auto|]. destruct (bool_decide _); auto. }
  split.
  - intros n Hn. destruct (H1 _ _ Hn) as (c & Hc & Hd & ->). exists c.
    split; [exact Hc|]. split; [|reflexivity].
    destruct (Hclass _ Hc) as [->|H]; [now destruct Hd | exact H].
  - intros c Hc. destruct (Hclass _ Hc) as [->|H].
    + left. split; [reflexivity|]. split; [now apply (inv_domain _ I)|].
      destruct (groups st !! g) as [n|] eqn:En; [|reflexivity].
      destruct (H1 _ _ En) as (c' & Hc' & Hd & _). congruence.
    + right. split; [exact H|].
      assert (Hd : c <> "discipline") by (destruct H as [->| ->]; discriminate).
      destruct (H2 _ _ Hc Hd) as [n Hn]. rewrite Hn.
      destruct (H1 _ _ Hn) as (c' & Hc' & _ & ->). congruence.
Qed.

End SchemaRun.

(** ** The ends of the edges exist *)

Lemma label_registries :
  registry_of_label "Person" = Some persons /\ registry_of_label "Name" = Some names /\
  registry_of_label "GroupP" = Some groups /\ registry_of_label "Place" = Some places /\
  registry_of_label "Zone" = Some zones /\ registry_of_label "Source" = Some sources /\
  registry_of_label "Factoid" = Some factoids /\
  registry_of_label "FactoidType" = Some factoid_types /\
  registry_of_label "Role" = Some roles /\ registry_of_label "Rank" = Some ranks /\
  registry_of_label "Time" = Some times /\ registry_of_label "Object" = Some objects /\
  registry_of_label "ObjectType" = Some object_types /\
  registry_of_label "Domain" = Some domains.
Proof. repeat split. Qed.

Lemma registry_of_label_in (label : string) (registry : extractor -> gmap string pydict) :
  registry_of_label label = Some registry ->
  exists f, In f node_files /\ f.2 = registry.
Proof.
  unfold registry_of_label. destruct (List.find _ node_loads) as [l|]; [|discriminate].
  destruct (List.find _ node_files) as [f|] eqn:E; [|discriminate]. intros [= <-].
  exists f. split; [|reflexivity]. now apply List.find_some in E as [E _].
Qed.

Lemma keys_kept_refl (m : gmap string pydict) : keys_kept m m.
Proof. now intros k. Qed.

Lemma keys_kept_setdefault (k : string) (n : pydict) (m : gmap string pydict) :
  keys_kept m (setdefault k n m).
Proof. intros k'. apply setdefault_is_Some. Qed.

Lemma keys_kept_insert (k : string) (n : pydict) (m : gmap string pydict) :
  keys_kept m (<[k := n]> m).
Proof.
  intros k' H. destruct (decide (k = k')) as [<-|Hne].
  - rewrite lookup_insert_eq. eauto.
  - now rewrite lookup_insert_ne.
Qed.

Lemma keys_kept_alter (f : pydict -> pydict) (k : string) (m : gmap string pydict) :
  keys_kept m (alter f k m).
Proof.
  intros k' [n H]. destruct (decide (k = k')) as [<-|Hne].
  - rewrite lookup_alter_eq, H. simpl. eauto.
  - rewrite lookup_alter_ne by assumption. eauto.
Qed.

Lemma grows_iff (st st' : extractor) :
  grows st st' <->
  (keys_kept (persons st) (persons st') /\ keys_kept (names st) (names st') /\
   keys_kept (groups st) (groups st') /\ keys_kept (places st) (places st') /\
   keys_kept (zones st) (zones st') /\ keys_kept (sources st) (sources st') /\
   keys_kept (factoids st) (factoids st') /\
   keys_kept (factoid_types st) (factoid_types st') /\
   keys_kept (roles st) (roles st') /\ keys_kept (ranks st) (ranks st') /\
   keys_kept (times st) (times st') /\ keys_kept (objects st) (objects st') /\
   keys_kept (object_types st) (object_types st') /\
   keys_kept (domains st) (domains st')) /\
  (forall g, is_Some (_entity_class st !! g) -> is_Some (_entity_class st' !! g)).
Proof.
  unfold grows, node_files. rewrite !Forall_cons, Forall_nil. cbn [fst snd]. tauto.
Qed.

(** The registries one by one: unchanged, or changed by an insertion. *)
Ltac grows_tac :=
  apply grows_iff;
  cbn [persons names groups places zones sources factoids factoid_types roles ranks times
       objects object_types domains _entity_class set_persons set_names set_groups
       set_places set_zones set_sources set_factoids set_ranks set_times set_objects
       set_object_types set_domains set_group_canon set_entity_class set_edges
       set_factoid_counter];
  repeat match goal with |- _ /\ _ => split end;
  first [ apply keys_kept_refl | apply keys_kept_setdefault | apply keys_kept_insert
        | apply keys_kept_alter | intros ? ?; assumption ].

Lemma grows_refl (st : extractor) : grows st st.
Proof. grows_tac. Qed.

Lemma grows_trans (a b c : extractor) : grows a b -> grows b c -> grows a c.
Proof.
  intros [H1 C1] [H2 C2]. split; [|auto].
  rewrite Forall_forall in H1, H2. apply Forall_forall. intros f Hf k Hk.
  apply (H2 f Hf), (H1 f Hf), Hk.
Qed.

Lemma node_exists_grows (st st' : extractor) (label id : json) :
  grows st st' -> node_exists st label id -> node_exists st' label id.
Proof.
  intros [H _]. unfold node_exists. destruct label as [| | |l| |]; try exact id0.
  all: try (intros []; fail).
  destruct id as [| | |i| |]; try (intros []; fail).
  destruct (registry_of_label l) as [registry|] eqn:E; [|intros []].
  destruct (registry_of_label_in _ _ E) as (f & Hf & <-).
  rewrite Forall_forall in H. apply (H f). now apply list_elem_of_In.
Qed.

Lemma holds_grows (st st' : extractor) (f : fact) :
  grows st st' -> holds st f -> holds st' f.
Proof.
  intros H. destruct f as [label id|g].
  - exact (node_exists_grows st st' (JStr label) (JStr id) H).
  - exact (proj2 H g).
Qed.

Lemma edge_linked_grows (st st' : extractor) (e : pydict) :
  grows st st' -> edge_linked st e -> edge_linked st' e.
Proof.
  intros H (H1 & H2 & H3). repeat split; try (now apply (node_exists_grows st)).
  intros Hp. now apply (node_exists_grows st), H3.
Qed.

Lemma holds_in (st : extractor) (pre : list fact) (f : fact) :
  Forall (holds st) pre -> In f pre -> holds st f.
Proof. intros H Hin. rewrite Forall_forall in H. now apply H, list_elem_of_In. Qed.

Lemma sound_step (st st' : extractor) (l : list pydict) :
  sound st -> grows st st' ->
  (forall g c, _entity_class st' !! g = Some c ->
     _entity_class st !! g = Some c
     \/ holds st' (Node (if String.eqb c "discipline" then "Domain" else "GroupP") g)) ->
  edges st' = (edges st ++ l)%list -> Forall (edge_linked st') l -> sound st'.
Proof.
  intros [He Hr Ht Hro] Hg Hc Hes Hl. constructor.
  - rewrite Hes. apply Forall_app. split; [|exact Hl].
    eapply Forall_impl; [exact He|]. intros e. now apply edge_linked_grows.
  - intros g c H. destruct (Hc _ _ H) as [H'|H']; [|exact H'].
    now apply (holds_grows st), Hr.
  - intros t H. now apply (holds_grows st), Ht.
  - intros r H. now apply (holds_grows st), Hro.
Qed.

(** *** Rules *)

Lemma respects_ret {A} (pre : list fact) (a : A) (post : A -> list fact) :
  (forall f, In f (post a) -> In f pre) -> respects pre (ret a) post.
Proof.
  intros H st Hs Hpre. cbn [ret fst snd]. split; [exact Hs|]. split; [apply grows_refl|].
  intros a' [= <-]. apply Forall_forall. intros f Hf.
  apply (holds_in st pre); [exact Hpre|]. now apply H, list_elem_of_In.
Qed.

Lemma respects_lift {A} (pre : list fact) (r : result A) :
  respects pre (lift r) (fun _ => []).
Proof.
  intros st Hs Hpre. cbn [lift fst snd]. split; [exact Hs|]. split; [apply grows_refl|].
  intros; constructor.
Qed.

Lemma respects_gets {A} (pre : list fact) (f : extractor -> A) :
  respects pre (gets f) (fun _ => []).
Proof.
  intros st Hs Hpre. cbn [gets fst snd]. split; [exact Hs|]. split; [apply grows_refl|].
  intros; constructor.
Qed.

Lemma respects_bind {A B} (pre : list fact) (m : M A) (f : A -> M B)
    (post : A -> list fact) (post' : B -> list fact) :
  respects pre m post -> (forall a, respects (post a ++ pre) (f a) post') ->
  respects pre (bind m f) post'.
Proof.
  intros Hm Hf st Hs Hpre. unfold bind. destruct (Hm st Hs Hpre) as (Hs1 & Hg1 & Hp1).
  destruct (m st) as [[e|a] st1]; cbn [fst snd] in *.
  - split; [exact Hs1|]. split; [exact Hg1|]. discriminate.
  - destruct (Hf a st1 Hs1) as (Hs2 & Hg2 & Hp2).
    { apply Forall_app. split; [now apply Hp1|].
      eapply Forall_impl; [exact Hpre|]. intros x. now apply holds_grows. }
    split; [exact Hs2|]. split; [|exact Hp2]. now apply (grows_trans _ st1).
Qed.

Lemma respects_drop {A} (pre : list fact) (m : M A) (post : A -> list fact) :
  respects pre m post -> respects pre m (fun _ => []).
Proof.
  intros H st Hs Hpre. destruct (H st Hs Hpre) as (H1 & H2 & _).
  split; [exact H1|]. split; [exact H2|]. intros; constructor.
Qed.

Lemma respects_weaken {A} (req pre : list fact) (m : M A) (post : A -> list fact) :
  (forall f, In f req -> In f pre) -> respects req m post -> respects pre m post.
Proof.
  intros Hin H st Hs Hpre. apply (H st Hs). apply Forall_forall. intros f Hf.
  apply (holds_in st pre); [exact Hpre|]. now apply Hin, list_elem_of_In.
Qed.

Lemma respects_when (pre : list fact) (b : bool) (m : M unit) :
  respects pre m (fun _ => []) -> respects pre (when b m) (fun _ => []).
Proof. intros H. destruct b; [exact H | now apply respects_ret]. Qed.

Lemma respects_for_each {A} (pre : list fact) (l : list A) (body : A -> M unit) :
  (forall x, respects pre (body x) (fun _ => [])) ->
  respects pre (for_each l body) (fun _ => []).
Proof.
  intros H. induction l as [|x l IH]; simpl; [now apply respects_ret|].
  eapply respects_bind; [apply H|]. intros a. exact IH.
Qed.

(** An assignment that only adds nodes. *)
Lemma respects_grow (pre post : list fact) (f : extractor -> extractor) :
  (forall st, grows st (f st)) -> (forall st, edges (f st) = edges st) ->
  (forall st, _entity_class (f st) = _entity_class st) ->
  (forall st, Forall (holds (f st)) post) ->
  respects pre (modify f) (fun _ => post).
Proof.
  intros Hg He Hc Hp st Hs Hpre. cbn [modify fst snd].
  split; [|split; [apply Hg | intros; apply Hp]].
  apply (sound_step st _ []); auto.
  - intros g c H. left. now rewrite <- Hc.
  - now rewrite He, app_nil_r.
Qed.

(** The appending of an edge whose ends are known to exist. *)
Lemma respects_edge (pre : list fact) (e : pydict) :
  (forall st, sound st -> Forall (holds st) pre -> edge_linked st e) ->
  respects pre (modify (set_edges (append e))) (fun _ => []).
Proof.
  intros He st Hs Hpre. cbn [modify fst snd].
  assert (Hg : grows st (set_edges (append e) st)) by grows_tac.
  split; [|split; [exact Hg | intros; constructor]].
  apply (sound_step st _ [e]); auto.
  constructor; [|constructor]. apply (edge_linked_grows st); auto.
Qed.

Ltac facts :=
  solve [ cbn [In app map fst FACTOID_TYPES ROLES];
          repeat (first [ left; reflexivity | right ]) ].

Lemma node_holds (st : extractor) (registry : extractor -> gmap string pydict)
    (label id : string) :
  registry_of_label label = Some registry -> is_Some (registry st !! id) ->
  holds st (Node label id).
Proof. intros H1 H2. simpl. now rewrite H1. Qed.

(** An edge other than PARTICIPATE between two nodes named in [pre]. *)
Lemma edge_linked_intro (st : extractor) (pre : list fact) (ty fi fl ti tl : string)
    (extra : pydict) :
  String.eqb ty "PARTICIPATE" = false ->
  In (Node fl fi) pre -> In (Node tl ti) pre -> Forall (holds st) pre ->
  edge_linked st (edge ty fi fl ti tl ++ extra).
Proof.
  intros Hty H1 H2 Hpre. split; [|split].
  - exact (holds_in _ _ _ Hpre H1).
  - exact (holds_in _ _ _ Hpre H2).
  - change (has_type "PARTICIPATE" (edge ty fi fl ti tl ++ extra)) with (String.eqb ty "PARTICIPATE").
    congruence.
Qed.

Lemma respects_edge_plain (pre : list fact) (ty fi fl ti tl : string) :
  String.eqb ty "PARTICIPATE" = false -> In (Node fl fi) pre -> In (Node tl ti) pre ->
  respects pre (modify (set_edges (append (edge ty fi fl ti tl)))) (fun _ => []).
Proof.
  intros Hty H1 H2. apply respects_edge. intros st _ Hpre.
  rewrite <- (app_nil_r (edge ty fi fl ti tl)). now apply (edge_linked_intro st pre).
Qed.

Lemma respects_edge_extra (pre : list fact) (ty fi fl ti tl : string) (extra : pydict) :
  String.eqb ty "PARTICIPATE" = false -> In (Node fl fi) pre -> In (Node tl ti) pre ->
  respects pre (modify (set_edges (append (edge ty fi fl ti tl ++ extra)%list)))
    (fun _ => []).
Proof.
  intros Hty H1 H2. apply respects_edge. intros st _ Hpre.
  now apply (edge_linked_intro st pre).
Qed.

Lemma respects_edge_certainty (pre : list fact) (c ty fi fl ti tl : string) :
  String.eqb ty "PARTICIPATE" = false -> In (Node fl fi) pre -> In (Node tl ti) pre ->
  respects pre (modify (set_edges (append (with_certainty c (edge ty fi fl ti tl)))))
    (fun _ => []).
Proof.
  intros Hty H1 H2. apply respects_edge. intros st _ Hpre. unfold with_certainty.
  destruct (Str.is_empty c).
  - rewrite <- (app_nil_r (edge ty fi fl ti tl)). now apply (edge_linked_intro st pre).
  - change (Py.dict_set "certainty" (JStr c) (edge ty fi fl ti tl))
      with (edge ty fi fl ti tl ++ [ ("certainty", JStr c) ])%list.
    now apply (edge_linked_intro st pre).
Qed.

(** An assignment to a registry, and the node it adds. *)
Ltac grow_tac :=
  apply respects_grow;
  [ intros ?; grows_tac | reflexivity | reflexivity
  | intros ?; constructor; [|constructor];
    eapply node_holds; [apply label_registries|];
    cbn [persons names groups places zones sources factoids ranks times objects object_types
         domains set_persons set_names set_groups set_places set_zones set_sources
         set_factoids set_ranks set_times set_objects set_object_types set_domains];
    rewrite ?setdefault_lookup, ?lookup_insert_eq; eauto ].

Lemma respects_set_names (pre : list fact) (k : string) (n : pydict) :
  respects pre (modify (set_names (setdefault k n))) (fun _ => [ Node "Name" k ]).
Proof. grow_tac. Qed.

Lemma respects_set_places (pre : list fact) (k : string) (n : pydict) :
  respects pre (modify (set_places (setdefault k n))) (fun _ => [ Node "Place" k ]).
Proof. grow_tac. Qed.

Lemma respects_set_zones (pre : list fact) (k : string) (n : pydict) :
  respects pre (modify (set_zones (setdefault k n))) (fun _ => [ Node "Zone" k ]).
Proof. grow_tac. Qed.

Lemma respects_set_sources (pre : list fact) (k : string) (n : pydict) :
  respects pre (modify (set_sources (setdefault k n))) (fun _ => [ Node "Source" k ]).
Proof. grow_tac. Qed.

Lemma respects_new_source (pre : list fact) (k : string) (n : pydict) :
  respects pre (modify (set_sources <[k := n]>)) (fun _ => [ Node "Source" k ]).
Proof. grow_tac. Qed.

Lemma respects_set_ranks (pre : list fact) (k : string) (n : pydict) :
  respects pre (modify (set_ranks (setdefault k n))) (fun _ => [ Node "Rank" k ]).
Proof. grow_tac. Qed.

Lemma respects_set_objects (pre : list fact) (k : string) (n : pydict) :
  respects pre (modify (set_objects (setdefault k n))) (fun _ => [ Node "Object" k ]).
Proof. grow_tac. Qed.

Lemma respects_set_object_types (pre : list fact) (k : string) (n : pydict) :
  respects pre (modify (set_object_types (setdefault k n)))
    (fun _ => [ Node "ObjectType" k ]).
Proof. grow_tac. Qed.

Lemma respects_set_domains (pre : list fact) (k : string) (n : pydict) :
  respects pre (modify (set_domains (setdefault k n))) (fun _ => [ Node "Domain" k ]).
Proof. grow_tac. Qed.

Lemma sound_same (st st' : extractor) :
  sound st -> grows st st' -> _entity_class st' = _entity_class st -> edges st' = edges st ->
  sound st'.
Proof.
  intros Hs Hg Hc He. apply (sound_step st st' []); auto.
  - intros g c H. left. now rewrite <- Hc.
  - now rewrite He, app_nil_r.
Qed.

Lemma respects_set_persons (pre : list fact) (k : string) (n : pydict) :
  respects pre (modify (set_persons (setdefault k n))) (fun _ => [ Node "Person" k ]).
Proof. grow_tac. Qed.

Lemma respects_fill_person_field (pre : list fact) (name fld : string) (v : json) :
  respects pre (fill_person_field name fld v) (fun _ => []).
Proof.
  unfold fill_person_field. destruct (Py.truthy v); [|now apply respects_ret].
  intros st Hs Hpre. cbv [bind person_field gets lift]. cbn [fst snd].
  destruct (persons st !! name) as [p|];
    [|split; [exact Hs|]; split; [apply grows_refl | discriminate]].
  destruct (Py.dict_get fld p) as [old|];
    [|split; [exact Hs|]; split; [apply grows_refl | discriminate]].
  cbv beta iota zeta delta [ret].
  destruct (Py.truthy old); cbv [when negb modify ret]; cbn [fst snd].
  - split; [exact Hs|]. split; [apply grows_refl | intros; constructor].
  - assert (Hg : grows st (set_persons (alter (Py.dict_set fld v) name) st)) by grows_tac.
    split; [|split; [exact Hg | intros; constructor]].
    now apply (sound_same st).
Qed.

Lemma respects_add_person (pre : list fact) (name : string) (genre shortdesc : json)
    (person_type : string) (status : json) :
  respects pre (_add_person name genre shortdesc person_type status)
    (fun _ => [ Node "Person" name ]).
Proof.
  unfold _add_person.
  eapply respects_bind; [apply respects_set_persons|]. intros ?. cbn [app].
  do 3 (eapply respects_bind; [apply respects_fill_person_field|]; intros ?; cbn [app]).
  apply respects_ret. intros f [<-|[]]. now left.
Qed.

Lemma class_kept_insert (d c : string) (m : gmap string string) (g : string) :
  is_Some (m !! g) -> is_Some (<[d := c]> m !! g).
Proof.
  intros H. destruct (decide (d = g)) as [<-|Hne].
  - rewrite lookup_insert_eq. eauto.
  - now rewrite lookup_insert_ne.
Qed.

Lemma respects_add_group (pre : list fact) (raw_name : string) :
  respects pre (_add_group raw_name)
    (fun o => match o with Some g => [ Classified g ] | None => [] end).
Proof.
  intros st Hs Hpre. unfold _add_group.
  destruct (nonempty (TextCleaner.clean_institution raw_name)) as [cname|];
    [|cbn [ret fst snd]; split; [exact Hs|]; split; [apply grows_refl|];
      intros a [= <-]; constructor].
  cbv [bind gets modify ret]. cbn [_entity_class set_group_canon].
  set (low := Str.strip (Str.lower cname)).
  set (display := default cname (_group_canon st !! low)).
  set (norm := TextCleaner.normalize_classification cname).
  destruct (_entity_class st !! display) as [c|] eqn:Hcl; cbn [fst snd].
  - assert (Hg : grows st (set_group_canon (setdefault low cname) st)) by grows_tac.
    split; [now apply (sound_same st)|]. split; [exact Hg|].
    intros a [= <-]. constructor; [|constructor]. simpl. rewrite Hcl. eauto.
  - change (_disciplines_set (set_group_canon (setdefault low cname) st))
      with (_disciplines_set st).
    change (_nations_set (set_group_canon (setdefault low cname) st))
      with (_nations_set st).
    assert (Hnew : forall c (f : extractor -> extractor) label,
              (if String.eqb c "discipline" then "Domain" else "GroupP") = label ->
              (forall x, grows x (f x)) -> (forall x, _entity_class (f x) = _entity_class x) ->
              (forall x, edges (f x) = edges x) ->
              (forall x, holds (f x) (Node label display)) ->
              let st' := f (set_entity_class <[display := c]>
                              (set_group_canon (setdefault low cname) st)) in
              sound st' /\ grows st st' /\
              forall a, (inr (Some display) : result (option string)) = inr a ->
                Forall (holds st') match a with Some g => [ Classified g ] | None => [] end).
    { intros c f label Hl Hf Hc He Hn st'.
      assert (Hg : grows st st').
      { apply (grows_trans _ (set_entity_class <[display := c]>
                                (set_group_canon (setdefault low cname) st)));
          [|apply Hf].
        apply grows_iff. cbn [persons names groups places zones sources factoids
          factoid_types roles ranks times objects object_types domains _entity_class
          set_entity_class set_group_canon].
        repeat match goal with |- _ /\ _ => split end; try apply keys_kept_refl.
        intros g. apply class_kept_insert. }
      assert (Hcls : _entity_class st' = <[display := c]> (_entity_class st)).
      { unfold st'. now rewrite Hc. }
      split; [|split; [exact Hg|]].
      - apply (sound_step st st' []); auto.
        + intros g c0 H. rewrite Hcls in H. destruct (decide (display = g)) as [<-|Hne].
          * rewrite lookup_insert_eq in H. injection H as <-. right. rewrite Hl. apply Hn.
          * rewrite lookup_insert_ne in H by assumption. now left.
        + unfold st'. now rewrite He, app_nil_r.
      - intros a [= <-]. constructor; [|constructor]. simpl. rewrite Hcls, lookup_insert_eq.
        eauto. }
    destruct (bool_decide (norm ∈ _disciplines_set st));
      [|destruct (bool_decide (norm ∈ _nations_set st))].
    + apply (Hnew "discipline"
               (set_domains (setdefault display
                  [ ("domain_id", JStr display); ("name", JStr display) ])) "Domain");
        [reflexivity | intros; grows_tac | reflexivity | reflexivity |].
      intros x. eapply node_holds; [apply label_registries|]. simpl.
      rewrite setdefault_lookup. eauto.
    + apply (Hnew "nation" (set_groups (setdefault display (group_node display "nation")))
               "GroupP");
        [reflexivity | intros; grows_tac | reflexivity | reflexivity |].
      intros x. eapply node_holds; [apply label_registries|]. simpl.
      rewrite setdefault_lookup. eauto.
    + apply (Hnew "institution"
               (set_groups (setdefault display (group_node display "institution"))) "GroupP");
        [reflexivity | intros; grows_tac | reflexivity | reflexivity |].
      intros x. eapply node_holds; [apply label_registries|]. simpl.
      rewrite setdefault_lookup. eauto.
Qed.

Lemma respects_link_place (pre : list fact) (fid place_name certainty : string) :
  In (Node "Factoid" fid) pre ->
  respects pre (_link_place fid place_name certainty) (fun _ => []).
Proof.
  intros H. unfold _link_place.
  eapply respects_bind; [apply respects_set_places|]. intros ?. cbn [app].
  apply respects_edge_certainty; [reflexivity | now right | now left].
Qed.

Lemma respects_link_participant (pre : list fact) (fid person_name role rank : string) :
  In (Node "Factoid" fid) pre -> In (Node "Person" person_name) pre ->
  In role (map fst ROLES) ->
  respects pre (_link_participant fid person_name role rank) (fun _ => []).
Proof.
  intros H1 H2 Hr. unfold _link_participant. apply respects_edge. intros st Hs Hpre.
  split; [|split].
  - exact (holds_in _ _ _ Hpre H1).
  - exact (holds_in _ _ _ Hpre H2).
  - intros _. exact (sound_roles _ Hs _ Hr).
Qed.

Lemma respects_link_group (pre : list fact) (fid group_name certainty : string) :
  In (Node "Factoid" fid) pre -> In (Classified group_name) pre ->
  respects pre (_link_group fid group_name certainty) (fun _ => []).
Proof.
  intros H1 H2 st Hs Hpre. rewrite link_group_run. cbn [fst snd].
  assert (Hg : grows st (set_edges (append (with_certainty certainty
            (if String.eqb (default "institution" (_entity_class st !! group_name)) "discipline"
             then edge "IN_DOMAIN" fid "Factoid" group_name "Domain"
             else edge "AT_GROUP" fid "Factoid" group_name "GroupP"))) st)) by grows_tac.
  split; [|split; [exact Hg | intros; constructor]].
  eapply (sound_step st _ [_]); [exact Hs | exact Hg | intros g c H; now left | reflexivity |].
  constructor; [|constructor]. apply (edge_linked_grows st); [exact Hg|].
  pose proof (holds_in _ _ _ Hpre H1) as Hf.
  destruct (holds_in _ _ _ Hpre H2) as [c Hc]. pose proof (sound_routed _ Hs _ _ Hc) as Hn.
  rewrite Hc. cbn [default from_option id]. unfold with_certainty.
  destruct (String.eqb c "discipline"), (Str.is_empty certainty);
    (split; [exact Hf | split; [exact Hn | discriminate]]).
Qed.

Section Integrity.

Variable py_repr : json -> string.
Variable py_hash : string -> Z.
Variable ligature_oe : string.

Lemma respects_make_factoid (pre : list fact) (fiche_id : json)
    (ftype description original_text certainty : string) :
  In (Node "Source" ("SRC_" +:+ py_str py_repr fiche_id)) pre ->
  In ftype (map fst FACTOID_TYPES) ->
  respects pre (_make_factoid py_repr fiche_id ftype description original_text certainty)
    (fun fid => [ Node "Factoid" fid ]).
Proof.
  intros Hsrc Hty st Hs Hpre. rewrite make_factoid_run. cbn [fst snd].
  set (fid := factoid_id (_factoid_counter st + 1)).
  match goal with |- sound ?x /\ _ => set (st' := x) end.
  assert (Hg : grows st st') by (unfold st'; grows_tac).
  assert (Hf : holds st' (Node "Factoid" fid)).
  { eapply node_holds; [apply label_registries|]. unfold st'. simpl.
    rewrite lookup_insert_eq. eauto. }
  split; [|split; [exact Hg | intros a [= <-]; now constructor]].
  eapply (sound_step st st' [_; _]);
    [exact Hs | exact Hg | intros g c H; now left | reflexivity |].
  constructor; [|constructor; [|constructor]].
  - split; [exact Hf|]. split; [|discriminate].
    exact (holds_grows st st' (Node "FactoidType" ftype) Hg (sound_types _ Hs _ Hty)).
  - split; [|split; [exact Hf | discriminate]].
    exact (holds_grows st st' _ Hg (holds_in _ _ _ Hpre Hsrc)).
Qed.

Lemma respects_get_time_id (pre : list fact) (start end_ sq eq_ : json) :
  respects pre (_get_time_id py_repr start end_ sq eq_)
    (fun o => match o with Some k => [ Node "Time" k ] | None => [] end).
Proof.
  intros st Hs Hpre. rewrite _get_time_id_entry.
  destruct (time_entry py_repr start end_ sq eq_) as [e|[[k node]|]]; cbn [fst snd].
  - split; [exact Hs|]. split; [apply grows_refl | discriminate].
  - assert (Hg : grows st (set_times (setdefault k node) st)) by grows_tac.
    split; [now apply (sound_same st)|]. split; [exact Hg|].
    intros a [= <-]. constructor; [|constructor].
    eapply node_holds; [apply label_registries|]. simpl. rewrite setdefault_lookup. eauto.
  - split; [exact Hs|]. split; [apply grows_refl|]. intros a [= <-]. constructor.
Qed.

Lemma respects_link_time (pre : list fact) (fid : string) (start end_ sq eq_ : json) :
  In (Node "Factoid" fid) pre ->
  respects pre (_link_time py_repr fid start end_ sq eq_) (fun _ => []).
Proof.
  intros H. unfold _link_time.
  eapply respects_bind; [apply respects_get_time_id|]. intros [k|]; cbn [app].
  - unfold nonempty. destruct (Str.is_empty k); [now apply respects_ret|].
    apply respects_edge_plain; [reflexivity | now right | now left].
  - now apply respects_ret.
Qed.

Lemma respects_link_time_from_dates (pre : list fact) (fid : string) (dates : list pydict) :
  In (Node "Factoid" fid) pre ->
  respects pre (_link_time_from_dates py_repr fid dates) (fun _ => []).
Proof.
  intros H. unfold _link_time_from_dates.
  destruct dates; [now apply respects_ret | now apply respects_link_time].
Qed.

Ltac resp_prim :=
  lazymatch goal with
  | |- respects _ (ret _) _ =>
      apply respects_ret;
      let Hin := fresh in
      intros ? Hin; simpl in Hin; repeat (destruct Hin as [<-|Hin]; [facts|]); destruct Hin
  | |- respects _ (lift _) _ => apply respects_lift
  | |- respects _ (gets _) _ => apply respects_gets
  | |- respects _ (modify (set_names _)) _ => apply respects_set_names
  | |- respects _ (modify (set_zones _)) _ => apply respects_set_zones
  | |- respects _ (modify (set_sources (setdefault _ _))) _ => apply respects_set_sources
  | |- respects _ (modify (set_sources _)) _ => apply respects_new_source
  | |- respects _ (modify (set_ranks _)) _ => apply respects_set_ranks
  | |- respects _ (modify (set_objects _)) _ => apply respects_set_objects
  | |- respects _ (modify (set_object_types _)) _ => apply respects_set_object_types
  | |- respects _ (modify (set_domains _)) _ => apply respects_set_domains
  | |- respects _ (modify (set_edges (append (edge _ _ _ _ _ ++ _)%list))) _ =>
      apply respects_edge_extra; [reflexivity | facts | facts]
  | |- respects _ (modify (set_edges (append (edge _ _ _ _ _)))) _ =>
      apply respects_edge_plain; [reflexivity | facts | facts]
  | |- respects _ (_make_factoid _ _ _ _ _ _) _ => apply respects_make_factoid; facts
  | |- respects _ (_add_group _) _ => apply respects_add_group
  | |- respects _ (_add_person _ _ _ _ _) _ => apply respects_add_person
  | |- respects _ (_link_participant _ _ _ _) _ => apply respects_link_participant; facts
  | |- respects _ (_link_place _ _ _) _ => apply respects_link_place; facts
  | |- respects _ (_link_group _ _ _) _ => apply respects_link_group; facts
  | |- respects _ (_link_time _ _ _ _ _ _) _ => apply respects_link_time; facts
  | |- respects _ (_link_time_from_dates _ _ _) _ =>
      apply respects_link_time_from_dates; facts
  end.

Ltac resp_step :=
  lazymatch goal with
  | |- respects _ (when _ _) _ => apply respects_when
  | |- respects _ (for_each _ _) _ => apply respects_for_each; intros ?
  | |- respects _ (bind _ _) _ => eapply respects_bind; [|intros ?; cbn [app]]
  | |- respects _ (match nonempty ?o with _ => _ end) _ =>
      destruct o as [?|]; unfold nonempty; [destruct (Str.is_empty _)|];
      cbn [app]; cbv beta iota
  | |- respects _ (match ?x with _ => _ end) _ => destruct x
  | |- respects _ _ _ =>
      first [ resp_prim | eapply respects_drop; resp_prim | progress cbv beta zeta ]
  end.

Ltac resp :=
  unfold record_facts;
  unfold birth_place, diocese, university, grade, university_college, position,
    university_function, family_network, student_professor, production_domain,
    bib_item;
  unfold name_variant, date_factoid, link_places, link_groups, related_person, opus;
  repeat resp_step.

Lemma respects_process_identity (rec : json) (source_id : string) :
  respects [] (_process_identity rec source_id)
    (fun o => match o with Some p => record_facts p source_id | None => [] end).
Proof. unfold _process_identity. resp. Qed.

Lemma respects_process_activity_dates (rec fiche_id : json) (person_name : string) :
  respects (record_facts person_name ("SRC_" +:+ py_str py_repr fiche_id))
    (_process_activity_dates py_repr rec fiche_id person_name) (fun _ => []).
Proof. unfold _process_activity_dates. resp. Qed.

Lemma respects_process_life_dates (rec fiche_id : json) (person_name : string) :
  respects (record_facts person_name ("SRC_" +:+ py_str py_repr fiche_id))
    (_process_life_dates py_repr rec fiche_id person_name) (fun _ => []).
Proof. unfold _process_life_dates. resp. Qed.

Lemma respects_process_origin (rec fiche_id : json) (person_name : string) :
  respects (record_facts person_name ("SRC_" +:+ py_str py_repr fiche_id))
    (_process_origin py_repr rec fiche_id person_name) (fun _ => []).
Proof. unfold _process_origin. resp. Qed.

Lemma respects_process_curriculum (rec fiche_id : json) (person_name : string) :
  respects (record_facts person_name ("SRC_" +:+ py_str py_repr fiche_id))
    (_process_curriculum py_repr rec fiche_id person_name) (fun _ => []).
Proof. unfold _process_curriculum. resp. Qed.

Lemma respects_process_ecclesiastical_career (rec fiche_id : json) (person_name : string) :
  respects (record_facts person_name ("SRC_" +:+ py_str py_repr fiche_id))
    (_process_ecclesiastical_career py_repr rec fiche_id person_name) (fun _ => []).
Proof. unfold _process_ecclesiastical_career. resp. Qed.

Lemma respects_process_professional_career (rec fiche_id : json) (person_name : string) :
  respects (record_facts person_name ("SRC_" +:+ py_str py_repr fiche_id))
    (_process_professional_career py_repr rec fiche_id person_name) (fun _ => []).
Proof. unfold _process_professional_career. resp. Qed.

Lemma respects_process_relationships (rec fiche_id : json) (person_name : string) :
  respects (record_facts person_name ("SRC_" +:+ py_str py_repr fiche_id))
    (_process_relationships py_repr rec fiche_id person_name) (fun _ => []).
Proof. unfold _process_relationships. resp. Qed.

Lemma respects_process_production (rec fiche_id : json) (person_name : string) :
  respects (record_facts person_name ("SRC_" +:+ py_str py_repr fiche_id))
    (_process_production py_repr ligature_oe rec fiche_id person_name) (fun _ => []).
Proof. unfold _process_production. resp. Qed.

Lemma respects_process_bibliography (rec fiche_id : json) (person_name : string) :
  respects (record_facts person_name ("SRC_" +:+ py_str py_repr fiche_id))
    (_process_bibliography py_repr py_hash rec fiche_id) (fun _ => []).
Proof. unfold _process_bibliography. resp. Qed.

Lemma respects_process_record (rec : json) :
  respects [] (process_record py_repr py_hash ligature_oe rec) (fun _ => []).
Proof.
  unfold process_record. eapply respects_bind; [apply respects_lift|]. intros fiche_id.
  cbv zeta. cbn [app].
  eapply respects_bind; [apply respects_process_identity|]. intros [p|];
    [|now apply respects_ret].
  rewrite app_nil_r.
  unfold nonempty. destruct (Str.is_empty p); [now apply respects_ret|].
  eapply respects_bind; [apply respects_process_activity_dates|]. intros ?. cbn [app].
  eapply respects_bind; [apply respects_process_life_dates|]. intros ?. cbn [app].
  eapply respects_bind; [apply respects_process_origin|]. intros ?. cbn [app].
  eapply respects_bind; [apply respects_process_curriculum|]. intros ?. cbn [app].
  eapply respects_bind; [apply respects_process_ecclesiastical_career|]. intros ?.
  cbn [app].
  eapply respects_bind; [apply respects_process_professional_career|]. intros ?.
  cbn [app].
  eapply respects_bind; [apply respects_process_relationships|]. intros ?. cbn [app].
  eapply respects_bind; [apply respects_process_production|]. intros ?. cbn [app].
  apply respects_process_bibliography.
Qed.

Lemma sound_init (nations_txt disciplines_txt : option (list string)) :
  sound (init nations_txt disciplines_txt).
Proof.
  constructor.
  - constructor.
  - intros g c H. simpl in H. rewrite lookup_empty in H. discriminate.
  - intros t H. eapply node_holds; [apply label_registries|].
    simpl in H. repeat (destruct H as [<-|H]; [vm_compute; eauto|]). destruct H.
  - intros r H. eapply node_holds; [apply label_registries|].
    simpl in H. repeat (destruct H as [<-|H]; [vm_compute; eauto|]). destruct H.
Qed.

Lemma sound_records (recs : list json) (st : extractor) :
  sound st -> sound (after_calls py_repr py_hash ligature_oe (map Call_process_record recs) st).
Proof.
  revert st. induction recs as [|rec recs IH]; intros st Hs; simpl; [exact Hs|].
  apply IH. now apply (respects_process_record rec st Hs).
Qed.

(** X13.  After any sequence of records has been processed by a new
    extractor, whether each call returned or raised, every edge joins two
    nodes of the graph: the node file that the loader loads under the edge's
    from_label has a node whose key is the edge's from_id, likewise for
    to_label and to_id, and the role of a PARTICIPATE edge is the key of a
    Role node. *)
Theorem edges_join_existing_nodes (recs : list json)
    (nations_txt disciplines_txt : option (list string)) :
  let st := after_calls py_repr py_hash ligature_oe (map Call_process_record recs)
              (init nations_txt disciplines_txt) in
  Forall (fun e =>
            node_exists st (field "from_label" e) (field "from_id" e) /\
            node_exists st (field "to_label" e) (field "to_id" e) /\
            (has_type "PARTICIPATE" e = true ->
             node_exists st (JStr "Role") (field "role" e)))
         (edges st).
Proof.
  intros st. exact (sound_edges _ (sound_records recs _ (sound_init _ _))).
Qed.

Lemma grows_records (recs : list json) (st : extractor) :
  sound st -> grows st (after_calls py_repr py_hash ligature_oe (map Call_process_record recs) st).
Proof.
  revert st. induction recs as [|rec recs IH]; intros st Hs; simpl; [apply grows_refl|].
  destruct (respects_process_record rec st Hs (List.Forall_nil _)) as (Hs' & Hg & _).
  eapply grows_trans; [exact Hg | now apply IH].
Qed.

(** X21.  Processing more records only adds to the graph: every node of
    every node file that exists after some records still exists after any
    further records, whether the calls returned or raised; every name that
    was classified stays classified; the edges made so far stay, in their
    order, at the head of the list of edges; and the factoid counter does not
    decrease. *)
Theorem more_records_only_add (recs more : list json)
    (nations_txt disciplines_txt : option (list string)) :
  let st := after_calls py_repr py_hash ligature_oe (map Call_process_record recs)
              (init nations_txt disciplines_txt) in
  let st' := after_calls py_repr py_hash ligature_oe (map Call_process_record (recs ++ more))
               (init nations_txt disciplines_txt) in
  Forall (fun f => forall k, is_Some (f.2 st !! k) -> is_Some (f.2 st' !! k)) node_files /\
  (forall g, is_Some (_entity_class st !! g) -> is_Some (_entity_class st' !! g)) /\
  (exists l, edges st' = (edges st ++ l)%list) /\
  (_factoid_counter st <= _factoid_counter st')%N.
Proof.
  intros st st'.
  assert (E : st' = after_calls py_repr py_hash ligature_oe (map Call_process_record more) st).
  { unfold st', st, after_calls. now rewrite map_app, foldl_app. }
  rewrite E.
  destruct (grows_records more st (sound_records recs _ (sound_init _ _))) as [Hn Hc].
  pose proof (evolves_after_calls py_repr py_hash ligature_oe (map Call_process_record more) st)
      as Hev.
  split; [exact Hn|]. split; [exact Hc|].
  split; [exact (ev_edges _ _ Hev) | exact (ev_counter _ _ Hev)].
Qed.

End Integrity.

(** The Person file, after the sample record. *)
Lemma nodes_have_the_columns_of_their_file_witness :
  In ("nodes_person.csv", "Person", "person_id",
      [ "shortdesc"; "genre"; "person_type"; "status" ]) node_loads /\
  exists registry,
    In ("nodes_person.csv",
        [ "person_id"; "shortdesc"; "genre"; "person_type"; "status" ], registry)
       node_files /\
    forall k n,
      registry (after_calls sample_repr sample_hash sample_ligature
          [ Call_process_record sample_record ]
                  sample_init) !! k = Some n ->
      map fst n = [ "person_id"; "shortdesc"; "genre"; "person_type"; "status" ] /\
      Py.dict_get "person_id" n = Some (JStr k).
Proof.
  split; [left; reflexivity|].
  apply (nodes_have_the_columns_of_their_file sample_repr sample_hash sample_ligature
           [ Call_process_record sample_record ]
           (Some [ "# nations"; "Nation anglaise" ]) (Some [ "Theologie" ])
           "nodes_person.csv" "Person" "person_id"
           [ "shortdesc"; "genre"; "person_type"; "status" ]).
  left; reflexivity.
Defined.

(** The IN_DOMAIN edge of the sample record. *)
Lemma edges_are_of_loaded_types_witness :
  let e := [ ("type", JStr "IN_DOMAIN"); ("from_id", JStr "F_000002");
             ("from_label", JStr "Factoid"); ("to_id", JStr "Theologie");
             ("to_label", JStr "Domain") ] in
  In e (edges (after_calls sample_repr sample_hash sample_ligature
      [ Call_process_record sample_record ]
                 sample_init)) /\
  exists ty fi fl ti tl fp tp extra,
    e = (edge ty fi fl ti tl ++ extra)%list /\
    In (ty, (fl, fp, tl, tp)) edge_configs /\
    (exists file others, In (file, fl, fp, others) node_loads) /\
    (exists file others, In (file, tl, tp, others) node_loads) /\
    incl (map fst extra) [ "certainty"; "role"; "rank"; "link_type" ].
Proof.
  cbv zeta. split; [vm_compute; auto 20|].
  apply (edges_are_of_loaded_types sample_repr sample_hash sample_ligature
           [ Call_process_record sample_record ]
           (Some [ "# nations"; "Nation anglaise" ]) (Some [ "Theologie" ])).
  vm_compute; auto 20.
Defined.

(** The Time node of the record that was active before 1350. *)
Lemma time_nodes_are_well_formed_witness :
  let st := after_calls sample_repr sample_hash sample_ligature
      [ Call_process_record record_before_1350 ]
              (init None None) in
  let n := time_node "I_BEFORE_1350" "Instant" "1350" "" (JStr "BEFORE") (JStr "") in
  times st !! "I_BEFORE_1350" = Some n /\
  time_ok "I_BEFORE_1350" n /\ field "time_id" n = JStr "I_BEFORE_1350" /\
  (String.prefix "TI" "I_BEFORE_1350" = true <->
   field "time_type" n = JStr "TimeInterval").
Proof.
  cbv zeta. split; [vm_compute; reflexivity|].
  apply (time_nodes_are_well_formed sample_repr sample_hash sample_ligature
           [ Call_process_record record_before_1350 ] None None).
  vm_compute; reflexivity.
Defined.

(** ** The statistics of [export_csvs] *)

Lemma filter_three {A} (p q r : A -> bool) (l : list A) :
  (forall x, In x l ->
     (p x = true /\ q x = false /\ r x = false) \/
     (p x = false /\ q x = true /\ r x = false) \/
     (p x = false /\ q x = false /\ r x = true)) ->
  length (List.filter p l) + length (List.filter q l) + length (List.filter r l)
  = length l.
Proof.
  induction l as [|x l IH]; intros H; [reflexivity|].
  assert (IH' := IH (fun y Hy => H y (or_intror Hy))).
  simpl.
  destruct (H x (or_introl eq_refl)) as [(Hp & Hq & Hr)|[(Hp & Hq & Hr)|(Hp & Hq & Hr)]];
    rewrite Hp, Hq, Hr; simpl; lia.
Qed.

Lemma same_keys_same_size {A B} (m : gmap string A) (l : list (string * B)) :
  List.NoDup (map fst l) ->
  (forall k, is_Some (m !! k) <-> In k (map fst l)) ->
  size m = length l.
Proof.
  intros Hl H. rewrite <- length_map_to_list, <- (length_map fst l),
    <- (length_map fst (map_to_list m)).
  apply Permutation_length, NoDup_Permutation.
  - apply NoDup_fst_map_to_list.
  - now apply NoDup_ListNoDup.
  - intros k. rewrite !list_elem_of_In, <- H, in_map_iff. split.
    + intros ([k' a] & <- & Hk). apply list_elem_of_In, elem_of_map_to_list in Hk.
      now exists a.
    + intros [a Ha]. exists (k, a). split; [reflexivity|].
      now apply list_elem_of_In, elem_of_map_to_list.
Qed.

Lemma NoDup_keys_filter {A} (p : string * A -> bool) (l : list (string * A)) :
  List.NoDup (map fst l) -> List.NoDup (map fst (List.filter p l)).
Proof.
  induction l as [|x l IH]; intros H; [constructor|].
  inversion H as [|? ? Hx Hl]; subst. simpl. destruct (p x); [|now apply IH].
  simpl. constructor; [|now apply IH].
  intros Hin. apply Hx. apply in_map_iff in Hin as (y & <- & Hy).
  apply in_map. now apply filter_In in Hy as [Hy _].
Qed.

Section Statistics.

Variable py_repr : json -> string.
Variable py_hash : string -> Z.
Variable ligature_oe : string.

(** X14.  In every state of a run, the statistics that [export_csvs] prints
    add up: the counts of the names classified as nation, discipline and
    institution sum to the number of classified names; the nations and the
    institutions together are as many as the GroupP nodes; every discipline
    has a Domain node, so the disciplines are no more than the Domain nodes;
    and the Factoid nodes are as many as the identifiers issued. *)
Theorem export_statistics_add_up (cs : list call)
    (nations_txt disciplines_txt : option (list string)) :
  let st := after_calls py_repr py_hash ligature_oe cs (init nations_txt disciplines_txt) in
  cls_count st "nation" + cls_count st "discipline" + cls_count st "institution"
  = size (_entity_class st) /\
  cls_count st "nation" + cls_count st "institution" = size (groups st) /\
  cls_count st "discipline" <= size (domains st) /\
  size (factoids st) = N.to_nat (_factoid_counter st).
Proof.
  intros st.
  destruct (schema_groups _ (schema_run py_repr py_hash ligature_oe cs nations_txt disciplines_txt))
    as [H1 H2].
  pose proof (inv_run py_repr py_hash ligature_oe cs nations_txt disciplines_txt) as I.
  fold st in H1, H2, I.
  assert (Hclass : forall g c, _entity_class st !! g = Some c ->
            c = "discipline" \/ c = "nation" \/ c = "institution").
  { intros g c Hc. rewrite (inv_class _ I _ _ Hc). unfold classify.
    destruct (bool_decide _); [auto|]. destruct (bool_decide _); auto. }
  set (L := map_to_list (_entity_class st)).
  assert (HL : forall p, In p L -> _entity_class st !! p.1 = Some p.2).
  { intros [g c] Hp. apply list_elem_of_In in Hp. now apply elem_of_map_to_list in Hp. }
  assert (HND : List.NoDup (map fst L)).
  { apply NoDup_ListNoDup, NoDup_fst_map_to_list. }
  assert (Hsum : cls_count st "nation" + cls_count st "discipline"
                 + cls_count st "institution" = size (_entity_class st)).
  { unfold cls_count. fold L. rewrite <- length_map_to_list. fold L.
    apply filter_three. intros p Hp.
    destruct (Hclass _ _ (HL p Hp)) as [->|[->| ->]]; auto. }
  split; [exact Hsum|]. split; [|split].
  - rewrite (same_keys_same_size (groups st)
               (List.filter (fun p => negb (String.eqb p.2 "discipline")) L)).
    + unfold cls_count. fold L.
      assert (E := filter_three (fun p : string * string => String.eqb p.2 "nation")
                     (fun p => String.eqb p.2 "discipline")
                     (fun p => String.eqb p.2 "institution") L).
      assert (E' : forall l : list (string * string),
                length (List.filter (fun p => negb (String.eqb p.2 "discipline")) l)
                + length (List.filter (fun p => String.eqb p.2 "discipline") l)
                = length l).
      { induction l as [|x l IHl]; [reflexivity|]. simpl.
        destruct (String.eqb x.2 "discipline"); simpl; lia. }
      specialize (E' L). rewrite <- E in E'; [lia|].
      intros p Hp. destruct (Hclass _ _ (HL p Hp)) as [->|[->| ->]]; auto.
    + now apply NoDup_keys_filter.
    + intros g. rewrite in_map_iff. split.
      * intros [n Hn]. destruct (H1 _ _ Hn) as (c & Hc & Hd & _).
        exists (g, c). split; [reflexivity|]. apply filter_In. split.
        -- apply list_elem_of_In. now apply elem_of_map_to_list.
        -- simpl. now apply negb_true_iff, String.eqb_neq.
      * intros ([g' c] & <- & Hp). apply filter_In in Hp as [Hp Hd].
        apply (H2 _ c); [exact (HL _ Hp)|].
        simpl in Hd. now apply negb_true_iff, String.eqb_neq in Hd.
  - unfold cls_count. fold L.
    rewrite <- (length_map fst), <- (length_map_to_list (domains st)),
      <- (length_map fst (map_to_list (domains st))).
    apply NoDup_incl_length; [now apply NoDup_keys_filter|].
    intros g Hg. apply in_map_iff in Hg as ([g' c] & <- & Hp).
    apply filter_In in Hp as [Hp Hd]. simpl in Hd. apply String.eqb_eq in Hd. subst c.
    destruct (inv_domain _ I g' (HL _ Hp)) as [n Hn].
    apply in_map_iff. exists (g', n). split; [reflexivity|].
    apply list_elem_of_In. now apply elem_of_map_to_list.
  - rewrite (same_keys_same_size (factoids st)
               (map (fun k => (k, tt)) (factoid_ids (_factoid_counter st)))).
    + rewrite length_map. unfold factoid_ids. now rewrite length_map, length_seq.
    + rewrite map_map. simpl. rewrite map_id. apply NoDup_factoid_ids.
    + intros k. rewrite map_map. simpl. rewrite map_id. apply (inv_factoids _ I).
Qed.

End Statistics.

(** ** The batches of the loader *)

Lemma py_range_0 (step : nat) : 0 < step -> py_range 0 step = [].
Proof.
  intros H. unfold py_range. replace ((0 + step - 1) / step) with 0; [reflexivity|].
  symmetry. apply Nat.div_small. lia.
Qed.

Lemma py_range_pos (stop step : nat) :
  0 < step -> 0 < stop ->
  py_range stop step = 0 :: map (fun i => i + step) (py_range (stop - step) step).
Proof.
  intros Hs Hn. unfold py_range.
  assert (E : (stop + step - 1) / step = S ((stop - step + step - 1) / step)).
  { destruct (le_lt_dec stop step) as [Hle|Hlt].
    - replace (stop - step + step - 1) with (step - 1) by lia.
      rewrite (Nat.div_small (step - 1)) by lia.
      replace (stop + step - 1) with ((stop - 1) + 1 * step) by lia.
      rewrite Nat.div_add by lia. rewrite Nat.div_small by lia. reflexivity.
    - replace (stop + step - 1) with ((stop - step + step - 1) + 1 * step) by lia.
      rewrite Nat.div_add by lia. lia. }
  rewrite E. cbn [seq map]. f_equal. rewrite <- seq_shift, !map_map.
  apply map_ext. intros k. lia.
Qed.

Lemma BATCH_SIZE_pos : 0 < BATCH_SIZE.
Proof. unfold BATCH_SIZE. lia. Qed.

Lemma batches_nil {A} : batches (@nil A) = [].
Proof. unfold batches. cbn [length]. now rewrite py_range_0 by apply BATCH_SIZE_pos. Qed.

Lemma batches_cons {A} (rows : list A) :
  rows <> [] ->
  batches rows = take BATCH_SIZE rows :: batches (drop BATCH_SIZE rows).
Proof.
  intros Hr. assert (Hs := BATCH_SIZE_pos). unfold batches.
  rewrite py_range_pos; [|exact Hs|destruct rows; [contradiction|simpl; lia]].
  cbn [map]. unfold slice. change (drop 0 rows) with rows.
  replace (0 + BATCH_SIZE - 0) with BATCH_SIZE by lia. f_equal.
  rewrite length_drop, map_map. apply map_ext. intros i.
  rewrite drop_drop. f_equal; [lia|]. f_equal. lia.
Qed.

Lemma batches_ind {A} (P : list A -> list (list A) -> Prop) :
  P [] [] ->
  (forall rows, rows <> [] ->
     P (drop BATCH_SIZE rows) (batches (drop BATCH_SIZE rows)) ->
     P rows (take BATCH_SIZE rows :: batches (drop BATCH_SIZE rows))) ->
  forall rows, P rows (batches rows).
Proof.
  intros H0 H1 rows. assert (Hs := BATCH_SIZE_pos).
  remember (length rows) as n eqn:En. revert rows En.
  induction n as [n IH] using lt_wf_ind. intros rows ->.
  destruct rows as [|r rows].
  - now rewrite batches_nil.
  - rewrite batches_cons by discriminate. apply H1; [discriminate|].
    apply (IH (length (drop BATCH_SIZE (r :: rows)))); [|reflexivity].
    rewrite length_drop. cbn [length]. lia.
Qed.

Lemma batches_spec {A} (rows : list A) :
  concat (batches rows) = rows /\
  Forall (fun b => b <> [] /\ length b <= BATCH_SIZE) (batches rows) /\
  (forall i b, batches rows !! i = Some b ->
     S i < length (batches rows) -> length b = BATCH_SIZE) /\
  list_sum (map (@length A) (batches rows)) = length rows.
Proof.
  assert (Hs := BATCH_SIZE_pos). revert rows.
  apply (batches_ind (fun rows bs =>
           concat bs = rows /\
           Forall (fun b => b <> [] /\ length b <= BATCH_SIZE) bs /\
           (forall i b, bs !! i = Some b -> S i < length bs -> length b = BATCH_SIZE) /\
           list_sum (map (@length A) bs) = length rows)).
  - repeat split; try constructor. intros i b H. discriminate.
  - intros rows Hr (IH1 & IH2 & IH3 & IH4). repeat split.
    + cbn [concat]. rewrite IH1. apply take_drop.
    + constructor; [|exact IH2]. split.
      * destruct rows; [contradiction|]. unfold BATCH_SIZE. discriminate.
      * rewrite length_take. lia.
    + intros [|i] b H Hlen.
      * injection H as <-. rewrite length_take.
        destruct (le_lt_dec BATCH_SIZE (length rows)) as [Hle|Hlt]; [lia|].
        exfalso. rewrite drop_ge in Hlen by lia.
        rewrite batches_nil in Hlen. cbn [length] in Hlen. lia.
      * cbn [length] in Hlen. apply (IH3 i b H). lia.
    + unfold list_sum in *. cbn [map fold_right]. rewrite IH4, length_take, length_drop.
      lia.
Qed.

(** X15.  The loader sends every row of a file to the database exactly once
    and in the order of the file, in batches of at most 1000 rows: no batch
    is empty, every batch before the last has exactly 1000 rows, and the
    count that is printed is the number of rows of the file.  The batches of
    an edge file are those of a node file with the same rows; an edge file
    without rows sends nothing.  A node file that does not exist sends
    nothing; and the properties that an edge query sets are the columns of
    the first row other than type, the labels, the keys and the two
    identifiers. *)
Theorem loader_sends_every_row_once (rows : list pydict) (label key_prop : string)
    (other_props : list string)
    (rel_type from_label from_prop to_label to_prop : string) :
  let nodes := _load_node_csv (Some rows) label key_prop other_props in
  let edges := _load_edge_csv rows rel_type from_label from_prop to_label to_prop in
  concat (map snd nodes.1) = rows /\
  Forall (fun r => r.1 = MergeNodes label key_prop other_props /\
                   r.2 <> [] /\ length r.2 <= 1000) nodes.1 /\
  (forall i r, nodes.1 !! i = Some r -> S i < length nodes.1 -> length r.2 = 1000) /\
  nodes.2 = Some (length rows) /\
  _load_node_csv None label key_prop other_props = ([], None) /\
  map snd edges.1 = map snd nodes.1 /\
  (forall q batch, In (q, batch) edges.1 ->
     exists sample rest, rows = sample :: rest /\
       q = MergeEdges rel_type from_label from_prop to_label to_prop
             (List.filter (fun k => negb (bool_decide (k ∈ skip_cols))) (map fst sample))) /\
  edges.2 = (if rows is [] then None else Some (length rows)).
Proof.
  intros nodes edges.
  destruct (batches_spec rows) as (H1 & H2 & H3 & H4).
  change 1000 with BATCH_SIZE.
  assert (En : map snd nodes.1 = batches rows).
  { unfold nodes. cbn [_load_node_csv fst]. rewrite map_map. apply map_id. }
  split; [now rewrite En|]. split; [|split; [|split; [|split; [|split; [|split]]]]].
  - unfold nodes. cbn [_load_node_csv fst]. apply Forall_map.
    eapply Forall_impl; [exact H2|]. intros b [Hb Hl]. cbn [fst snd]. auto.
  - intros i r Hi Hlen. apply (H3 i).
    + rewrite <- En, list_lookup_fmap, Hi. reflexivity.
    + now rewrite <- En, length_map.
  - unfold nodes. cbn [_load_node_csv snd]. now rewrite H4.
  - reflexivity.
  - rewrite En. unfold edges. destruct rows as [|sample rest]; [|].
    + cbn [_load_edge_csv fst map]. symmetry. apply batches_nil.
    + cbn [_load_edge_csv fst]. rewrite map_map. apply map_id.
  - intros q batch Hin. unfold edges in Hin. destruct rows as [|sample rest];
      [destruct Hin|].
    exists sample, rest. split; [reflexivity|].
    cbn [_load_edge_csv fst] in Hin. apply in_map_iff in Hin as (b & Hb & _).
    now injection Hb as <- _.
  - unfold edges. destruct rows as [|sample rest]; [reflexivity|].
    cbn [_load_edge_csv snd]. now rewrite H4.
Qed.

(** ** The files of the writer *)

Lemma insert_by_Permutation {A} (le : A -> A -> bool) (x : A) (l : list A) :
  Permutation (insert_by le x l) (x :: l).
Proof.
  induction l as [|y l IH]; simpl; [reflexivity|].
  destruct (le x y); [reflexivity|]. rewrite IH. apply perm_swap.
Qed.

Lemma sorted_by_Permutation {A} (le : A -> A -> bool) (l : list A) :
  Permutation (sorted_by le l) l.
Proof.
  induction l as [|x l IH]; simpl; [reflexivity|].
  rewrite insert_by_Permutation. now constructor.
Qed.

Lemma ascii_compare_lt (a b : ascii) :
  Ascii.compare a b = Lt <-> (N_of_ascii a < N_of_ascii b)%N.
Proof. unfold Ascii.compare. apply N.compare_lt_iff. Qed.

Lemma ascii_compare_eq (a b : ascii) : Ascii.compare a b = Eq <-> a = b.
Proof.
  unfold Ascii.compare. rewrite N.compare_eq_iff. split; [|now intros ->].
  intros H. rewrite <- (ascii_N_embedding a), <- (ascii_N_embedding b). now rewrite H.
Qed.

Lemma ascii_compare_gt (a b : ascii) :
  Ascii.compare a b = Gt <-> (N_of_ascii b < N_of_ascii a)%N.
Proof. unfold Ascii.compare. apply N.compare_gt_iff. Qed.

Lemma string_leb_trans (s1 s2 s3 : string) :
  String.leb s1 s2 = true -> String.leb s2 s3 = true -> String.leb s1 s3 = true.
Proof.
  unfold String.leb. revert s2 s3.
  induction s1 as [|a s1 IH]; intros [|b s2] [|c s3]; simpl; try congruence.
  destruct (Ascii.compare a b) eqn:Eab; try discriminate;
    destruct (Ascii.compare b c) eqn:Ebc; try discriminate.
  - apply ascii_compare_eq in Eab, Ebc. subst.
    rewrite (proj2 (ascii_compare_eq c c) eq_refl). apply IH.
  - apply ascii_compare_eq in Eab. subst. now rewrite Ebc.
  - apply ascii_compare_eq in Ebc. subst. now rewrite Eab.
  - apply ascii_compare_lt in Eab. apply ascii_compare_lt in Ebc.
    assert (E : Ascii.compare a c = Lt).
    { apply ascii_compare_lt. exact (N.lt_trans _ _ _ Eab Ebc). }
    now rewrite E.
Qed.

Lemma insert_by_sorted (x : string) (l : list string) :
  StronglySorted (fun a b => String.leb a b = true) l ->
  StronglySorted (fun a b => String.leb a b = true) (insert_by String.leb x l).
Proof.
  induction 1 as [|y l Hl IH Hy]; simpl.
  - repeat constructor.
  - destruct (String.leb x y) eqn:E.
    + constructor; [now constructor|]. constructor; [exact E|].
      eapply Forall_impl; [exact Hy|]. intros z Hz. simpl in Hz.
      now apply (string_leb_trans x y z).
    + constructor; [exact IH|].
      rewrite insert_by_Permutation.
      constructor; [|exact Hy].
      destruct (String.leb_total x y) as [H|H]; [congruence | exact H].
Qed.

Lemma sorted_by_sorted (l : list string) :
  StronglySorted (fun a b => String.leb a b = true) (sorted_by String.leb l).
Proof. induction l as [|x l IH]; simpl; [constructor | now apply insert_by_sorted]. Qed.

(** The columns of an edge file. *)
Lemma edge_cols_spec (rel_edges : list pydict) :
  StronglySorted (fun a b => String.leb a b = true) (edge_cols rel_edges) /\
  List.NoDup (edge_cols rel_edges) /\
  forall k, In k (edge_cols rel_edges) <-> exists e, In e rel_edges /\ In k (map fst e).
Proof.
  unfold edge_cols, all_keys. split; [apply sorted_by_sorted|]. split.
  - apply NoDup_ListNoDup. rewrite sorted_by_Permutation. apply NoDup_remove_dups.
  - intros k. rewrite <- !list_elem_of_In, sorted_by_Permutation, elem_of_remove_dups,
      list_elem_of_In, in_concat. split.
    + intros (ks & Hks & Hk). apply in_map_iff in Hks as (e & <- & He). eauto.
    + intros (e & He & Hk). exists (map fst e). split; [now apply in_map|exact Hk].
Qed.

Lemma dict_get_key (k : string) (d : pydict) :
  is_Some (Py.dict_get k d) <-> In k (map fst d).
Proof.
  induction d as [|[k' v] d IH]; simpl.
  - split; [intros [? H]; discriminate | intros []].
  - destruct (String.eqb k k') eqn:E.
    + apply String.eqb_eq in E. subst. split; eauto.
    + apply String.eqb_neq in E. rewrite IH. split; [auto|]. intros [H|H]; [congruence|auto].
Qed.

(** *** The grouping of the edges *)

Lemma has_type_text (ty ty' : string) (e : pydict) :
  Py.dict_get "type" e = Some (JStr ty) -> has_type ty' e = String.eqb ty ty'.
Proof. intros H. unfold has_type, field, Py.dget. now rewrite H. Qed.

Lemma edge_type_text (ty : string) (e : pydict) :
  Py.dict_get "type" e = Some (JStr ty) -> edge_type e = inr (JStr ty).
Proof. intros H. unfold edge_type. now rewrite H. Qed.

Lemma group_append_keys (ty : string) (e : pydict) (g : list (json * list pydict)) :
  map fst (group_append (JStr ty) e g)
  = if existsb (fun k => key_eqb k (JStr ty)) (map fst g) then map fst g
    else (map fst g ++ [ JStr ty ])%list.
Proof.
  induction g as [|[k l] g IH]; simpl; [reflexivity|].
  destruct (key_eqb k (JStr ty)); simpl; [reflexivity|]. rewrite IH.
  now destruct (existsb _ _).
Qed.

Lemma group_get_append (ty ty' : string) (e : pydict) (g : list (json * list pydict)) :
  Forall (fun p => is_str p.1 = true) g ->
  group_get (JStr ty') (group_append (JStr ty) e g)
  = (group_get (JStr ty') g ++ if String.eqb ty ty' then [ e ] else [])%list.
Proof.
  induction 1 as [|[k l] g Hk Hg IH]; simpl.
  - now destruct (String.eqb ty ty').
  - destruct k as [| | |t| |]; try discriminate. simpl.
    destruct (String.eqb t ty) eqn:E1; simpl.
    + apply String.eqb_eq in E1. subst t.
      destruct (String.eqb ty ty'); [reflexivity|]. now rewrite app_nil_r.
    + destruct (String.eqb t ty') eqn:E2; [|exact IH].
      apply String.eqb_eq in E2. subst t. rewrite String.eqb_sym, E1.
      now rewrite app_nil_r.
Qed.

Lemma group_append_sum (k : json) (e : pydict) (g : list (json * list pydict)) :
  list_sum (map (fun g => length g.2) (group_append k e g))
  = S (list_sum (map (fun g => length g.2) g)).
Proof.
  induction g as [|[k' l] g IH]; simpl; [reflexivity|].
  destruct (key_eqb k' k); simpl.
  - rewrite length_app. simpl. lia.
  - rewrite IH. lia.
Qed.

Lemma group_append_text (ty : string) (e : pydict) (g : list (json * list pydict)) :
  Forall (fun p => is_str p.1 = true) g ->
  Forall (fun p => is_str p.1 = true) (group_append (JStr ty) e g).
Proof.
  induction 1 as [|[k l] g Hk Hg IH]; simpl; [repeat constructor|].
  destruct (key_eqb k (JStr ty)); constructor; auto.
Qed.

Lemma text_key_in (ty : string) (keys : list json) :
  existsb (fun k => key_eqb k (JStr ty)) keys = true <-> In (JStr ty) keys.
Proof.
  rewrite existsb_exists. split.
  - intros (k & Hk & E). destruct k; try discriminate. simpl in E.
    apply String.eqb_eq in E. now subst.
  - intros H. exists (JStr ty). split; [exact H|]. simpl. apply String.eqb_refl.
Qed.

(** What the loop over the edges keeps. *)
Lemma edges_by_type_inv (es : list pydict) :
  typed es ->
  exists g, edges_by_type es = inr g /\
    Forall (fun p => is_str p.1 = true) g /\
    List.NoDup (map fst g) /\
    (forall ty, group_get (JStr ty) g = edges_of_type ty es) /\
    (forall ty, In (JStr ty) (map fst g) <-> edges_of_type ty es <> []) /\
    list_sum (map (fun g => length g.2) g) = length es.
Proof.
  unfold edges_by_type. induction es as [|e es IH] using rev_ind; intros Ht.
  - exists []. simpl. repeat split; try constructor; try (intros []); try congruence.
  - apply Forall_app in Ht as [Ht He]. inversion He as [|? ? [ty Hty] _]; subst.
    destruct (IH Ht) as (g & Eg & Htext & Hnd & Hget & Hkey & Hsum).
    exists (group_append (JStr ty) e g). rewrite foldl_app. simpl. rewrite Eg. simpl.
    rewrite (edge_type_text ty e Hty). simpl. split; [reflexivity|].
    split; [now apply group_append_text|].
    assert (Hf : forall ty', edges_of_type ty' (es ++ [ e ])
                 = (edges_of_type ty' es ++ if String.eqb ty ty' then [ e ] else [])%list).
    { intros ty'. unfold edges_of_type. rewrite List.filter_app. simpl.
      now rewrite (has_type_text ty ty' e Hty). }
    split; [|split; [|split]].
    + rewrite group_append_keys. destruct (existsb _ _) eqn:E; [exact Hnd|].
      apply NoDup_ListNoDup, NoDup_app. split; [now apply NoDup_ListNoDup|].
      split; [|apply NoDup_singleton].
      intros k Hk Hk'. apply list_elem_of_In in Hk. apply list_elem_of_singleton in Hk'.
      subst k. apply text_key_in in Hk. congruence.
    + intros ty'. now rewrite group_get_append, Hf, Hget.
    + intros ty'. rewrite group_append_keys, Hf.
      destruct (String.eqb ty ty') eqn:E.
      * apply String.eqb_eq in E. subst ty'. split.
        -- intros _ H. now apply app_eq_nil in H as [_ H].
        -- intros _. destruct (existsb _ _) eqn:E; [now apply text_key_in|].
           apply in_or_app. right. now left.
      * rewrite app_nil_r, <- Hkey. destruct (existsb _ _); [reflexivity|].
        rewrite in_app_iff. split; [|auto]. intros [H|[H|[]]]; [exact H|].
        injection H as ->. now rewrite String.eqb_refl in E.
    + rewrite group_append_sum, Hsum, length_app. simpl. lia.
Qed.

Lemma group_get_in (ty : string) (l : list pydict) (g : list (json * list pydict)) :
  Forall (fun p => is_str p.1 = true) g -> List.NoDup (map fst g) ->
  (In (JStr ty, l) g <-> In (JStr ty) (map fst g) /\ l = group_get (JStr ty) g).
Proof.
  induction 1 as [|[k l'] g Hk Hg IH]; intros Hnd; simpl.
  - tauto.
  - inversion Hnd as [|? ? Hnot Hnd']; subst.
    destruct k as [| | |t| |]; try discriminate. simpl.
    destruct (String.eqb t ty) eqn:E.
    + apply String.eqb_eq in E. subst t. split.
      * intros [H|H]; [injection H as ->; auto|].
        exfalso. apply Hnot. now apply (in_map fst) in H.
      * intros [_ ->]. now left.
    + apply String.eqb_neq in E. rewrite (IH Hnd'). split.
      * intros [H|H]; [congruence|]. destruct H; auto.
      * intros [[H|H] ->]; [congruence|]. auto.
Qed.

Lemma edges_by_type_grouped (es : list pydict) :
  typed es -> exists g, edges_by_type es = inr g /\ grouped es g /\
                        Forall (fun p => is_str p.1 = true) g.
Proof.
  intros Ht. destruct (edges_by_type_inv es Ht) as (g & Eg & Htext & Hnd & Hget & Hkey & Hsum).
  exists g. split; [exact Eg|]. split; [|exact Htext]. split; [exact Hnd|]. split; [|exact Hsum].
  intros k l. split.
  - intros Hin. assert (Hk : is_str k = true).
    { rewrite Forall_forall in Htext. apply (Htext (k, l)). now apply list_elem_of_In. }
    destruct k as [| | |ty| |]; try discriminate. exists ty.
    apply (group_get_in ty l g Htext Hnd) in Hin as [Hin ->].
    rewrite Hget. split; [reflexivity|]. split; [reflexivity|]. now apply Hkey.
  - intros (ty & -> & -> & Hne). apply (group_get_in ty _ g Htext Hnd).
    split; [now apply Hkey|]. now rewrite Hget.
Qed.

Lemma sorted_items_text (g : list (json * list pydict)) :
  Forall (fun p => is_str p.1 = true) g ->
  exists items, sorted_items g = inr items /\ Permutation items g.
Proof.
  intros H. unfold sorted_items. destruct (length g <=? 1)%nat; [now exists g|].
  assert (E : forallb (fun p : json * list pydict => is_str p.1) g = true).
  { apply forallb_forall. intros p Hp. rewrite Forall_forall in H. apply H.
    now apply list_elem_of_In. }
  rewrite E. simpl. eexists. split; [reflexivity|]. apply sorted_by_Permutation.
Qed.

(** *** The files that are written *)

Lemma foldl_insert_lookup {V} (l : list (string * V)) (dir : gmap string V) :
  List.NoDup (map fst l) ->
  (forall k v, In (k, v) l -> foldl (fun d p => <[p.1 := p.2]> d) dir l !! k = Some v) /\
  (forall k, ~ In k (map fst l) -> foldl (fun d p => <[p.1 := p.2]> d) dir l !! k = dir !! k).
Proof.
  revert dir. induction l as [|[k0 v0] l IH]; intros dir Hnd; simpl.
  - split; [intros ? ? []|reflexivity].
  - inversion Hnd as [|? ? Hnot Hnd']; subst.
    destruct (IH (<[k0 := v0]> dir) Hnd') as [IH1 IH2]. split.
    + intros k v [H|H]; [|now apply IH1]. injection H as -> ->.
      rewrite IH2 by exact Hnot. apply lookup_insert_eq.
    + intros k Hk. rewrite IH2 by tauto. apply lookup_insert_ne. tauto.
Qed.

Lemma write_lines_all (fs : file_system) (lines : list (list json)) :
  (write_lines fs lines).2 = true -> (write_lines fs lines).1 = lines.
Proof.
  induction lines as [|line lines IH]; simpl; [reflexivity|].
  destruct (forallb (can_write fs) line); simpl; [|discriminate].
  intros H. now rewrite IH.
Qed.

Lemma write_lines_obliging (fs : file_system) (lines : list (list json)) :
  (forall cell, can_write fs cell = true) -> write_lines fs lines = (lines, true).
Proof.
  intros H. induction lines as [|line lines IH]; simpl; [reflexivity|].
  replace (forallb (can_write fs) line) with true; [now rewrite IH|].
  symmetry. apply forallb_forall. auto.
Qed.

Lemma _write_csv_returns (fs : file_system) (name : string) (cols : list string)
    (rows : list pydict) (dir dir' : directory) (n : nat) :
  _write_csv fs name cols rows dir = (inr n, dir') ->
  n = length rows /\ dir' = <[name := map JStr cols :: map (csv_row cols) rows]> dir.
Proof.
  unfold _write_csv. destruct (can_open fs name); [|discriminate]. cbv zeta.
  pose proof (write_lines_all fs (map JStr cols :: map (csv_row cols) rows)) as H.
  destruct (write_lines fs (map JStr cols :: map (csv_row cols) rows)) as [w []];
    [|discriminate].
  intros [= <- <-]. cbn [fst snd] in H. now rewrite (H eq_refl).
Qed.

Lemma _write_csv_obliging (fs : file_system) (name : string) (cols : list string)
    (rows : list pydict) (dir : directory) :
  obliging fs ->
  _write_csv fs name cols rows dir
  = (inr (length rows), <[name := map JStr cols :: map (csv_row cols) rows]> dir).
Proof.
  intros (_ & Ho & Hw). unfold _write_csv.
  now rewrite Ho, (write_lines_obliging fs _ Hw).
Qed.

Lemma _write_csv_other (fs : file_system) (name : string) (cols : list string)
    (rows : list pydict) (dir : directory) (name' : string) :
  name <> name' -> (_write_csv fs name cols rows dir).2 !! name' = dir !! name'.
Proof.
  intros H. unfold _write_csv. destruct (can_open fs name); [|reflexivity].
  simpl. now apply lookup_insert_ne.
Qed.

Lemma write_edge_files_text (fs : file_system) (l : list (string * list pydict))
    (dir dir' : directory) :
  write_edge_files fs (map (fun p => (JStr p.1, p.2)) l) dir = (inr tt, dir') ->
  dir' = foldl (fun d p => <[p.1 := p.2]> d) dir
           (map (fun p => (edge_file_name p.1,
                           map JStr (edge_cols p.2) :: map (csv_row (edge_cols p.2)) p.2)) l).
Proof.
  revert dir. induction l as [|[ty es] l IH]; intros dir H; simpl in H |- *; [congruence|].
  destruct (_write_csv fs (edge_file_name ty) (edge_cols es) es dir) as [[e|n] d1] eqn:E;
    [discriminate|].
  apply _write_csv_returns in E as [_ ->]. now apply IH.
Qed.

Lemma write_edge_files_text_obliging (fs : file_system) (l : list (string * list pydict))
    (dir : directory) :
  obliging fs ->
  write_edge_files fs (map (fun p => (JStr p.1, p.2)) l) dir
  = (inr tt,
     foldl (fun d p => <[p.1 := p.2]> d) dir
       (map (fun p => (edge_file_name p.1,
                       map JStr (edge_cols p.2) :: map (csv_row (edge_cols p.2)) p.2)) l)).
Proof.
  intros Hfs. revert dir. induction l as [|[ty es] l IH]; intros dir; simpl; [reflexivity|].
  now rewrite (_write_csv_obliging fs _ _ _ _ Hfs), IH.
Qed.

Lemma write_edge_files_text_python (fs : file_system) (l : list (string * list pydict))
    (dir : directory) (e : exn) :
  (write_edge_files fs (map (fun p => (JStr p.1, p.2)) l) dir).1 <> inl (PyExn e).
Proof.
  revert dir. induction l as [|[ty es] l IH]; intros dir; simpl; [discriminate|].
  destruct (_write_csv fs (edge_file_name ty) (edge_cols es) es dir) as [[e'|n] d1];
    [discriminate|apply IH].
Qed.

Lemma write_edge_files_no_file_error (fs : file_system) (items : list (json * list pydict))
    (dir : directory) (e : file_error) :
  obliging fs -> (write_edge_files fs items dir).1 <> inl (FileExn e).
Proof.
  intros Hfs. revert dir. induction items as [|[k es] items IH]; intros dir; [discriminate|].
  destruct k as [| | |ty| |]; try discriminate. simpl.
  rewrite (_write_csv_obliging fs _ _ _ _ Hfs). apply IH.
Qed.

Lemma text_items (g : list (json * list pydict)) :
  Forall (fun p => is_str p.1 = true) g ->
  exists l : list (string * list pydict), g = map (fun p => (JStr p.1, p.2)) l.
Proof.
  induction 1 as [|[k es] g Hk Hg [l ->]]; [now exists []|].
  destruct k as [| | |ty| |]; try discriminate. now exists ((ty, es) :: l).
Qed.

Lemma edge_file_name_inj (a b : string) :
  In a (map fst edge_configs) -> In b (map fst edge_configs) ->
  edge_file_name a = edge_file_name b -> a = b.
Proof.
  intros Ha Hb. simpl in Ha, Hb.
  repeat (destruct Ha as [<-|Ha];
          [ repeat (destruct Hb as [<-|Hb];
                    [ first [ reflexivity | intros H; vm_compute in H; discriminate H ] | ]);
            destruct Hb | ]).
  destruct Ha.
Qed.

Lemma edge_file_not_node_file (ty : string) :
  ~ In (edge_file_name ty) (map (fun f => f.1.1) node_files).
Proof.
  unfold edge_file_name. simpl. intros H.
  repeat (destruct H as [H|H]; [discriminate H|]). destruct H.
Qed.

Lemma node_file_names_NoDup : List.NoDup (map (fun f => f.1.1) node_files).
Proof.
  simpl. repeat (constructor; [simpl; intros H;
    repeat (destruct H as [H|H]; [discriminate H|]); destruct H|]).
  constructor.
Qed.

Lemma edge_known_type (e : pydict) :
  edge_known e ->
  exists ty cfg, Py.dict_get "type" e = Some (JStr ty) /\ In (ty, cfg) edge_configs /\
    incl [ "type"; "from_id"; "from_label"; "to_id"; "to_label" ] (map fst e) /\
    incl (map fst e)
      [ "certainty"; "from_id"; "from_label"; "link_type"; "rank"; "role"; "to_id";
        "to_label"; "type" ].
Proof.
  intros (ty & fi & fl & ti & tl & fp & tp & extra & -> & Hc & Hx).
  exists ty, (fl, fp, tl, tp). split; [reflexivity|]. split; [exact Hc|]. split.
  - intros k Hk. rewrite map_app. apply in_or_app. left. exact Hk.
  - intros k Hk. rewrite map_app in Hk. apply in_app_or in Hk as [Hk|Hk].
    + simpl in Hk. simpl. intuition.
    + apply Hx in Hk. simpl in Hk. simpl. intuition.
Qed.

Lemma foldl_insert_map {A V} (h : A -> string * V) (l : list A) (dir : gmap string V) :
  foldl (fun d a => <[(h a).1 := (h a).2]> d) dir l
  = foldl (fun d p => <[p.1 := p.2]> d) dir (map h l).
Proof. revert dir. induction l as [|a l IH]; intros dir; simpl; [reflexivity|apply IH]. Qed.

Lemma typed_of_known (es : list pydict) : Forall edge_known es -> typed es.
Proof.
  intros H. eapply Forall_impl; [exact H|]. intros e He.
  destruct (edge_known_type e He) as (ty & ? & Hty & _). now exists ty.
Qed.

Lemma known_type_present (es : list pydict) (ty : string) :
  Forall edge_known es -> edges_of_type ty es <> [] ->
  exists cfg, In (ty, cfg) edge_configs.
Proof.
  intros H Hne. destruct (edges_of_type ty es) as [|e r] eqn:E; [contradiction|].
  assert (Hin : In e (edges_of_type ty es)) by (rewrite E; now left).
  apply filter_In in Hin as [Hin Hty]. rewrite Forall_forall in H.
  destruct (edge_known_type e (H e (proj2 (list_elem_of_In _ _) Hin)))
    as (ty0 & cfg & Hty0 & Hc & _).
  rewrite (has_type_text ty0 ty e Hty0) in Hty. apply String.eqb_eq in Hty. subst ty0.
  now exists cfg.
Qed.

Lemma known_cols (es : list pydict) (ty : string) :
  Forall edge_known es -> edges_of_type ty es <> [] ->
  incl [ "from_id"; "from_label"; "to_id"; "to_label"; "type" ]
       (edge_cols (edges_of_type ty es)) /\
  incl (edge_cols (edges_of_type ty es))
       [ "certainty"; "from_id"; "from_label"; "link_type"; "rank"; "role"; "to_id";
         "to_label"; "type" ].
Proof.
  intros H Hne. rewrite Forall_forall in H.
  assert (Hk : forall e, In e (edges_of_type ty es) -> edge_known e).
  { intros e He. apply filter_In in He as [He _]. apply H. now apply list_elem_of_In. }
  destruct (edge_cols_spec (edges_of_type ty es)) as (_ & _ & Hcols). split.
  - destruct (edges_of_type ty es) as [|e r] eqn:E; [contradiction|].
    destruct (edge_known_type e (Hk e (or_introl eq_refl))) as (? & ? & _ & _ & Hfive & _).
    intros k Hin. apply Hcols. exists e. split; [now left|]. apply Hfive.
    simpl in Hin. simpl. intuition.
  - intros k Hin. apply Hcols in Hin as (e & He & Hin).
    destruct (edge_known_type e (Hk e He)) as (? & ? & _ & _ & _ & Hnine). now apply Hnine.
Qed.

(** X17.  The columns of an edge file are the field names that occur on the
    edges of its type, each once, in the order of the code points.  The row
    of an edge has one cell for each column; every field of the edge is in
    the column of its name, so no field is left out, and a column whose
    field the edge does not have holds the empty text. *)
Theorem edge_rows_keep_every_field (rel_edges : list pydict) :
  let cols := edge_cols rel_edges in
  StronglySorted (fun a b => String.leb a b = true) cols /\
  List.NoDup cols /\
  (forall k, In k cols <-> exists e, In e rel_edges /\ is_Some (Py.dict_get k e)) /\
  forall e, In e rel_edges ->
    length (csv_row cols e) = length cols /\
    (forall k v, Py.dict_get k e = Some v ->
       exists i, cols !! i = Some k /\ csv_row cols e !! i = Some v) /\
    (forall i k, cols !! i = Some k -> Py.dict_get k e = None ->
       csv_row cols e !! i = Some (JStr "")).
Proof.
  intros cols. destruct (edge_cols_spec rel_edges) as (Hs & Hnd & Hin). fold cols in Hs, Hnd, Hin.
  split; [exact Hs|]. split; [exact Hnd|]. split.
  - intros k. rewrite Hin. split; intros (e & He & Hk); exists e; split; auto;
      now apply dict_get_key.
  - intros e He. split; [apply length_map|]. split.
    + intros k v Hk.
      assert (Hc : In k cols).
      { apply Hin. exists e. split; [exact He|]. apply dict_get_key. eauto. }
      apply list_elem_of_In, list_elem_of_lookup in Hc as [i Hi]. exists i.
      split; [exact Hi|]. unfold csv_row. rewrite list_lookup_fmap, Hi. simpl.
      unfold Py.dget. now rewrite Hk.
    + intros i k Hi Hk. unfold csv_row. rewrite list_lookup_fmap, Hi. simpl.
      unfold Py.dget. now rewrite Hk.
Qed.

(** *** When the writer raises *)

Lemma key_eqb_text (k v : json) : key_eqb k v = true -> is_str k = true -> is_str v = true.
Proof. destruct k, v; simpl; try discriminate; auto. Qed.

Lemma key_eqb_hashable (e : pydict) (v : json) : edge_type e = inr v -> key_eqb v v = true.
Proof.
  unfold edge_type. destruct (Py.dict_get "type" e) as [[| b|z|s|l|kv]|]; intros [= <-]; simpl.
  - reflexivity.
  - apply Z.eqb_refl.
  - apply Z.eqb_refl.
  - apply String.eqb_refl.
Qed.

Lemma group_append_has (k : json) (e : pydict) (g : list (json * list pydict)) :
  key_eqb k k = true ->
  exists k' l, In (k', l) (group_append k e g) /\ key_eqb k' k = true.
Proof.
  intros Hk. induction g as [|[k' l] g (k'' & l'' & Hin & E)]; simpl.
  - exists k, [ e ]. split; [now left | exact Hk].
  - destruct (key_eqb k' k) eqn:E'.
    + exists k', (l ++ [ e ])%list. split; [now left | exact E'].
    + exists k'', l''. split; [now right | exact E].
Qed.

Lemma group_append_keeps (k : json) (e : pydict) (g : list (json * list pydict)) (k' : json) :
  In k' (map fst g) -> In k' (map fst (group_append k e g)).
Proof.
  induction g as [|[k0 l] g IH]; simpl; [intros []|].
  destruct (key_eqb k0 k); simpl; tauto.
Qed.

Lemma text_groups_typed (es : list pydict) (g : list (json * list pydict)) :
  edges_by_type es = inr g -> Forall (fun p => is_str p.1 = true) g -> typed es.
Proof.
  unfold edges_by_type. revert g. induction es as [|e es IH] using rev_ind; intros g' Eg Ht.
  - constructor.
  - rewrite foldl_app in Eg. simpl in Eg.
    destruct (foldl _ _ es) as [err|g]; [discriminate|]. simpl in Eg.
    destruct (edge_type e) as [err|v] eqn:Ev; [discriminate|]. simpl in Eg.
    injection Eg as <-. rewrite Forall_forall in Ht.
    assert (Hkeys : forall k, In k (map fst (group_append v e g)) -> is_str k = true).
    { intros k Hk. apply in_map_iff in Hk as (p & <- & Hp). apply Ht.
      now apply list_elem_of_In. }
    apply Forall_app. split.
    + apply (IH g eq_refl). apply Forall_forall. intros p Hp. apply Hkeys.
      apply group_append_keeps, in_map. now apply list_elem_of_In.
    + constructor; [|constructor].
      destruct (group_append_has v e g (key_eqb_hashable e v Ev)) as (k' & l & Hin & E).
      assert (Hv : is_str v = true).
      { apply (key_eqb_text k' v E). apply Hkeys. now apply (in_map fst) in Hin. }
      destruct v as [| | |ty| |]; try discriminate. exists ty.
      unfold edge_type in Ev.
      destruct (Py.dict_get "type" e) as [[| | | | |]|]; congruence.
Qed.

Lemma write_edge_files_ok (fs : file_system) (items : list (json * list pydict))
    (dir dir' : directory) :
  write_edge_files fs items dir = (inr tt, dir') ->
  Forall (fun p => is_str p.1 = true) items.
Proof.
  revert dir. induction items as [|[k l] items IH]; intros dir H; [constructor|].
  destruct k as [| | |ty| |]; try discriminate H. simpl in H.
  destruct (_write_csv fs (edge_file_name ty) (edge_cols l) l dir) as [[e|n] d1];
    [discriminate|].
  constructor; [reflexivity|]. eapply IH. exact H.
Qed.

Lemma write_edge_files_other (fs : file_system) (items : list (json * list pydict))
    (dir : directory) (name : string) :
  (forall ty, edge_file_name ty <> name) ->
  (write_edge_files fs items dir).2 !! name = dir !! name.
Proof.
  intros Hname. revert dir. induction items as [|[k l] items IH]; intros dir; [reflexivity|].
  destruct k as [| | |ty| |]; try reflexivity. simpl.
  pose proof (_write_csv_other fs (edge_file_name ty) (edge_cols l) l dir name (Hname ty))
    as H.
  destruct (_write_csv fs (edge_file_name ty) (edge_cols l) l dir) as [[e|n] d1];
    simpl in H |- *; [exact H|]. now rewrite IH.
Qed.

Lemma sorted_items_head (g items : list (json * list pydict)) :
  sorted_items g = inr items ->
  Forall (fun p => is_str p.1 = true) items \/
  exists k l rest, items = (k, l) :: rest /\ is_str k = false.
Proof.
  unfold sorted_items. destruct (length g <=? 1)%nat eqn:El.
  - intros [= <-]. destruct g as [|[k l] [|? ?]]; [left; constructor| |discriminate El].
    destruct (is_str k) eqn:E; [left; now repeat constructor|right; eauto].
  - destruct (forallb (fun p : json * list pydict => is_str p.1) g) eqn:Et; simpl.
    + intros [= <-]. left. rewrite sorted_by_Permutation. apply Forall_forall.
      intros p Hp. rewrite forallb_forall in Et. apply Et. now apply list_elem_of_In.
    + destruct (forallb (fun p : json * list pydict => is_number p.1) g) eqn:En;
        [|discriminate].
      intros [= <-]. right.
      assert (Hn : Forall (fun p : json * list pydict => is_number p.1 = true)
                     (sorted_by (fun g h => key_leb g.1 h.1) g)).
      { rewrite sorted_by_Permutation. apply Forall_forall. intros p Hp.
        rewrite forallb_forall in En. apply En. now apply list_elem_of_In. }
      assert (Hlen : length (sorted_by (fun g h : json * list pydict => key_leb g.1 h.1) g)
                     = length g) by now rewrite sorted_by_Permutation.
      destruct (sorted_by _ g) as [|[k l] rest].
      * destruct g; [discriminate El | discriminate Hlen].
      * exists k, l, rest. split; [reflexivity|]. inversion Hn as [|? ? Hk _]; subst.
        simpl in Hk. now destruct k.
Qed.

Section WriterRun.

Variable py_repr : json -> string.
Variable py_hash : string -> Z.
Variable ligature_oe : string.
Variable py_values : gmap string pydict -> list pydict.

Lemma write_node_files_returns (fs : file_system) (st : extractor)
    (files : list (string * list string * (extractor -> gmap string pydict)))
    (dir dir' : directory) :
  write_node_files py_values fs st files dir = (inr tt, dir') ->
  dir' = foldl (fun d p => <[p.1 := p.2]> d) dir
           (map (fun f : string * list string * (extractor -> gmap string pydict) =>
                   (f.1.1, map JStr f.1.2 :: map (csv_row f.1.2) (py_values (f.2 st))))
                files).
Proof.
  revert dir. induction files as [|f files IH]; intros dir H; simpl in H |- *; [congruence|].
  destruct (_write_csv fs f.1.1 f.1.2 (py_values (f.2 st)) dir) as [[e|n] d1] eqn:E;
    [discriminate|].
  apply _write_csv_returns in E as [_ ->]. now apply IH.
Qed.

Lemma write_node_files_obliging (fs : file_system) (st : extractor)
    (files : list (string * list string * (extractor -> gmap string pydict)))
    (dir : directory) :
  obliging fs ->
  write_node_files py_values fs st files dir
  = (inr tt,
     foldl (fun d p => <[p.1 := p.2]> d) dir
       (map (fun f : string * list string * (extractor -> gmap string pydict) =>
               (f.1.1, map JStr f.1.2 :: map (csv_row f.1.2) (py_values (f.2 st))))
            files)).
Proof.
  intros Hfs. revert dir. induction files as [|f files IH]; intros dir; simpl; [reflexivity|].
  now rewrite (_write_csv_obliging fs _ _ _ _ Hfs), IH.
Qed.

(** What [write_csvs] does when every edge has a text as type: no exception
    of its own, and when it returns the directory holds what the writes of
    the node files and of the edge files have put in it, in that order. *)
Lemma write_csvs_typed (fs : file_system) (st : extractor) (dir : directory) :
  typed (edges st) ->
  exists groups items (l : list (string * list pydict)),
    edges_by_type (edges st) = inr groups /\
    sorted_items groups = inr items /\ Permutation items groups /\
    items = map (fun p => (JStr p.1, p.2)) l /\
    grouped (edges st) groups /\
    let written :=
      foldl (fun d p => <[p.1 := p.2]> d) dir
        (map (fun f : string * list string * (extractor -> gmap string pydict) =>
                (f.1.1, map JStr f.1.2 :: map (csv_row f.1.2) (py_values (f.2 st))))
             node_files ++
         map (fun p : string * list pydict =>
                (edge_file_name p.1,
                 map JStr (edge_cols p.2) :: map (csv_row (edge_cols p.2)) p.2)) l) in
    (forall e, (write_csvs py_values fs st dir).1 <> inl (PyExn e)) /\
    (forall groups' dir', write_csvs py_values fs st dir = (inr groups', dir') ->
       groups' = groups /\ dir' = written) /\
    (obliging fs -> write_csvs py_values fs st dir = (inr groups, written)).
Proof.
  intros Ht. destruct (edges_by_type_grouped _ Ht) as (g & Eg & Hgr & Htext).
  destruct (sorted_items_text g Htext) as (items & Ei & Hperm).
  assert (Htext' : Forall (fun p : json * list pydict => is_str p.1 = true) items)
    by now rewrite Hperm.
  destruct (text_items items Htext') as [l El].
  exists g, items, l. do 5 (split; [assumption|]). cbv zeta. rewrite foldl_app.
  unfold write_csvs. split; [|split].
  - intros e. destruct (can_mkdir fs); [|discriminate].
    destruct (write_node_files py_values fs st node_files dir) as [[e'|[]] d1];
      [discriminate|].
    rewrite Eg, Ei, El.
    pose proof (write_edge_files_text_python fs l d1 e) as H.
    destruct (write_edge_files fs _ d1) as [[e'|[]] d2]; cbn [fst] in H |- *;
      [congruence|discriminate].
  - intros groups' dir'. destruct (can_mkdir fs); [|discriminate].
    destruct (write_node_files py_values fs st node_files dir) as [[e'|[]] d1] eqn:En;
      [discriminate|].
    apply write_node_files_returns in En. subst d1. rewrite Eg, Ei, El.
    destruct (write_edge_files fs _ _) as [[e'|[]] d2] eqn:Ew; [discriminate|].
    apply write_edge_files_text in Ew. subst d2. now intros [= <- <-].
  - intros Hfs. destruct Hfs as (Hm & Hrest). rewrite Hm.
    assert (Hfs : obliging fs) by (split; assumption).
    rewrite (write_node_files_obliging fs st node_files dir Hfs), Eg, Ei, El.
    now rewrite (write_edge_files_text_obliging fs l _ Hfs).
Qed.

(** X16.  In every state of a run, [write_csvs] raises no exception of its
    own: it raises only when a file operation fails (the output directory
    cannot be made, a file cannot be opened, a cell cannot be written), and
    when every file operation succeeds it returns.  When it returns it
    leaves in the directory: the fourteen node files, each with the header
    of the writer and one line for each value of its registry; and for every
    type that some edge has, the file edges_<type in lower case>.csv with
    exactly the edges of that type, in the order in which they were made.
    That type is one that the loader loads, from the file of that very name;
    the columns of the file include from_id and to_id, which the loader
    matches on, and are among the nine fields that an edge can have.  Every
    edge is in the group of its type and in no other, so the counts by type
    add up to the number of edges.  No two writes go to the same file, and
    every other file of the directory is left as it was. *)
Theorem write_csvs_files_every_edge (fs : file_system) (cs : list call)
    (nations_txt disciplines_txt : option (list string)) (dir : directory) :
  let st := after_calls py_repr py_hash ligature_oe cs (init nations_txt disciplines_txt) in
  let r := write_csvs py_values fs st dir in
  (forall e, r.1 <> inl (PyExn e)) /\
  (obliging fs -> exists groups, r.1 = inr groups) /\
  (forall groups, r.1 = inr groups ->
     grouped (edges st) groups /\
     (forall ty, edges_of_type ty (edges st) <> [] ->
        exists cfg cols,
          In (ty, cfg) edge_configs /\
          cols = edge_cols (edges_of_type ty (edges st)) /\
          r.2 !! edge_file_name ty
          = Some (map JStr cols :: map (csv_row cols) (edges_of_type ty (edges st))) /\
          incl [ "from_id"; "from_label"; "to_id"; "to_label"; "type" ] cols /\
          incl cols [ "certainty"; "from_id"; "from_label"; "link_type"; "rank"; "role";
                      "to_id"; "to_label"; "type" ]) /\
     (forall file cols registry, In (file, cols, registry) node_files ->
        r.2 !! file = Some (map JStr cols :: map (csv_row cols) (py_values (registry st)))) /\
     (forall name, ~ In name (map (fun f => f.1.1) node_files) ->
        (forall ty, edges_of_type ty (edges st) <> [] -> edge_file_name ty <> name) ->
        r.2 !! name = dir !! name)).
Proof.
  intros st r. subst r.
  pose proof (schema_edges _
      (schema_run py_repr py_hash ligature_oe cs nations_txt disciplines_txt))
    as Hknown. fold st in Hknown.
  destruct (write_csvs_typed fs st dir (typed_of_known _ Hknown))
    as (g & items & l & Eg & Ei & Hperm & El & Hgr & Hpy & Hret & Hobl).
  split; [exact Hpy|]. split; [intros Hfs; rewrite (Hobl Hfs); now exists g|].
  intros groups Er.
  destruct (write_csvs py_values fs st dir) as [res dir'] eqn:Ew. cbn [fst snd] in Er |- *.
  subst res. destruct (Hret groups dir' eq_refl) as [-> ->]. clear Hpy Hret Hobl Ew.
  set (node_writes :=
         map (fun f : string * list string * (extractor -> gmap string pydict) =>
                (f.1.1, map JStr f.1.2 :: map (csv_row f.1.2) (py_values (f.2 st))))
             node_files).
  set (edge_writes :=
         map (fun p : string * list pydict =>
                (edge_file_name p.1,
                 map JStr (edge_cols p.2) :: map (csv_row (edge_cols p.2)) p.2)) l).
  assert (Hl : forall ty es, In (ty, es) l <->
                 es = edges_of_type ty (edges st) /\ es <> []).
  { intros ty es. destruct Hgr as (_ & Hin & _). specialize (Hin (JStr ty) es).
    rewrite <- Hperm, El, in_map_iff in Hin. split.
    - intros H. destruct (proj1 Hin) as (ty' & [= <-] & Hes); [|exact Hes].
      now exists (ty, es).
    - intros H. destruct (proj2 Hin) as ([ty' es'] & [= -> ->] & Hp); [|exact Hp].
      exists ty. now split. }
  assert (Hnd_l : List.NoDup (map fst l)).
  { destruct Hgr as (Hnd & _). apply NoDup_ListNoDup in Hnd. rewrite <- Hperm, El in Hnd.
    rewrite map_map in Hnd. simpl in Hnd. rewrite <- (map_map fst JStr) in Hnd.
    apply NoDup_ListNoDup. now apply NoDup_fmap_1 in Hnd. }
  assert (Hcfg : forall ty, In ty (map fst l) -> In ty (map fst edge_configs)).
  { intros ty Hty. apply in_map_iff in Hty as ([ty' es] & <- & Hp).
    apply Hl in Hp as [-> Hne].
    destruct (known_type_present _ _ Hknown Hne) as [cfg Hc].
    now apply (in_map fst) in Hc. }
  assert (Hnd : List.NoDup (map fst (node_writes ++ edge_writes))).
  { rewrite map_app. apply NoDup_ListNoDup, NoDup_app.
    split; [|split].
    - unfold node_writes. rewrite map_map. simpl. apply NoDup_ListNoDup.
      apply node_file_names_NoDup.
    - intros name H1 H2. apply list_elem_of_In in H1, H2.
      unfold node_writes in H1. rewrite map_map in H1. simpl in H1.
      unfold edge_writes in H2. rewrite map_map in H2. simpl in H2.
      apply in_map_iff in H2 as (p & <- & _).
      now apply (edge_file_not_node_file p.1).
    - unfold edge_writes. rewrite map_map. simpl. rewrite <- (map_map fst edge_file_name).
      apply NoDup_ListNoDup, Finite.Injective_map_NoDup_in; [|exact Hnd_l].
      intros a b Ha Hb. apply edge_file_name_inj; now apply Hcfg. }
  destruct (foldl_insert_lookup (node_writes ++ edge_writes) dir Hnd) as [Hin Hout].
  split; [exact Hgr|split; [|split]].
  - intros ty Hne. destruct (known_type_present _ _ Hknown Hne) as [cfg Hc].
    destruct (known_cols _ _ Hknown Hne) as [Hfive Hnine].
    exists cfg, (edge_cols (edges_of_type ty (edges st))).
    split; [exact Hc|]. split; [reflexivity|]. split; [|split; assumption].
    apply Hin. apply in_or_app. right. unfold edge_writes. apply in_map_iff.
    exists (ty, edges_of_type ty (edges st)). split; [reflexivity|]. now apply Hl.
  - intros file cols registry Hf. apply Hin. apply in_or_app. left.
    unfold node_writes. apply in_map_iff. now exists (file, cols, registry).
  - intros name Hnode Hedge. apply Hout. rewrite map_app, in_app_iff. intros [H|H].
    + apply Hnode. unfold node_writes in H. now rewrite map_map in H.
    + unfold edge_writes in H. rewrite map_map in H. simpl in H.
      apply in_map_iff in H as ([ty es] & Hname & Hp). apply Hl in Hp as [-> Hne].
      now apply (Hedge ty Hne).
Qed.

(** X18.  In any state of the extractor: when [write_csvs] returns, every
    edge has a text as type and the fourteen node files are in the
    directory, each with one line for each value of its registry; when it
    raises an exception of its own (not one of a file operation), some edge
    has a type that is not a text, the fourteen node files are in the
    directory, and no edge file has been written: every file of the
    directory other than the node files is as it was.  When every file
    operation succeeds, no exception is one of a file operation, and the
    call returns exactly when every edge has a text as type. *)
Theorem write_csvs_raises_before_any_edge_file (fs : file_system) (st : extractor)
    (dir : directory) :
  let r := write_csvs py_values fs st dir in
  let node_files_written :=
    forall file cols registry, In (file, cols, registry) node_files ->
      r.2 !! file = Some (map JStr cols :: map (csv_row cols) (py_values (registry st))) in
  (forall groups, r.1 = inr groups -> typed (edges st) /\ node_files_written) /\
  (forall e, r.1 = inl (PyExn e) ->
     ~ typed (edges st) /\ node_files_written /\
     forall name, ~ In name (map (fun f => f.1.1) node_files) -> r.2 !! name = dir !! name) /\
  (obliging fs ->
     (forall e, r.1 <> inl (FileExn e)) /\
     ((exists groups, r.1 = inr groups) <-> typed (edges st))).
Proof.
  intros r node_files_written.
  assert (Hpy : forall e, r.1 = inl (PyExn e) -> ~ typed (edges st)).
  { intros e Er Ht.
    destruct (write_csvs_typed fs st dir Ht) as (? & ? & ? & _ & _ & _ & _ & _ & H & _).
    now apply (H e). }
  assert (Hmain :
    (forall groups, r.1 = inr groups -> typed (edges st) /\ node_files_written) /\
    (forall e, r.1 = inl (PyExn e) ->
       node_files_written /\
       forall name, ~ In name (map (fun f => f.1.1) node_files) -> r.2 !! name = dir !! name) /\
    (obliging fs -> forall e, r.1 <> inl (FileExn e))).
  { subst r node_files_written. unfold write_csvs.
    destruct (can_mkdir fs) eqn:Em; cycle 1.
    { cbn [fst snd]. split; [discriminate|]. split; [discriminate|].
      intros (Hm & _). congruence. }
    destruct (write_node_files py_values fs st node_files dir) as [[e'|[]] dir1] eqn:En.
    { cbn [fst snd]. split; [discriminate|]. split; [discriminate|].
      intros Hfs. rewrite (write_node_files_obliging fs st node_files dir Hfs) in En.
      discriminate En. }
    apply write_node_files_returns in En.
    set (node_writes :=
           map (fun f : string * list string * (extractor -> gmap string pydict) =>
                  (f.1.1, map JStr f.1.2 :: map (csv_row f.1.2) (py_values (f.2 st))))
               node_files) in En.
    assert (Hnames : map fst node_writes = map (fun f => f.1.1) node_files).
    { unfold node_writes. now rewrite map_map. }
    destruct (foldl_insert_lookup node_writes dir) as [Hin Hout];
      [rewrite Hnames; apply node_file_names_NoDup|]. rewrite <- En in Hin, Hout.
    assert (Hnode : forall file cols registry, In (file, cols, registry) node_files ->
              dir1 !! file
              = Some (map JStr cols :: map (csv_row cols) (py_values (registry st)))).
    { intros file cols registry Hf. apply Hin. unfold node_writes. apply in_map_iff.
      now exists (file, cols, registry). }
    assert (Hother : forall name, ~ In name (map (fun f => f.1.1) node_files) ->
              dir1 !! name = dir !! name).
    { intros name Hname. apply Hout. now rewrite Hnames. }
    assert (Hedge : forall items file cols registry, In (file, cols, registry) node_files ->
              (write_edge_files fs items dir1).2 !! file = dir1 !! file).
    { intros items file cols registry Hf. apply write_edge_files_other. intros ty E.
      apply (edge_file_not_node_file ty). rewrite E.
      apply in_map_iff. now exists (file, cols, registry). }
    clear En Hin Hout.
    destruct (edges_by_type (edges st)) as [err|g] eqn:Eg.
    { cbn [fst snd]. split; [discriminate|]. split; [|discriminate]. auto. }
    destruct (sorted_items g) as [err|items] eqn:Ei.
    { cbn [fst snd]. split; [discriminate|]. split; [|discriminate]. auto. }
    destruct (write_edge_files fs items dir1) as [[err|[]] dir2] eqn:Ew; cbn [fst snd].
    - split; [discriminate|]. split.
      + intros e [= ->].
        assert (dir2 = dir1); [|subst dir2; auto].
        destruct (sorted_items_head g items Ei) as [Ht|(k & l & rest & -> & Hk)].
        * destruct (text_items items Ht) as [l ->].
          pose proof (write_edge_files_text_python fs l dir1 e) as H.
          rewrite Ew in H. now contradiction H.
        * destruct k; try discriminate Hk; simpl in Ew; congruence.
      + intros Hfs e [= ->].
        pose proof (write_edge_files_no_file_error fs items dir1 e Hfs) as H.
        rewrite Ew in H. now contradiction H.
    - split; [|split; discriminate]. intros groups _. split.
      + apply (text_groups_typed _ g Eg).
        assert (Ht := write_edge_files_ok _ _ _ _ Ew).
        unfold sorted_items in Ei. destruct (length g <=? 1)%nat; [congruence|].
        destruct (forallb _ g || forallb _ g); [|discriminate].
        injection Ei as <-. now rewrite sorted_by_Permutation in Ht.
      + intros file cols registry Hf.
        replace dir2 with (write_edge_files fs items dir1).2 by now rewrite Ew.
        rewrite (Hedge items file cols registry Hf). now apply Hnode. }
  destruct Hmain as (Hret & Hexn & Hfile).
  split; [exact Hret|]. split.
  - intros e Er. split; [now apply (Hpy e)|now apply (Hexn e)].
  - intros Hfs. split; [now apply Hfile|]. split.
    + intros [groups Er]. now apply (Hret groups).
    + intros Ht.
      destruct (write_csvs_typed fs st dir Ht)
        as (g & ? & ? & _ & _ & _ & _ & _ & _ & _ & H).
      exists g. subst r. now rewrite (H Hfs).
Qed.

End WriterRun.

(** ** The export *)

Section ExportSpec.

Variable py_repr : json -> string.
Variable py_hash : string -> Z.
Variable ligature_oe : string.
Variable py_values : gmap string pydict -> list pydict.
Variable json_loads : string -> option json.

(** The lines that the loop processes. *)
Lemma read_lines_returns (lines : list string) (count count' : nat) (st st' : extractor) :
  read_lines py_repr py_hash ligature_oe json_loads lines count st = (inr count', st') ->
  exists recs,
    map json_loads (List.filter (fun l => negb (Str.is_empty l)) (map Str.strip lines))
    = map Some recs /\
    count' = count + length recs /\
    st' = after_calls py_repr py_hash ligature_oe (map Call_process_record recs) st.
Proof.
  revert count st. induction lines as [|line lines IH]; intros count st H; simpl in H.
  - injection H as <- <-. exists []. simpl. auto.
  - simpl. destruct (Str.is_empty (Str.strip line)); simpl; [now apply IH|].
    destruct (json_loads (Str.strip line)) as [rec|]; [|discriminate].
    destruct (process_record py_repr py_hash ligature_oe rec st) as [[e|[]] st1] eqn:E;
        [discriminate|].
    destruct (IH _ _ H) as (recs & E1 & E2 & E3). exists (rec :: recs). simpl.
    rewrite E1. split; [reflexivity|]. split; [lia|]. now rewrite E.
Qed.

(** X19.  [export_csvs] writes nothing before it has read every line, and
    its writer raises no exception of its own.  When it exports, the lines
    of the dataset that are not blank have all been parsed, the count of
    records is their number, and the files are those that [write_csvs]
    makes of the extractor that has processed them in order; the counts by
    type of edge that are printed add up to the number of edges.  When the
    dataset is missing, a line is not JSON or a record makes the extractor
    raise, the directory is left exactly as it was.  The one other outcome
    is that a file operation of the writer fails, after every line has been
    read and processed; the directory is then the one that [write_csvs]
    leaves, and this does not happen when every file operation succeeds. *)
Theorem export_csvs_writes_after_reading (fs : file_system)
    (jsonl nations_txt disciplines_txt : option (list string)) (dir : directory) :
  match export_csvs py_repr py_hash ligature_oe py_values json_loads fs jsonl nations_txt
          disciplines_txt dir
  with
  | (Exported s, dir') =>
      exists lines recs groups,
        jsonl = Some lines /\
        map json_loads (List.filter (fun l => negb (Str.is_empty l)) (map Str.strip lines))
        = map Some recs /\
        record_count s = length recs /\
        let st := after_calls py_repr py_hash ligature_oe (map Call_process_record recs)
                    (init nations_txt disciplines_txt) in
        write_csvs py_values fs st dir = (inr groups, dir') /\
        n_edges s = length (edges st) /\
        list_sum (map snd (edges_detail s)) = n_edges s
  | (Failed (FileError e), dir') =>
      exists lines recs,
        jsonl = Some lines /\
        map json_loads (List.filter (fun l => negb (Str.is_empty l)) (map Str.strip lines))
        = map Some recs /\
        let st := after_calls py_repr py_hash ligature_oe (map Call_process_record recs)
                    (init nations_txt disciplines_txt) in
        write_csvs py_values fs st dir = (inl (FileExn e), dir') /\
        ~ obliging fs
  | (Failed e, dir') =>
      dir' = dir /\
      exists lines,
        jsonl = Some lines /\
        (read_lines py_repr py_hash ligature_oe json_loads lines 0
            (init nations_txt disciplines_txt)).1
        = inl e
  | (NotFound, dir') => dir' = dir /\ jsonl = None
  end.
Proof.
  unfold export_csvs. destruct jsonl as [lines|]; [|now split].
  destruct (read_lines _ _ _ _ lines 0 _) as [[e|count] st] eqn:Er.
  { assert (H : dir = dir /\
                exists lines0, Some lines = Some lines0 /\
                  (read_lines py_repr py_hash ligature_oe json_loads lines0 0
                     (init nations_txt disciplines_txt)).1 = inl e).
    { split; [reflexivity|]. exists lines. now rewrite Er. }
    destruct e as [|e|e]; try exact H.
    exfalso. revert Er. clear. generalize 0 (init nations_txt disciplines_txt).
    induction lines as [|line lines IH]; intros n s; simpl; [discriminate|].
    destruct (Str.is_empty (Str.strip line)); [apply IH|].
    destruct (json_loads (Str.strip line)) as [rec|]; [|discriminate].
    destruct (process_record py_repr py_hash ligature_oe rec s) as [[e'|[]] s1];
      [discriminate|apply IH]. }
  destruct (read_lines_returns _ _ _ _ _ Er) as (recs & E1 & E2 & ->).
  assert (Ht : typed (edges (after_calls py_repr py_hash ligature_oe (map Call_process_record recs)
                               (init nations_txt disciplines_txt)))).
  { apply typed_of_known, (schema_edges _ (schema_run py_repr py_hash ligature_oe _ _ _)). }
  destruct (write_csvs_typed py_values fs _ dir Ht)
    as (g & items & l & Eg & Ei & Hperm & El & Hgr & Hpy & Hret & Hobl).
  destruct (write_csvs py_values fs _ dir) as [[[e|e]|groups] dir'] eqn:Ew.
  - now contradiction (Hpy e).
  - exists lines, recs. split; [reflexivity|]. split; [exact E1|]. cbv zeta.
    split; [exact Ew|]. intros Hfs. specialize (Hobl Hfs). congruence.
  - destruct (Hret groups dir' eq_refl) as [-> ->]. rewrite Ei.
    exists lines, recs, g. cbn [record_count n_edges edges_detail].
    split; [reflexivity|]. split; [exact E1|]. split; [exact E2|]. cbv zeta.
    split; [exact Ew|]. split; [reflexivity|].
    destruct Hgr as (_ & _ & Hsum). rewrite <- Hsum, map_map. cbn [snd].
    now rewrite Hperm.
Qed.

Lemma read_lines_total (lines : list string) (count : nat) (st : extractor) :
  persons_inv st ->
  Forall (fun l => exists rec, json_loads l = Some rec /\ wf_record rec = true)
         (List.filter (fun l => negb (Str.is_empty l)) (map Str.strip lines)) ->
  exists st',
    read_lines py_repr py_hash ligature_oe json_loads lines count st
    = (inr (count + length (List.filter (fun l => negb (Str.is_empty l))
                              (map Str.strip lines))), st').
Proof.
  revert count st. induction lines as [|line lines IH]; intros count st Hst H; simpl.
  - exists st. f_equal. f_equal. lia.
  - simpl in H. destruct (Str.is_empty (Str.strip line)); simpl in *; [now apply IH|].
    inversion H as [|? ? (rec & Er & Hwf) H']; subst. rewrite Er.
    destruct (total_process_record py_repr py_hash ligature_oe rec Hwf st Hst) as
        ([] & st1 & E & Hst1).
    rewrite E. destruct (IH (S count) st1 Hst1 H') as [st' E'].
    exists st'. rewrite E'. f_equal. f_equal. lia.
Qed.

(** X20.  When every line of the dataset that is not blank parses into a
    record of the expected shape and every file operation of the writer
    succeeds, [export_csvs] exports: no record makes the extractor raise,
    the writer does not raise, and the count of records is the number of
    lines that are not blank. *)
Theorem export_csvs_well_shaped_input (fs : file_system) (lines : list string)
    (nations_txt disciplines_txt : option (list string)) (dir : directory) :
  Forall (fun l => exists rec, json_loads l = Some rec /\ wf_record rec = true)
         (List.filter (fun l => negb (Str.is_empty l)) (map Str.strip lines)) ->
  obliging fs ->
  exists s dir',
    export_csvs py_repr py_hash ligature_oe py_values json_loads fs (Some lines) nations_txt
      disciplines_txt dir
    = (Exported s, dir') /\
    record_count s
    = length (List.filter (fun l => negb (Str.is_empty l)) (map Str.strip lines)).
Proof.
  intros H Hfs. unfold export_csvs.
  destruct (read_lines_total lines 0 (init nations_txt disciplines_txt)
              (inv_persons _ (inv_init nations_txt disciplines_txt)) H) as [st Er].
  rewrite Er. destruct (read_lines_returns _ _ _ _ _ Er) as (recs & _ & _ & ->).
  assert (Ht : typed (edges (after_calls py_repr py_hash ligature_oe (map Call_process_record recs)
                               (init nations_txt disciplines_txt)))).
  { apply typed_of_known, (schema_edges _ (schema_run py_repr py_hash ligature_oe _ _ _)). }
  destruct (write_csvs_typed py_values fs _ dir Ht)
    as (g & items & l & _ & Ei & _ & _ & _ & _ & _ & Hobl).
  rewrite (Hobl Hfs), Ei. eexists _, _. split; reflexivity.
Qed.

End ExportSpec.

(** Two records on three lines, one of them blank, and a file system where
    every operation succeeds. *)
Lemma export_csvs_well_shaped_input_witness :
  let json_loads := fun l => if String.eqb l "A" then Some sample_record
                             else if String.eqb l "B" then Some record_before_1350
                             else None in
  let lines := [ " A "; "  "; "B" ] in
  let fs := {| can_mkdir := true; can_open := fun _ => true; can_write := fun _ => true |} in
  Forall (fun l => exists rec, json_loads l = Some rec /\ wf_record rec = true)
         (List.filter (fun l => negb (Str.is_empty l)) (map Str.strip lines)) /\
  obliging fs /\
  exists s dir',
    export_csvs sample_repr sample_hash sample_ligature (fun m => map snd (map_to_list m))
        json_loads fs
      (Some lines) None None ∅
    = (Exported s, dir') /\
    record_count s = 2.
Proof.
  cbv zeta.
  assert (H : Forall (fun l => exists rec,
                        (if String.eqb l "A" then Some sample_record
                         else if String.eqb l "B" then Some record_before_1350
                         else None) = Some rec /\ wf_record rec = true)
                (List.filter (fun l => negb (Str.is_empty l))
                   (map Str.strip [ " A "; "  "; "B" ]))).
  { repeat constructor; eexists; split; reflexivity. }
  assert (Hfs : obliging {| can_mkdir := true; can_open := fun _ => true;
                            can_write := fun _ => true |}).
  { repeat split. }
  split; [exact H|]. split; [exact Hfs|].
  exact (export_csvs_well_shaped_input sample_repr sample_hash sample_ligature
           (fun m => map snd (map_to_list m)) _ _ [ " A "; "  "; "B" ] None None ∅ H Hfs).
Defined.
